(** * VoiceClone-Studio: training orchestration and reference scoring

    A shallow embedding of the Python sources

      - [audio_generator_sovits.py]  (class [AudioGeneratorSoVITS])
      - [gpt_sovits_trainer.py]      (class [GPTSoVITSTrainer])
      - [app.py]                     (the two HTTP handlers that drive them)

    Conventions of the embedding.

    - Python [str] values are Rocq strings holding the UTF-8 bytes of the
      text; [len], [strip] and [split()] work on the decoded code points
      (module [PyStr]).
    - Python floats are the rationals they denote ([Q]); the only rounding
      operations the code performs (a product, a quotient) go through
      [PyFloat.fl], round-to-nearest-even on a 53-bit significand.
    - The file system is a finite map from path to node; every [os] and
      [shutil] call the code makes is an operation on that map.
    - Code that can raise lives in the monad [M]: a world is threaded
      through and a result is either a value or a Python exception.
    - External collaborators (subprocesses, ASR, pandas, yaml/json, torch,
      librosa, the inference HTTP service) are the fields of [Externals].
    - [print] calls are dropped, except the row-count diagnostics of the
      two consistency checks, which are kept in the world's [console]. *)

From Stdlib Require Import ZArith QArith Qround Qabs Lqa String Ascii List Lia.
From Stdlib Require Import Sorted Permutation.
From stdpp Require Import gmap strings list fin_maps pretty.

Close Scope Q_scope.
Open Scope string_scope.
Open Scope list_scope.
Open Scope nat_scope.

(* ===================================================================== *)
(** ** Python strings *)
(* ===================================================================== *)

Module PyStr.

Definition bytes (s : string) : list N :=
  map N_of_ascii (list_ascii_of_string s).

(** UTF-8 decoding, byte by byte: [need] continuation bytes are still
    expected for the code point accumulated in [acc]. *)
Fixpoint decode_go (need : nat) (acc : N) (bs : list N) : list N :=
  match bs with
  | [] => []
  | b :: bs' =>
      match need with
      | S k =>
          let acc' := (acc * 64 + N.land b 63)%N in
          match k with
          | O => acc' :: decode_go 0 0%N bs'
          | _ => decode_go k acc' bs'
          end
      | O =>
          if (b <? 128)%N then b :: decode_go 0 0%N bs'
          else if (b <? 224)%N then decode_go 1 (N.land b 31) bs'
          else if (b <? 240)%N then decode_go 2 (N.land b 15) bs'
          else decode_go 3 (N.land b 7) bs'
      end
  end.

Definition codepoints (s : string) : list N := decode_go 0 0%N (bytes s).

(** [len(s)] *)
Definition len (s : string) : nat := length (codepoints s).

(** [str.isspace] on one code point (the set [str.split()] and
    [str.strip()] use). *)
Definition isspace (c : N) : bool :=
  ((9 <=? c) && (c <=? 13) || (28 <=? c) && (c <=? 32)
   || (c =? 133) || (c =? 160) || (c =? 5760)
   || (8192 <=? c) && (c <=? 8202)
   || (c =? 8232) || (c =? 8233) || (c =? 8239) || (c =? 8287)
   || (c =? 12288))%N.

Fixpoint dropwhile {A} (p : A -> bool) (l : list A) : list A :=
  match l with
  | [] => []
  | x :: l' => if p x then dropwhile p l' else l
  end.

(** [s.strip()], on code points *)
Definition strip_cp (l : list N) : list N :=
  rev (dropwhile isspace (rev (dropwhile isspace l))).

(** [len(s.strip())] *)
Definition len_strip (s : string) : nat := length (strip_cp (codepoints s)).

(** [len(s.split())]: the number of maximal runs of non-space code points;
    [inword] tells whether the previous code point was inside a word. *)
Fixpoint count_words (inword : bool) (l : list N) : nat :=
  match l with
  | [] => 0
  | c :: l' =>
      if isspace c then count_words false l'
      else if inword then count_words true l'
      else S (count_words true l')
  end.

Definition split_ws_count (s : string) : nat :=
  count_words false (codepoints s).

(** [s.split(sep)] for a one-byte separator: never empty. *)
Fixpoint split_on (sep : ascii) (s : string) : list string :=
  match s with
  | EmptyString => [EmptyString]
  | String c s' =>
      if Ascii.eqb c sep then EmptyString :: split_on sep s'
      else match split_on sep s' with
           | [] => [String c EmptyString]
           | w :: ws => String c w :: ws
           end
  end.

(** [s.startswith(p)] *)
Definition startswith (p s : string) : bool := String.prefix p s.

Definition srev (s : string) : string :=
  string_of_list_ascii (rev (list_ascii_of_string s)).

(** [s.endswith(p)] *)
Definition endswith (p s : string) : bool := String.prefix (srev p) (srev s).

(** [p in s] *)
Fixpoint contains (p s : string) : bool :=
  String.prefix p s ||
  match s with
  | EmptyString => false
  | String _ s' => contains p s'
  end.

(** [f.readline()] on the whole text: up to and including the first
    newline.  The text is taken with its line ends as stored: the
    translation of a carriage return into a newline that text mode applies
    on reading is not modelled. *)
Fixpoint readline (s : string) : string :=
  match s with
  | EmptyString => EmptyString
  | String c s' =>
      if Ascii.eqb c "010"%char then String c EmptyString
      else String c (readline s')
  end.

Fixpoint lstrip_char (c : ascii) (s : string) : string :=
  match s with
  | EmptyString => EmptyString
  | String a s' => if Ascii.eqb a c then lstrip_char c s' else s
  end.

(** [s.strip(c)] for a one-byte [c] *)
Definition strip_char (c : ascii) (s : string) : string :=
  srev (lstrip_char c (srev (lstrip_char c s))).

(** [s.strip()]: on valid UTF-8 every multi-byte white-space code point
    is removed as a unit; the result is re-read from the byte string by
    dropping as many bytes as the stripped code points occupy. *)
Definition cp_width (c : N) : nat :=
  if (c <? 128)%N then 1 else if (c <? 2048)%N then 2
  else if (c <? 65536)%N then 3 else 4.

Definition lead_ws_bytes (l : list N) : nat :=
  let dropped := length l - length (dropwhile isspace l) in
  fold_right (fun c n => cp_width c + n) 0 (firstn dropped l).

Definition strip (s : string) : string :=
  let cps := codepoints s in
  let lead := lead_ws_bytes cps in
  let trail := lead_ws_bytes (rev (dropwhile isspace cps)) in
  String.substring lead (String.length s - lead - trail) s.

(** [s.lower()], on the ASCII letters (language codes are ASCII) *)
Definition lower_ascii (a : ascii) : ascii :=
  let n := N_of_ascii a in
  if ((65 <=? n) && (n <=? 90))%N then ascii_of_N (n + 32) else a.

Fixpoint lower (s : string) : string :=
  match s with
  | EmptyString => EmptyString
  | String a s' => String (lower_ascii a) (lower s')
  end.

(** [sep.join(l)] *)
Fixpoint join (sep : string) (l : list string) : string :=
  match l with
  | [] => ""
  | [x] => x
  | x :: l' => x +:+ sep +:+ join sep l'
  end.

(** [f"{i:04d}"] for an index [i >= 0] *)
Definition fmt_04d (i : nat) : string :=
  let d := pretty i in
  string_of_list_ascii (repeat "0"%char (4 - String.length d)) +:+ d.

Definition NL : string := String "010"%char EmptyString.

End PyStr.

(* ===================================================================== *)
(** ** Python floats *)
(* ===================================================================== *)

Module PyFloat.

Definition round_half_even (q : Q) : Z :=
  let f := Qfloor q in
  match Qcompare (q - inject_Z f) (1 # 2) with
  | Lt => f
  | Gt => (f + 1)%Z
  | Eq => if Z.even f then f else (f + 1)%Z
  end.

(** Round a rational to the nearest double (ties to even), for values in
    the normal range. *)
Definition fl (q : Q) : Q :=
  if Qeq_bool q 0 then 0%Q else
  let a := Qabs q in
  let e := (Z.log2 (Qnum a) - Z.log2 (Zpos (Qden a)))%Z in
  let e' := if Qle_bool (Qpower 2 e) a then e else (e - 1)%Z in
  let sh := (e' - 52)%Z in
  let m := round_half_even (a / Qpower 2 sh) in
  let r := Qred (inject_Z m * Qpower 2 sh) in
  if Qle_bool 0 q then r else Qred (- r).

(** [float(n)] *)
Definition of_Z (n : Z) : Q := fl (inject_Z n).
(** [a * b] *)
Definition mul (a b : Q) : Q := fl (a * b).
(** [a / b], [b] non-zero *)
Definition div (a b : Q) : Q := fl (a / b).
(** the literals [0.3], [0.2], [0.67] *)
Definition c0_3 : Q := fl (3 # 10).
Definition c0_2 : Q := fl (2 # 10).
Definition c0_67 : Q := fl (67 # 100).

(** [int(x)]: truncation toward zero *)
Definition to_int (x : Q) : Z :=
  if Qle_bool 0 x then Qfloor x else Qceiling x.

(** [min(a, b)] and [max(a, b)] as the builtins compute them: the first
    argument is kept unless the second is strictly better. *)
Definition py_min (a b : Q) : Q := if Qlt_le_dec b a then b else a.
Definition py_max (a b : Q) : Q := if Qlt_le_dec a b then b else a.

(** [f"{x:.1f}"]: the exact value rounded half-even to one decimal. *)
Definition fmt_1f (x : Q) : string :=
  let t := round_half_even (Qabs x * 10) in
  let body := pretty (t / 10)%Z +:+ "." +:+ pretty (t mod 10)%Z in
  if Qle_bool 0 x then body else "-" +:+ body.

(** [f"{x:.0f}"] *)
Definition fmt_0f (x : Q) : string :=
  let t := round_half_even (Qabs x) in
  if Qle_bool 0 x then pretty t else "-" +:+ pretty t.

End PyFloat.

(* ===================================================================== *)
(** ** Exceptions and the state-and-exception monad *)
(* ===================================================================== *)

(** The Python exception classes the code raises or can receive from the
    operating system.  All of them are subclasses of [Exception]. *)
Inductive exn : Type :=
| Exception (msg : string)
| ValueError (msg : string)
| FileNotFoundError (path : string)
| FileExistsError (path : string)
| NotADirectoryError (path : string)
| IsADirectoryError (path : string)
| SameFileError (path : string)
| ZeroDivisionError
| LibraryError (msg : string)          (* raised inside a collaborator *)
| HTTPException (status : Z) (detail : string).

(** [str(e)] *)
Definition str_exn (e : exn) : string :=
  match e with
  | Exception m | ValueError m | LibraryError m => m
  | FileNotFoundError p => "[Errno 2] No such file or directory: '" +:+ p +:+ "'"
  | FileExistsError p => "[Errno 17] File exists: '" +:+ p +:+ "'"
  | NotADirectoryError p => "[Errno 20] Not a directory: '" +:+ p +:+ "'"
  | IsADirectoryError p => "[Errno 21] Is a directory: '" +:+ p +:+ "'"
  | SameFileError p => "'" +:+ p +:+ "' and '" +:+ p +:+ "' are the same file"
  | ZeroDivisionError => "division by zero"
  | HTTPException c d => pretty c +:+ ": " +:+ d
  end.

Inductive Res (A : Type) : Type :=
| Ok (a : A)
| Raise (e : exn).
Arguments Ok {A} a.
Arguments Raise {A} e.

Definition M (S A : Type) : Type := S -> S * Res A.

Definition ret {S A} (a : A) : M S A := fun s => (s, Ok a).

Definition bind {S A B} (m : M S A) (k : A -> M S B) : M S B :=
  fun s => match m s with
           | (s', Ok a) => k a s'
           | (s', Raise e) => (s', Raise e)
           end.

Definition raise {S A} (e : exn) : M S A := fun s => (s, Raise e).

(** [try: m  except Exception as e: h e] *)
Definition try_except {S A} (m : M S A) (h : exn -> M S A) : M S A :=
  fun s => match m s with
           | (s', Ok a) => (s', Ok a)
           | (s', Raise e) => h e s'
           end.

Definition gets {S A} (f : S -> A) : M S A := fun s => (s, Ok (f s)).
Definition modify {S} (f : S -> S) : M S unit := fun s => (f s, Ok tt).

Notation "x <- c1 ;; c2" := (bind c1 (fun x => c2))
  (at level 100, c1 at next level, right associativity).
Notation "c1 ;;; c2" := (bind c1 (fun _ => c2))
  (at level 100, right associativity).

(** [for x in l: body x], stopping at the first exception *)
Fixpoint for_each {S A} (l : list A) (body : A -> M S unit) : M S unit :=
  match l with
  | [] => ret tt
  | x :: l' => body x ;;; for_each l' body
  end.

(** [l.sort(key=key, reverse=True)]: the stable descending sort.  An
    element moves past those with a strictly greater key only, so equal
    keys keep their original order. *)
Section PySort.
Context {A K : Type} (key : A -> K) (ltb : K -> K -> bool).

Fixpoint insert_desc (x : A) (l : list A) : list A :=
  match l with
  | [] => [x]
  | y :: l' => if ltb (key x) (key y) then y :: insert_desc x l'
               else x :: l
  end.

Definition sort_reverse (l : list A) : list A :=
  fold_right insert_desc [] l.
End PySort.

(* ===================================================================== *)
(** ** The file system *)
(* ===================================================================== *)

Module OsPath.
Import PyStr.

(** [os.path.join(a, b)] *)
Definition join (a b : string) : string :=
  if startswith "/" b then b
  else if String.eqb a "" || endswith "/" a then a +:+ b
  else a +:+ "/" +:+ b.

(** [os.path.basename(p)] *)
Definition basename (p : string) : string :=
  List.last (split_on "/"%char p) "".

(** [os.path.dirname(p)] *)
Definition dirname (p : string) : string :=
  let head := String.substring 0 (String.length p - String.length (basename p)) p in
  if String.eqb (lstrip_char "/"%char head) "" then head
  else srev (lstrip_char "/"%char (srev head)).

(** [os.path.splitext(p)[1]] *)
Definition splitext_ext (p : string) : string :=
  let parts := split_on "."%char (basename p) in
  match rev parts with
  | ext :: (_ :: _) as before =>
      if forallb (fun s => String.eqb s "") before then ""
      else "." +:+ ext
  | _ => ""
  end.
End OsPath.

Inductive node : Type :=
| File (content : string) (mtime : nat)
| Dir (mtime : nat).

Definition node_mtime (n : node) : nat :=
  match n with File _ t | Dir t => t end.

Definition is_dir (o : option node) : bool :=
  match o with Some (Dir _) => true | _ => false end.

Abbreviation FS := (gmap string node).

(** [p] is [d] itself or lies beneath it. *)
Definition under (d p : string) : bool :=
  String.eqb p d || String.prefix (d +:+ "/") p.

(** The name of [k] as a direct entry of directory [d], if it is one. *)
Definition entry_name (d k : string) : option string :=
  if String.prefix (d +:+ "/") k then
    let r := String.substring (String.length d + 1)
               (String.length k - (String.length d + 1)) k in
    if String.eqb r "" || PyStr.contains "/" r then None else Some r
  else None.

(** The proper ancestors of a path, shortest first. *)
Fixpoint ancestors_go (acc : string) (comps : list string) : list string :=
  match comps with
  | [] | [_] => []
  | c :: rest =>
      let acc' := acc +:+ c in
      (if String.eqb acc' "" then [] else [acc']) ++ ancestors_go (acc' +:+ "/") rest
  end.

Definition ancestors (p : string) : list string :=
  ancestors_go "" (PyStr.split_on "/"%char p).

Record World : Type := mkWorld {
  fs : FS;
  clock : nat;                     (* ticks of [datetime.now()], mtimes *)
  procs : list (list string);      (* command lines launched so far *)
  console : list string            (* retained diagnostic output *)
}.

Definition set_fs (f : FS -> FS) (w : World) : World :=
  mkWorld (f (fs w)) (clock w) (procs w) (console w).

Module Os.

Definition exists_ (p : string) : M World bool :=
  gets (fun w => bool_decide (is_Some (fs w !! p))).

(** [datetime.now()] / the time stamp of a write *)
Definition now : M World nat :=
  fun w => (mkWorld (fs w) (S (clock w)) (procs w) (console w), Ok (clock w)).

Definition print (line : string) : M World unit :=
  modify (fun w => mkWorld (fs w) (clock w) (procs w) (console w ++ [line])).

(** One [mkdir] step of [os.makedirs(p, exist_ok=True)]. *)
Definition mkdir_step (target : string) (a : string) : M World unit :=
  n <- gets (fun w => fs w !! a) ;;
  match n with
  | Some (Dir _) => ret tt
  | Some (File _ _) =>
      if String.eqb a target then raise (FileExistsError target)
      else raise (NotADirectoryError target)
  | None => t <- now ;; modify (set_fs (insert a (Dir t)))
  end.

(** [os.makedirs(p, exist_ok=True)] *)
Definition makedirs (p : string) : M World unit :=
  for_each (ancestors p ++ [p]) (mkdir_step p).

(** [open(p, "w").write(content)] *)
Definition write_file (p content : string) : M World unit :=
  n <- gets (fun w => fs w !! p) ;;
  par <- gets (fun w => fs w !! OsPath.dirname p) ;;
  match n with
  | Some (Dir _) => raise (IsADirectoryError p)
  | _ =>
      if String.eqb (OsPath.dirname p) "" || is_dir par then
        t <- now ;; modify (set_fs (insert p (File content t)))
      else match par with
           | Some _ => raise (NotADirectoryError p)
           | None => raise (FileNotFoundError p)
           end
  end.

(** [open(p, "r").read()] *)
Definition read_file (p : string) : M World string :=
  n <- gets (fun w => fs w !! p) ;;
  match n with
  | Some (File c _) => ret c
  | Some (Dir _) => raise (IsADirectoryError p)
  | None => raise (FileNotFoundError p)
  end.

(** [shutil.copy2(src, dst)] when [keep_mtime], [shutil.copy] otherwise *)
Definition copy (keep_mtime : bool) (src dst : string) : M World unit :=
  d <- gets (fun w => fs w !! dst) ;;
  let dst' := if is_dir d then OsPath.join dst (OsPath.basename src) else dst in
  s <- gets (fun w => fs w !! src) ;;
  match s with
  | None => raise (FileNotFoundError src)
  | Some (Dir _) => raise (IsADirectoryError src)
  | Some (File c t) =>
      if String.eqb src dst' then raise (SameFileError src)
      else
        write_file dst' c ;;;
        if keep_mtime then modify (set_fs (insert dst' (File c t))) else ret tt
  end.

(** [os.listdir(d)] *)
Definition listdir (d : string) : M World (list string) :=
  n <- gets (fun w => fs w !! d) ;;
  match n with
  | Some (Dir _) =>
      gets (fun w => omap (fun kv => entry_name d (fst kv)) (map_to_list (fs w)))
  | Some (File _ _) => raise (NotADirectoryError d)
  | None => raise (FileNotFoundError d)
  end.

(** [shutil.rmtree(d)] *)
Definition rmtree (d : string) : M World unit :=
  n <- gets (fun w => fs w !! d) ;;
  match n with
  | Some (Dir _) =>
      modify (set_fs (filter (fun kv => under d (fst kv) = false)))
  | Some (File _ _) => raise (NotADirectoryError d)
  | None => raise (FileNotFoundError d)
  end.

(** [os.remove(p)] *)
Definition remove (p : string) : M World unit :=
  n <- gets (fun w => fs w !! p) ;;
  match n with
  | Some (File _ _) => modify (set_fs (delete p))
  | Some (Dir _) => raise (IsADirectoryError p)
  | None => raise (FileNotFoundError p)
  end.

(** [os.path.getsize(p)]; a directory never has size 0 *)
Definition getsize (p : string) : M World nat :=
  n <- gets (fun w => fs w !! p) ;;
  match n with
  | Some (File c _) => ret (String.length c)
  | Some (Dir _) => ret 4096
  | None => raise (FileNotFoundError p)
  end.

(** [os.path.getmtime(p)], 0 for a path that is gone *)
Definition mtime_of (w : World) (p : string) : nat :=
  match fs w !! p with Some n => node_mtime n | None => 0 end.

End Os.

(* ===================================================================== *)
(** ** Data model *)
(* ===================================================================== *)

(** One entry of a speaker's ["audio_files"] list. *)
Record AudioSample : Type := mkAudioSample {
  path : string;
  original_path : string;
  duration : Q;
  sample_rate : Z;
  uploaded_at : nat;
  text : option string
}.

(** A JSON document, as handed to [json.dump]. *)
#[warnings="-register-all"]
Inductive json : Type :=
| JNull
| JBool (b : bool)
| JInt (n : Z)
| JFloat (x : Q)
| JStr (s : string)
| JList (l : list json)
| JObj (fields : list (string * json)).

(** [speaker_info["model_info"]]: the dictionary
    [_train_with_sovits_complete] returns. *)
Record ModelInfo : Type := mkModelInfo {
  mi_model_path : string;
  gpt_model : option string;
  sovits_model : option string;
  method : string;
  quality : string
}.

(** One value of [self.speakers_data]. *)
Record SpeakerInfo : Type := mkSpeakerInfo {
  audio_files : list AudioSample;
  created_at : nat;
  trained : bool;
  model_path : option string;
  model_info : option ModelInfo;
  trained_at : option nat;
  training_epochs : option Z
}.

(** One value of [self.training_status]; an absent key reads as
    [{"status": "not_started"}]. *)
Inductive TrainingJob : Type :=
| NotStarted
| Training (progress : Z) (start_time : nat) (total_epochs : Z)
| Completed (progress : Z) (end_time : nat) (result : ModelInfo)
| Failed (error : string) (end_time : nat).

Definition status (j : TrainingJob) : string :=
  match j with
  | NotStarted => "not_started"
  | Training _ _ _ => "training"
  | Completed _ _ _ => "completed"
  | Failed _ _ => "failed"
  end.

(** The collaborators the code calls but does not implement. *)
Record Externals : Type := mkExternals {
  (** [subprocess.run] / [subprocess.Popen] followed by [wait]: command
      line, environment overrides, working directory; gives the file system
      the process leaves behind, its return code, stdout and stderr. *)
  run_process : list string -> list (string * string) -> option string ->
                FS -> FS * (Z * string * string);
  (** [tools.asr.fasterwhisper_asr.execute_asr] (import included) *)
  execute_asr : string -> string -> string -> FS -> FS * (exn + string);
  (** [pandas.read_csv(..., delimiter="\t", header=None)] on a file's text:
      the rows, or [None] when it raises *)
  pd_read_csv : string -> option (list (list string));
  (** [yaml.safe_load], the assignments, [yaml.dump] *)
  yaml_edit : string -> list (string * string) -> exn + string;
  (** [json.load], the assignments, [json.dump] *)
  json_edit : string -> list (string * string) -> exn + string;
  (** [torch.load] of a checkpoint, [json.load] of the configuration,
      filtering and packaging: the epoch tag, and the bytes found in the
      file [torch.save] had opened when its pickling failed *)
  torch_convert : string -> string -> option (string * string);
  (** [os.environ.get('PYTHONPATH')] *)
  environ_pythonpath : option string;
  (** [librosa.load(path, sr=None)] on a file's bytes: number of samples
      and sampling rate *)
  librosa_load : string -> exn + (Z * Z);
  (** [librosa.resample] then [sf.write]: the resampled length and the
      bytes written *)
  resample_32k : string -> Z * string;
  (** [json.dumps(obj, ensure_ascii=False, indent=2)] *)
  json_dumps : json -> string;
  (** [sf.write(path, np.zeros(n), sr)]: the bytes of [n] silent samples *)
  sf_silence : Z -> Z -> string;
  (** [uuid.uuid4().hex[:8]], drawn from the clock *)
  uuid_hex8 : nat -> string;
  (** [os.path.abspath] *)
  abspath : string -> string;
  (** the inference service: the [/tts] call with its payload, giving the
      audio bytes on HTTP 200 *)
  api_tts : list (string * string) -> list string -> option string;
  (** the two weight-switching calls of the inference service *)
  api_set_weights : string -> string -> bool
}.

(* ===================================================================== *)
(** ** gpt_sovits_trainer.py *)
(* ===================================================================== *)

Record GPTSoVITSTrainer : Type := mkTrainer {
  base_dir : string;
  sovits_path : string;
  python_exec : string
}.

(** The dictionary [train_speaker_complete] returns. *)
Record TrainResult : Type := mkTrainResult {
  r_speaker_name : string;
  r_status : string;
  r_start_time : nat;
  r_gpt_model : option string;
  r_sovits_model : option string;
  r_exp_dir : option string;
  r_error : option string;
  r_end_time : option nat
}.

Section Trainer.
Context (X : Externals) (self : GPTSoVITSTrainer).
Import PyStr.

Definition exp_root : string := OsPath.join (base_dir self) "training_experiments".

Definition pretrained_models (k : string) : string :=
  OsPath.join (sovits_path self)
    (if String.eqb k "bert" then "GPT_SoVITS/pretrained_models/chinese-roberta-wwm-ext-large"
     else if String.eqb k "ssl" then "GPT_SoVITS/pretrained_models/chinese-hubert-base"
     else if String.eqb k "s1_v2" then "GPT_SoVITS/pretrained_models/gsv-v2final-pretrained/s1bert25hz-5kh-longer-epoch=12-step=369668.ckpt"
     else if String.eqb k "s2G_v2" then "GPT_SoVITS/pretrained_models/gsv-v2final-pretrained/s2G2333k.pth"
     else if String.eqb k "s2D_v2" then "GPT_SoVITS/pretrained_models/gsv-v2final-pretrained/s2D2333k.pth"
     else "GPT_SoVITS/configs/s2.json").

(** [self.sovits_path + (f":{env.get('PYTHONPATH', '')}" if env.get('PYTHONPATH') else "")] *)
Definition pythonpath : string :=
  sovits_path self +:+
  match environ_pythonpath X with
  | Some p => if String.eqb p "" then "" else ":" +:+ p
  | None => ""
  end.

(** Launch a subprocess and wait for it. *)
Definition subprocess (cmd : list string) (env : list (string * string))
    (cwd : option string) : M World (Z * string * string) :=
  cwd_ok <- match cwd with
            | Some d => gets (fun w => is_dir (fs w !! d))
            | None => ret true
            end ;;
  if negb cwd_ok then raise (FileNotFoundError (default "" cwd))
  else fun w =>
    let '(fs', out) := run_process X cmd env cwd (fs w) in
    (mkWorld fs' (clock w) (procs w ++ [cmd]) (console w), Ok out).

(** *** prepare_training_data *)

(** The copy loop (lines 94-107): [i] is the [enumerate] index. *)
Fixpoint copy_audio_files (speaker_name input_wav_dir : string) (i : nat)
    (audio_files : list AudioSample) : M World (list string) :=
  match audio_files with
  | [] => ret []
  | audio_info :: rest =>
      let src_path := path audio_info in
      ex <- Os.exists_ src_path ;;
      if negb ex then copy_audio_files speaker_name input_wav_dir (S i) rest
      else
        let ext := OsPath.splitext_ext src_path in
        let dst_filename := speaker_name +:+ "_" +:+ fmt_04d i +:+ ext in
        let dst_path := OsPath.join input_wav_dir dst_filename in
        Os.copy true src_path dst_path ;;;
        copied <- copy_audio_files speaker_name input_wav_dir (S i) rest ;;
        ret (dst_filename :: copied)
  end.

(** One line of the transcript manifest: [path|speaker|ZH|text]. *)
Definition transcript_line (input_wav_dir dst_filename speaker_name txt : string) : string :=
  input_wav_dir +:+ "/" +:+ dst_filename +:+ "|" +:+ speaker_name +:+ "|ZH|" +:+ txt +:+ NL.

(** Lines 113-120: an existing transcript is kept when its first line is
    not the placeholder and is longer than 50 characters. *)
Definition transcript_reusable (content : string) : bool :=
  let first_line := readline content in
  negb (contains "这是一段训练语音" first_line) && (50 <? len_strip first_line).

(** Lines 132-181: transcription by the ASR collaborator, with the
    placeholder fallback. *)
Definition transcribe_with_asr (speaker_name exp_dir input_wav_dir text_file : string)
    (copied_files : list string) : M World unit :=
  asr_success <-
    try_except
      (let local := OsPath.join (OsPath.join (OsPath.join (OsPath.join (sovits_path self)
                      "tools") "asr") "models") "faster-whisper-large-v3" in
       ex <- Os.exists_ local ;;
       let model_path := if ex then local else "large-v3" in
       r <- (fun w => let '(fs', r) := execute_asr X input_wav_dir exp_dir model_path (fs w) in
                      (set_fs (fun _ => fs') w, Ok r)) ;;
       match r with
       | inl e => raise e
       | inr asr_output =>
           ex' <- Os.exists_ asr_output ;;
           if ex' then Os.copy false asr_output text_file ;;; ret true
           else ret false
       end)
      (fun _ => ret false) ;;
  if negb asr_success then
    Os.write_file text_file
      (String.concat ""
         (map (fun dst_filename =>
                 transcript_line input_wav_dir dst_filename speaker_name "这是一段训练语音。")
              copied_files))
  else ret tt.

Definition prepare_training_data (speaker_name : string)
    (audio_files : list AudioSample)
    (audio_text_map : option (gmap string string)) : M World string :=
  let exp_dir := OsPath.join exp_root speaker_name in
  Os.makedirs exp_dir ;;;
  let input_wav_dir := OsPath.join exp_dir "input_wavs" in
  Os.makedirs input_wav_dir ;;;
  copied_files <- copy_audio_files speaker_name input_wav_dir 0 audio_files ;;
  let text_file := OsPath.join exp_dir "input_text.txt" in
  ex <- Os.exists_ text_file ;;
  reuse <- (if ex then c <- Os.read_file text_file ;; ret (transcript_reusable c)
            else ret false) ;;
  if reuse then ret exp_dir
  else
    match audio_text_map with
    | Some m =>
        if bool_decide (m = ∅) then
          transcribe_with_asr speaker_name exp_dir input_wav_dir text_file copied_files ;;;
          ret exp_dir
        else
          Os.write_file text_file
            (String.concat ""
               (map (fun '(audio_info, dst_filename) =>
                       let basename := OsPath.basename (path audio_info) in
                       let txt := default "这是一段语音。" (m !! basename) in
                       transcript_line input_wav_dir dst_filename speaker_name txt)
                    (combine audio_files copied_files))) ;;;
          ret exp_dir
    | None =>
        transcribe_with_asr speaker_name exp_dir input_wav_dir text_file copied_files ;;;
        ret exp_dir
    end.

(** *** run_data_preprocessing *)

Definition feature_subdirs : list string :=
  ["2-name2text"; "3-bert"; "4-cnhubert"; "5-wav32k"; "6-name2semantic"].
Definition checkpoint_subdirs : list string := ["logs_s1/ckpt"; "logs_s2_v2"].
Definition old_files : list string := ["2-name2text-0.txt"; "6-name2semantic-0.tsv"].

(** Lines 199-218: remove what an earlier run left behind. *)
Definition purge_previous_outputs (exp_dir : string) : M World unit :=
  for_each feature_subdirs (fun subdir =>
    let dir_path := OsPath.join exp_dir subdir in
    ex <- Os.exists_ dir_path ;; if ex then Os.rmtree dir_path else ret tt) ;;;
  for_each checkpoint_subdirs (fun checkpoint_dir =>
    let dir_path := OsPath.join exp_dir checkpoint_dir in
    ex <- Os.exists_ dir_path ;; if ex then Os.rmtree dir_path else ret tt) ;;;
  for_each old_files (fun old_file =>
    let file_path := OsPath.join exp_dir old_file in
    ex <- Os.exists_ file_path ;; if ex then Os.remove file_path else ret tt).

(** Lines 228-243 *)
Definition preprocessing_env (exp_dir speaker_name : string) : list (string * string) :=
  [ ("inp_text", OsPath.join exp_dir "input_text.txt");
    ("inp_wav_dir", OsPath.join exp_dir "input_wavs");
    ("exp_name", speaker_name);
    ("opt_dir", exp_dir);
    ("i_part", "0");
    ("all_parts", "1");
    ("bert_pretrained_dir", pretrained_models "bert");
    ("cnhubert_base_dir", pretrained_models "ssl");
    ("pretrained_s2G", pretrained_models "s2G_v2");
    ("s2config_path", pretrained_models "s2_config");
    ("is_half", "True");
    ("PYTHONPATH", pythonpath) ].

Definition preprocessing_cmd (script : string) : list string :=
  [ python_exec self;
    OsPath.join (base_dir self) "run_preprocessing_script.py";
    sovits_path self;
    OsPath.join (sovits_path self) script ].

(** [os.listdir(d) if os.path.exists(d) else []] *)
Definition listdir_if_exists (d : string) : M World (list string) :=
  ex <- Os.exists_ d ;; if ex then Os.listdir d else ret [].

(** Lines 311-316: the file names the transcript announces. *)
Definition expected_files_of (content : string) : list string :=
  map (fun line => OsPath.basename (List.hd "" (split_on "|"%char line)))
      (List.filter (fun line => negb (String.eqb line "")) (split_on "010"%char (strip content))).

(** [pd.read_csv(path, delimiter="\t", encoding="utf-8", header=None)] *)
Definition read_csv (p : string) : M World (list (list string)) :=
  c <- Os.read_file p ;;
  match pd_read_csv X c with
  | Some rows => ret rows
  | None => raise (LibraryError "pandas.errors.ParserError")
  end.

(** Lines 349-435: what is checked once step 1c has returned. *)
Definition check_semantic_output (exp_dir : string) (expected_files : list string)
    : M World bool :=
  let semantic_file := OsPath.join exp_dir "6-name2semantic-0.tsv" in
  ex <- Os.exists_ semantic_file ;;
  if negb ex then ret false
  else
    semantic_count <- try_except (rows <- read_csv semantic_file ;; ret (length rows))
                                 (fun _ => ret 0) ;;
    Os.print ("   📊 生成了 " +:+ pretty semantic_count +:+ " 条有效 semantic 数据（期望 "
              +:+ pretty (length expected_files) +:+ " 条）") ;;;
    (if negb (semantic_count =? length expected_files) then
       Os.print "   ⚠️  警告: semantic 数据数量与预期不符！" ;;;
       Os.print ("      差异: " +:+ pretty (Z.of_nat (length expected_files) - Z.of_nat semantic_count)%Z
                 +:+ " 条数据缺失或无效") ;;;
       _ <- Os.read_file semantic_file ;; ret tt
     else ret tt) ;;;
    size <- Os.getsize semantic_file ;;
    if size =? 0 then
      let input_text_file := OsPath.join exp_dir "input_text.txt" in
      ex_t <- Os.exists_ input_text_file ;;
      (if ex_t then _ <- Os.read_file input_text_file ;; ret tt else ret tt) ;;;
      _ <- listdir_if_exists (OsPath.join exp_dir "4-cnhubert") ;;
      _ <- listdir_if_exists (OsPath.join exp_dir "5-wav32k") ;;
      ret false
    else ret true.

Definition run_data_preprocessing (exp_dir speaker_name : string) : M World bool :=
  purge_previous_outputs exp_dir ;;;
  let input_text := OsPath.join exp_dir "input_text.txt" in
  ex <- Os.exists_ input_text ;;
  if negb ex then ret false
  else
    let env := preprocessing_env exp_dir speaker_name in
    (* step 1a *)
    result <- subprocess (preprocessing_cmd "GPT_SoVITS/prepare_datasets/1-get-text.py") env None ;;
    if negb (fst (fst result) =? 0)%Z then ret false
    else
      _ <- listdir_if_exists (OsPath.join exp_dir "2-name2text") ;;
      (* step 1b *)
      result <- subprocess (preprocessing_cmd "GPT_SoVITS/prepare_datasets/2-get-hubert-wav32k.py") env None ;;
      if negb (fst (fst result) =? 0)%Z then ret false
      else
        _ <- listdir_if_exists (OsPath.join exp_dir "4-cnhubert") ;;
        _ <- listdir_if_exists (OsPath.join exp_dir "5-wav32k") ;;
        (* step 1c *)
        content <- Os.read_file (OsPath.join exp_dir "input_text.txt") ;;
        let expected_files := expected_files_of content in
        result <- subprocess (preprocessing_cmd "GPT_SoVITS/prepare_datasets/3-get-semantic.py") env None ;;
        if negb (fst (fst result) =? 0)%Z then ret false
        else check_semantic_output exp_dir expected_files.

(** *** train_stage1_gpt *)

(** Lines 479-486: the phoneme table, keyed by its first column; only
    rows with exactly four tab-separated fields are kept. *)
Definition parse_phoneme_data (content : string) : gmap string (list string) :=
  fold_left
    (fun (phoneme_data : gmap string (list string)) line =>
       let tmp := split_on "009"%char line in
       if length tmp =? 4 then <[List.hd "" tmp := List.tl tmp]> phoneme_data
       else phoneme_data)
    (split_on "010"%char (strip_char "010"%char content)) ∅.

(** Lines 464-525: the validation that precedes the launch; [true] when
    training may start. *)
Definition validate_training_data (exp_dir : string) : M World bool :=
  let semantic_file := OsPath.join exp_dir "6-name2semantic-0.tsv" in
  let phoneme_file := OsPath.join exp_dir "2-name2text-0.txt" in
  loaded <- try_except (rows <- read_csv semantic_file ;; ret (Some rows))
                       (fun _ => ret None) ;;
  match loaded with
  | None => ret false
  | Some semantic_df =>
      let semantic_count := length semantic_df in
      content <- Os.read_file phoneme_file ;;
      let phoneme_count := size (parse_phoneme_data content) in
      Os.print ("   📊 Semantic 数据: " +:+ pretty semantic_count +:+ " 条") ;;;
      Os.print ("   📊 Phoneme 数据: " +:+ pretty phoneme_count +:+ " 条") ;;;
      if negb (semantic_count =? phoneme_count) then
        Os.print "   ❌ 错误: 数据数量不匹配！" ;;;
        Os.print ("      差异: " +:+
                  pretty (Z.abs (Z.of_nat semantic_count - Z.of_nat phoneme_count)) +:+ " 条") ;;;
        ret false
      else if semantic_count =? 0 then ret false
      else ret true
  end.

Definition s1_settings (exp_dir speaker_name : string) (epochs batch_size save_every_epoch : Z)
    : list (string * string) :=
  [ ("train.epochs", pretty epochs);
    ("train.batch_size", pretty batch_size);
    ("train.save_every_n_epoch", pretty save_every_epoch);
    ("train.if_save_latest", "True");
    ("train.if_save_every_weights", "True");
    ("train.half_weights_save_dir", OsPath.join exp_dir "logs_s1");
    ("train.exp_name", speaker_name);
    ("pretrained_s1", pretrained_models "s1_v2");
    ("train_semantic_path", OsPath.join exp_dir "6-name2semantic-0.tsv");
    ("train_phoneme_path", OsPath.join exp_dir "2-name2text-0.txt");
    ("output_dir", OsPath.join exp_dir "logs_s1") ].

Definition s1_cmd (exp_dir : string) : list string :=
  [ python_exec self;
    OsPath.join (sovits_path self) "GPT_SoVITS/s1_train.py";
    "--config_file";
    OsPath.join exp_dir "s1_config.yaml" ].

(** [files.sort(key=lambda x: os.path.getmtime(os.path.join(d, x)), reverse=True)] *)
Definition sort_by_mtime (d : string) (files : list string) : M World (list string) :=
  gets (fun w => sort_reverse (fun x => Os.mtime_of w (OsPath.join d x)) Nat.ltb files).

Definition train_stage1_gpt (exp_dir speaker_name : string)
    (epochs batch_size save_every_epoch : Z) : M World (option string) :=
  valid <- validate_training_data exp_dir ;;
  if negb valid then ret None
  else
    let config_template := OsPath.join (sovits_path self) "GPT_SoVITS/configs/s1longer-v2.yaml" in
    template <- Os.read_file config_template ;;
    match yaml_edit X template (s1_settings exp_dir speaker_name epochs batch_size save_every_epoch) with
    | inl e => raise e
    | inr config =>
        let temp_config := OsPath.join exp_dir "s1_config.yaml" in
        Os.write_file temp_config config ;;;
        process <- subprocess (s1_cmd exp_dir) [("PYTHONPATH", pythonpath)]
                              (Some (sovits_path self)) ;;
        if negb (fst (fst process) =? 0)%Z then ret None
        else
          let logs_dir := OsPath.join exp_dir "logs_s1" in
          ex <- Os.exists_ logs_dir ;;
          if negb ex then ret None
          else
            entries <- Os.listdir logs_dir ;;
            let ckpt_files := List.filter (endswith ".ckpt") entries in
            match ckpt_files with
            | [] => ret None
            | _ =>
                sorted <- sort_by_mtime logs_dir ckpt_files ;;
                ret (Some (OsPath.join logs_dir (List.hd "" sorted)))
            end
    end.

(** *** _convert_checkpoint_to_weight *)

(** [opt["config"]] is an instance of [HParams], a class declared inside
    the function (lines 658-664), and [pickle] refuses an instance of a local
    class.  So [torch.save(opt, output_path)] (line 680) opens [output_path],
    which creates the file, and then raises: lines 682-683 are never reached,
    the function always leaves through its [except] branch with [None], and
    what it can leave behind is the file [torch.save] had opened. *)
Definition _convert_checkpoint_to_weight
    (checkpoint_path output_dir speaker_name config_path : string)
    : M World (option string) :=
  try_except
    (checkpoint <- Os.read_file checkpoint_path ;;
     config <- Os.read_file config_path ;;
     match torch_convert X checkpoint config with
     | None => raise (LibraryError "torch")
     | Some (epoch, partial) =>
         let output_filename := speaker_name +:+ "_e" +:+ epoch +:+ ".pth" in
         let output_path := OsPath.join output_dir output_filename in
         Os.write_file output_path partial ;;;
         raise (LibraryError "Can't pickle local object 'HParams'")
     end)
    (fun _ => ret None).

(** *** train_stage2_sovits *)

Definition s2_settings (exp_dir speaker_name : string) (epochs batch_size save_every_epoch : Z)
    : list (string * string) :=
  [ ("train.epochs", pretty epochs);
    ("train.batch_size", pretty batch_size);
    ("train.save_every_epoch", pretty save_every_epoch);
    ("train.if_save_latest", "True");
    ("train.if_save_every_weights", "True");
    ("train.name", speaker_name);
    ("train.gpu_numbers", "0");
    ("train.pretrained_s2G", pretrained_models "s2G_v2");
    ("train.pretrained_s2D", pretrained_models "s2D_v2");
    ("name", speaker_name);
    ("model.version", "v2");
    ("save_weight_dir", OsPath.join exp_dir "logs_s2_v2");
    ("data.exp_dir", exp_dir);
    ("data.training_files", OsPath.join exp_dir "2-name2text.txt");
    ("data.validation_files", OsPath.join exp_dir "2-name2text.txt");
    ("data.wav_path", OsPath.join exp_dir "5-wav32k") ].

Definition s2_cmd (exp_dir : string) : list string :=
  [ python_exec self;
    OsPath.join (sovits_path self) "GPT_SoVITS/s2_train.py";
    "--config";
    OsPath.join exp_dir "s2_config.json" ].

(** Lines 817-824: an exported weight file of this speaker. *)
Definition is_weight_file (speaker_name f : string) : bool :=
  endswith ".pth" f && contains speaker_name f && contains "_e" f
  && negb (startswith "G_" f) && negb (startswith "D_" f).

(** Lines 809-861: pick the artifact once the trainer has exited with 0. *)
Definition locate_stage2_model (exp_dir speaker_name : string) : M World (option string) :=
  let logs_dir := OsPath.join exp_dir "logs_s2_v2" in
  ex <- Os.exists_ logs_dir ;;
  if negb ex then ret None
  else
    entries <- Os.listdir logs_dir ;;
    let weight_files := List.filter (is_weight_file speaker_name) entries in
    match weight_files with
    | _ :: _ =>
        let sorted := sort_reverse (fun f : string => f) String.ltb weight_files in
        ret (Some (OsPath.join logs_dir (List.hd "" sorted)))
    | [] =>
        entries' <- Os.listdir logs_dir ;;
        let g_files := List.filter (fun f => startswith "G_" f && endswith ".pth" f) entries' in
        match g_files with
        | [] => ret None
        | _ =>
            sorted <- sort_by_mtime logs_dir g_files ;;
            let checkpoint_path := OsPath.join logs_dir (List.hd "" sorted) in
            weight_path <- _convert_checkpoint_to_weight checkpoint_path logs_dir
                             speaker_name (OsPath.join exp_dir "s2_config.json") ;;
            match weight_path with
            | Some p => ret (Some p)
            | None => ret (Some checkpoint_path)
            end
        end
    end.

Definition train_stage2_sovits (exp_dir speaker_name : string)
    (epochs batch_size save_every_epoch : Z) : M World (option string) :=
  let config_template := OsPath.join (sovits_path self) "GPT_SoVITS/configs/s2.json" in
  template <- Os.read_file config_template ;;
  match json_edit X template (s2_settings exp_dir speaker_name epochs batch_size save_every_epoch) with
  | inl e => raise e
  | inr config =>
      let wav_dir := OsPath.join exp_dir "5-wav32k" in
      ex_wav <- Os.exists_ wav_dir ;;
      if negb ex_wav then
        raise (ValueError ("WAV 目录不存在: " +:+ wav_dir +:+ "，请确保数据预处理已完成"))
      else
        let cnhubert_dir := OsPath.join exp_dir "4-cnhubert" in
        ex_hub <- Os.exists_ cnhubert_dir ;;
        if negb ex_hub then
          raise (ValueError ("HuBERT 目录不存在: " +:+ cnhubert_dir +:+ "，请确保数据预处理已完成"))
        else
          let name2text_src := OsPath.join exp_dir "2-name2text-0.txt" in
          let name2text_dst := OsPath.join exp_dir "2-name2text.txt" in
          ex_dst <- Os.exists_ name2text_dst ;;
          ex_src <- Os.exists_ name2text_src ;;
          (if negb ex_dst then
             if ex_src then Os.copy true name2text_src name2text_dst
             else raise (ValueError ("文本标注文件不存在: " +:+ name2text_src +:+ "，请确保数据预处理已完成"))
           else ret tt) ;;;
          Os.makedirs (OsPath.join exp_dir "logs_s2_v2") ;;;
          Os.write_file (OsPath.join exp_dir "s2_config.json") config ;;;
          process <- subprocess (s2_cmd exp_dir) [("PYTHONPATH", pythonpath)]
                                (Some (sovits_path self)) ;;
          if negb (fst (fst process) =? 0)%Z then ret None
          else locate_stage2_model exp_dir speaker_name
  end.

(** *** train_speaker_complete *)

Definition set_error (result : TrainResult) (e : string) : TrainResult :=
  mkTrainResult (r_speaker_name result) (r_status result) (r_start_time result)
    (r_gpt_model result) (r_sovits_model result) (r_exp_dir result) (Some e)
    (r_end_time result).

(** The single [try] of the source is written as one [try_except] per
    assignment to [result], so that the handler sees the dictionary as it
    was when the exception was raised; no handler raises. *)
Definition train_speaker_complete (speaker_name : string)
    (audio_files : list AudioSample) (audio_text_map : option (gmap string string))
    (s1_epochs s2_epochs batch_size : Z) : M World TrainResult :=
  start_time <- Os.now ;;
  let result := mkTrainResult speaker_name "failed" start_time None None None None None in
  try_except
    (exp_dir <- prepare_training_data speaker_name audio_files audio_text_map ;;
     let result := mkTrainResult speaker_name "failed" start_time None None (Some exp_dir) None None in
     try_except
       (ok <- run_data_preprocessing exp_dir speaker_name ;;
        if negb ok then ret (set_error result "数据预处理失败")
        else
          gpt_model <- train_stage1_gpt exp_dir speaker_name s1_epochs batch_size 5 ;;
          match gpt_model with
          | None => ret (set_error result "Stage 1 训练失败")
          | Some gpt_model =>
              let result := mkTrainResult speaker_name "failed" start_time
                              (Some gpt_model) None (Some exp_dir) None None in
              try_except
                (sovits_model <- train_stage2_sovits exp_dir speaker_name s2_epochs batch_size 4 ;;
                 match sovits_model with
                 | None => ret (set_error result "Stage 2 训练失败")
                 | Some sovits_model =>
                     end_time <- Os.now ;;
                     ret (mkTrainResult speaker_name "completed" start_time
                            (Some gpt_model) (Some sovits_model) (Some exp_dir) None
                            (Some end_time))
                 end)
                (fun e => ret (set_error result (str_exn e)))
          end)
       (fun e => ret (set_error result (str_exn e))))
    (fun e => ret (set_error result (str_exn e))).

End Trainer.

(* ===================================================================== *)
(** ** audio_generator_sovits.py *)
(* ===================================================================== *)

(** The mutable state of the service: the world and the two dictionaries
    of the generator object. *)
Record State : Type := mkState {
  world : World;
  speakers_data : gmap string SpeakerInfo;
  training_status : gmap string TrainingJob
}.

(** The fields of the generator fixed by [__init__]. *)
Record AudioGeneratorSoVITS : Type := mkGenerator {
  trainer : option GPTSoVITSTrainer;
  api_available : bool
}.

(** Run a computation on the world inside the service state. *)
Definition in_world {A} (m : M World A) : M State A :=
  fun s => let '(w', r) := m (world s) in
           (mkState w' (speakers_data s) (training_status s), r).

Definition set_speakers (f : gmap string SpeakerInfo -> gmap string SpeakerInfo)
    : M State unit :=
  modify (fun s => mkState (world s) (f (speakers_data s)) (training_status s)).

Definition set_status (name : string) (j : TrainingJob) : M State unit :=
  modify (fun s => mkState (world s) (speakers_data s) (<[name := j]> (training_status s))).

Definition json_of_option {A} (f : A -> json) (o : option A) : json :=
  match o with Some a => f a | None => JNull end.

Definition json_of_sample (a : AudioSample) : json :=
  JObj ([ ("path", JStr (path a));
          ("original_path", JStr (original_path a));
          ("duration", JFloat (duration a));
          ("sample_rate", JInt (sample_rate a));
          ("uploaded_at", JInt (Z.of_nat (uploaded_at a))) ]
        ++ match text a with Some t => [("text", JStr t)] | None => [] end).

Definition json_of_model_info (m : ModelInfo) : json :=
  JObj [ ("model_path", JStr (mi_model_path m));
         ("gpt_model", json_of_option JStr (gpt_model m));
         ("sovits_model", json_of_option JStr (sovits_model m));
         ("method", JStr (method m));
         ("quality", JStr (quality m)) ].

Definition json_of_speaker (i : SpeakerInfo) : json :=
  JObj ([ ("audio_files", JList (map json_of_sample (audio_files i)));
          ("created_at", JInt (Z.of_nat (created_at i)));
          ("trained", JBool (trained i));
          ("model_path", json_of_option JStr (model_path i)) ]
        ++ match model_info i with Some m => [("model_info", json_of_model_info m)] | None => [] end
        ++ match trained_at i with Some t => [("trained_at", JInt (Z.of_nat t))] | None => [] end
        ++ match training_epochs i with Some e => [("training_epochs", JInt e)] | None => [] end).

Section AudioGenerator.
Context (X : Externals) (self : AudioGeneratorSoVITS).
Import PyStr.

Definition speakers_file : string := "models/speakers_sovits.json".
Definition training_data_dir : string := "models/training_data".
Definition trained_models_dir : string := "models/trained_speakers".

Definition _save_speakers_data : M State unit :=
  in_world (Os.makedirs (OsPath.dirname speakers_file)) ;;;
  d <- gets speakers_data ;;
  in_world (Os.write_file speakers_file
              (json_dumps X (JObj (map (fun kv => (fst kv, json_of_speaker (snd kv)))
                                       (map_to_list d))))).

(** *** process_reference_audio *)

(** The dictionary [process_reference_audio] returns. *)
Record UploadResult : Type := mkUploadResult {
  u_duration : Q;
  u_sample_rate : Z;
  u_audio_shape : Z;
  u_speaker_audio_count : nat;
  u_success : bool
}.

Definition process_reference_audio (audio_path speaker_name : string)
    : M State UploadResult :=
  try_except
    (raw <- in_world (Os.read_file audio_path) ;;
     match librosa_load X raw with
     | inl e => raise e
     | inr (audio_len, sr) =>
         if (sr =? 0)%Z then raise ZeroDivisionError
         else
           let duration := PyFloat.div (inject_Z audio_len) (inject_Z sr) in
           let speaker_dir := OsPath.join training_data_dir speaker_name in
           in_world (Os.makedirs speaker_dir) ;;;
           let filename := OsPath.basename audio_path in
           let dest_path := OsPath.join speaker_dir filename in
           shape_sr <-
             (if negb (sr =? 32000)%Z then
                let '(new_len, encoded) := resample_32k X raw in
                in_world (Os.write_file dest_path encoded) ;;;
                ret (new_len, 32000%Z)
              else
                in_world (Os.copy true audio_path dest_path) ;;;
                ret (audio_len, sr)) ;;
           let '(audio_shape, sr) := shape_sr in
           known <- gets (fun s => speakers_data s !! speaker_name) ;;
           (match known with
            | None =>
                created <- in_world Os.now ;;
                set_speakers (insert speaker_name
                                (mkSpeakerInfo [] created false None None None None))
            | Some _ => ret tt
            end) ;;;
           uploaded <- in_world Os.now ;;
           set_speakers
             (alter (fun i => mkSpeakerInfo
                        (audio_files i ++
                           [mkAudioSample dest_path audio_path duration sr uploaded None])
                        (created_at i) (trained i) (model_path i) (model_info i)
                        (trained_at i) (training_epochs i))
                    speaker_name) ;;;
           _save_speakers_data ;;;
           count <- gets (fun s => match speakers_data s !! speaker_name with
                                   | Some i => length (audio_files i)
                                   | None => 0
                                   end) ;;
           ret (mkUploadResult duration sr audio_shape count true)
     end)
    (fun e => raise (Exception ("处理音频失败: " +:+ str_exn e))).

(** *** train_speaker *)

Definition _train_with_sovits_complete (tr : GPTSoVITSTrainer)
    (speaker_name : string) (epochs batch_size : Z) : M State ModelInfo :=
  files <- gets (fun s => match speakers_data s !! speaker_name with
                          | Some i => audio_files i
                          | None => []
                          end) ;;
  let s2_epochs := Z.max 8 (PyFloat.to_int (PyFloat.mul (PyFloat.of_Z epochs) PyFloat.c0_67)) in
  result <- in_world (train_speaker_complete X tr speaker_name files None
                        epochs s2_epochs batch_size) ;;
  if negb (String.eqb (r_status result) "completed") then
    raise (Exception ("训练失败: " +:+ default "None" (r_error result)))
  else
    let model_output_dir := OsPath.join trained_models_dir speaker_name in
    in_world (Os.makedirs model_output_dir) ;;;
    trained_at <- in_world Os.now ;;
    let model_info :=
      JObj [ ("speaker_name", JStr speaker_name);
             ("method", JStr "gpt_sovits_trained");
             ("gpt_model", json_of_option JStr (r_gpt_model result));
             ("sovits_model", json_of_option JStr (r_sovits_model result));
             ("exp_dir", json_of_option JStr (r_exp_dir result));
             ("audio_count", JInt (Z.of_nat (length files)));
             ("s1_epochs", JInt epochs);
             ("s2_epochs", JInt s2_epochs);
             ("trained_at", JInt (Z.of_nat trained_at));
             ("quality_level", JStr "high") ] in
    in_world (Os.write_file (OsPath.join model_output_dir "model_info.json")
                            (json_dumps X model_info)) ;;;
    ret (mkModelInfo model_output_dir (r_gpt_model result) (r_sovits_model result)
                     "gpt_sovits_trained" "high").

(** The dictionary [train_speaker] returns. *)
Record TrainSummary : Type := mkTrainSummary {
  t_success : bool;
  t_model_path : string;
  t_audio_count : nat;
  t_epochs : Z;
  t_message : string
}.

(** Lines 207-249: the [try] block of [train_speaker] with its handler;
    [count] is [len(audio_files)]. *)
Definition train_speaker_guarded (speaker_name : string) (epochs batch_size : Z)
    (count : nat) : M State TrainSummary :=
  try_except
    (result <- match trainer self with
               | Some tr => _train_with_sovits_complete tr speaker_name epochs batch_size
               | None => raise (Exception "训练器未初始化，无法进行训练")
               end ;;
     trained_at <- in_world Os.now ;;
     set_speakers
       (alter (fun i => mkSpeakerInfo (audio_files i) (created_at i) true
                          (model_path i) (Some result) (Some trained_at) (Some epochs))
              speaker_name) ;;;
     _save_speakers_data ;;;
     end_time <- in_world Os.now ;;
     set_status speaker_name (Completed 100 end_time result) ;;;
     ret (mkTrainSummary true (mi_model_path result) count epochs
            ("成功训练 " +:+ speaker_name +:+ " 的模型，使用了 "
             +:+ pretty count +:+ " 个音频样本")))
    (fun e =>
       end_time <- in_world Os.now ;;
       set_status speaker_name (Failed (str_exn e) end_time) ;;;
       raise (Exception ("训练失败: " +:+ str_exn e))).

Definition train_speaker (speaker_name : string) (epochs batch_size : Z)
    : M State TrainSummary :=
  known <- gets (fun s => speakers_data s !! speaker_name) ;;
  match known with
  | None => raise (Exception ("未找到说话者 '" +:+ speaker_name +:+ "'"))
  | Some speaker_info =>
      let files := audio_files speaker_info in
      if length files <? 3 then
        raise (Exception ("训练需要至少3个音频文件，当前只有 "
                          +:+ pretty (length files) +:+ " 个"))
      else
        start_time <- in_world Os.now ;;
        set_status speaker_name (Training 0 start_time epochs) ;;;
        train_speaker_guarded speaker_name epochs batch_size (length files)
  end.

(** [delete_speaker] *)
Definition delete_speaker (speaker_name : string) : M State unit :=
  known <- gets (fun s => speakers_data s !! speaker_name) ;;
  match known with
  | None => raise (Exception ("未找到说话者 '" +:+ speaker_name +:+ "'"))
  | Some speaker_info =>
      let speaker_dir := OsPath.join training_data_dir speaker_name in
      ex <- in_world (Os.exists_ speaker_dir) ;;
      (if ex then in_world (Os.rmtree speaker_dir) else ret tt) ;;;
      let model_dir := OsPath.join trained_models_dir speaker_name in
      ex <- in_world (Os.exists_ model_dir) ;;
      (if ex then in_world (Os.rmtree model_dir) else ret tt) ;;;
      for_each (audio_files speaker_info) (fun audio_info =>
        let original_path := original_path audio_info in
        ex <- in_world (Os.exists_ original_path) ;;
        if negb (String.eqb original_path "") && ex
        then in_world (Os.remove original_path) else ret tt) ;;;
      set_speakers (delete speaker_name) ;;;
      _save_speakers_data
  end.

(** [get_training_status] *)
Definition get_training_status (s : State) (speaker_name : string) : TrainingJob :=
  default NotStarted (training_status s !! speaker_name).

(** *** The reference scorer *)

(** [_calculate_audio_quality_score].  The score is a float whose value
    is always one of the integers 50, 60, ..., 100. *)
Definition duration_bonus (d : Q) : Z :=
  if Qle_bool 10 d && Qle_bool d 20 then 30
  else if Qle_bool 8 d && Qle_bool d 25 then 20
  else if Qle_bool 5 d && Qle_bool d 30 then 10
  else 0.

Definition sample_rate_bonus (sr : Z) : Z :=
  if (32000 <=? sr)%Z then 20
  else if (22050 <=? sr)%Z then 10
  else 0.

Definition _calculate_audio_quality_score (audio_info : AudioSample) : Z :=
  let score := 50%Z in
  let score := (score + duration_bonus (duration audio_info))%Z in
  let score := (score + sample_rate_bonus (sample_rate audio_info))%Z in
  Z.min score 100.

(** [3.0 <= duration <= 10.0] *)
Definition eligible (audio : AudioSample) : bool :=
  Qle_bool 3 (duration audio) && Qle_bool (duration audio) 10.

(** The ranking both selectors build: eligible samples, scored, sorted
    with [sort(reverse=True, key=lambda x: x[0])]. *)
Definition scored_audios (audio_files : list AudioSample) : list (Z * AudioSample) :=
  sort_reverse fst Z.ltb
    (map (fun audio => (_calculate_audio_quality_score audio, audio))
         (List.filter eligible audio_files)).

Definition no_eligible_message (audio_files : list AudioSample) : string :=
  "所有音频都不符合 3-10 秒的时长要求！" +:+ NL +:+
  "当前音频时长: " +:+
  join ", " (map (fun a => PyFloat.fmt_1f (duration a) +:+ "s") audio_files) +:+ NL +:+
  "请上传 3-10 秒的音频样本".

Definition _select_best_reference_audio (audio_files : list AudioSample) : Res AudioSample :=
  match audio_files with
  | [] => Raise (Exception "没有可用的音频文件")
  | _ =>
      match List.filter eligible audio_files with
      | [] => Raise (Exception (no_eligible_message audio_files))
      | _ =>
          match scored_audios audio_files with
          | best :: _ => Ok (snd best)
          | [] => Raise (Exception "list index out of range")
          end
      end
  end.

(** [count] is a literal (3 or 5) at every call site. *)
Definition _select_auxiliary_references (audio_files : list AudioSample) (count : nat)
    : list AudioSample :=
  if length audio_files <=? 1 then []
  else if length (List.filter eligible audio_files) <=? 1 then []
  else
    let scored := scored_audios audio_files in
    let aux_count := Nat.min count (length scored - 1) in
    map snd (firstn aux_count (List.tl scored)).

(** *** generate_speech *)

Definition language_mapping (language : string) : string :=
  let l := lower language in
  if String.eqb l "zh-cn" then "zh"
  else if String.eqb l "zh-tw" then "zh"
  else if String.eqb l "en-us" then "en"
  else if String.eqb l "en-gb" then "en"
  else if String.eqb l "ja-jp" then "ja"
  else if String.eqb l "ko-kr" then "ko"
  else language.

(** [GPTSoVITSAPIClient.generate_speech] *)
Definition api_generate_speech (payload : list (string * string)) (aux : list string)
    (output_path : string) : M World bool :=
  match api_tts X payload aux with
  | Some audio => try_except (Os.write_file output_path audio ;;; ret true)
                             (fun _ => ret false)
  | None => ret false
  end.

Definition tts_payload (txt ref_audio_path language prompt_text : string)
    : list (string * string) :=
  [ ("text", txt); ("text_lang", language); ("ref_audio_path", ref_audio_path);
    ("prompt_text", prompt_text); ("prompt_lang", language);
    ("top_k", "5"); ("top_p", "1.0"); ("temperature", "1.0");
    ("text_split_method", "cut5") ].

(** [GPTSoVITSAPIClient.generate_with_trained_model] *)
Definition api_generate_with_trained_model (gpt_model_path sovits_model_path : string)
    (payload : list (string * string)) (ref_audio_path : string) (aux : list string)
    (output_path : string) : M World bool :=
  ex_g <- Os.exists_ gpt_model_path ;;
  ex_s <- Os.exists_ sovits_model_path ;;
  ex_r <- Os.exists_ ref_audio_path ;;
  if negb ex_g then ret false
  else if negb ex_s then ret false
  else if negb ex_r then ret false
  else if negb (api_set_weights X "gpt" gpt_model_path) then ret false
  else if negb (api_set_weights X "sovits" sovits_model_path) then ret false
  else api_generate_speech payload aux output_path.

Definition nonempty (o : option string) : bool :=
  match o with Some s => negb (String.eqb s "") | None => false end.

Definition _generate_with_trained_model (txt : string) (model_info : ModelInfo)
    (speaker_info : SpeakerInfo) (output_path language : string) : M World unit :=
  if negb (nonempty (gpt_model model_info)) || negb (nonempty (sovits_model model_info)) then
    raise (Exception "模型路径不完整")
  else
    match _select_best_reference_audio (audio_files speaker_info) with
    | Raise e => raise e
    | Ok best_ref =>
        let aux_refs := _select_auxiliary_references (audio_files speaker_info) 3 in
        let ref_audio_abs := abspath X (path best_ref) in
        let aux_refs_abs := map (fun a => abspath X (path a)) aux_refs in
        success <- api_generate_with_trained_model
                     (default "" (gpt_model model_info)) (default "" (sovits_model model_info))
                     (tts_payload txt ref_audio_abs language (default "" (text best_ref)))
                     ref_audio_abs aux_refs_abs output_path ;;
        if negb success then raise (Exception "API 生成失败") else ret tt
    end.

Definition _generate_with_api_reference (txt : string) (speaker_info : SpeakerInfo)
    (output_path language : string) : M World unit :=
  match _select_best_reference_audio (audio_files speaker_info) with
  | Raise e => raise e
  | Ok best_ref =>
      let aux_refs := _select_auxiliary_references (audio_files speaker_info) 5 in
      let ref_audio_abs := abspath X (path best_ref) in
      let aux_refs_abs := map (fun a => abspath X (path a)) aux_refs in
      success <- api_generate_speech
                   (tts_payload txt ref_audio_abs language (default "" (text best_ref)))
                   aux_refs_abs output_path ;;
      if negb success then raise (Exception "API 生成失败") else ret tt
  end.

(** Lines 524-530: the length of the placeholder, in seconds. *)
Definition estimated_duration (txt language : string) : Q :=
  if startswith "zh" language then PyFloat.mul (PyFloat.of_Z (Z.of_nat (len txt))) PyFloat.c0_3
  else PyFloat.mul (PyFloat.of_Z (Z.of_nat (split_ws_count txt))) PyFloat.c0_2.

Definition placeholder_duration (txt language : string) : Q :=
  PyFloat.py_max 1 (PyFloat.py_min (estimated_duration txt language) 30).

Definition _generate_placeholder (txt : string) (speaker_info : SpeakerInfo)
    (output_path language : string) : M World unit :=
  let duration := placeholder_duration txt language in
  let sr := 32000%Z in
  Os.write_file output_path
    (sf_silence X (PyFloat.to_int (PyFloat.mul duration (inject_Z sr))) sr).

Definition generate_speech (txt speaker_name language : string) : M State string :=
  let language := language_mapping language in
  known <- gets (fun s => speakers_data s !! speaker_name) ;;
  match known with
  | None => raise (Exception ("未找到说话者 '" +:+ speaker_name +:+ "' 的数据，请先上传音频语料"))
  | Some speaker_info =>
      if negb (trained speaker_info) then
        raise (Exception ("说话者 '" +:+ speaker_name +:+ "' 尚未训练模型。请先训练模型（当前有 "
                          +:+ pretty (length (audio_files speaker_info)) +:+ " 个音频样本）"))
      else
        seed <- in_world Os.now ;;
        let output_filename := speaker_name +:+ "_" +:+ uuid_hex8 X seed +:+ ".wav" in
        let output_path := OsPath.join "outputs" output_filename in
        try_except
          (let is_trained_method :=
             match model_info speaker_info with
             | Some m => String.eqb (method m) "gpt_sovits_trained"
             | None => false
             end in
           (if is_trained_method && api_available self then
              in_world (_generate_with_trained_model txt
                          (default (mkModelInfo "" None None "" "") (model_info speaker_info))
                          speaker_info output_path language)
            else if api_available self then
              in_world (_generate_with_api_reference txt speaker_info output_path language)
            else
              in_world (_generate_placeholder txt speaker_info output_path language)) ;;;
           ret output_path)
          (fun e => raise (Exception ("语音合成失败: " +:+ str_exn e)))
  end.

(** *** list_speakers *)

(** One entry of the list [list_speakers] returns. *)
Record SpeakerSummary : Type := mkSpeakerSummary {
  ss_name : string;
  ss_audio_count : nat;
  ss_trained : bool;
  ss_created_at : nat;
  ss_trained_at : option nat;
  ss_model_path : option string
}.

(** [list_speakers]: one entry per key of [self.speakers_data].  Python
    yields the entries in the order the keys were inserted; the table does
    not record that order, so only what does not depend on it is stated
    about the list. *)
Definition list_speakers (s : State) : list SpeakerSummary :=
  map (fun kv => mkSpeakerSummary (fst kv) (length (audio_files (snd kv)))
                   (trained (snd kv)) (created_at (snd kv)) (trained_at (snd kv))
                   (model_path (snd kv)))
      (map_to_list (speakers_data s)).

End AudioGenerator.

(* ===================================================================== *)
(** ** app.py *)
(* ===================================================================== *)

Module App.
Section Handlers.
Context (X : Externals) (audio_gen : AudioGeneratorSoVITS).

(** The JSON body of [POST /train_speaker]. *)
Record TrainResponse : Type := mkTrainResponse {
  tr_status : string;
  tr_message : string;
  tr_speaker_name : string;
  tr_audio_count : nat;
  tr_epochs : Z;
  tr_estimated_time : string;
  tr_note : string
}.

(** [train_task], the closure handed to [background_tasks.add_task]: it
    swallows the exception [train_speaker] raises. *)
Definition train_task (speaker_name : string) (epochs batch_size : Z) : M State unit :=
  try_except (_ <- train_speaker X audio_gen speaker_name epochs batch_size ;; ret tt)
             (fun _ => ret tt).

(** [POST /train_speaker]: the response and the task it schedules.  The
    handler reads the speaker through [list_speakers]. *)
Definition train_speaker (speaker_name : string) (epochs batch_size : Z)
    : M State (TrainResponse * M State unit) :=
  speaker_info <- gets (fun s => speakers_data s !! speaker_name) ;;
  match speaker_info with
  | None => raise (HTTPException 404 ("未找到说话者 '" +:+ speaker_name +:+ "'"))
  | Some info =>
      let audio_count := length (audio_files info) in
      if audio_count <? 3 then
        raise (HTTPException 400 ("训练需要至少3个音频样本，当前只有 "
                                  +:+ pretty audio_count +:+ " 个"))
      else
        ret (mkTrainResponse "success"
               ("开始训练说话者 '" +:+ speaker_name +:+ "' 的模型")
               speaker_name audio_count epochs
               (pretty (epochs * 1 - 2)%Z +:+ " 分钟")
               "训练在后台进行，请通过 /training_status/{speaker_name} 查询进度",
             train_task speaker_name epochs batch_size)
  end.

(** The JSON body of [POST /generate_audio]. *)
Record GenerateResponse : Type := mkGenerateResponse {
  ga_status : string;
  ga_message : string;
  ga_audio_url : string;
  ga_text : string;
  ga_speaker : string
}.

(** [POST /generate_audio] *)
Definition generate_audio (txt speaker_name language : string)
    : M State GenerateResponse :=
  try_except
    (output_path <- generate_speech X audio_gen txt speaker_name language ;;
     ex <- in_world (Os.exists_ output_path) ;;
     if negb ex then raise (HTTPException 500 "音频生成失败")
     else ret (mkGenerateResponse "success" "音频生成成功"
                 ("/download_audio/" +:+ OsPath.basename output_path)
                 txt speaker_name))
    (fun e => raise (HTTPException 500 ("音频生成失败: " +:+ str_exn e))).

(** [next((s for s in speakers if s["name"] == speaker_name), None)] *)
Definition find_speaker (speakers : list SpeakerSummary) (speaker_name : string)
    : option SpeakerSummary :=
  List.find (fun s => String.eqb (ss_name s) speaker_name) speakers.

(** One part of the multipart body of [POST /upload_audio]. *)
Record UploadFile : Type := mkUploadFile {
  uf_filename : string;
  uf_content : string
}.

Record UploadedItem : Type := mkUploadedItem {
  ui_filename : string;
  ui_saved_path : string;
  ui_duration : Q
}.

Record FailedItem : Type := mkFailedItem {
  fi_filename : string;
  fi_error : string
}.

(** The JSON body of [POST /upload_audio]. *)
Record UploadResponse : Type := mkUploadResponse {
  up_status : string;
  up_message : string;
  up_speaker_name : string;
  up_uploaded_count : nat;
  up_failed_count : nat;
  up_total_audio_count : nat;
  up_trained : bool;
  up_uploaded_files : list UploadedItem;
  up_failed_files : list FailedItem;
  up_recommendation : string
}.

(** [f"{failed_files}"]: Python's [repr] of the list of dictionaries. *)
Variable py_repr : list FailedItem -> string.

(** Lines 79-102: one round of the loop; the exception of a file is
    caught and recorded. *)
Definition upload_one (speaker_name : string) (file : UploadFile)
    : M State (UploadedItem + FailedItem) :=
  try_except
    (let file_extension := OsPath.splitext_ext (uf_filename file) in
     seed <- in_world Os.now ;;
     let unique_filename := speaker_name +:+ "_" +:+ uuid_hex8 X seed +:+ file_extension in
     let file_path := OsPath.join "uploads" unique_filename in
     in_world (Os.write_file file_path (uf_content file)) ;;;
     result <- process_reference_audio X file_path speaker_name ;;
     ret (inl (mkUploadedItem (uf_filename file) file_path (u_duration result))))
    (fun e => ret (inr (mkFailedItem (uf_filename file) (str_exn e)))).

(** Lines 78-102: the loop, giving [uploaded_files] and [failed_files]. *)
Fixpoint upload_loop (speaker_name : string) (files : list UploadFile)
    : M State (list UploadedItem * list FailedItem) :=
  match files with
  | [] => ret ([], [])
  | file :: rest =>
      r <- upload_one speaker_name file ;;
      rs <- upload_loop speaker_name rest ;;
      ret (match r with
           | inl u => (u :: fst rs, snd rs)
           | inr f => (fst rs, f :: snd rs)
           end)
  end.

(** [POST /upload_audio] *)
Definition upload_audio (files : list UploadFile) (speaker_name : string)
    : M State UploadResponse :=
  match files with
  | [] => raise (HTTPException 400 "请至少上传一个音频文件")
  | _ =>
      try_except
        (lists <- upload_loop speaker_name files ;;
         let uploaded_files := fst lists in
         let failed_files := snd lists in
         speakers <- gets list_speakers ;;
         let speaker_info := find_speaker speakers speaker_name in
         let total_uploaded := length uploaded_files in
         let total_failed := length failed_files in
         let total_audio_count :=
           match speaker_info with
           | Some i => ss_audio_count i
           | None => total_uploaded
           end in
         if total_uploaded =? 0 then
           raise (HTTPException 500 ("所有文件上传失败: " +:+ py_repr failed_files))
         else
           let message :=
             "成功上传 " +:+ pretty total_uploaded +:+ " 个音频文件！"
             +:+ (if 0 <? total_failed then " (" +:+ pretty total_failed +:+ " 个失败)"
                  else "")
             +:+ " 说话者 '" +:+ speaker_name +:+ "' 现有 "
             +:+ pretty total_audio_count +:+ " 个音频样本" in
           ret (mkUploadResponse "success" message speaker_name
                  total_uploaded total_failed total_audio_count
                  (match speaker_info with Some i => ss_trained i | None => false end)
                  uploaded_files failed_files
                  ("已上传 " +:+ pretty total_audio_count
                   +:+ " 个样本，推荐上传 10-15 个音频样本后进行训练")))
        (fun e =>
           match e with
           | HTTPException _ _ => raise e
           | _ => raise (HTTPException 500 ("批量上传失败: " +:+ str_exn e))
           end)
  end.

(** [GET /download_audio/{filename}]: the path handed to [FileResponse]. *)
Definition download_audio (filename : string) : M State string :=
  let file_path := OsPath.join "outputs" filename in
  ex <- in_world (Os.exists_ file_path) ;;
  if negb ex then raise (HTTPException 404 "文件不存在") else ret file_path.

(** The JSON body of [GET /list_speakers]. *)
Record ListResponse : Type := mkListResponse {
  ls_status : string;
  ls_speakers : list SpeakerSummary;
  ls_count : nat
}.

(** [GET /list_speakers] *)
Definition list_speakers (s : State) : ListResponse :=
  let speakers := list_speakers s in
  mkListResponse "success" speakers (length speakers).

(** The JSON body of [DELETE /delete_speaker/{speaker_name}]. *)
Record DeleteResponse : Type := mkDeleteResponse {
  dl_status : string;
  dl_message : string
}.

(** [DELETE /delete_speaker/{speaker_name}] *)
Definition delete_speaker (speaker_name : string) : M State DeleteResponse :=
  try_except
    (delete_speaker X speaker_name ;;;
     ret (mkDeleteResponse "success" ("已删除说话者 '" +:+ speaker_name +:+ "' 的数据")))
    (fun e => raise (HTTPException 500 ("删除失败: " +:+ str_exn e))).

(** The JSON body of [GET /training_status/{speaker_name}]. *)
Record StatusResponse : Type := mkStatusResponse {
  st_status : string;
  st_speaker_name : string;
  st_training_status : TrainingJob
}.

(** [GET /training_status/{speaker_name}] *)
Definition get_training_status (s : State) (speaker_name : string) : StatusResponse :=
  mkStatusResponse "success" speaker_name (get_training_status s speaker_name).

End Handlers.
End App.

(* ===================================================================== *)
(** * Vocabulary of the statements *)
(* ===================================================================== *)

(** A list paired with the positions of its elements: for a speaker's
    [audio_files] the position is the upload order. *)
Definition indexed {A} (l : list A) : list (nat * A) :=
  combine (seq 0 (length l)) l.

(** The ranking of [scored_audios] with every entry tagged by the
    position of its sample in [audio_files]. *)
Definition ranked (audio_files : list AudioSample) : list (nat * (Z * AudioSample)) :=
  sort_reverse (fun p => fst (snd p)) Z.ltb
    (map (fun p => (fst p, (_calculate_audio_quality_score (snd p), snd p)))
         (List.filter (fun p => eligible (snd p)) (indexed audio_files))).

(** [p] is ranked before [q]: a strictly higher score, or the same score
    and an earlier upload. *)
Definition ranks_before (p q : nat * (Z * AudioSample)) : Prop :=
  (fst (snd q) < fst (snd p))%Z \/ (fst (snd p) = fst (snd q) /\ fst p < fst q).


(** [w'] is [w] with some paths removed: paths outside [covered] are
    untouched, nothing is added, and only the file system changed. *)
Definition shrinks (covered : string -> Prop) (w w' : World) : Prop :=
  (forall p, ~ covered p -> fs w' !! p = fs w !! p)
  /\ (forall p, fs w !! p = None -> fs w' !! p = None)
  /\ clock w' = clock w /\ procs w' = procs w /\ console w' = console w.


(** One round of the two directory loops. *)
Definition purge_dir (d : string) : M World unit :=
  ex <- Os.exists_ d ;; if ex then Os.rmtree d else ret tt.

(** One round of the file loop. *)
Definition purge_file (f : string) : M World unit :=
  ex <- Os.exists_ f ;; if ex then Os.remove f else ret tt.


Definition purged_files (exp_dir : string) : list string :=
  map (OsPath.join exp_dir) old_files.

(** The text of a regular file. *)
Definition content_of (w : World) (p : string) : option string :=
  match fs w !! p with
  | Some (File c _) => Some c
  | _ => None
  end.


(** A train request is turned down: the handler answers with an error
    and schedules no task. *)
Definition request_rejected (X : Externals) (audio_gen : AudioGeneratorSoVITS)
    (s : State) (speaker_name : string) (epochs batch_size : Z) : Prop :=
  exists s' e, App.train_speaker X audio_gen speaker_name epochs batch_size s = (s', Raise e).

(** The world one tick of the clock later. *)
Definition tick (w : World) : World :=
  mkWorld (fs w) (S (clock w)) (procs w) (console w).

(** The path [generate_speech] chooses for its output. *)
Definition output_path_for (X : Externals) (s : State) (speaker_name : string) : string :=
  OsPath.join "outputs"
    (speaker_name +:+ "_" +:+ uuid_hex8 X (clock (world s)) +:+ ".wav").

(** The body [POST /generate_audio] answers with after a generation that
    wrote [output_path]. *)
Definition success_response (txt speaker_name output_path : string) : App.GenerateResponse :=
  App.mkGenerateResponse "success" "音频生成成功"
    ("/download_audio/" +:+ OsPath.basename output_path) txt speaker_name.

(** The caller can tell a placeholder from a real result: the two
    responses differ. *)
Definition tagged_as_degraded (placeholder real : App.GenerateResponse) : Prop :=
  placeholder <> real.

(** Running [m] from a state that satisfies [I] ends in a state that
    satisfies [I], whether [m] returns or raises, and a returned value
    satisfies [V]. *)
Definition keeps {S A : Type} (I : S -> Prop) (m : M S A) (V : A -> Prop) : Prop :=
  forall s s' r, I s -> m s = (s', r) -> I s' /\ forall a, r = Ok a -> V a.

(** The states the service can be in: it starts with no speaker and no
    job, and then serves uploads, training runs, deletions and generation
    requests, while other processes may change the files; it may be
    restarted, which loads a table it saved and forgets the jobs. *)
Inductive reachable (X : Externals) (self : AudioGeneratorSoVITS) : State -> Prop :=
| reach_start (w : World) : reachable X self (mkState w ∅ ∅)
| reach_upload s audio_path speaker_name s' r :
    reachable X self s ->
    process_reference_audio X audio_path speaker_name s = (s', r) ->
    reachable X self s'
| reach_train s speaker_name epochs batch_size s' r :
    reachable X self s ->
    train_speaker X self speaker_name epochs batch_size s = (s', r) ->
    reachable X self s'
| reach_delete s speaker_name s' r :
    reachable X self s ->
    delete_speaker X speaker_name s = (s', r) ->
    reachable X self s'
| reach_generate s txt speaker_name language s' r :
    reachable X self s ->
    generate_speech X self txt speaker_name language s = (s', r) ->
    reachable X self s'
| reach_files s (w : World) :
    reachable X self s ->
    reachable X self (mkState w (speakers_data s) (training_status s))
| reach_restart s (w : World) :
    reachable X self s ->
    reachable X self (mkState w (speakers_data s) ∅).


(** The two tables the consistency checks read. *)
Definition semantic_path (exp_dir : string) : string :=
  OsPath.join exp_dir "6-name2semantic-0.tsv".
Definition phoneme_path (exp_dir : string) : string :=
  OsPath.join exp_dir "2-name2text-0.txt".

(** The world after some lines were printed. *)
Definition logged (w : World) (lines : list string) : World :=
  mkWorld (fs w) (clock w) (procs w) (console w ++ lines).

(** The number of entries of the transcript manifest and the number of rows
    of the semantic table found in an experiment directory. *)
Definition transcript_entries (w : World) (exp_dir : string) : nat :=
  match content_of w (OsPath.join exp_dir "input_text.txt") with
  | Some c => length (expected_files_of c)
  | None => 0
  end.

Definition semantic_rows (X : Externals) (w : World) (exp_dir : string) : nat :=
  match content_of w (semantic_path exp_dir) with
  | Some c => match pd_read_csv X c with Some rows => length rows | None => 0 end
  | None => 0
  end.

(** A run whose semantic table disagrees with the transcript never gets
    to launch the stage-1 trainer, and ends with an error that names the
    consistency failure and carries the row-count delta. *)
Definition mismatch_aborts_with_delta (X : Externals) (tr : GPTSoVITSTrainer)
    (speaker_name : string) (files : list AudioSample) (w : World) : Prop :=
  let exp_dir := OsPath.join (exp_root tr) speaker_name in
  let run := train_speaker_complete X tr speaker_name files None 8 8 4 w in
  let entries := transcript_entries (fst run) exp_dir in
  let rows := semantic_rows X (fst run) exp_dir in
  entries <> rows ->
  ~ In (s1_cmd tr exp_dir) (procs (fst run))
  /\ exists r e,
       snd run = Ok r /\ r_status r = "failed" /\ r_error r = Some e
       /\ PyStr.contains "DataConsistencyError" e = true
       /\ PyStr.contains (pretty (Z.of_nat entries - Z.of_nat rows)%Z) e = true.

(** The stage-2 epoch count [_train_with_sovits_complete] derives from the
    requested one. *)
Definition stage2_epochs (epochs : Z) : Z :=
  Z.max 8 (PyFloat.to_int (PyFloat.mul (PyFloat.of_Z epochs) PyFloat.c0_67)).

(** How a run of the pipeline started in world [w] fails.  The stage
    that fails either reports it by its return value, and the error text is
    the fixed label of that stage, or raises, and the error text is the text
    of the exception.  The world is the one the failing stage left: no
    later stage runs. *)
Inductive pipeline_failure (X : Externals) (tr : GPTSoVITSTrainer)
    (speaker_name : string) (files : list AudioSample)
    (s1_epochs s2_epochs batch_size : Z) (w : World) : World -> string -> Prop :=
| staging_raised w1 e :
    prepare_training_data X tr speaker_name files None (tick w) = (w1, Raise e) ->
    pipeline_failure X tr speaker_name files s1_epochs s2_epochs batch_size w
      w1 (str_exn e)
| preprocessing_raised w1 exp_dir w2 e :
    prepare_training_data X tr speaker_name files None (tick w) = (w1, Ok exp_dir) ->
    run_data_preprocessing X tr exp_dir speaker_name w1 = (w2, Raise e) ->
    pipeline_failure X tr speaker_name files s1_epochs s2_epochs batch_size w
      w2 (str_exn e)
| preprocessing_reported w1 exp_dir w2 :
    prepare_training_data X tr speaker_name files None (tick w) = (w1, Ok exp_dir) ->
    run_data_preprocessing X tr exp_dir speaker_name w1 = (w2, Ok false) ->
    pipeline_failure X tr speaker_name files s1_epochs s2_epochs batch_size w
      w2 "数据预处理失败"
| stage1_raised w1 exp_dir w2 w3 e :
    prepare_training_data X tr speaker_name files None (tick w) = (w1, Ok exp_dir) ->
    run_data_preprocessing X tr exp_dir speaker_name w1 = (w2, Ok true) ->
    train_stage1_gpt X tr exp_dir speaker_name s1_epochs batch_size 5 w2 = (w3, Raise e) ->
    pipeline_failure X tr speaker_name files s1_epochs s2_epochs batch_size w
      w3 (str_exn e)
| stage1_reported w1 exp_dir w2 w3 :
    prepare_training_data X tr speaker_name files None (tick w) = (w1, Ok exp_dir) ->
    run_data_preprocessing X tr exp_dir speaker_name w1 = (w2, Ok true) ->
    train_stage1_gpt X tr exp_dir speaker_name s1_epochs batch_size 5 w2 = (w3, Ok None) ->
    pipeline_failure X tr speaker_name files s1_epochs s2_epochs batch_size w
      w3 "Stage 1 训练失败"
| stage2_raised w1 exp_dir w2 w3 gpt_model w4 e :
    prepare_training_data X tr speaker_name files None (tick w) = (w1, Ok exp_dir) ->
    run_data_preprocessing X tr exp_dir speaker_name w1 = (w2, Ok true) ->
    train_stage1_gpt X tr exp_dir speaker_name s1_epochs batch_size 5 w2
    = (w3, Ok (Some gpt_model)) ->
    train_stage2_sovits X tr exp_dir speaker_name s2_epochs batch_size 4 w3 = (w4, Raise e) ->
    pipeline_failure X tr speaker_name files s1_epochs s2_epochs batch_size w
      w4 (str_exn e)
| stage2_reported w1 exp_dir w2 w3 gpt_model w4 :
    prepare_training_data X tr speaker_name files None (tick w) = (w1, Ok exp_dir) ->
    run_data_preprocessing X tr exp_dir speaker_name w1 = (w2, Ok true) ->
    train_stage1_gpt X tr exp_dir speaker_name s1_epochs batch_size 5 w2
    = (w3, Ok (Some gpt_model)) ->
    train_stage2_sovits X tr exp_dir speaker_name s2_epochs batch_size 4 w3 = (w4, Ok None) ->
    pipeline_failure X tr speaker_name files s1_epochs s2_epochs batch_size w
      w4 "Stage 2 训练失败".

(** How a run of the pipeline started in world [w] completes: each stage
    returns its artifact, and the result records both. *)
Inductive pipeline_completion (X : Externals) (tr : GPTSoVITSTrainer)
    (speaker_name : string) (files : list AudioSample)
    (s1_epochs s2_epochs batch_size : Z) (w : World) : World -> TrainResult -> Prop :=
| all_stages_returned w1 exp_dir w2 w3 gpt_model w4 sovits_model :
    prepare_training_data X tr speaker_name files None (tick w) = (w1, Ok exp_dir) ->
    run_data_preprocessing X tr exp_dir speaker_name w1 = (w2, Ok true) ->
    train_stage1_gpt X tr exp_dir speaker_name s1_epochs batch_size 5 w2
    = (w3, Ok (Some gpt_model)) ->
    train_stage2_sovits X tr exp_dir speaker_name s2_epochs batch_size 4 w3
    = (w4, Ok (Some sovits_model)) ->
    pipeline_completion X tr speaker_name files s1_epochs s2_epochs batch_size w
      (tick w4)
      (mkTrainResult speaker_name "completed" (clock w) (Some gpt_model)
         (Some sovits_model) (Some exp_dir) None (Some (clock w4))).

(** The job of a speaker is [failed] and its error text names the stage
    and carries the detail. *)
Definition failed_with_stage_and_detail (s : State) (speaker_name stage_name detail : string)
    : Prop :=
  exists e t,
    get_training_status s speaker_name = Failed e t
    /\ PyStr.contains stage_name e = true
    /\ PyStr.contains detail e = true.

(** The artifacts a completed run of the pipeline for [speaker_name]
    returned, [w'] being the world at its completion. *)
Definition artifacts_of_run (X : Externals) (tr : GPTSoVITSTrainer)
    (speaker_name gpt sovits : string) (w' : World) : Prop :=
  exists files s1_epochs s2_epochs batch_size w r,
    pipeline_completion X tr speaker_name files s1_epochs s2_epochs batch_size w w' r
    /\ r_gpt_model r = Some gpt /\ r_sovits_model r = Some sovits.

(** Every speaker marked trained holds the two artifacts of a completed
    run. *)
Definition models_recorded (X : Externals) (self : AudioGeneratorSoVITS)
    (d : gmap string SpeakerInfo) : Prop :=
  forall name info,
    d !! name = Some info -> trained info = true ->
    exists tr mi gpt sovits w',
      trainer self = Some tr
      /\ model_info info = Some mi
      /\ gpt_model mi = Some gpt /\ sovits_model mi = Some sovits
      /\ artifacts_of_run X tr name gpt sovits w'.

(** Path [p] exists in world [w]. *)
Definition file_present (p : string) (w : World) : Prop := is_Some (fs w !! p).

(** The stage-2 trainer, a program outside this repository, deletes no
    file. *)
Definition stage2_trainer_keeps_files (X : Externals) (tr : GPTSoVITSTrainer) : Prop :=
  forall exp_dir env cwd (files : FS) p,
    is_Some (files !! p) ->
    is_Some (fst (run_process X (s2_cmd tr exp_dir) env cwd files) !! p).

(** The JSON document [_save_speakers_data] writes for a table. *)
Definition table_json (d : gmap string SpeakerInfo) : json :=
  JObj (map (fun kv => (fst kv, json_of_speaker (snd kv))) (map_to_list d)).

(** The store file holds the dump of the table of the state. *)
Definition persisted (X : Externals) (s : State) : Prop :=
  content_of (world s) speakers_file
  = Some (json_dumps X (table_json (speakers_data s))).

(** The entry [list_speakers] gives for a speaker. *)
Definition summary_of (name : string) (info : SpeakerInfo) : SpeakerSummary :=
  mkSpeakerSummary name (length (audio_files info)) (trained info) (created_at info)
    (trained_at info) (model_path info).


(** Between two worlds no process was launched and no path went away. *)
Definition grows (w w' : World) : Prop :=
  procs w' = procs w /\ forall p, file_present p w -> file_present p w'.

(** The entry of a speaker with one more sample, as
    [process_reference_audio] updates it. *)
Definition add_sample (a : AudioSample) (i : SpeakerInfo) : SpeakerInfo :=
  mkSpeakerInfo (audio_files i ++ [a]) (created_at i) (trained i) (model_path i)
    (model_info i) (trained_at i) (training_epochs i).

(** The entry [process_reference_audio] creates for an unknown speaker. *)
Definition new_speaker (t : nat) : SpeakerInfo :=
  mkSpeakerInfo [] t false None None None None.

(** The number of samples of a speaker, 0 for an unknown one. *)
Definition clip_count (d : gmap string SpeakerInfo) (name : string) : nat :=
  match d !! name with
  | Some i => length (audio_files i)
  | None => 0
  end.

(** The [trained] flag of a speaker, [False] for an unknown one. *)
Definition trained_flag (d : gmap string SpeakerInfo) (name : string) : bool :=
  match d !! name with
  | Some i => trained i
  | None => false
  end.

(** World [w'] is [w] after one file was written at [out]. *)
Definition writes_file (out : string) (w w' : World) : Prop :=
  exists content,
    w' = mkWorld (<[out := File content (clock w)]> (fs w)) (S (clock w)) (procs w)
           (console w).

(** The five programs a complete run of the pipeline launches, in order:
    the three preprocessing scripts, the stage-1 trainer and the stage-2
    trainer. *)
Definition pipeline_cmds (tr : GPTSoVITSTrainer) (exp_dir : string) : list (list string) :=
  [ preprocessing_cmd tr "GPT_SoVITS/prepare_datasets/1-get-text.py";
    preprocessing_cmd tr "GPT_SoVITS/prepare_datasets/2-get-hubert-wav32k.py";
    preprocessing_cmd tr "GPT_SoVITS/prepare_datasets/3-get-semantic.py";
    s1_cmd tr exp_dir;
    s2_cmd tr exp_dir ].

(** The document [_train_with_sovits_complete] writes to
    [model_info.json]. *)
Definition model_info_doc (speaker_name : string) (mi : ModelInfo) (exp_dir : option string)
    (audio_count : nat) (epochs : Z) (trained_at : nat) : json :=
  JObj [ ("speaker_name", JStr speaker_name);
         ("method", JStr "gpt_sovits_trained");
         ("gpt_model", json_of_option JStr (gpt_model mi));
         ("sovits_model", json_of_option JStr (sovits_model mi));
         ("exp_dir", json_of_option JStr exp_dir);
         ("audio_count", JInt (Z.of_nat audio_count));
         ("s1_epochs", JInt epochs);
         ("s2_epochs", JInt (stage2_epochs epochs));
         ("trained_at", JInt (Z.of_nat trained_at));
         ("quality_level", JStr "high") ].

(** What stage 2 needs from preprocessing, in world [w]: the resampled
    audio, the HuBERT features, and the text table under its final name or
    under the name preprocessing gave it. *)
Definition stage2_inputs (exp_dir : string) (w : World) : Prop :=
  file_present (OsPath.join exp_dir "5-wav32k") w
  /\ file_present (OsPath.join exp_dir "4-cnhubert") w
  /\ (file_present (OsPath.join exp_dir "2-name2text.txt") w
      \/ file_present (OsPath.join exp_dir "2-name2text-0.txt") w).

(** What holds of every entry of the table: the top-level [model_path]
    is never set; every sample is stored under the speaker's training
    directory with the base name of the original and carries no text; and
    the speaker is marked trained exactly when it holds a model-info, which
    then is the one [_train_with_sovits_complete] returns for it, together
    with a training time and an epoch count. *)
Definition entry_well_formed (name : string) (info : SpeakerInfo) : Prop :=
  model_path info = None
  /\ (forall a, In a (audio_files info) ->
        path a = OsPath.join (OsPath.join training_data_dir name)
                   (OsPath.basename (original_path a))
        /\ text a = None)
  /\ match model_info info with
     | Some mi =>
         trained info = true
         /\ is_Some (trained_at info) /\ is_Some (training_epochs info)
         /\ method mi = "gpt_sovits_trained"
         /\ mi_model_path mi = OsPath.join trained_models_dir name
     | None =>
         trained info = false /\ trained_at info = None /\ training_epochs info = None
     end.

(** Every entry of the table is well formed. *)
Definition table_well_formed (d : gmap string SpeakerInfo) : Prop :=
  forall name info, d !! name = Some info -> entry_well_formed name info.

(** The reading of the scorer in which the duration term measures how
    close a clip of the window lies to a sweet spot [c]: of two durations
    in [3,10], the one closer to [c] gets the strictly higher term. *)
Definition duration_term_centred_on (c : Q) : Prop :=
  forall d d' : Q,
    (3 <= d)%Q -> (d <= 10)%Q -> (3 <= d')%Q -> (d' <= 10)%Q ->
    (Qabs (d - c) < Qabs (d' - c))%Q -> (duration_bonus d' < duration_bonus d)%Z.

(** The inference service does not answer: no weight switch succeeds and
    no [/tts] call comes back with HTTP 200. *)
Definition service_down (X : Externals) : Prop :=
  (forall payload aux, api_tts X payload aux = None)
  /\ (forall kind p, api_set_weights X kind p = false).

(** [open(p, "w")] succeeds in world [w]: [p] is no directory and lies in
    an existing one. *)
Definition writable (w : World) (p : string) : bool :=
  negb (is_dir (fs w !! p))
  && (String.eqb (OsPath.dirname p) "" || is_dir (fs w !! OsPath.dirname p)).

(** The configuration template stage 1 loads. *)
Definition s1_template (tr : GPTSoVITSTrainer) : string :=
  OsPath.join (sovits_path tr) "GPT_SoVITS/configs/s1longer-v2.yaml".

(* ===================================================================== *)
(** * Scenarios *)
(* ===================================================================== *)

Definition sample_10s_32k : AudioSample :=
  mkAudioSample "models/training_data/alice/a.wav" "uploads/a.wav" 10 32000 0 None.

Definition samples_too_short_or_long : list AudioSample :=
  [ mkAudioSample "models/training_data/alice/a.wav" "uploads/a.wav" (25 # 10) 32000 0 None;
    mkAudioSample "models/training_data/alice/b.wav" "uploads/b.wav" 12 32000 1 None ].

(** Three more clips of the window, all recorded at 32000 Hz: 5 s, 7.9 s
    and 6.5 s, the middle of the window. *)
Definition sample_5s_32k : AudioSample :=
  mkAudioSample "models/training_data/alice/b.wav" "uploads/b.wav" 5 32000 1 None.

Definition sample_7_9s_32k : AudioSample :=
  mkAudioSample "models/training_data/alice/c.wav" "uploads/c.wav" (79 # 10) 32000 2 None.

Definition sample_6_5s_32k : AudioSample :=
  mkAudioSample "models/training_data/alice/d.wav" "uploads/d.wav" (13 # 2) 32000 3 None.

(** A deployment with simulated collaborators.  The preprocessing and
    training scripts are replaced by functions that leave behind the files
    the real ones write; how many rows they write, whether step 1b produces
    its audio directory and how the trainers exit is set by the scenario. *)
Module Demo.
Import PyStr.

Record Scenario : Type := mkScenario {
  phoneme_rows : nat;          (* rows step 1a writes to 2-name2text-0.txt *)
  semantic_rows : nat;         (* rows step 1c writes to 6-name2semantic-0.tsv *)
  makes_wav32k : bool;         (* step 1b creates 5-wav32k *)
  s1_returncode : Z;
  s2_returncode : Z
}.

Definition env_get (k : string) (env : list (string * string)) : string :=
  match List.find (fun kv => String.eqb (fst kv) k) env with
  | Some kv => snd kv
  | None => ""
  end.

Definition table (n : nat) (row : nat -> string) : string :=
  String.concat "" (map (fun i => row i +:+ NL) (seq 0 n)).

Definition TAB : string := String "009"%char EmptyString.

Definition phoneme_row (i : nat) : string :=
  "voice_" +:+ fmt_04d i +:+ ".wav" +:+ TAB +:+ "zh e4 sh ir4" +:+ TAB +:+ "2 2"
  +:+ TAB +:+ "这是".

Definition semantic_row (i : nat) : string :=
  "voice_" +:+ fmt_04d i +:+ ".wav" +:+ TAB +:+ "12 7 433 9".

Definition sim_process (sc : Scenario) (cmd : list string) (env : list (string * string))
    (cwd : option string) (fs : FS) : FS * (Z * string * string) :=
  let script := List.last cmd "" in
  let opt_dir := env_get "opt_dir" env in
  let exp_dir := OsPath.dirname (List.last cmd "") in
  if endswith "1-get-text.py" script then
    (<[OsPath.join opt_dir "2-name2text-0.txt" := File (table (phoneme_rows sc) phoneme_row) 100]>
       (<[OsPath.join opt_dir "3-bert" := Dir 100]> fs), (0%Z, "", ""))
  else if endswith "2-get-hubert-wav32k.py" script then
    (<[OsPath.join opt_dir "4-cnhubert" := Dir 101]>
       (if makes_wav32k sc then <[OsPath.join opt_dir "5-wav32k" := Dir 101]> fs else fs),
     (0%Z, "", ""))
  else if endswith "3-get-semantic.py" script then
    (<[OsPath.join opt_dir "6-name2semantic-0.tsv" := File (table (semantic_rows sc) semantic_row) 102]> fs,
     (0%Z, "", ""))
  else if existsb (endswith "s1_train.py") cmd then
    if (s1_returncode sc =? 0)%Z then
      (<[OsPath.join exp_dir "logs_s1/voice-e8.ckpt" := File "gpt-weights" 103]>
         (<[OsPath.join exp_dir "logs_s1/ckpt" := Dir 103]>
            (<[OsPath.join exp_dir "logs_s1" := Dir 103]> fs)), (0%Z, "", ""))
    else (fs, (s1_returncode sc, "", ""))
  else if existsb (endswith "s2_train.py") cmd then
    if (s2_returncode sc =? 0)%Z then
      (<[OsPath.join exp_dir ("logs_s2_v2/" +:+ OsPath.basename exp_dir +:+ "_e8.pth") := File "sovits-weights" 104]>
         (<[OsPath.join exp_dir "logs_s2_v2/G_233333.pth" := File "sovits-ckpt" 104]> fs),
       (0%Z, "", ""))
    else (fs, (s2_returncode sc, "", ""))
  else (fs, (127%Z, "", "")).

Definition sim_read_csv (content : string) : option (list (list string)) :=
  if String.eqb content "" then None
  else Some (map (split_on "009"%char)
                 (List.filter (fun l => negb (String.eqb l "")) (split_on "010"%char content))).

Definition sim_render (template : string) (settings : list (string * string)) : exn + string :=
  inr (template +:+ String.concat "" (map (fun kv => fst kv +:+ "=" +:+ snd kv +:+ NL) settings)).

Definition sim_librosa_load (raw : string) : exn + (Z * Z) :=
  if startswith "RIFF48k" raw then inr (240000%Z, 48000%Z)
  else if startswith "RIFF" raw then inr ((Z.of_nat (String.length raw) * 32000)%Z, 32000%Z)
  else inl (LibraryError "Format not recognised").

Definition externals (sc : Scenario) : Externals :=
  mkExternals
    (sim_process sc)
    (fun _ _ _ fs => (fs, inl (LibraryError "No module named 'faster_whisper'")))
    sim_read_csv
    sim_render
    sim_render
    (fun _ _ => Some ("8", "PK-unfinished"))
    None
    sim_librosa_load
    (fun _ => (160000%Z, "RIFF-resampled"))
    (fun _ => "{}")
    (fun n _ => "RIFF-silence-" +:+ pretty n)
    (fun n => "c0ffee" +:+ pretty n)
    (fun p => p)
    (fun _ _ => Some "RIFF-speech")
    (fun _ _ => true).

Definition the_trainer : GPTSoVITSTrainer :=
  mkTrainer "/srv/app" "/srv/app/GPT-SoVITS-main" "/usr/bin/python3".

Definition generator (api : bool) : AudioGeneratorSoVITS :=
  mkGenerator (Some the_trainer) api.

(** What is on disk once the service has started. *)
Definition deploy : M World unit :=
  Os.makedirs "/srv/app/GPT-SoVITS-main/GPT_SoVITS/configs" ;;;
  Os.write_file "/srv/app/GPT-SoVITS-main/GPT_SoVITS/configs/s1longer-v2.yaml" "train:" ;;;
  Os.write_file "/srv/app/GPT-SoVITS-main/GPT_SoVITS/configs/s2.json" "{}" ;;;
  Os.makedirs "/srv/app/training_experiments" ;;;
  Os.makedirs "models/training_data" ;;;
  Os.makedirs "models/trained_speakers" ;;;
  Os.makedirs "uploads" ;;;
  Os.makedirs "outputs".

Definition fresh : State :=
  mkState (fst (deploy (mkWorld ∅ 0 [] []))) ∅ ∅.

(** Upload [n] clips for speaker ["voice"]; clip [i] lasts [4 + i]
    seconds. *)
Definition upload_clip (sc : Scenario) (i : nat) : M State unit :=
  let p := "uploads/voice_clip" +:+ pretty i +:+ ".wav" in
  in_world (Os.write_file p ("RIFF" +:+ string_of_list_ascii (repeat "x"%char i))) ;;;
  _ <- process_reference_audio (externals sc) p "voice" ;; ret tt.

Definition with_clips (sc : Scenario) (n : nat) : State :=
  fst (for_each (seq 0 n) (upload_clip sc) fresh).

Definition exp_dir : string := "/srv/app/training_experiments/voice".
End Demo.

(** A second attempt for a speaker whose experiment directory still holds
    what an earlier attempt (with more clips, and a transcript typed in by
    hand) left there. *)
Module SecondAttempt.
Import Demo.

Definition scenario : Scenario := mkScenario 1 1 true 0 0.

Definition stale_audio : string := exp_dir +:+ "/input_wavs/voice_0007.wav".
Definition transcript_path : string := exp_dir +:+ "/input_text.txt".
Definition stale_checkpoint : string := exp_dir +:+ "/logs_s1/earlier-e8.ckpt".
Definition stale_feature : string := exp_dir +:+ "/3-bert/voice_0007.wav.pt".

Definition stale_transcript : string :=
  stale_audio +:+ "|voice|ZH|an annotation typed in by hand for the earlier attempt"
  +:+ PyStr.NL.

Definition leave_behind : M World unit :=
  Os.makedirs (exp_dir +:+ "/input_wavs") ;;;
  Os.write_file stale_audio "RIFF-earlier" ;;;
  Os.write_file transcript_path stale_transcript ;;;
  Os.makedirs (exp_dir +:+ "/logs_s1") ;;;
  Os.write_file stale_checkpoint "gpt-earlier" ;;;
  Os.makedirs (exp_dir +:+ "/3-bert") ;;;
  Os.write_file stale_feature "bert-earlier".

Definition before : State :=
  (let s := with_clips scenario 3 in
     mkState (fst (leave_behind (world s))) (speakers_data s) (training_status s)).

Definition clips : list AudioSample :=
  match speakers_data before !! "voice" with
  | Some i => audio_files i
  | None => []
  end.

Abbreviation run :=
  (train_speaker_complete (externals scenario) the_trainer "voice" clips None 8 8 4
     (world before)).

Abbreviation after_purge := (fst (purge_previous_outputs exp_dir (world before))).
End SecondAttempt.

(** A speaker with three clips whose first training request has just
    passed lines 200-205 of [train_speaker]: the tracker says [training]. *)
Module InFlight.
Import Demo.

Definition scenario : Scenario := mkScenario 3 3 true 0 0.

Definition state : State :=
  (fst ((start_time <- in_world Os.now ;;
           set_status "voice" (Training 0 start_time 8)) (with_clips scenario 3))).

(** The state once the task scheduled by a second request has run. *)
Definition after_second_task : State :=
  (match App.train_speaker (externals scenario) (generator true) "voice" 8 4 state with
     | (s, Ok (_, task)) => fst (task s)
     | (s, Raise _) => s
     end).
End InFlight.

(** A trained speaker, and one generation request served twice: with the
    inference service unreachable and with the service up. *)
Module Generation.
Import Demo.

Definition scenario : Scenario := mkScenario 3 3 true 0 0.

Definition trained_state : State :=
  (fst (train_speaker (externals scenario) (generator true) "voice" 8 4
            (with_clips scenario 3))).

Definition request_text : string := "你好世界 hello".

Abbreviation degraded :=
  (App.generate_audio (externals scenario) (generator false)
     request_text "voice" "zh-cn" trained_state).

Abbreviation real :=
  (App.generate_audio (externals scenario) (generator true)
     request_text "voice" "zh-cn" trained_state).
End Generation.

(** The first upload of a speaker: a clip recorded at 48000 Hz. *)
Module Upload48k.
Import Demo.

Definition scenario : Scenario := mkScenario 3 3 true 0 0.

Definition state : State :=
  mkState (fst (Os.write_file "uploads/voice_48k.wav" "RIFF48k-data" (world fresh))) ∅ ∅.

Abbreviation run :=
  (process_reference_audio (externals scenario) "uploads/voice_48k.wav" "voice" state).

Definition result : UploadResult :=
  Eval vm_compute in
  (match snd run with
     | Ok r => r
     | Raise _ => mkUploadResult 0 0 0 0 false
     end).
End Upload48k.

(** Ten clips, hence ten transcript entries, and a semantic table of
    eight rows; the phoneme table has eight rows in the first variant and
    ten in the second. *)
Module RowCounts.
Import Demo.

Definition eight_phonemes : Scenario := mkScenario 8 8 true 0 0.
Definition ten_phonemes : Scenario := mkScenario 10 8 true 0 0.

Definition state : State := with_clips eight_phonemes 10.

Definition clips : list AudioSample :=
  match speakers_data state !! "voice" with
  | Some i => audio_files i
  | None => []
  end.

Abbreviation run_eight :=
  (train_speaker_complete (externals eight_phonemes) the_trainer "voice" clips None 8 8 4
     (world state)).

Abbreviation run_ten :=
  (train_speaker_complete (externals ten_phonemes) the_trainer "voice" clips None 8 8 4
     (world state)).

(** The world in which the closing check of preprocessing and the
    validation of stage 1 run, in the second variant. *)
Definition preprocessed : World :=
  fst (run_data_preprocessing (externals ten_phonemes) the_trainer exp_dir "voice"
         (fst (prepare_training_data (externals ten_phonemes) the_trainer "voice" clips None
                 (tick (world state))))).

Definition expected : list string :=
  map (fun i => "voice_" +:+ PyStr.fmt_04d i +:+ ".wav") (seq 0 10).

Definition semantic_text : string := table 8 semantic_row.
Definition phoneme_text : string := table 10 phoneme_row.

Definition rows : list (list string) :=
  match sim_read_csv semantic_text with
  | Some r => r
  | None => []
  end.

(** The same world in the first variant, where the phoneme table has
    eight rows as well. *)
Definition preprocessed_eight : World :=
  fst (run_data_preprocessing (externals eight_phonemes) the_trainer exp_dir "voice"
         (fst (prepare_training_data (externals eight_phonemes) the_trainer "voice" clips None
                 (tick (world state))))).

Definition phoneme_text_eight : string := table 8 phoneme_row.
End RowCounts.

(** Three clips, and a pipeline that fails in three ways: the phoneme
    table disagrees with the semantic table, the stage-1 trainer exits with
    a non-zero code, and the stage-2 set-up finds no [5-wav32k]. *)
Module StageFailures.
Import Demo.

Definition rows_disagree : Scenario := mkScenario 2 3 true 0 0.
Definition trainer_exits : Scenario := mkScenario 3 3 true 1 0.
Definition no_wav32k : Scenario := mkScenario 3 3 false 0 0.

Definition state : State := with_clips rows_disagree 3.

Definition clips : list AudioSample :=
  match speakers_data state !! "voice" with
  | Some i => audio_files i
  | None => []
  end.

Abbreviation run sc := (train_speaker (externals sc) (generator true) "voice" 8 4 state).

Abbreviation pipeline sc :=
  (train_speaker_complete (externals sc) the_trainer "voice" clips None 8 (stage2_epochs 8) 4
     (tick (world state))).

(** The world stage 2 starts in when [5-wav32k] was not made. *)
Definition after_stage1 : World :=
  fst (train_stage1_gpt (externals no_wav32k) the_trainer exp_dir "voice" 8 4 5
         (fst (run_data_preprocessing (externals no_wav32k) the_trainer exp_dir "voice"
                 (fst (prepare_training_data (externals no_wav32k) the_trainer "voice" clips
                         None (tick (tick (world state)))))))).
End StageFailures.

(** A trained speaker none of whose samples lasts between 3 and 10
    seconds, with the inference service up. *)
Module NoEligibleClip.
Import Demo.

Definition scenario : Scenario := mkScenario 3 3 true 0 0.

Definition speaker : SpeakerInfo :=
  mkSpeakerInfo samples_too_short_or_long 0 true None
    (Some (mkModelInfo "models/trained_speakers/alice" (Some "/srv/gpt.ckpt")
             (Some "/srv/sovits.pth") "gpt_sovits_trained" "high"))
    (Some 1) (Some 8%Z).

Definition state : State :=
  mkState (world fresh) {[ "alice" := speaker ]} ∅.
End NoEligibleClip.

(** A weight directory that holds two exported weight files of the
    speaker, of epochs 8 and 12. *)
Module TwoWeights.
Import Demo.

Definition scenario : Scenario := mkScenario 3 3 true 0 0.

Definition logs_dir : string := OsPath.join exp_dir "logs_s2_v2".

Definition disk : World :=
  fst ((Os.makedirs logs_dir ;;;
        Os.write_file (OsPath.join logs_dir "voice_e8.pth") "weights-8" ;;;
        Os.write_file (OsPath.join logs_dir "voice_e12.pth") "weights-12" ;;;
        Os.write_file (OsPath.join logs_dir "G_233333333333.pth") "checkpoint")
         (world fresh)).
End TwoWeights.

(** A batch of four uploads for a new speaker, one of which is not
    audio. *)
Module BatchUpload.
Import Demo.

Definition scenario : Scenario := mkScenario 3 3 true 0 0.

Definition files : list App.UploadFile :=
  [ App.mkUploadFile "a.wav" "RIFFaaaa";
    App.mkUploadFile "notes.txt" "not audio";
    App.mkUploadFile "c.wav" "RIFFcccc";
    App.mkUploadFile "d.wav" "RIFFdddd" ].

Definition repr (failed : list App.FailedItem) : string :=
  "[" +:+ String.concat ", " (map App.fi_filename failed) +:+ "]".

Abbreviation run := (App.upload_audio (externals scenario) repr files "voice" fresh).
End BatchUpload.

(** A weight directory that holds checkpoints only. *)
Module OnlyCheckpoints.
Import Demo.

Definition scenario : Scenario := mkScenario 3 3 true 0 0.

Definition disk : World :=
  fst ((Os.makedirs TwoWeights.logs_dir ;;;
        Os.write_file (OsPath.join TwoWeights.logs_dir "G_100.pth") "checkpoint-100" ;;;
        Os.write_file (OsPath.join TwoWeights.logs_dir "D_100.pth") "discriminator" ;;;
        Os.write_file (OsPath.join TwoWeights.logs_dir "G_200.pth") "checkpoint-200" ;;;
        Os.write_file (OsPath.join exp_dir "s2_config.json") "{}")
         (world fresh)).
End OnlyCheckpoints.

(** The deployment of [Generation] at a moment the inference service does
    not answer. *)
Module ServiceDown.
Import Demo.

Definition externals : Externals :=
  let E := Demo.externals Generation.scenario in
  mkExternals (run_process E) (execute_asr E) (pd_read_csv E) (yaml_edit E) (json_edit E)
    (torch_convert E) (environ_pythonpath E) (librosa_load E) (resample_32k E)
    (json_dumps E) (sf_silence E) (uuid_hex8 E) (abspath E)
    (fun _ _ => None)
    (fun _ _ => false).
End ServiceDown.

(** A deployment whose stage-2 trainer, once done, clears the checkpoint
    stage 1 left in [logs_s1]. *)
Module Stage2Cleans.
Import Demo.

Definition gpt_path : string := "/srv/app/training_experiments/voice/logs_s1/voice-e8.ckpt".

(** The stage-2 program of this deployment removes the stage-1 checkpoint
    before it exits. *)
Definition sim_process (cmd : list string) (env : list (string * string))
    (cwd : option string) (fs : FS) : FS * (Z * string * string) :=
  let '(fs', out) := Demo.sim_process Generation.scenario cmd env cwd fs in
  if existsb (PyStr.endswith "s2_train.py") cmd then (delete gpt_path fs', out)
  else (fs', out).

Definition externals : Externals :=
  let E := Demo.externals Generation.scenario in
  mkExternals sim_process (execute_asr E) (pd_read_csv E) (yaml_edit E) (json_edit E)
    (torch_convert E) (environ_pythonpath E) (librosa_load E) (resample_32k E)
    (json_dumps E) (sf_silence E) (uuid_hex8 E) (abspath E) (api_tts E) (api_set_weights E).

Definition upload_clip (i : nat) : M State unit :=
  let p := "uploads/voice_clip" +:+ pretty i +:+ ".wav" in
  in_world (Os.write_file p ("RIFF" +:+ string_of_list_ascii (repeat "x"%char i))) ;;;
  _ <- process_reference_audio externals p "voice" ;; ret tt.

Definition state : State := fst (for_each (seq 0 3) upload_clip fresh).

Definition clips : list AudioSample :=
  match speakers_data state !! "voice" with
  | Some i => audio_files i
  | None => []
  end.

Abbreviation pipeline :=
  (train_speaker_complete externals the_trainer "voice" clips None 8 (stage2_epochs 8) 4
     (tick (world state))).

Definition trained_state : State :=
  fst (train_speaker externals (generator true) "voice" 8 4 state).
End Stage2Cleans.

(* ===================================================================== *)
(** * Properties *)
(* ===================================================================== *)

(** ** The quality score *)

Lemma Qle_bool_false (x y : Q) : Qle_bool x y = false -> (y < x)%Q.
Proof.
  intros H. apply Qnot_le_lt. intros Hle.
  apply Qle_bool_iff in Hle. congruence.
Qed.

Ltac q_cases :=
  repeat match goal with
         | H : (_ && _) = true |- _ => apply andb_prop in H; destruct H
         | H : Qle_bool _ _ = true |- _ => apply Qle_bool_iff in H
         | H : Qle_bool _ _ = false |- _ => apply Qle_bool_false in H
         | |- context [Qle_bool ?x ?y] => destruct (Qle_bool x y) eqn:?; simpl
         end.

Lemma eligible_spec (a : AudioSample) :
  eligible a = true <-> (3 <= duration a /\ duration a <= 10)%Q.
Proof.
  unfold eligible. rewrite andb_true_iff, !Qle_bool_iff. reflexivity.
Qed.

Lemma duration_bonus_bands (d : Q) :
  (3 <= d)%Q -> (d <= 10)%Q ->
  ((d == 10)%Q -> duration_bonus d = 30%Z) /\
  ((8 <= d)%Q -> (d < 10)%Q -> duration_bonus d = 20%Z) /\
  ((5 <= d)%Q -> (d < 8)%Q -> duration_bonus d = 10%Z) /\
  ((d < 5)%Q -> duration_bonus d = 0%Z).
Proof.
  intros H3 H10. unfold duration_bonus.
  repeat split; intros; q_cases; try reflexivity; try lra.
Qed.

Lemma duration_bonus_monotone (d d' : Q) :
  (d' <= d)%Q -> (d <= 10)%Q -> (duration_bonus d' <= duration_bonus d)%Z.
Proof.
  intros Hle H10. unfold duration_bonus.
  q_cases; try lia; try lra.
Qed.

Lemma sample_rate_bonus_cases (sr : Z) :
  ((32000 <= sr)%Z -> sample_rate_bonus sr = 20%Z) /\
  ((22050 <= sr < 32000)%Z -> sample_rate_bonus sr = 10%Z) /\
  ((sr < 22050)%Z -> sample_rate_bonus sr = 0%Z).
Proof.
  unfold sample_rate_bonus.
  repeat split; intros;
    destruct (Z.leb_spec 32000 sr); destruct (Z.leb_spec 22050 sr); lia.
Qed.

Lemma duration_bonus_range (d : Q) : (0 <= duration_bonus d <= 30)%Z.
Proof. unfold duration_bonus. q_cases; lia. Qed.

Lemma sample_rate_bonus_range (sr : Z) : (0 <= sample_rate_bonus sr <= 20)%Z.
Proof.
  unfold sample_rate_bonus.
  destruct (32000 <=? sr)%Z; [lia|]. destruct (22050 <=? sr)%Z; lia.
Qed.

(** No point is a sweet spot of the duration term. *)

Lemma Qabs_lt_of_bounds (x y : Q) :
  (- y < x)%Q -> (x < y)%Q -> (Qabs x < y)%Q.
Proof.
  intros H1 H2. apply Qabs_case; intros; lra.
Qed.

Lemma no_sweet_spot (c : Q) : ~ duration_term_centred_on c.
Proof.
  intros H.
  assert (B5 : duration_bonus 5 = 10%Z) by reflexivity.
  assert (B6 : duration_bonus 6 = 10%Z) by reflexivity.
  assert (B7 : duration_bonus 7 = 10%Z) by reflexivity.
  destruct (Q_dec c (11 # 2)) as [[Hlt|Hgt]|Heq].
  - assert (K : (duration_bonus 6 < duration_bonus 5)%Z).
    { apply H; try lra.
      rewrite (Qabs_pos (6 - c)) by lra. apply Qabs_lt_of_bounds; lra. }
    lia.
  - assert (K : (duration_bonus 5 < duration_bonus 6)%Z).
    { apply H; try lra.
      rewrite (Qabs_neg (5 - c)) by lra. apply Qabs_lt_of_bounds; lra. }
    lia.
  - assert (K : (duration_bonus 7 < duration_bonus 6)%Z).
    { apply H; try lra.
      rewrite (Qabs_pos (7 - c)) by lra. apply Qabs_lt_of_bounds; lra. }
    lia.
Qed.

(** C8 (as the code has it).  For an eligible sample (duration within
    [3,10] seconds) the score is the base 50 plus a duration term plus a
    sample-rate term, clamped to [0,100].  The sample-rate term is 20 from
    32000 Hz, 10 from 22050 Hz and 0 below.  The duration term is read off
    fixed bands: 30 at 10 s, 20 on [8,10), 10 on [5,8) and 0 on [3,5).  It
    is never lower for the longer of two eligible samples and is the same
    for all samples of one band, so it measures closeness to no sweet spot:
    whatever point [c] is chosen, some eligible sample closer to [c] than
    another does not get the higher term. *)
Theorem C8_quality_score (a : AudioSample) :
  eligible a = true ->
  _calculate_audio_quality_score a
    = Z.max 0 (Z.min (50 + duration_bonus (duration a) + sample_rate_bonus (sample_rate a)) 100)
  /\ (0 <= _calculate_audio_quality_score a <= 100)%Z
  /\ ((32000 <= sample_rate a)%Z -> sample_rate_bonus (sample_rate a) = 20%Z)
  /\ ((22050 <= sample_rate a < 32000)%Z -> sample_rate_bonus (sample_rate a) = 10%Z)
  /\ ((sample_rate a < 22050)%Z -> sample_rate_bonus (sample_rate a) = 0%Z)
  /\ ((duration a == 10)%Q -> duration_bonus (duration a) = 30%Z)
  /\ ((8 <= duration a)%Q -> (duration a < 10)%Q -> duration_bonus (duration a) = 20%Z)
  /\ ((5 <= duration a)%Q -> (duration a < 8)%Q -> duration_bonus (duration a) = 10%Z)
  /\ ((duration a < 5)%Q -> duration_bonus (duration a) = 0%Z)
  /\ (forall b, eligible b = true ->
        (duration b <= duration a)%Q ->
        (duration_bonus (duration b) <= duration_bonus (duration a))%Z)
  /\ (forall c : Q, ~ duration_term_centred_on c).
Proof.
  intros He. apply eligible_spec in He. destruct He as [H3 H10].
  pose proof (duration_bonus_range (duration a)) as Hd.
  pose proof (sample_rate_bonus_range (sample_rate a)) as Hs.
  pose proof (sample_rate_bonus_cases (sample_rate a)) as (S1 & S2 & S3).
  pose proof (duration_bonus_bands (duration a) H3 H10) as (D1 & D2 & D3 & D4).
  unfold _calculate_audio_quality_score.
  repeat (split; [first [assumption | lia]|]).
  split; [|exact no_sweet_spot].
  intros b Hb Hle. now apply duration_bonus_monotone.
Qed.

Lemma C8_quality_score_witness :
  eligible sample_10s_32k = true /\ _calculate_audio_quality_score sample_10s_32k = 100%Z.
Proof.
  split; [reflexivity|].
  destruct (C8_quality_score sample_10s_32k eq_refl) as [H _].
  rewrite H. reflexivity.
Defined.

(** C8, as stated, fails.  Clips of 5 s and of 7.9 s get the same score
    although the second is closer to 10 s, where the term is highest; and a
    clip of 6.5 s, the middle of the window, scores 80 where one of 10 s, at
    its edge, scores 100. *)
Lemma C8_closer_not_higher :
  eligible sample_5s_32k = true /\ eligible sample_7_9s_32k = true
  /\ eligible sample_6_5s_32k = true /\ eligible sample_10s_32k = true
  /\ _calculate_audio_quality_score sample_5s_32k = 80%Z
  /\ _calculate_audio_quality_score sample_7_9s_32k = 80%Z
  /\ _calculate_audio_quality_score sample_6_5s_32k = 80%Z
  /\ _calculate_audio_quality_score sample_10s_32k = 100%Z
  /\ ~ duration_term_centred_on 10
  /\ ~ duration_term_centred_on (13 # 2).
Proof.
  repeat (split; [reflexivity|]). split.
  - intros H.
    assert (K : (duration_bonus 5 < duration_bonus (79 # 10))%Z).
    { apply H; try lra.
      rewrite (Qabs_neg (5 - 10)) by lra. apply Qabs_lt_of_bounds; lra. }
    assert (B5 : duration_bonus 5 = 10%Z) by reflexivity.
    assert (B79 : duration_bonus (79 # 10) = 10%Z) by reflexivity.
    lia.
  - intros H.
    assert (K : (duration_bonus 10 < duration_bonus (13 # 2))%Z).
    { apply H; try lra.
      rewrite (Qabs_pos (10 - (13 # 2))) by lra. apply Qabs_lt_of_bounds; lra. }
    assert (B10 : duration_bonus 10 = 30%Z) by reflexivity.
    assert (B65 : duration_bonus (13 # 2) = 10%Z) by reflexivity.
    lia.
Qed.

(** ** Sorting *)

Section SortFacts.
Context {A K : Type} (key : A -> K) (ltb : K -> K -> bool).

Lemma insert_desc_perm (x : A) (l : list A) :
  Permutation (insert_desc key ltb x l) (x :: l).
Proof.
  induction l as [|y l IH]; simpl; [reflexivity|].
  destruct (ltb (key x) (key y)); [|reflexivity].
  rewrite IH. apply perm_swap.
Qed.

Lemma sort_reverse_perm (l : list A) : Permutation (sort_reverse key ltb l) l.
Proof.
  induction l as [|x l IH]; simpl; [reflexivity|].
  rewrite insert_desc_perm. now constructor.
Qed.

Lemma sort_reverse_In (x : A) (l : list A) :
  In x (sort_reverse key ltb l) <-> In x l.
Proof.
  split; apply Permutation_in;
    [apply sort_reverse_perm | symmetry; apply sort_reverse_perm].
Qed.

Lemma sort_reverse_length (l : list A) :
  length (sort_reverse key ltb l) = length l.
Proof. apply Permutation_length, sort_reverse_perm. Qed.

Lemma sort_reverse_hd_In (d : A) (l : list A) :
  l <> [] -> In (List.hd d (sort_reverse key ltb l)) l.
Proof.
  intros Hne. apply sort_reverse_In.
  destruct (sort_reverse key ltb l) as [|y ys] eqn:E.
  - apply (f_equal (@length A)) in E. rewrite sort_reverse_length in E.
    destruct l; [congruence | discriminate].
  - now left.
Qed.

Lemma insert_desc_map {B : Type} (f : B -> A) (x : B) (l : list B) :
  map f (insert_desc (fun b => key (f b)) ltb x l)
  = insert_desc key ltb (f x) (map f l).
Proof.
  induction l as [|y l IH]; simpl; [reflexivity|].
  destruct (ltb (key (f x)) (key (f y))); simpl; [now rewrite IH | reflexivity].
Qed.

Lemma sort_reverse_map {B : Type} (f : B -> A) (l : list B) :
  map f (sort_reverse (fun b => key (f b)) ltb l) = sort_reverse key ltb (map f l).
Proof.
  induction l as [|x l IH]; simpl; [reflexivity|].
  now rewrite insert_desc_map, IH.
Qed.
End SortFacts.

(** Sorting position-tagged entries by an integer score: the result is
    ordered by [before], i.e. by descending score and, among equal scores,
    by ascending position. *)
Section StableRanking.
Context {A : Type} (score : A -> Z).

Let before (p q : nat * A) : Prop :=
  (score (snd q) < score (snd p))%Z \/ (score (snd p) = score (snd q) /\ fst p < fst q).

Lemma insert_desc_sorted (x : nat * A) (l : list (nat * A)) :
  StronglySorted before l ->
  Forall (fun y => fst x < fst y) l ->
  StronglySorted before (insert_desc (fun p => score (snd p)) Z.ltb x l).
Proof.
  intros Hs Hidx. induction Hs as [|y l Hs IH Hy]; simpl.
  - repeat constructor.
  - inversion Hidx as [|? ? Hxy Hidx']; subst.
    destruct (Z.ltb_spec (score (snd x)) (score (snd y))) as [Hlt|Hge].
    + constructor; [now apply IH|].
      eapply Permutation_Forall; [symmetry; apply insert_desc_perm|].
      constructor; [left; assumption | assumption].
    + constructor; [now constructor|].
      constructor.
      * unfold before. destruct (Z.eq_dec (score (snd x)) (score (snd y))); [right|left]; lia.
      * rewrite List.Forall_forall in *. intros z Hz.
        specialize (Hy z Hz). specialize (Hidx' z Hz). unfold before in *.
        destruct Hy as [Hy|[Hy _]];
          destruct (Z.eq_dec (score (snd x)) (score (snd z))); (right; lia) || (left; lia).
Qed.

Lemma sort_reverse_sorted (l : list (nat * A)) :
  StronglySorted (fun p q => fst p < fst q) l ->
  StronglySorted before (sort_reverse (fun p => score (snd p)) Z.ltb l).
Proof.
  induction 1 as [|x l Hs IH Hx]; simpl; [constructor|].
  apply insert_desc_sorted; [assumption|].
  eapply Permutation_Forall; [symmetry; apply sort_reverse_perm | assumption].
Qed.
End StableRanking.

(** ** The reference ranking *)

Lemma In_combine_seq {A : Type} (l : list A) (n i : nat) (a : A) :
  In (i, a) (combine (seq n (length l)) l) <-> n <= i /\ nth_error l (i - n) = Some a.
Proof.
  revert n. induction l as [|x l IH]; intros n; simpl.
  - split; [tauto|]. intros [_ H]. destruct (i - n); discriminate.
  - rewrite IH. split.
    + intros [H | [Hle H]].
      * inversion H; subst. rewrite Nat.sub_diag. split; [lia | reflexivity].
      * split; [lia|]. replace (i - n) with (S (i - S n)) by lia. exact H.
    + intros [Hle H]. destruct (i - n) as [|k] eqn:E.
      * left. simpl in H. inversion H. f_equal. lia.
      * right. split; [lia|]. replace (i - S n) with k by lia. exact H.
Qed.

Lemma In_indexed {A : Type} (l : list A) (i : nat) (a : A) :
  In (i, a) (indexed l) <-> nth_error l i = Some a.
Proof.
  unfold indexed. rewrite In_combine_seq, Nat.sub_0_r.
  split; [tauto | intros; split; [lia | assumption]].
Qed.

Lemma combine_seq_sorted {A : Type} (l : list A) (n : nat) :
  StronglySorted (fun p q : nat * A => fst p < fst q) (combine (seq n (length l)) l).
Proof.
  revert n. induction l as [|x l IH]; intros n; simpl; constructor; [apply IH|].
  apply List.Forall_forall. intros [i a] Hin. apply In_combine_seq in Hin. simpl. lia.
Qed.

Lemma map_snd_combine_seq {A : Type} (l : list A) (n : nat) :
  map snd (combine (seq n (length l)) l) = l.
Proof. revert n. induction l; intros n; simpl; [reflexivity | now rewrite IHl]. Qed.

Lemma StronglySorted_filter {A : Type} (R : A -> A -> Prop) (f : A -> bool) (l : list A) :
  StronglySorted R l -> StronglySorted R (List.filter f l).
Proof.
  induction 1 as [|x l Hs IH Hx]; simpl; [constructor|].
  destruct (f x); [|assumption]. constructor; [assumption|].
  apply List.Forall_forall. intros y Hy. apply filter_In in Hy.
  rewrite List.Forall_forall in Hx. apply Hx, Hy.
Qed.

Lemma StronglySorted_map_fst {A B : Type} (g : nat * A -> nat * B) (l : list (nat * A)) :
  (forall p, fst (g p) = fst p) ->
  StronglySorted (fun p q => fst p < fst q) l ->
  StronglySorted (fun p q => fst p < fst q) (map g l).
Proof.
  intros Hg. induction 1 as [|x l Hs IH Hx]; simpl; constructor; [assumption|].
  apply List.Forall_forall. intros y Hy. apply in_map_iff in Hy. destruct Hy as (z & <- & Hz).
  rewrite !Hg. rewrite List.Forall_forall in Hx. now apply Hx.
Qed.

Lemma map_snd_filter_snd {A : Type} (f : A -> bool) (l : list (nat * A)) :
  map snd (List.filter (fun p => f (snd p)) l) = List.filter f (map snd l).
Proof.
  induction l as [|[i a] l IH]; simpl; [reflexivity|].
  destruct (f a); simpl; now rewrite IH.
Qed.

Lemma ranked_erase (audio_files : list AudioSample) :
  map snd (ranked audio_files) = scored_audios audio_files.
Proof.
  unfold ranked, scored_audios.
  rewrite (sort_reverse_map fst Z.ltb snd).
  f_equal. rewrite map_map. simpl.
  rewrite <- (map_map snd (fun a => (_calculate_audio_quality_score a, a))).
  f_equal. rewrite map_snd_filter_snd. f_equal.
  apply map_snd_combine_seq.
Qed.

Lemma ranked_In (audio_files : list AudioSample) (i : nat) (s : Z) (a : AudioSample) :
  In (i, (s, a)) (ranked audio_files) <->
  nth_error audio_files i = Some a /\ eligible a = true
  /\ s = _calculate_audio_quality_score a.
Proof.
  unfold ranked. rewrite sort_reverse_In, in_map_iff. split.
  - intros ([j b] & Heq & Hin). simpl in Heq. inversion Heq; subst.
    apply filter_In in Hin. destruct Hin as [Hin He].
    apply In_indexed in Hin. auto.
  - intros (Hn & He & ->). exists (i, a). split; [reflexivity|].
    apply filter_In. split; [now apply In_indexed | exact He].
Qed.

Lemma ranked_sorted (audio_files : list AudioSample) :
  StronglySorted ranks_before (ranked audio_files).
Proof.
  unfold ranked.
  apply (sort_reverse_sorted (A:=Z * AudioSample) fst).
  apply StronglySorted_map_fst; [reflexivity|].
  apply StronglySorted_filter, combine_seq_sorted.
Qed.

Lemma scored_audios_length (audio_files : list AudioSample) :
  length (scored_audios audio_files) = length (List.filter eligible audio_files).
Proof. unfold scored_audios. now rewrite sort_reverse_length, length_map. Qed.

Lemma filter_length_le {A : Type} (f : A -> bool) (l : list A) :
  length (List.filter f l) <= length l.
Proof. induction l; simpl; [lia|]. destruct (f a); simpl; lia. Qed.

Lemma select_best_of_ranking (audio_files : list AudioSample) best rest :
  scored_audios audio_files = best :: rest ->
  _select_best_reference_audio audio_files = Ok (snd best).
Proof.
  intros Hs. pose proof (scored_audios_length audio_files) as Hl.
  rewrite Hs in Hl. simpl in Hl.
  unfold _select_best_reference_audio. rewrite Hs.
  destruct audio_files as [|x xs]; [discriminate|].
  destruct (List.filter eligible (x :: xs)); [discriminate | reflexivity].
Qed.

Lemma select_aux_of_ranking (audio_files : list AudioSample) best rest count :
  scored_audios audio_files = best :: rest ->
  _select_auxiliary_references audio_files count
  = map snd (firstn (Nat.min count (length rest)) rest).
Proof.
  intros Hs. pose proof (scored_audios_length audio_files) as Hl.
  pose proof (filter_length_le eligible audio_files) as Hle.
  rewrite Hs in Hl. simpl in Hl.
  unfold _select_auxiliary_references. rewrite Hs, <- Hl.
  assert (Hlen : length (best :: rest) - 1 = length rest) by (simpl; lia).
  rewrite Hlen. change (List.tl (best :: rest)) with rest.
  destruct (Nat.leb_spec (length audio_files) 1) as [H1|H1].
  - assert (length rest = 0) as -> by lia. rewrite Nat.min_0_r. reflexivity.
  - destruct (Nat.leb_spec (S (length rest)) 1) as [H2|H2]; [|reflexivity].
    assert (length rest = 0) as -> by lia. rewrite Nat.min_0_r. reflexivity.
Qed.

(** C7.  The ranking is a function of the sample list alone.  It lists
    exactly the eligible samples, ordered by descending score, and two
    samples of equal score keep their upload order.  The primary reference
    is the head of the ranking, hence the earliest-uploaded sample of
    maximal score; the auxiliary references are the next
    [min(count, len - 1)] entries of the same ranking. *)
Theorem C7_ranking_deterministic (audio_files : list AudioSample) :
  map snd (ranked audio_files) = scored_audios audio_files
  /\ (forall i s a,
        In (i, (s, a)) (ranked audio_files) <->
        nth_error audio_files i = Some a /\ eligible a = true
        /\ s = _calculate_audio_quality_score a)
  /\ StronglySorted ranks_before (ranked audio_files)
  /\ (forall best rest,
        scored_audios audio_files = best :: rest ->
        _select_best_reference_audio audio_files = Ok (snd best)
        /\ forall count,
             _select_auxiliary_references audio_files count
             = map snd (firstn (Nat.min count (length rest)) rest))
  /\ (forall i s a rest,
        ranked audio_files = (i, (s, a)) :: rest ->
        _select_best_reference_audio audio_files = Ok a
        /\ forall j b,
             nth_error audio_files j = Some b -> eligible b = true ->
             (_calculate_audio_quality_score b <= _calculate_audio_quality_score a)%Z
             /\ (_calculate_audio_quality_score b = _calculate_audio_quality_score a -> i <= j))
  /\ (forall other,
        other = audio_files ->
        _select_best_reference_audio other = _select_best_reference_audio audio_files
        /\ forall count,
             _select_auxiliary_references other count
             = _select_auxiliary_references audio_files count).
Proof.
  split; [apply ranked_erase|].
  split; [apply ranked_In|].
  split; [apply ranked_sorted|].
  split; [intros best rest Hs; split;
          [eapply select_best_of_ranking | intros; eapply select_aux_of_ranking]; eassumption|].
  split; [|intros other ->; split; reflexivity].
  intros i s a rest Hr.
  pose proof (ranked_erase audio_files) as He. rewrite Hr in He. simpl in He.
  split; [apply (select_best_of_ranking _ (s, a) (map snd rest)); now symmetry|].
  intros j b Hj Hb.
  assert (Hhead : In (i, (s, a)) (ranked audio_files)) by (rewrite Hr; now left).
  apply ranked_In in Hhead. destruct Hhead as (_ & _ & ->).
  assert (Hin : In (j, (_calculate_audio_quality_score b, b)) (ranked audio_files))
    by (apply ranked_In; auto).
  pose proof (ranked_sorted audio_files) as Hsorted. rewrite Hr in Hsorted, Hin.
  inversion Hsorted as [|? ? _ Hall]; subst.
  destruct Hin as [Heq | Hin].
  - inversion Heq; subst. split; [lia | intros; lia].
  - rewrite List.Forall_forall in Hall. specialize (Hall _ Hin).
    unfold ranks_before in Hall. simpl in Hall. lia.
Qed.

(** ** Reference selection without an eligible sample *)

Lemma filter_none {A : Type} (f : A -> bool) (l : list A) :
  (forall a, In a l -> f a = false) -> List.filter f l = [].
Proof.
  induction l as [|x l IH]; intros H; simpl; [reflexivity|].
  rewrite (H x) by now left. apply IH. intros a Ha. apply H. now right.
Qed.

(** Whatever is selected passed the filter: it is one of the candidates
    and its duration lies in [3,10]. *)
Lemma select_best_within_window (audio_files : list AudioSample) (a : AudioSample) :
  _select_best_reference_audio audio_files = Ok a ->
  In a audio_files /\ (3 <= duration a)%Q /\ (duration a <= 10)%Q.
Proof.
  intros Hsel.
  pose proof (ranked_erase audio_files) as He.
  destruct (ranked audio_files) as [|[i [s b]] rest] eqn:Hr; simpl in He.
  - unfold _select_best_reference_audio in Hsel. rewrite <- He in Hsel.
    destruct audio_files as [|x xs]; [discriminate|].
    destruct (List.filter eligible (x :: xs)); discriminate.
  - symmetry in He. rewrite (select_best_of_ranking _ _ _ He) in Hsel.
    simpl in Hsel. inversion Hsel; subst.
    assert (H : In (i, (s, a)) (ranked audio_files)) by (rewrite Hr; now left).
    apply ranked_In in H. destruct H as (Hn & Hel & _).
    split; [eapply nth_error_In; eassumption | now apply eligible_spec].
Qed.



(** ** Reasoning about monadic code *)

Section MonadFacts.
Context {S : Type}.

Lemma bind_eq {A B} (m : M S A) (k : A -> M S B) (s : S) :
  bind m k s = match m s with
               | (s', Ok a) => k a s'
               | (s', Raise e) => (s', Raise e)
               end.
Proof. reflexivity. Qed.

Lemma try_except_eq {A} (m : M S A) (h : exn -> M S A) (s : S) :
  try_except m h s = match m s with
                     | (s', Ok a) => (s', Ok a)
                     | (s', Raise e) => h e s'
                     end.
Proof. reflexivity. Qed.

Lemma bind_ret {A B} (a : A) (k : A -> M S B) (s : S) : bind (ret a) k s = k a s.
Proof. reflexivity. Qed.

Lemma bind_gets {A B} (f : S -> A) (k : A -> M S B) (s : S) :
  bind (gets f) k s = k (f s) s.
Proof. reflexivity. Qed.

Lemma bind_modify {B} (f : S -> S) (k : unit -> M S B) (s : S) :
  bind (modify f) k s = k tt (f s).
Proof. reflexivity. Qed.

Lemma bind_raise {A B} (e : exn) (k : A -> M S B) (s : S) :
  bind (raise e) k s = (s, Raise e).
Proof. reflexivity. Qed.

Lemma bind_ok_inv {A B} (m : M S A) (k : A -> M S B) (s s' : S) (b : B) :
  bind m k s = (s', Ok b) ->
  exists s1 a, m s = (s1, Ok a) /\ k a s1 = (s', Ok b).
Proof.
  rewrite bind_eq. destruct (m s) as [s1 [a|e]]; [eauto | discriminate].
Qed.

(** A handler that always raises lets a normal result through only. *)
Lemma try_except_ok_inv {A} (m : M S A) (h : exn -> M S A) (s s' : S) (a : A) :
  (forall e s1 s2 x, h e s1 <> (s2, Ok x)) ->
  try_except m h s = (s', Ok a) -> m s = (s', Ok a).
Proof.
  intros Hh. rewrite try_except_eq. destruct (m s) as [s1 [x|e]]; [auto|].
  intros H. exfalso. eapply Hh, H.
Qed.
End MonadFacts.

(** A run is determined by its end state and its result. *)
Lemma run_eq {S A : Type} (x : S * Res A) (r : Res A) : snd x = r -> x = (fst x, r).
Proof. destruct x. simpl. now intros ->. Qed.

(** Case analysis on the first action of a [bind] or [try_except]. *)
Ltac bind_inv H :=
  lazymatch type of H with
  | bind ?m ?k ?s = _ =>
      let E := fresh "E" in
      rewrite (bind_eq m k s) in H;
      destruct (m s) as [? [?|?]] eqn:E
  | try_except ?m ?h ?s = _ =>
      let E := fresh "E" in
      rewrite (try_except_eq m h s) in H;
      destruct (m s) as [? [?|?]] eqn:E
  end.

Ltac inv_pair H := unfold ret, raise in H; inversion H; subst; clear H.

Ltac destruct_units :=
  repeat match goal with u : unit |- _ => destruct u end.

(** The primitive operations, as equations. *)
Lemma exists_eq (p : string) (w : World) :
  Os.exists_ p w = (w, Ok (bool_decide (is_Some (fs w !! p)))).
Proof. reflexivity. Qed.

Lemma now_eq (w : World) :
  Os.now w = (mkWorld (fs w) (S (clock w)) (procs w) (console w), Ok (clock w)).
Proof. reflexivity. Qed.

Lemma print_eq (line : string) (w : World) :
  Os.print line w = (mkWorld (fs w) (clock w) (procs w) (console w ++ [line]), Ok tt).
Proof. reflexivity. Qed.

Lemma read_file_eq (p : string) (w : World) :
  Os.read_file p w = match fs w !! p with
                     | Some (File c _) => (w, Ok c)
                     | Some (Dir _) => (w, Raise (IsADirectoryError p))
                     | None => (w, Raise (FileNotFoundError p))
                     end.
Proof.
  unfold Os.read_file. rewrite bind_gets.
  destruct (fs w !! p) as [[?|?]|]; reflexivity.
Qed.

Lemma getsize_eq (p : string) (w : World) :
  Os.getsize p w = match fs w !! p with
                   | Some (File c _) => (w, Ok (String.length c))
                   | Some (Dir _) => (w, Ok 4096)
                   | None => (w, Raise (FileNotFoundError p))
                   end.
Proof.
  unfold Os.getsize. rewrite bind_gets.
  destruct (fs w !! p) as [[?|?]|]; reflexivity.
Qed.

Lemma write_file_eq (p content : string) (w : World) :
  Os.write_file p content w =
  match fs w !! p with
  | Some (Dir _) => (w, Raise (IsADirectoryError p))
  | _ =>
      if String.eqb (OsPath.dirname p) "" || is_dir (fs w !! OsPath.dirname p) then
        (mkWorld (<[p := File content (clock w)]> (fs w)) (S (clock w)) (procs w) (console w),
         Ok tt)
      else match fs w !! OsPath.dirname p with
           | Some _ => (w, Raise (NotADirectoryError p))
           | None => (w, Raise (FileNotFoundError p))
           end
  end.
Proof.
  unfold Os.write_file. rewrite !bind_gets.
  destruct (fs w !! p) as [[?|?]|];
    destruct (String.eqb (OsPath.dirname p) "" || is_dir (fs w !! OsPath.dirname p));
    try reflexivity; destruct (fs w !! OsPath.dirname p); reflexivity.
Qed.

Lemma write_file_ok (p content : string) (w w' : World) (u : unit) :
  Os.write_file p content w = (w', Ok u) ->
  w' = mkWorld (<[p := File content (clock w)]> (fs w)) (S (clock w)) (procs w) (console w).
Proof.
  rewrite write_file_eq.
  destruct (fs w !! p) as [[c t|t]|];
    try discriminate;
    (destruct (String.eqb (OsPath.dirname p) "" || is_dir (fs w !! OsPath.dirname p));
     [intros H; now inversion H | destruct (fs w !! OsPath.dirname p); discriminate]).
Qed.

Lemma rmtree_eq (d : string) (w : World) :
  Os.rmtree d w = match fs w !! d with
                  | Some (Dir _) =>
                      (set_fs (filter (fun kv => under d (fst kv) = false)) w, Ok tt)
                  | Some (File _ _) => (w, Raise (NotADirectoryError d))
                  | None => (w, Raise (FileNotFoundError d))
                  end.
Proof.
  unfold Os.rmtree. rewrite bind_gets.
  destruct (fs w !! d) as [[?|?]|]; reflexivity.
Qed.

Lemma remove_eq (p : string) (w : World) :
  Os.remove p w = match fs w !! p with
                  | Some (File _ _) => (set_fs (delete p) w, Ok tt)
                  | Some (Dir _) => (w, Raise (IsADirectoryError p))
                  | None => (w, Raise (FileNotFoundError p))
                  end.
Proof.
  unfold Os.remove. rewrite bind_gets.
  destruct (fs w !! p) as [[?|?]|]; reflexivity.
Qed.

Lemma listdir_eq (d : string) (w : World) :
  Os.listdir d w = match fs w !! d with
                   | Some (Dir _) =>
                       (w, Ok (omap (fun kv => entry_name d (fst kv)) (map_to_list (fs w))))
                   | Some (File _ _) => (w, Raise (NotADirectoryError d))
                   | None => (w, Raise (FileNotFoundError d))
                   end.
Proof.
  unfold Os.listdir. rewrite bind_gets.
  destruct (fs w !! d) as [[?|?]|]; reflexivity.
Qed.

(** ** What the purge removes and what it keeps *)

Lemma shrinks_refl (covered : string -> Prop) (w : World) : shrinks covered w w.
Proof. repeat split; auto. Qed.

Lemma shrinks_trans (c1 c2 : string -> Prop) (w1 w2 w3 : World) :
  shrinks c1 w1 w2 -> shrinks c2 w2 w3 -> shrinks (fun p => c1 p \/ c2 p) w1 w3.
Proof.
  intros (A1 & B1 & C1 & D1 & E1) (A2 & B2 & C2 & D2 & E2).
  repeat split; try congruence.
  - intros p Hp. rewrite A2, A1; tauto.
  - intros p Hp. apply B2, B1, Hp.
Qed.

Lemma under_refl (d : string) : under d d = true.
Proof. unfold under. now rewrite String.eqb_refl. Qed.

Lemma rmtree_lookup_under (d p : string) (m : FS) :
  under d p = true ->
  filter (fun kv : string * node => under d (fst kv) = false) m !! p = None.
Proof.
  intros Hu. apply map_lookup_filter_None. right. intros x _. simpl. congruence.
Qed.

Lemma rmtree_lookup_other (d p : string) (m : FS) :
  under d p = false ->
  filter (fun kv : string * node => under d (fst kv) = false) m !! p = m !! p.
Proof.
  intros Hu. destruct (m !! p) as [x|] eqn:E.
  - apply map_lookup_filter_Some. auto.
  - apply map_lookup_filter_None. now left.
Qed.

Lemma rmtree_lookup_none (d p : string) (m : FS) :
  m !! p = None ->
  filter (fun kv : string * node => under d (fst kv) = false) m !! p = None.
Proof. intros H. apply map_lookup_filter_None. now left. Qed.

(** Paths built from a common base. *)
Lemma append_assoc (a b c : string) : (a +:+ b) +:+ c = a +:+ (b +:+ c).
Proof.
  induction a as [|x a IH]; [reflexivity|].
  change (String x ((a +:+ b) +:+ c) = String x (a +:+ (b +:+ c))).
  now rewrite IH.
Qed.





Lemma shrinks_weaken (c c' : string -> Prop) (w w' : World) :
  (forall p, c p -> c' p) -> shrinks c w w' -> shrinks c' w w'.
Proof. intros Hc (A & B & C). repeat split; try tauto. intros p Hp. apply A. auto. Qed.

Lemma purge_dir_step (d : string) (w w' : World) :
  purge_dir d w = (w', Ok tt) ->
  shrinks (fun p => under d p = true) w w'
  /\ fs w' !! d = None
  /\ (is_Some (fs w !! d) -> forall p, under d p = true -> fs w' !! p = None).
Proof.
  unfold purge_dir. rewrite bind_eq, exists_eq. case_bool_decide as Hex.
  - rewrite rmtree_eq. destruct (fs w !! d) as [[c t|t]|] eqn:E; try discriminate.
    intros H. inv_pair H. split; [|split].
    + repeat split; simpl; auto.
      * intros p Hp. apply rmtree_lookup_other. now destruct (under d p).
      * intros p Hp. now apply rmtree_lookup_none.
    + simpl. apply rmtree_lookup_under, under_refl.
    + intros _ p Hp. simpl. now apply rmtree_lookup_under.
  - intros H. inv_pair H. split; [apply shrinks_refl|]. split.
    + destruct (fs w' !! d) eqn:E; [|reflexivity]. exfalso. apply Hex. eauto.
    + intros Hs. contradiction.
Qed.

Lemma purge_file_step (f : string) (w w' : World) :
  purge_file f w = (w', Ok tt) ->
  shrinks (fun p => p = f) w w' /\ fs w' !! f = None.
Proof.
  unfold purge_file. rewrite bind_eq, exists_eq. case_bool_decide as Hex.
  - rewrite remove_eq. destruct (fs w !! f) as [[c t|t]|] eqn:E; try discriminate.
    intros H. inv_pair H. split.
    + repeat split; simpl; auto.
      * intros p Hp. now apply lookup_delete_ne.
      * intros p Hp. destruct (decide (f = p)) as [->|Hne];
          [apply lookup_delete_eq | now rewrite lookup_delete_ne].
    + simpl. apply lookup_delete_eq.
  - intros H. inv_pair H. split; [apply shrinks_refl|].
    destruct (fs w' !! f) eqn:E; [|reflexivity]. exfalso. apply Hex. eauto.
Qed.

Lemma purge_dir_loop (ds : list string) (w w' : World) :
  for_each ds purge_dir w = (w', Ok tt) ->
  shrinks (fun p => exists d, In d ds /\ under d p = true) w w'
  /\ (forall d, In d ds -> fs w' !! d = None)
  /\ (forall d p, In d ds ->
        (forall d0, In d0 ds -> d0 <> d -> under d0 d = false) ->
        is_Some (fs w !! d) -> under d p = true -> fs w' !! p = None).
Proof.
  revert w. induction ds as [|d0 ds IH]; intros w H; simpl in H.
  - inv_pair H. split; [apply shrinks_refl|]. split; intros; contradiction.
  - bind_inv H; [|discriminate]. destruct_units.
    apply purge_dir_step in E. destruct E as (S1 & G1 & U1).
    apply IH in H. destruct H as (S2 & G2 & U2).
    split; [|split].
    + eapply shrinks_weaken; [|eapply shrinks_trans; eassumption].
      intros p [Hp | (d & Hd & Hp)]; [exists d0 | exists d]; simpl; auto.
    + intros d [<- | Hd]; [|auto]. now apply S2.
    + intros d p Hd Hsep Hex Hp.
      destruct (decide (d0 = d)) as [->|Hne].
      * apply S2. now apply U1.
      * destruct Hd as [Heq | Hd]; [contradiction|].
        apply (U2 d p Hd); [intros; apply Hsep; simpl; auto | | exact Hp].
        destruct S1 as (A1 & _). rewrite A1; [exact Hex|].
        rewrite (Hsep d0); simpl; auto.
Qed.

Lemma purge_file_loop (fl : list string) (w w' : World) :
  for_each fl purge_file w = (w', Ok tt) ->
  shrinks (fun p => In p fl) w w' /\ (forall f, In f fl -> fs w' !! f = None).
Proof.
  revert w. induction fl as [|f0 fl IH]; intros w H; simpl in H.
  - inv_pair H. split; [apply shrinks_refl | intros; contradiction].
  - bind_inv H; [|discriminate]. destruct_units.
    apply purge_file_step in E. destruct E as (S1 & G1).
    apply IH in H. destruct H as (S2 & G2).
    split.
    + eapply shrinks_weaken; [|eapply shrinks_trans; eassumption].
      intros p [-> | Hp]; simpl; auto.
    + intros f [<- | Hf]; [|auto]. now apply S2.
Qed.

Lemma purge_previous_outputs_eq (exp_dir : string) (w : World) :
  purge_previous_outputs exp_dir w =
  (for_each (map (OsPath.join exp_dir) feature_subdirs) purge_dir ;;;
   for_each (map (OsPath.join exp_dir) checkpoint_subdirs) purge_dir ;;;
   for_each (purged_files exp_dir) purge_file) w.
Proof. reflexivity. Qed.





(** ** A train request while a job is in flight *)

Lemma handler_accepts (X : Externals) (audio_gen : AudioGeneratorSoVITS) (s : State)
    (speaker_name : string) (epochs batch_size : Z) (info : SpeakerInfo) :
  speakers_data s !! speaker_name = Some info ->
  3 <= length (audio_files info) ->
  exists response,
    App.train_speaker X audio_gen speaker_name epochs batch_size s
    = (s, Ok (response, App.train_task X audio_gen speaker_name epochs batch_size))
    /\ App.tr_status response = "success".
Proof.
  intros Hinfo Hcount.
  assert (Hlt : (length (audio_files info) <? 3) = false) by (apply Nat.ltb_ge; lia).
  eexists. unfold App.train_speaker. rewrite bind_gets, Hinfo, Hlt.
  split; reflexivity.
Qed.

(** C2 (as the code has it).  Neither the handler nor [train_speaker] looks
    at the tracker.  For a speaker with at least three clips whose entry is
    [training], the handler answers [success] and schedules the task, and
    [train_speaker] overwrites the entry with a fresh [training] one and
    runs the guarded block, exactly as it does when no job was ever
    started. *)
Theorem C2_request_during_training
    (X : Externals) (audio_gen : AudioGeneratorSoVITS) (s : State)
    (speaker_name : string) (epochs batch_size : Z) (info : SpeakerInfo)
    (progress : Z) (started : nat) (total : Z) :
  speakers_data s !! speaker_name = Some info ->
  3 <= length (audio_files info) ->
  training_status s !! speaker_name = Some (Training progress started total) ->
  (exists response,
      App.train_speaker X audio_gen speaker_name epochs batch_size s
      = (s, Ok (response, App.train_task X audio_gen speaker_name epochs batch_size))
      /\ App.tr_status response = "success")
  /\ train_speaker X audio_gen speaker_name epochs batch_size s
     = train_speaker_guarded X audio_gen speaker_name epochs batch_size
         (length (audio_files info))
         (mkState (tick (world s)) (speakers_data s)
            (<[speaker_name := Training 0 (clock (world s)) epochs]> (training_status s)))
  /\ train_speaker X audio_gen speaker_name epochs batch_size s
     = train_speaker X audio_gen speaker_name epochs batch_size
         (mkState (world s) (speakers_data s) (delete speaker_name (training_status s))).
Proof.
  intros Hinfo Hcount _.
  assert (Hlt : (length (audio_files info) <? 3) = false) by (apply Nat.ltb_ge; lia).
  split; [|split].
  - eapply handler_accepts; eassumption.
  - unfold train_speaker. rewrite bind_gets, Hinfo. cbv zeta. rewrite Hlt.
    reflexivity.
  - unfold train_speaker. rewrite !bind_gets. cbn [speakers_data].
    rewrite Hinfo. cbv zeta. rewrite Hlt.
    rewrite !bind_eq. unfold in_world. cbn [world speakers_data training_status].
    rewrite now_eq. unfold set_status, modify.
    cbn [world speakers_data training_status].
    rewrite !bind_eq. cbn beta iota. cbn [world speakers_data training_status].
    now rewrite insert_delete_eq.
Qed.

Lemma C2_request_during_training_witness :
  exists response,
    App.train_speaker (Demo.externals InFlight.scenario) (Demo.generator true) "voice" 8 4
      InFlight.state
    = (InFlight.state,
       Ok (response,
           App.train_task (Demo.externals InFlight.scenario) (Demo.generator true) "voice" 8 4))
    /\ App.tr_status response = "success".
Proof.
  assert (Hs : exists info, speakers_data InFlight.state !! "voice" = Some info
                            /\ 3 <= length (audio_files info))
    by (eexists; split; [vm_compute; reflexivity | vm_compute; lia]).
  destruct Hs as (info & Hinfo & Hcount).
  assert (Ht : training_status InFlight.state !! "voice" = Some (Training 0 27 8))
    by (vm_compute; reflexivity).
  exact (proj1 (C2_request_during_training (Demo.externals InFlight.scenario)
                  (Demo.generator true) InFlight.state "voice" 8 4 info 0 27 8
                  Hinfo Hcount Ht)).
Defined.

(** C2, as stated, fails: with the tracker at [training] a second request
    is not rejected, and the task it schedules launches the whole pipeline
    again, in the same experiment directory. *)
Lemma C2_second_request_not_rejected :
  status (get_training_status InFlight.state "voice") = "training"
  /\ ~ request_rejected (Demo.externals InFlight.scenario) (Demo.generator true)
        InFlight.state "voice" 8 4
  /\ procs (world InFlight.state) = []
  /\ map (fun cmd => List.last cmd "") (procs (world InFlight.after_second_task))
     = [ "/srv/app/GPT-SoVITS-main/GPT_SoVITS/prepare_datasets/1-get-text.py";
         "/srv/app/GPT-SoVITS-main/GPT_SoVITS/prepare_datasets/2-get-hubert-wav32k.py";
         "/srv/app/GPT-SoVITS-main/GPT_SoVITS/prepare_datasets/3-get-semantic.py";
         "/srv/app/training_experiments/voice/s1_config.yaml";
         "/srv/app/training_experiments/voice/s2_config.json" ].
Proof.
  split; [vm_compute; reflexivity|].
  split; [|split; vm_compute; reflexivity].
  intros (s' & e & H).
  destruct (handler_accepts (Demo.externals InFlight.scenario) (Demo.generator true)
              InFlight.state "voice" 8 4
              (default (mkSpeakerInfo [] 0 false None None None None)
                 (speakers_data InFlight.state !! "voice")))
    as (response & Hok & _);
    [vm_compute; reflexivity | vm_compute; lia |].
  rewrite Hok in H. congruence.
Qed.

(** ** Generation while the inference service is unreachable *)

Lemma in_world_eq {A} (m : M World A) (s : State) :
  in_world m s = (mkState (fst (m (world s))) (speakers_data s) (training_status s),
                  snd (m (world s))).
Proof. unfold in_world. now destruct (m (world s)). Qed.

Lemma placeholder_duration_clamped (txt language : string) :
  (1 <= placeholder_duration txt language)%Q
  /\ (placeholder_duration txt language <= 30)%Q
  /\ ((estimated_duration txt language < 1)%Q ->
      (placeholder_duration txt language == 1)%Q)
  /\ ((1 <= estimated_duration txt language)%Q ->
      (estimated_duration txt language <= 30)%Q ->
      (placeholder_duration txt language == estimated_duration txt language)%Q)
  /\ ((30 < estimated_duration txt language)%Q ->
      (placeholder_duration txt language == 30)%Q).
Proof.
  unfold placeholder_duration, PyFloat.py_max, PyFloat.py_min.
  destruct (Qlt_le_dec 30 (estimated_duration txt language));
    [destruct (Qlt_le_dec 1 30) | destruct (Qlt_le_dec 1 (estimated_duration txt language))];
    repeat split; intros; lra.
Qed.

Lemma generate_speech_ok (X : Externals) (self : AudioGeneratorSoVITS)
    (txt speaker_name language : string) (s s' : State) (out : string) :
  generate_speech X self txt speaker_name language s = (s', Ok out) ->
  out = output_path_for X s speaker_name
  /\ exists info,
       speakers_data s !! speaker_name = Some info /\ trained info = true
       /\ (api_available self = false ->
           in_world (_generate_placeholder X txt info out (language_mapping language))
             (mkState (tick (world s)) (speakers_data s) (training_status s))
           = (s', Ok tt)).
Proof.
  unfold generate_speech. rewrite bind_gets.
  destruct (speakers_data s !! speaker_name) as [info|] eqn:Hinfo; [|discriminate].
  destruct (trained info) eqn:Htr; [|discriminate]. cbn [negb].
  rewrite bind_eq, in_world_eq, now_eq. cbn [fst snd].
  intros H. apply try_except_ok_inv in H; [|intros; discriminate].
  bind_inv H; [|discriminate]. destruct_units. inv_pair H.
  split; [reflexivity|]. exists info. repeat split; auto.
  intros Hapi. rewrite Hapi, andb_false_r in E. exact E.
Qed.

Lemma generate_audio_ok (X : Externals) (self : AudioGeneratorSoVITS)
    (txt speaker_name language : string) (s s' : State) (resp : App.GenerateResponse) :
  App.generate_audio X self txt speaker_name language s = (s', Ok resp) ->
  resp = success_response txt speaker_name (output_path_for X s speaker_name)
  /\ exists s1,
       generate_speech X self txt speaker_name language s
       = (s1, Ok (output_path_for X s speaker_name))
       /\ world s' = world s1.
Proof.
  unfold App.generate_audio. intros H.
  apply try_except_ok_inv in H; [|intros; discriminate].
  bind_inv H; [|discriminate].
  pose proof (generate_speech_ok _ _ _ _ _ _ _ _ E) as (-> & _).
  rewrite bind_eq, in_world_eq, exists_eq in H. cbn [fst snd] in H.
  destruct (negb _); [discriminate|]. inv_pair H.
  split; [reflexivity|]. eexists. split; [first [eassumption | reflexivity] | reflexivity].
Qed.

(** With the service down both client calls report failure and write
    nothing. *)

Lemma api_generate_speech_down (X : Externals) (payload : list (string * string))
    (aux : list string) (out : string) (w : World) :
  service_down X -> api_generate_speech X payload aux out w = (w, Ok false).
Proof. intros [Htts _]. unfold api_generate_speech. now rewrite Htts. Qed.

Lemma api_generate_with_trained_model_down (X : Externals)
    (gpt_model_path sovits_model_path : string) (payload : list (string * string))
    (ref_audio_path : string) (aux : list string) (out : string) (w : World) :
  service_down X ->
  api_generate_with_trained_model X gpt_model_path sovits_model_path payload
    ref_audio_path aux out w = (w, Ok false).
Proof.
  intros [_ Hset]. unfold api_generate_with_trained_model, Os.exists_.
  rewrite !bind_gets, !Hset. cbn [negb].
  repeat match goal with |- context [if negb ?b then _ else _] => destruct b; cbn [negb] end;
    reflexivity.
Qed.

Lemma generate_audio_service_down (X : Externals) (self : AudioGeneratorSoVITS)
    (txt speaker_name language : string) (s : State) (info : SpeakerInfo) :
  api_available self = true -> service_down X ->
  speakers_data s !! speaker_name = Some info -> trained info = true ->
  exists msg,
    App.generate_audio X self txt speaker_name language s
    = (mkState (tick (world s)) (speakers_data s) (training_status s),
       Raise (HTTPException 500 ("音频生成失败: " +:+ ("语音合成失败: " +:+ msg)))).
Proof.
  intros Hapi Hdown Hinfo Htr.
  assert (Hroute : exists e,
             (if match model_info info with
                 | Some m => String.eqb (method m) "gpt_sovits_trained"
                 | None => false
                 end && api_available self
              then in_world (_generate_with_trained_model X txt
                               (default (mkModelInfo "" None None "" "") (model_info info))
                               info (output_path_for X s speaker_name)
                               (language_mapping language))
              else if api_available self
                   then in_world (_generate_with_api_reference X txt info
                                    (output_path_for X s speaker_name)
                                    (language_mapping language))
                   else in_world (_generate_placeholder X txt info
                                    (output_path_for X s speaker_name)
                                    (language_mapping language)))
               (mkState (tick (world s)) (speakers_data s) (training_status s))
             = (mkState (tick (world s)) (speakers_data s) (training_status s), Raise e)).
  { rewrite Hapi, andb_true_r.
    destruct (match model_info info with Some m => _ | None => false end).
    - rewrite in_world_eq. cbn [world speakers_data training_status].
      unfold _generate_with_trained_model.
      destruct (_ || _); [eexists; reflexivity|].
      destruct (_select_best_reference_audio (audio_files info)) as [best|e];
        [|eexists; reflexivity].
      cbv zeta. rewrite bind_eq, api_generate_with_trained_model_down by assumption.
      eexists; reflexivity.
    - rewrite in_world_eq. cbn [world speakers_data training_status].
      unfold _generate_with_api_reference.
      destruct (_select_best_reference_audio (audio_files info)) as [best|e];
        [|eexists; reflexivity].
      cbv zeta. rewrite bind_eq, api_generate_speech_down by assumption.
      eexists; reflexivity. }
  destruct Hroute as (e & Hroute). exists (str_exn e).
  unfold App.generate_audio. rewrite try_except_eq, bind_eq.
  unfold generate_speech. rewrite bind_gets, Hinfo, Htr. cbn [negb].
  rewrite bind_eq, in_world_eq, now_eq. cbn [fst snd].
  rewrite try_except_eq, bind_eq.
  fold (tick (world s)). fold (output_path_for X s speaker_name).
  rewrite Hroute. reflexivity.
Qed.

(** C9 (as the code has it).  With a generator that found the inference
    service unreachable when it started ([api_available] is false) and a
    trained speaker, generation writes a silent clip of
    [int(duration * 32000)] samples at 32000 Hz, where [duration] is the
    estimate (0.3 s per character when the normalised language code starts
    with [zh], 0.2 s per white-space separated word otherwise) clamped to
    [1, 30] seconds.  The response is the plain success response: it is the
    one any generator, with the service up or down, answers with for that
    request.  With a generator that found the service when it started, and
    the service down when the request comes, the same request gets no
    placeholder: it is answered HTTP 500 and no file is written. *)
Theorem C9_placeholder_generation
    (X : Externals) (self : AudioGeneratorSoVITS) (s s' : State)
    (txt speaker_name language : string) (resp : App.GenerateResponse) :
  api_available self = false ->
  App.generate_audio X self txt speaker_name language s = (s', Ok resp) ->
  let lang := language_mapping language in
  let d := placeholder_duration txt lang in
  let out := output_path_for X s speaker_name in
  (PyStr.startswith "zh" lang = true ->
     estimated_duration txt lang
     = PyFloat.mul (PyFloat.of_Z (Z.of_nat (PyStr.len txt))) PyFloat.c0_3)
  /\ (PyStr.startswith "zh" lang = false ->
     estimated_duration txt lang
     = PyFloat.mul (PyFloat.of_Z (Z.of_nat (PyStr.split_ws_count txt))) PyFloat.c0_2)
  /\ (1 <= d)%Q /\ (d <= 30)%Q
  /\ ((estimated_duration txt lang < 1)%Q -> (d == 1)%Q)
  /\ ((1 <= estimated_duration txt lang)%Q -> (estimated_duration txt lang <= 30)%Q ->
      (d == estimated_duration txt lang)%Q)
  /\ ((30 < estimated_duration txt lang)%Q -> (d == 30)%Q)
  /\ content_of (world s') out
     = Some (sf_silence X (PyFloat.to_int (PyFloat.mul d 32000)) 32000)
  /\ resp = success_response txt speaker_name out
  /\ (forall self' s'' resp',
        App.generate_audio X self' txt speaker_name language s = (s'', Ok resp') ->
        resp' = resp)
  /\ (forall self',
        api_available self' = true -> service_down X ->
        exists s1 msg,
          App.generate_audio X self' txt speaker_name language s
          = (s1, Raise (HTTPException 500
                          ("音频生成失败: " +:+ ("语音合成失败: " +:+ msg))))
          /\ fs (world s1) = fs (world s)).
Proof.
  intros Hapi Hgen lang d out.
  pose proof (placeholder_duration_clamped txt lang) as (B1 & B2 & B3 & B4 & B5).
  apply generate_audio_ok in Hgen. destruct Hgen as (-> & s1 & Hsp & Hw).
  apply generate_speech_ok in Hsp. destruct Hsp as (_ & info & Hinfo & Htr & Hph).
  split; [unfold estimated_duration; now intros ->|].
  split; [unfold estimated_duration; now intros ->|].
  repeat (split; [assumption|]).
  split; [|split; [reflexivity|split]].
  - specialize (Hph Hapi). rewrite in_world_eq in Hph.
    unfold _generate_placeholder in Hph. fold lang d out in Hph.
    destruct (Os.write_file out _ _) as [w1 r1] eqn:Hwr in Hph.
    cbn [fst snd] in Hph. inv_pair Hph.
    apply write_file_ok in Hwr. subst w1.
    unfold content_of. rewrite Hw. cbn [world fs]. now rewrite lookup_insert_eq.
  - intros self' s'' resp' H. apply generate_audio_ok in H. now destruct H as (-> & _).
  - intros self' Hup Hdown.
    destruct (generate_audio_service_down X self' txt speaker_name language s info
                Hup Hdown Hinfo Htr) as (msg & Hrun).
    do 2 eexists. split; [exact Hrun | reflexivity].
Qed.

Lemma C9_placeholder_generation_witness :
  api_available (Demo.generator false) = false
  /\ snd Generation.degraded
     = Ok (success_response Generation.request_text "voice" "outputs/voice_c0ffee46.wav")
  /\ content_of (world (fst Generation.degraded))
       (output_path_for (Demo.externals Generation.scenario) Generation.trained_state "voice")
     = Some (sf_silence (Demo.externals Generation.scenario)
               (PyFloat.to_int
                  (PyFloat.mul
                     (placeholder_duration Generation.request_text (language_mapping "zh-cn"))
                     32000)) 32000)
  /\ service_down ServiceDown.externals
  /\ (exists s1 msg,
        App.generate_audio ServiceDown.externals (Demo.generator true)
          Generation.request_text "voice" "zh-cn" Generation.trained_state
        = (s1, Raise (HTTPException 500
                        ("音频生成失败: " +:+ ("语音合成失败: " +:+ msg))))
        /\ fs (world s1) = fs (world Generation.trained_state))
  /\ snd (App.generate_audio ServiceDown.externals (Demo.generator true)
            Generation.request_text "voice" "zh-cn" Generation.trained_state)
     = Raise (HTTPException 500 "音频生成失败: 语音合成失败: API 生成失败").
Proof.
  assert (Hres : snd Generation.degraded
                 = Ok (success_response Generation.request_text "voice"
                         "outputs/voice_c0ffee46.wav"))
    by (vm_compute; reflexivity).
  assert (Hres' : snd (App.generate_audio ServiceDown.externals (Demo.generator false)
                         Generation.request_text "voice" "zh-cn" Generation.trained_state)
                  = Ok (success_response Generation.request_text "voice"
                          "outputs/voice_c0ffee46.wav"))
    by (vm_compute; reflexivity).
  assert (Hdown : service_down ServiceDown.externals) by (split; intros; reflexivity).
  split; [reflexivity|]. split; [exact Hres|].
  split.
  { exact (proj1 (proj2 (proj2 (proj2 (proj2 (proj2 (proj2 (proj2
      (C9_placeholder_generation (Demo.externals Generation.scenario)
         (Demo.generator false) _ _ _ _ _ _ eq_refl (run_eq _ _ Hres)))))))))). }
  split; [exact Hdown|].
  split; [|vm_compute; reflexivity].
  destruct (C9_placeholder_generation ServiceDown.externals
              (Demo.generator false) _ _ _ _ _ _ eq_refl (run_eq _ _ Hres'))
    as (_ & _ & _ & _ & _ & _ & _ & _ & _ & _ & Hlast).
  exact (Hlast (Demo.generator true) eq_refl Hdown).
Defined.

(** C9, as stated, fails: the response to a request served by the
    placeholder is equal to the response the same request gets from a real
    synthesis, although one file holds silence and the other speech. *)
Lemma C9_degraded_response_untagged :
  (exists placeholder real,
      snd Generation.degraded = Ok placeholder /\ snd Generation.real = Ok real
      /\ ~ tagged_as_degraded placeholder real)
  /\ content_of (world (fst Generation.degraded)) "outputs/voice_c0ffee46.wav"
     = Some "RIFF-silence-96000"
  /\ content_of (world (fst Generation.real)) "outputs/voice_c0ffee46.wav"
     = Some "RIFF-speech".
Proof.
  split; [|split; vm_compute; reflexivity].
  do 2 eexists. split; [vm_compute; reflexivity|].
  split; [vm_compute; reflexivity|].
  unfold tagged_as_degraded. intros H. apply H. reflexivity.
Qed.

(** ** Invariants of the speaker table *)

Section Keeps.
Context {S : Type} (I : S -> Prop).

Lemma keeps_ret {A} (a : A) (V : A -> Prop) : V a -> keeps I (ret a) V.
Proof. intros Hv s s' r Hi H. inv_pair H. split; [assumption|]. now intros ? [= <-]. Qed.

Lemma keeps_raise {A} (e : exn) (V : A -> Prop) : keeps I (raise e) V.
Proof. intros s s' r Hi H. inv_pair H. split; [assumption | discriminate]. Qed.

Lemma keeps_gets {A} (f : S -> A) (V : A -> Prop) :
  (forall s, I s -> V (f s)) -> keeps I (gets f) V.
Proof.
  intros Hv s s' r Hi H. unfold gets in H. inversion H; subst.
  split; [assumption|]. intros ? [= <-]. auto.
Qed.

Lemma keeps_modify (f : S -> S) :
  (forall s, I s -> I (f s)) -> keeps I (modify f) (fun _ => True).
Proof. intros Hf s s' r Hi H. unfold modify in H. inversion H; subst. auto. Qed.

Lemma keeps_bind {A B} (m : M S A) (k : A -> M S B) (V : A -> Prop) (W : B -> Prop) :
  keeps I m V -> (forall a, V a -> keeps I (k a) W) -> keeps I (bind m k) W.
Proof.
  intros Hm Hk s s' r Hi H. bind_inv H.
  - destruct (Hm _ _ _ Hi E) as [Hi1 Hv]. eapply Hk; eauto.
  - destruct (Hm _ _ _ Hi E) as [Hi1 _]. inv_pair H. split; [assumption | discriminate].
Qed.

Lemma keeps_try {A} (m : M S A) (h : exn -> M S A) (V : A -> Prop) :
  keeps I m V -> (forall e, keeps I (h e) V) -> keeps I (try_except m h) V.
Proof.
  intros Hm Hh s s' r Hi H. bind_inv H.
  - destruct (Hm _ _ _ Hi E) as [Hi1 Hv]. inv_pair H. split; [assumption|].
    intros ? [= <-]. auto.
  - destruct (Hm _ _ _ Hi E) as [Hi1 _]. eapply Hh; eauto.
Qed.

Lemma keeps_weaken {A} (m : M S A) (V W : A -> Prop) :
  keeps I m V -> (forall a, V a -> W a) -> keeps I m W.
Proof. intros Hm Hvw s s' r Hi H. destruct (Hm _ _ _ Hi H). split; auto. Qed.

Lemma keeps_for_each {A} (l : list A) (body : A -> M S unit) :
  (forall x, keeps I (body x) (fun _ => True)) ->
  keeps I (for_each l body) (fun _ => True).
Proof.
  intros Hb. induction l as [|x l IH]; simpl.
  - now apply keeps_ret.
  - eapply keeps_bind; [apply Hb | intros; apply IH].
Qed.
End Keeps.

Lemma in_world_inv {A} (m : M World A) (s s' : State) (r : Res A) :
  in_world m s = (s', r) ->
  m (world s) = (world s', r)
  /\ speakers_data s' = speakers_data s /\ training_status s' = training_status s.
Proof.
  rewrite in_world_eq. destruct (m (world s)) as [w1 r1]. cbn [fst snd].
  intros H. inversion H; subst. auto.
Qed.

(** For an invariant of the speaker table, running something on the world
    changes nothing; the returned value is whatever the computation can
    return. *)
Lemma keeps_in_world {A} (P : gmap string SpeakerInfo -> Prop) (m : M World A)
    (V : A -> Prop) :
  (forall w w' a, m w = (w', Ok a) -> V a) ->
  keeps (fun s => P (speakers_data s)) (in_world m) V.
Proof.
  intros Hv s s' r Hi H. apply in_world_inv in H. destruct H as (Hm & -> & _).
  split; [assumption|]. intros a ->. eauto.
Qed.

Lemma keeps_set_speakers (P : gmap string SpeakerInfo -> Prop)
    (f : gmap string SpeakerInfo -> gmap string SpeakerInfo) :
  (forall d, P d -> P (f d)) ->
  keeps (fun s => P (speakers_data s)) (set_speakers f) (fun _ => True).
Proof.
  intros Hf s s' r Hi H. unfold set_speakers, modify in H. inversion H; subst.
  split; [apply Hf, Hi | auto].
Qed.

Lemma keeps_set_status (P : gmap string SpeakerInfo -> Prop) (name : string)
    (j : TrainingJob) :
  keeps (fun s => P (speakers_data s)) (set_status name j) (fun _ => True).
Proof.
  intros s s' r Hi H. unfold set_status, modify in H. inversion H; subst.
  split; [exact Hi | auto].
Qed.

Lemma keeps_save (X : Externals) (P : gmap string SpeakerInfo -> Prop) :
  keeps (fun s => P (speakers_data s)) (_save_speakers_data X) (fun _ => True).
Proof.
  unfold _save_speakers_data.
  eapply keeps_bind; [apply (keeps_in_world P) with (V := fun _ => True); auto|].
  intros _ _. eapply keeps_bind; [apply keeps_gets with (V := fun _ => True); auto|].
  intros d _. apply (keeps_in_world P). auto.
Qed.

(** ** Uploads record 32000 Hz *)





Ltac keeps_world :=
  eapply keeps_bind;
  [apply keeps_in_world with (V := fun _ => True); auto | intros ? _].


Ltac keeps_step :=
  first
    [ apply keeps_raise
    | apply keeps_ret; solve [auto]
    | keeps_world
    | eapply keeps_bind; [apply keeps_gets with (V := fun _ => True); solve [auto] | intros ? _]
    | eapply keeps_bind; [apply keeps_set_status | intros ? _]
    | eapply keeps_bind; [apply keeps_save | intros ? _]
    | apply keeps_set_status
    | apply keeps_save
    | apply keeps_in_world; solve [auto]
    | apply keeps_try; [|intros ?]
    | apply keeps_for_each; intros ?
    | match goal with
      | |- keeps _ (if ?b then _ else _) _ => destruct b
      | |- keeps _ (match ?x with _ => _ end) _ => destruct x
      end ].




Lemma generate_speech_keeps (X : Externals) (self : AudioGeneratorSoVITS)
    (P : gmap string SpeakerInfo -> Prop) (txt speaker_name language : string) :
  keeps (fun s => P (speakers_data s))
        (generate_speech X self txt speaker_name language) (fun _ => True).
Proof.
  unfold generate_speech. cbv zeta.
  eapply keeps_bind; [apply keeps_gets with (V := fun _ => True); solve [auto] | intros known _].
  destruct known as [info|]; [|apply keeps_raise].
  destruct (negb (trained info)); [apply keeps_raise|].
  keeps_step. apply keeps_try; [|intros e; apply keeps_raise].
  eapply keeps_bind with (V := fun _ => True); [|intros; now apply keeps_ret].
  repeat keeps_step.
Qed.


(** Inversion of a [bind] that returned normally. *)
Tactic Notation "bind_ok" hyp(H) "as" simple_intropattern(s1) simple_intropattern(a)
    ident(E) :=
  lazymatch type of H with
  | bind ?m ?k ?s = (_, Ok _) =>
      rewrite (bind_eq m k s) in H;
      destruct (m s) as [s1 [a|?]] eqn:E; [|discriminate H]
  end.





(** ** The two row-count checks *)

Lemma read_csv_ok (X : Externals) (p content : string) (t : nat)
    (rows : list (list string)) (w : World) :
  fs w !! p = Some (File content t) -> pd_read_csv X content = Some rows ->
  read_csv X p w = (w, Ok rows).
Proof.
  intros Hf Hr. unfold read_csv. rewrite bind_eq, read_file_eq, Hf, Hr. reflexivity.
Qed.

Lemma check_semantic_output_mismatch (X : Externals) (exp_dir : string)
    (expected_files : list string) (w : World) (content : string) (t : nat)
    (rows : list (list string)) :
  fs w !! semantic_path exp_dir = Some (File content t) ->
  content <> "" ->
  pd_read_csv X content = Some rows ->
  length rows <> length expected_files ->
  check_semantic_output X exp_dir expected_files w
  = (logged w
       [ "   📊 生成了 " +:+ pretty (length rows) +:+ " 条有效 semantic 数据（期望 "
         +:+ pretty (length expected_files) +:+ " 条）";
         "   ⚠️  警告: semantic 数据数量与预期不符！";
         "      差异: "
         +:+ pretty (Z.of_nat (length expected_files) - Z.of_nat (length rows))%Z
         +:+ " 条数据缺失或无效" ],
     Ok true).
Proof.
  intros Hf Hne Hr Hlen. unfold check_semantic_output. fold (semantic_path exp_dir).
  rewrite bind_eq, exists_eq, Hf.
  rewrite bool_decide_eq_true_2 by eauto. cbn [negb].
  rewrite bind_eq, try_except_eq, bind_eq, (read_csv_ok X _ content t rows) by assumption.
  unfold ret at 1 2. cbn beta iota.
  rewrite bind_eq, print_eq. cbn beta iota.
  rewrite (proj2 (Nat.eqb_neq _ _) Hlen). cbn [negb].
  rewrite bind_eq, bind_eq, print_eq. cbn beta iota.
  rewrite bind_eq, print_eq. cbn beta iota.
  rewrite bind_eq, read_file_eq. cbn [fs]. rewrite Hf. unfold ret at 1. cbn beta iota.
  rewrite bind_eq, getsize_eq. cbn [fs]. rewrite Hf.
  destruct content as [|c content']; [congruence|].
  cbn [String.length Nat.eqb]. unfold ret, logged. cbn [fs clock procs console].
  rewrite <- !app_assoc. reflexivity.
Qed.

Lemma validate_training_data_mismatch (X : Externals) (exp_dir : string) (w : World)
    (content : string) (t : nat) (rows : list (list string))
    (phonemes : string) (t' : nat) :
  fs w !! semantic_path exp_dir = Some (File content t) ->
  pd_read_csv X content = Some rows ->
  fs w !! phoneme_path exp_dir = Some (File phonemes t') ->
  length rows <> size (parse_phoneme_data phonemes) ->
  validate_training_data X exp_dir w
  = (logged w
       [ "   📊 Semantic 数据: " +:+ pretty (length rows) +:+ " 条";
         "   📊 Phoneme 数据: " +:+ pretty (size (parse_phoneme_data phonemes)) +:+ " 条";
         "   ❌ 错误: 数据数量不匹配！";
         "      差异: "
         +:+ pretty (Z.abs (Z.of_nat (length rows)
                            - Z.of_nat (size (parse_phoneme_data phonemes))))
         +:+ " 条" ],
     Ok false).
Proof.
  intros Hf Hr Hp Hlen. unfold validate_training_data.
  fold (semantic_path exp_dir) (phoneme_path exp_dir).
  rewrite bind_eq, try_except_eq, bind_eq, (read_csv_ok X _ content t rows) by assumption.
  unfold ret at 1. cbn beta iota.
  rewrite bind_eq, read_file_eq, Hp.
  rewrite bind_eq, print_eq. cbn beta iota.
  rewrite bind_eq, print_eq. cbn beta iota.
  rewrite (proj2 (Nat.eqb_neq _ _) Hlen). cbn [negb].
  rewrite bind_eq, print_eq. cbn beta iota.
  rewrite bind_eq, print_eq. cbn beta iota.
  unfold ret, logged. cbn [fs clock procs console].
  rewrite <- !app_assoc. reflexivity.
Qed.

Lemma validate_training_data_match (X : Externals) (exp_dir : string) (w : World)
    (content : string) (t : nat) (rows : list (list string))
    (phonemes : string) (t' : nat) :
  fs w !! semantic_path exp_dir = Some (File content t) ->
  pd_read_csv X content = Some rows ->
  fs w !! phoneme_path exp_dir = Some (File phonemes t') ->
  length rows = size (parse_phoneme_data phonemes) ->
  length rows <> 0 ->
  validate_training_data X exp_dir w
  = (logged w
       [ "   📊 Semantic 数据: " +:+ pretty (length rows) +:+ " 条";
         "   📊 Phoneme 数据: " +:+ pretty (size (parse_phoneme_data phonemes)) +:+ " 条" ],
     Ok true).
Proof.
  intros Hf Hr Hp Hlen Hnz. unfold validate_training_data.
  fold (semantic_path exp_dir) (phoneme_path exp_dir).
  rewrite bind_eq, try_except_eq, bind_eq, (read_csv_ok X _ content t rows) by assumption.
  unfold ret at 1. cbn beta iota.
  rewrite bind_eq, read_file_eq, Hp.
  rewrite bind_eq, print_eq. cbn beta iota.
  rewrite bind_eq, print_eq. cbn beta iota.
  rewrite <- Hlen, Nat.eqb_refl. cbn [negb].
  rewrite (proj2 (Nat.eqb_neq _ _) Hnz).
  unfold ret, logged. cbn [fs clock procs console].
  rewrite <- !app_assoc. reflexivity.
Qed.

Lemma train_stage1_gpt_invalid (X : Externals) (tr : GPTSoVITSTrainer)
    (exp_dir speaker_name : string) (epochs batch_size save_every : Z) (w w' : World) :
  validate_training_data X exp_dir w = (w', Ok false) ->
  train_stage1_gpt X tr exp_dir speaker_name epochs batch_size save_every w = (w', Ok None).
Proof. intros H. unfold train_stage1_gpt. now rewrite bind_eq, H. Qed.

Lemma pipeline_stops_at_stage1 (X : Externals) (tr : GPTSoVITSTrainer)
    (speaker_name : string) (files : list AudioSample)
    (audio_text_map : option (gmap string string)) (s1_epochs s2_epochs batch_size : Z)
    (w w1 w2 w3 : World) (exp_dir : string) :
  prepare_training_data X tr speaker_name files audio_text_map (tick w) = (w1, Ok exp_dir) ->
  run_data_preprocessing X tr exp_dir speaker_name w1 = (w2, Ok true) ->
  train_stage1_gpt X tr exp_dir speaker_name s1_epochs batch_size 5 w2 = (w3, Ok None) ->
  train_speaker_complete X tr speaker_name files audio_text_map s1_epochs s2_epochs batch_size w
  = (w3, Ok (mkTrainResult speaker_name "failed" (clock w) None None (Some exp_dir)
               (Some "Stage 1 训练失败") None)).
Proof.
  intros H1 H2 H3. unfold train_speaker_complete.
  rewrite bind_eq, now_eq. fold (tick w).
  rewrite try_except_eq, bind_eq, H1.
  rewrite try_except_eq, bind_eq, H2. cbn [negb].
  rewrite bind_eq, H3. reflexivity.
Qed.

(** Once the validation has passed, stage 1 goes on to the launch. *)

Lemma write_file_writable (p content : string) (w : World) :
  writable w p = true ->
  Os.write_file p content w
  = (mkWorld (<[p := File content (clock w)]> (fs w)) (S (clock w)) (procs w) (console w),
     Ok tt).
Proof.
  unfold writable. intros H. apply andb_prop in H. destruct H as [Hn Hd].
  rewrite write_file_eq, Hd.
  destruct (fs w !! p) as [[c t|t]|]; [reflexivity | discriminate | reflexivity].
Qed.

Lemma train_stage1_gpt_launches (X : Externals) (tr : GPTSoVITSTrainer)
    (exp_dir speaker_name : string) (epochs batch_size save_every : Z) (w : World)
    (lines : list string) (template : string) (t : nat) (config : string) :
  validate_training_data X exp_dir w = (logged w lines, Ok true) ->
  fs w !! s1_template tr = Some (File template t) ->
  yaml_edit X template (s1_settings tr exp_dir speaker_name epochs batch_size save_every)
  = inr config ->
  writable w (OsPath.join exp_dir "s1_config.yaml") = true ->
  is_dir (fs w !! sovits_path tr) = true ->
  procs (fst (train_stage1_gpt X tr exp_dir speaker_name epochs batch_size save_every w))
  = procs w ++ [s1_cmd tr exp_dir].
Proof.
  intros Hv Ht Hy Hw Hcwd.
  assert (Hne : sovits_path tr <> OsPath.join exp_dir "s1_config.yaml").
  { intros Heq. unfold writable in Hw. rewrite <- Heq, Hcwd in Hw. discriminate. }
  unfold train_stage1_gpt. rewrite bind_eq, Hv. cbn [negb]. cbv zeta.
  fold (s1_template tr).
  rewrite bind_eq, read_file_eq. cbn [logged fs]. rewrite Ht, Hy.
  rewrite bind_eq, write_file_writable by exact Hw.
  rewrite bind_eq. unfold subprocess. rewrite bind_gets. cbn [logged fs clock procs console].
  rewrite lookup_insert_ne by (intros Heq; apply Hne; now symmetry).
  rewrite Hcwd. cbn [negb].
  destruct (run_process X _ _ _ _) as [fs' out].
  destruct (negb _); [reflexivity|].
  rewrite bind_eq, exists_eq. cbv beta iota.
  destruct (negb _); [reflexivity|].
  rewrite bind_eq, listdir_eq. cbn [fs].
  destruct (fs' !! OsPath.join exp_dir "logs_s1") as [[?|?]|]; try reflexivity.
  destruct (List.filter _ _); [reflexivity|].
  unfold sort_by_mtime. rewrite bind_gets. reflexivity.
Qed.

(** C1 (as the code has it).  When, after the three preprocessing steps,
    the semantic table has a number of rows different from the number of
    transcript entries, the closing check of preprocessing only logs the two
    counts and their difference (entries minus rows) and reports success,
    the table being non-empty.  What stops the pipeline before the stage-1
    trainer is launched is the comparison of the semantic row count with the
    row count of the phoneme table: when they differ, stage 1 logs the
    absolute difference and returns no model, no process having been
    launched, and the run ends as [failed] with the error text
    [Stage 1 训练失败]; when they agree (and are not zero) the validation
    passes, and the stage-1 trainer is launched as soon as the launch itself
    is possible: the configuration template is a file the YAML library
    loads, [s1_config.yaml] can be written and the GPT-SoVITS directory
    exists. *)
Theorem C1_row_count_mismatch
    (X : Externals) (tr : GPTSoVITSTrainer) (speaker_name exp_dir : string)
    (expected_files : list string) (w : World)
    (content : string) (t : nat) (rows : list (list string))
    (phonemes : string) (t' : nat) :
  fs w !! semantic_path exp_dir = Some (File content t) ->
  content <> "" ->
  pd_read_csv X content = Some rows ->
  fs w !! phoneme_path exp_dir = Some (File phonemes t') ->
  length rows <> length expected_files ->
  (exists lines,
      check_semantic_output X exp_dir expected_files w = (logged w lines, Ok true)
      /\ In ("      差异: "
             +:+ pretty (Z.of_nat (length expected_files) - Z.of_nat (length rows))%Z
             +:+ " 条数据缺失或无效") lines)
  /\ (length rows <> size (parse_phoneme_data phonemes) ->
      exists lines,
        (forall epochs batch_size save_every,
            train_stage1_gpt X tr exp_dir speaker_name epochs batch_size save_every w
            = (logged w lines, Ok None))
        /\ In ("      差异: "
               +:+ pretty (Z.abs (Z.of_nat (length rows)
                                  - Z.of_nat (size (parse_phoneme_data phonemes))))
               +:+ " 条") lines
        /\ (forall files audio_text_map s1_epochs s2_epochs batch_size w0 w1,
              prepare_training_data X tr speaker_name files audio_text_map (tick w0)
              = (w1, Ok exp_dir) ->
              run_data_preprocessing X tr exp_dir speaker_name w1 = (w, Ok true) ->
              train_speaker_complete X tr speaker_name files audio_text_map
                s1_epochs s2_epochs batch_size w0
              = (logged w lines,
                 Ok (mkTrainResult speaker_name "failed" (clock w0) None None
                       (Some exp_dir) (Some "Stage 1 训练失败") None))))
  /\ (length rows = size (parse_phoneme_data phonemes) -> length rows <> 0 ->
      (exists lines, validate_training_data X exp_dir w = (logged w lines, Ok true))
      /\ (forall epochs batch_size save_every template t0 config,
            fs w !! s1_template tr = Some (File template t0) ->
            yaml_edit X template
              (s1_settings tr exp_dir speaker_name epochs batch_size save_every)
            = inr config ->
            writable w (OsPath.join exp_dir "s1_config.yaml") = true ->
            is_dir (fs w !! sovits_path tr) = true ->
            procs (fst (train_stage1_gpt X tr exp_dir speaker_name epochs batch_size
                          save_every w))
            = procs w ++ [s1_cmd tr exp_dir])).
Proof.
  intros Hf Hne Hr Hp Hlen. split; [|split].
  - eexists. split; [now apply (check_semantic_output_mismatch X exp_dir _ w content t rows)|].
    cbn [In]. auto.
  - intros Hph.
    pose proof (validate_training_data_mismatch X exp_dir w content t rows phonemes t'
                  Hf Hr Hp Hph) as Hv.
    eexists. split; [|split].
    + intros. apply train_stage1_gpt_invalid. exact Hv.
    + cbn [In]. auto.
    + intros files audio_text_map s1_epochs s2_epochs batch_size w0 w1 H1 H2.
      eapply pipeline_stops_at_stage1; [exact H1 | exact H2 |].
      apply train_stage1_gpt_invalid. exact Hv.
  - intros Heq Hnz.
    pose proof (validate_training_data_match X exp_dir w content t rows phonemes t'
                  Hf Hr Hp Heq Hnz) as Hv.
    split; [eexists; exact Hv|].
    intros epochs batch_size save_every template t0 config Ht Hy Hw Hcwd.
    eapply train_stage1_gpt_launches; eassumption.
Qed.

Lemma C1_row_count_mismatch_witness :
  (exists lines,
      check_semantic_output (Demo.externals RowCounts.ten_phonemes) Demo.exp_dir
        RowCounts.expected RowCounts.preprocessed
      = (logged RowCounts.preprocessed lines, Ok true)
      /\ In "      差异: 2 条数据缺失或无效" lines)
  /\ procs (fst (train_stage1_gpt (Demo.externals RowCounts.eight_phonemes) Demo.the_trainer
                   Demo.exp_dir "voice" 8 4 5 RowCounts.preprocessed_eight))
     = procs RowCounts.preprocessed_eight ++ [s1_cmd Demo.the_trainer Demo.exp_dir].
Proof.
  split.
  - assert (H1 : fs RowCounts.preprocessed !! semantic_path Demo.exp_dir
                 = Some (File RowCounts.semantic_text 102)) by (vm_compute; reflexivity).
    assert (H2 : RowCounts.semantic_text <> "") by (vm_compute; discriminate).
    assert (H3 : pd_read_csv (Demo.externals RowCounts.ten_phonemes) RowCounts.semantic_text
                 = Some RowCounts.rows) by (vm_compute; reflexivity).
    assert (H4 : fs RowCounts.preprocessed !! phoneme_path Demo.exp_dir
                 = Some (File RowCounts.phoneme_text 100)) by (vm_compute; reflexivity).
    assert (H5 : length RowCounts.rows <> length RowCounts.expected) by (vm_compute; lia).
    destruct (C1_row_count_mismatch (Demo.externals RowCounts.ten_phonemes) Demo.the_trainer
                "voice" Demo.exp_dir RowCounts.expected RowCounts.preprocessed
                RowCounts.semantic_text 102 RowCounts.rows RowCounts.phoneme_text 100
                H1 H2 H3 H4 H5) as ((lines & Hrun & Hlast) & _).
    exists lines. split; [exact Hrun|].
    assert (Hdelta : "      差异: "
                     +:+ pretty (Z.of_nat (length RowCounts.expected)
                                 - Z.of_nat (length RowCounts.rows))%Z
                     +:+ " 条数据缺失或无效"
                     = "      差异: 2 条数据缺失或无效") by (vm_compute; reflexivity).
    rewrite <- Hdelta. exact Hlast.
  - assert (H1 : fs RowCounts.preprocessed_eight !! semantic_path Demo.exp_dir
                 = Some (File RowCounts.semantic_text 102)) by (vm_compute; reflexivity).
    assert (H2 : RowCounts.semantic_text <> "") by (vm_compute; discriminate).
    assert (H3 : pd_read_csv (Demo.externals RowCounts.eight_phonemes)
                   RowCounts.semantic_text
                 = Some RowCounts.rows) by (vm_compute; reflexivity).
    assert (H4 : fs RowCounts.preprocessed_eight !! phoneme_path Demo.exp_dir
                 = Some (File RowCounts.phoneme_text_eight 100))
      by (vm_compute; reflexivity).
    assert (H5 : length RowCounts.rows <> length RowCounts.expected) by (vm_compute; lia).
    assert (H6 : length RowCounts.rows
                 = size (parse_phoneme_data RowCounts.phoneme_text_eight))
      by (vm_compute; reflexivity).
    assert (H7 : length RowCounts.rows <> 0) by (vm_compute; lia).
    assert (H8 : exists t0,
               fs RowCounts.preprocessed_eight !! s1_template Demo.the_trainer
               = Some (File "train:" t0)) by (eexists; vm_compute; reflexivity).
    destruct H8 as (t0 & H8).
    assert (H9 : writable RowCounts.preprocessed_eight
                   (OsPath.join Demo.exp_dir "s1_config.yaml") = true)
      by (vm_compute; reflexivity).
    assert (H10 : is_dir (fs RowCounts.preprocessed_eight
                            !! sovits_path Demo.the_trainer) = true)
      by (vm_compute; reflexivity).
    destruct (C1_row_count_mismatch (Demo.externals RowCounts.eight_phonemes)
                Demo.the_trainer "voice" Demo.exp_dir RowCounts.expected
                RowCounts.preprocessed_eight
                RowCounts.semantic_text 102 RowCounts.rows RowCounts.phoneme_text_eight
                100 H1 H2 H3 H4 H5) as (_ & _ & Hlaunch).
    destruct (Hlaunch H6 H7) as [_ Hl].
    exact (Hl 8%Z 4%Z 5%Z "train:" t0 _ H8 eq_refl H9 H10).
Defined.

(** C1, as stated, fails.  With ten transcript entries and eight semantic
    rows, a phoneme table of eight rows lets the run launch the stage-1
    trainer and complete; with a phoneme table of ten rows the run does stop
    before stage 1, but its error is the fixed text [Stage 1 训练失败],
    which neither names a consistency failure nor carries the delta. *)
Lemma C1_mismatch_neither_aborts_nor_reports :
  transcript_entries (fst RowCounts.run_eight) Demo.exp_dir = 10
  /\ semantic_rows (Demo.externals RowCounts.eight_phonemes) (fst RowCounts.run_eight)
       Demo.exp_dir = 8
  /\ In (s1_cmd Demo.the_trainer Demo.exp_dir) (procs (fst RowCounts.run_eight))
  /\ (exists r, snd RowCounts.run_eight = Ok r /\ r_status r = "completed")
  /\ ~ mismatch_aborts_with_delta (Demo.externals RowCounts.eight_phonemes)
         Demo.the_trainer "voice" RowCounts.clips (world RowCounts.state)
  /\ (exists r, snd RowCounts.run_ten = Ok r /\ r_error r = Some "Stage 1 训练失败")
  /\ ~ mismatch_aborts_with_delta (Demo.externals RowCounts.ten_phonemes)
         Demo.the_trainer "voice" RowCounts.clips (world RowCounts.state).
Proof.
  assert (Hlaunched : In (s1_cmd Demo.the_trainer Demo.exp_dir)
                         (procs (fst RowCounts.run_eight)))
    by (vm_compute; tauto).
  assert (Hten : exists r, snd RowCounts.run_ten = Ok r
                           /\ r_error r = Some "Stage 1 训练失败")
    by (eexists; split; vm_compute; reflexivity).
  split; [vm_compute; reflexivity|].
  split; [vm_compute; reflexivity|].
  split; [exact Hlaunched|].
  split; [eexists; split; vm_compute; reflexivity|].
  split; [|split; [exact Hten|]].
  - intros Hclaim. destruct Hclaim as [Hnot _]; [vm_compute; lia|].
    apply Hnot. exact Hlaunched.
  - intros Hclaim. destruct Hclaim as [_ (r & e & Hr & _ & He & Hname & _)];
      [vm_compute; lia|].
    destruct Hten as (r' & Hr' & He').
    rewrite Hr' in Hr. assert (r' = r) by congruence. subst r'.
    rewrite He' in He. assert (e = "Stage 1 训练失败") by congruence. subst e.
    vm_compute in Hname. discriminate.
Qed.
(** ** Outcomes of the pipeline *)

(** The pipeline never raises: it completes, or one stage fails and the
    result is [failed] with that stage's error text. *)
Lemma train_speaker_complete_cases (X : Externals) (tr : GPTSoVITSTrainer)
    (speaker_name : string) (files : list AudioSample)
    (s1_epochs s2_epochs batch_size : Z) (w : World) :
  exists w' r,
    train_speaker_complete X tr speaker_name files None s1_epochs s2_epochs batch_size w
    = (w', Ok r)
    /\ (pipeline_completion X tr speaker_name files s1_epochs s2_epochs batch_size w w' r
        \/ exists e,
             pipeline_failure X tr speaker_name files s1_epochs s2_epochs batch_size w w' e
             /\ r_status r = "failed" /\ r_error r = Some e).
Proof.
  unfold train_speaker_complete.
  rewrite bind_eq, now_eq. cbv beta iota zeta. change (mkWorld _ _ _ _) with (tick w).
  rewrite try_except_eq, bind_eq.
  destruct (prepare_training_data X tr speaker_name files None (tick w))
    as [w1 [exp_dir|e]] eqn:E1.
  2:{ do 2 eexists. split; [reflexivity|]. right. eexists. split; [|split; reflexivity].
      eapply staging_raised; eassumption. }
  rewrite try_except_eq, bind_eq.
  destruct (run_data_preprocessing X tr exp_dir speaker_name w1) as [w2 [[|]|e]] eqn:E2.
  3:{ do 2 eexists. split; [reflexivity|]. right. eexists. split; [|split; reflexivity].
      eapply preprocessing_raised; eassumption. }
  2:{ do 2 eexists. split; [reflexivity|]. right. eexists. split; [|split; reflexivity].
      eapply preprocessing_reported; eassumption. }
  cbn [negb]. cbv iota. rewrite bind_eq.
  destruct (train_stage1_gpt X tr exp_dir speaker_name s1_epochs batch_size 5 w2)
    as [w3 [[gpt_model|]|e]] eqn:E3.
  3:{ do 2 eexists. split; [reflexivity|]. right. eexists. split; [|split; reflexivity].
      eapply stage1_raised; eassumption. }
  2:{ do 2 eexists. split; [reflexivity|]. right. eexists. split; [|split; reflexivity].
      eapply stage1_reported; eassumption. }
  rewrite try_except_eq, bind_eq.
  destruct (train_stage2_sovits X tr exp_dir speaker_name s2_epochs batch_size 4 w3)
    as [w4 [[sovits_model|]|e]] eqn:E4.
  3:{ do 2 eexists. split; [reflexivity|]. right. eexists. split; [|split; reflexivity].
      eapply stage2_raised; eassumption. }
  2:{ do 2 eexists. split; [reflexivity|]. right. eexists. split; [|split; reflexivity].
      eapply stage2_reported; eassumption. }
  rewrite bind_eq, now_eq. cbv beta iota.
  do 2 eexists. split; [reflexivity|]. left.
  eapply all_stages_returned; eassumption.
Qed.

Lemma train_speaker_complete_failed (X : Externals) (tr : GPTSoVITSTrainer)
    (speaker_name : string) (files : list AudioSample)
    (s1_epochs s2_epochs batch_size : Z) (w w' : World) (r : TrainResult) :
  train_speaker_complete X tr speaker_name files None s1_epochs s2_epochs batch_size w
  = (w', Ok r) ->
  r_status r <> "completed" ->
  exists e,
    pipeline_failure X tr speaker_name files s1_epochs s2_epochs batch_size w w' e
    /\ r_status r = "failed" /\ r_error r = Some e.
Proof.
  intros Hrun Hne.
  destruct (train_speaker_complete_cases X tr speaker_name files
              s1_epochs s2_epochs batch_size w) as (w0 & r0 & Hrun0 & [Hc|Hf]).
  - rewrite Hrun in Hrun0. inversion Hrun0; subst. inversion Hc; subst.
    now contradict Hne.
  - rewrite Hrun in Hrun0. inversion Hrun0; subst. exact Hf.
Qed.

Lemma train_speaker_complete_completed (X : Externals) (tr : GPTSoVITSTrainer)
    (speaker_name : string) (files : list AudioSample)
    (s1_epochs s2_epochs batch_size : Z) (w w' : World) (r : TrainResult) :
  train_speaker_complete X tr speaker_name files None s1_epochs s2_epochs batch_size w
  = (w', Ok r) ->
  r_status r = "completed" ->
  pipeline_completion X tr speaker_name files s1_epochs s2_epochs batch_size w w' r.
Proof.
  intros Hrun Hst.
  destruct (train_speaker_complete_cases X tr speaker_name files
              s1_epochs s2_epochs batch_size w) as (w0 & r0 & Hrun0 & [Hc|Hf]).
  - rewrite Hrun in Hrun0. inversion Hrun0; subst. exact Hc.
  - rewrite Hrun in Hrun0. inversion Hrun0; subst.
    destruct Hf as (e & _ & Hfailed & _). rewrite Hst in Hfailed. discriminate.
Qed.

(** A failed pipeline, seen from [train_speaker]: the speaker table is the
    one before the request, the tracker entry is [failed] with the error
    text of the pipeline behind the prefix of [_train_with_sovits_complete],
    and the request raises. *)
Lemma train_speaker_failed (X : Externals) (self : AudioGeneratorSoVITS)
    (tr : GPTSoVITSTrainer) (speaker_name : string) (epochs batch_size : Z) (s : State)
    (info : SpeakerInfo) (w' : World) (r : TrainResult) (e : string) :
  trainer self = Some tr ->
  speakers_data s !! speaker_name = Some info ->
  3 <= length (audio_files info) ->
  train_speaker_complete X tr speaker_name (audio_files info) None epochs
    (stage2_epochs epochs) batch_size (tick (world s)) = (w', Ok r) ->
  r_status r = "failed" -> r_error r = Some e ->
  train_speaker X self speaker_name epochs batch_size s
  = (mkState (tick w') (speakers_data s)
       (<[speaker_name := Failed ("训练失败: " +:+ e) (clock w')]> (training_status s)),
     Raise (Exception ("训练失败: 训练失败: " +:+ e))).
Proof.
  intros Htr Hinfo Hcount Hrun Hst He.
  assert (Hlt : (length (audio_files info) <? 3) = false) by (apply Nat.ltb_ge; lia).
  unfold train_speaker. rewrite bind_gets, Hinfo. cbv zeta. rewrite Hlt.
  rewrite bind_eq, in_world_eq, now_eq. cbn [fst snd].
  change (mkWorld _ _ _ _) with (tick (world s)).
  unfold set_status at 1. rewrite bind_modify. cbn [world speakers_data training_status].
  unfold train_speaker_guarded. rewrite try_except_eq, bind_eq, Htr.
  unfold _train_with_sovits_complete. rewrite bind_gets.
  cbn [world speakers_data training_status]. rewrite Hinfo.
  cbv zeta. rewrite bind_eq, in_world_eq. cbn [world speakers_data training_status].
  fold (stage2_epochs epochs). rewrite Hrun. cbn [fst snd]. rewrite Hst.
  change (negb ("failed" =? "completed")%string) with true. cbv iota.
  rewrite He. unfold raise at 1. cbv beta iota.
  rewrite bind_eq, in_world_eq, now_eq. cbn [fst snd world speakers_data training_status].
  change (mkWorld _ _ _ _) with (tick w').
  unfold set_status. rewrite bind_modify. cbn [world speakers_data training_status].
  unfold raise. cbn [str_exn]. now rewrite insert_insert_eq.
Qed.
(** C3 (as the code has it).  When the pipeline run by [train_speaker]
    does not complete, exactly one stage has failed and no later stage has
    run; the request raises, the speaker table, hence every [trained] flag,
    is the one before the request, and the tracker entry of the speaker is
    [failed].  Its error text is the prefix [训练失败: ] followed by the
    fixed label of the stage when the stage reported the failure by its
    return value, and by the text of the exception when the stage raised. *)
Theorem C3_stage_failure
    (X : Externals) (self : AudioGeneratorSoVITS) (tr : GPTSoVITSTrainer)
    (speaker_name : string) (epochs batch_size : Z) (s : State) (info : SpeakerInfo)
    (w' : World) (r : TrainResult) :
  trainer self = Some tr ->
  speakers_data s !! speaker_name = Some info ->
  3 <= length (audio_files info) ->
  train_speaker_complete X tr speaker_name (audio_files info) None epochs
    (stage2_epochs epochs) batch_size (tick (world s)) = (w', Ok r) ->
  r_status r <> "completed" ->
  exists e s',
    pipeline_failure X tr speaker_name (audio_files info) epochs (stage2_epochs epochs)
      batch_size (tick (world s)) w' e
    /\ train_speaker X self speaker_name epochs batch_size s
       = (s', Raise (Exception ("训练失败: 训练失败: " +:+ e)))
    /\ world s' = tick w'
    /\ speakers_data s' = speakers_data s
    /\ training_status s'
       = <[speaker_name := Failed ("训练失败: " +:+ e) (clock w')]> (training_status s)
    /\ get_training_status s' speaker_name = Failed ("训练失败: " +:+ e) (clock w').
Proof.
  intros Htr Hinfo Hcount Hrun Hne.
  destruct (train_speaker_complete_failed _ _ _ _ _ _ _ _ _ _ Hrun Hne)
    as (e & Hfail & Hst & He).
  exists e. eexists. split; [exact Hfail|].
  split; [eapply train_speaker_failed; eassumption|].
  cbn [world speakers_data training_status]. repeat split.
  unfold get_training_status. cbn [training_status].
  now rewrite lookup_insert_eq.
Qed.

Lemma C3_stage_failure_witness :
  exists e s',
    pipeline_failure (Demo.externals StageFailures.trainer_exits) Demo.the_trainer "voice"
      StageFailures.clips 8 (stage2_epochs 8) 4 (tick (world StageFailures.state))
      (fst (StageFailures.pipeline StageFailures.trainer_exits)) e
    /\ StageFailures.run StageFailures.trainer_exits
       = (s', Raise (Exception ("训练失败: 训练失败: " +:+ e)))
    /\ speakers_data s' = speakers_data StageFailures.state
    /\ get_training_status s' "voice" = Failed ("训练失败: " +:+ e) 36.
Proof.
  assert (Hs : exists info, speakers_data StageFailures.state !! "voice" = Some info
                            /\ audio_files info = StageFailures.clips)
    by (eexists; split; vm_compute; reflexivity).
  destruct Hs as (info & Hinfo & Hclips).
  assert (Hcount : 3 <= length (audio_files info))
    by (rewrite Hclips; vm_compute; lia).
  assert (Hres : snd (StageFailures.pipeline StageFailures.trainer_exits)
                 = Ok (mkTrainResult "voice" "failed" 28 None None (Some Demo.exp_dir)
                         (Some "Stage 1 训练失败") None))
    by (vm_compute; reflexivity).
  assert (Hclock : clock (fst (StageFailures.pipeline StageFailures.trainer_exits)) = 36)
    by (vm_compute; reflexivity).
  rewrite <- Hclips in Hres, Hclock |- *.
  destruct (C3_stage_failure (Demo.externals StageFailures.trainer_exits)
              (Demo.generator true) Demo.the_trainer "voice" 8 4 StageFailures.state
              info _ _ eq_refl Hinfo Hcount (run_eq _ _ Hres))
    as (e & s' & Hfail & Hraise & _ & Hdata & _ & Hjob).
  { cbn [r_status]. congruence. }
  exists e, s'. rewrite Hclock in Hjob. auto.
Defined.

(** C3, as stated, fails in its last part.  When stage 2 raises because
    [5-wav32k] is missing, the entry holds the text of the exception, which
    does not name stage 2.  When stage 1 stops because the two tables
    disagree, the entry holds the label of the stage and nothing of the
    difference printed on the console; the entry is word for word the one
    left when the stage-1 trainer exits with a non-zero code. *)
Lemma C3_failed_job_lacks_stage_or_detail :
  snd (train_stage2_sovits (Demo.externals StageFailures.no_wav32k) Demo.the_trainer
         Demo.exp_dir "voice" (stage2_epochs 8) 4 4 StageFailures.after_stage1)
  = Raise (ValueError "WAV 目录不存在: /srv/app/training_experiments/voice/5-wav32k，请确保数据预处理已完成")
  /\ get_training_status (fst (StageFailures.run StageFailures.no_wav32k)) "voice"
     = Failed "训练失败: WAV 目录不存在: /srv/app/training_experiments/voice/5-wav32k，请确保数据预处理已完成" 36
  /\ (forall detail,
        ~ failed_with_stage_and_detail (fst (StageFailures.run StageFailures.no_wav32k))
            "voice" "Stage 2" detail)
  /\ get_training_status (fst (StageFailures.run StageFailures.rows_disagree)) "voice"
     = Failed "训练失败: Stage 1 训练失败" 35
  /\ In "      差异: 1 条"
        (console (world (fst (StageFailures.run StageFailures.rows_disagree))))
  /\ ~ failed_with_stage_and_detail (fst (StageFailures.run StageFailures.rows_disagree))
         "voice" "Stage 1" "差异: 1 条"
  /\ get_training_status (fst (StageFailures.run StageFailures.trainer_exits)) "voice"
     = Failed "训练失败: Stage 1 训练失败" 36.
Proof.
  assert (Hwav : get_training_status (fst (StageFailures.run StageFailures.no_wav32k)) "voice"
                 = Failed "训练失败: WAV 目录不存在: /srv/app/training_experiments/voice/5-wav32k，请确保数据预处理已完成" 36)
    by (vm_compute; reflexivity).
  assert (Hrows : get_training_status (fst (StageFailures.run StageFailures.rows_disagree))
                    "voice"
                  = Failed "训练失败: Stage 1 训练失败" 35)
    by (vm_compute; reflexivity).
  split; [vm_compute; reflexivity|].
  split; [exact Hwav|].
  split; [|split; [exact Hrows|split; [vm_compute; tauto|split; [|vm_compute; reflexivity]]]].
  - intros detail (e & t & Hjob & Hstage & _).
    rewrite Hwav in Hjob. injection Hjob as <- <-.
    vm_compute in Hstage. discriminate.
  - intros (e & t & Hjob & _ & Hdetail).
    rewrite Hrows in Hjob. injection Hjob as <- <-.
    vm_compute in Hdetail. discriminate.
Qed.
(** ** Directory listings and joined paths *)

Lemma substring_all (s : string) : String.substring 0 (String.length s) s = s.
Proof. induction s as [|c s IH]; [reflexivity|]. simpl. now rewrite IH. Qed.

Lemma prefix_split (a k : string) :
  String.prefix a k = true ->
  k = a +:+ String.substring (String.length a) (String.length k - String.length a) k.
Proof.
  revert k. induction a as [|c a IH]; intros k H.
  - change (k = String.substring 0 (String.length k - 0) k).
    now rewrite Nat.sub_0_r, substring_all.
  - destruct k as [|c' k]; [discriminate|]. simpl in H.
    destruct (ascii_dec c c') as [<-|]; [|discriminate].
    change (String c k
            = String c (a +:+ String.substring (String.length a)
                                (String.length k - String.length a) k)).
    now rewrite <- IH.
Qed.

Lemma length_app_string (a b : string) :
  String.length (a +:+ b) = String.length a + String.length b.
Proof.
  induction a as [|c a IH]; [reflexivity|].
  change (S (String.length (a +:+ b)) = S (String.length a + String.length b)).
  now rewrite IH.
Qed.

Lemma entry_name_inv (d k r : string) :
  entry_name d k = Some r ->
  k = d +:+ "/" +:+ r /\ r <> "" /\ PyStr.contains "/" r = false.
Proof.
  unfold entry_name.
  destruct (String.prefix (d +:+ "/") k) eqn:Hp; [|discriminate].
  apply prefix_split in Hp. rewrite length_app_string in Hp.
  change (String.length "/") with 1 in Hp.
  destruct (String.eqb _ "" || PyStr.contains "/" _) eqn:Hr; [discriminate|].
  intros [= <-]. apply orb_false_elim in Hr. destruct Hr as [Hne Hc].
  rewrite <- append_assoc. split; [exact Hp|]. split; [|exact Hc].
  intros Heq. rewrite Heq in Hne. discriminate.
Qed.

(** What [os.listdir] returns are names of paths that exist. *)
Lemma listdir_In (d : string) (w w' : World) (entries : list string) (r : string) :
  Os.listdir d w = (w', Ok entries) -> In r entries ->
  w' = w /\ is_Some (fs w !! (d +:+ "/" +:+ r)) /\ PyStr.startswith "/" r = false.
Proof.
  rewrite listdir_eq. destruct (fs w !! d) as [[c t|t]|]; try discriminate.
  intros [= <- <-] Hin. split; [reflexivity|].
  apply list_elem_of_In, list_elem_of_omap in Hin.
  destruct Hin as ([k n] & Hk & Hname). cbn [fst] in Hname.
  apply elem_of_map_to_list in Hk.
  apply entry_name_inv in Hname. destruct Hname as (-> & _ & Hc).
  split; [now rewrite Hk|].
  unfold PyStr.startswith. destruct r; [reflexivity|].
  cbn [PyStr.contains] in Hc. now apply orb_false_elim in Hc.
Qed.

Lemma list_ascii_of_string_app (a b : string) :
  list_ascii_of_string (a +:+ b) = list_ascii_of_string a ++ list_ascii_of_string b.
Proof.
  induction a as [|c a IH]; [reflexivity|].
  change (c :: list_ascii_of_string (a +:+ b)
          = c :: (list_ascii_of_string a ++ list_ascii_of_string b)).
  now rewrite IH.
Qed.

Lemma string_of_list_ascii_app (l1 l2 : list ascii) :
  string_of_list_ascii (l1 ++ l2) = string_of_list_ascii l1 +:+ string_of_list_ascii l2.
Proof.
  induction l1 as [|c l1 IH]; [reflexivity|].
  change (String c (string_of_list_ascii (l1 ++ l2))
          = String c (string_of_list_ascii l1 +:+ string_of_list_ascii l2)).
  now rewrite IH.
Qed.

Lemma srev_app (a b : string) : PyStr.srev (a +:+ b) = PyStr.srev b +:+ PyStr.srev a.
Proof.
  unfold PyStr.srev.
  now rewrite list_ascii_of_string_app, rev_app_distr, string_of_list_ascii_app.
Qed.

(** A path that ends in a name of the code is neither empty nor closed by
    a slash, so joining an entry to it puts one slash in between. *)
Lemma join_entry (name r : string) (c : ascii) (y : string) :
  PyStr.srev name = String c y -> c <> "/"%char ->
  PyStr.startswith "/" r = false ->
  forall e, OsPath.join (OsPath.join e name) r = OsPath.join e name +:+ "/" +:+ r.
Proof.
  intros Hrev Hc Hr e. unfold OsPath.join at 1. rewrite Hr.
  assert (Hd : String.eqb (OsPath.join e name) "" || PyStr.endswith "/" (OsPath.join e name)
               = false).
  { assert (Hname : name <> "") by (intros ->; discriminate Hrev).
    assert (Hj : exists p, OsPath.join e name = p +:+ name).
    { unfold OsPath.join. destruct (PyStr.startswith "/" name); [now exists ""|].
      destruct (String.eqb e "" || PyStr.endswith "/" e); [now exists e|].
      exists (e +:+ "/"). now rewrite append_assoc. }
    destruct Hj as (p & ->). apply orb_false_intro.
    - destruct p; [|reflexivity]. destruct name; [congruence | reflexivity].
    - unfold PyStr.endswith. rewrite srev_app, Hrev.
      change (String.prefix "/" (String c (y +:+ PyStr.srev p)) = false).
      cbn [String.prefix]. destruct (ascii_dec "/" c); [congruence | reflexivity]. }
  rewrite Hd. reflexivity.
Qed.

Lemma join_nonempty (d f : string) : f <> "" -> OsPath.join d f <> "".
Proof.
  intros Hf. unfold OsPath.join. destruct (PyStr.startswith "/" f); [exact Hf|].
  destruct (String.eqb d "" || PyStr.endswith "/" d).
  - destruct d; [exact Hf | discriminate].
  - destruct d; discriminate.
Qed.

Lemma append_nonempty_l (a b : string) : a <> "" -> a +:+ b <> "".
Proof. destruct a; [congruence | discriminate]. Qed.

(** ** The artifact a stage returns exists *)

Lemma ret_ok_inv {S A : Type} (a b : A) (s s' : S) :
  ret a s = (s', Ok b) -> s = s' /\ a = b.
Proof. unfold ret. intros H. now inversion H. Qed.

Lemma hd_sorted_listed {K : Type} (key : string -> K) (ltb : K -> K -> bool)
    (keep : string -> bool) (entries : list string) (f : string) (l : list string) :
  List.filter keep entries = f :: l ->
  In (List.hd "" (sort_reverse key ltb (f :: l))) entries.
Proof.
  intros Ef. rewrite <- Ef.
  assert (Hne : List.filter keep entries <> []) by (rewrite Ef; discriminate).
  pose proof (sort_reverse_hd_In key ltb "" _ Hne) as Hin.
  apply List.filter_In in Hin. now destruct Hin.
Qed.

Lemma stage1_artifact (X : Externals) (tr : GPTSoVITSTrainer) (exp_dir speaker_name : string)
    (epochs batch_size save_every : Z) (w w' : World) (gpt : string) :
  train_stage1_gpt X tr exp_dir speaker_name epochs batch_size save_every w
  = (w', Ok (Some gpt)) ->
  gpt <> "" /\ is_Some (fs w' !! gpt).
Proof.
  unfold train_stage1_gpt. intros H.
  bind_ok H as w1 valid E1. destruct valid; cbn [negb] in H; [|inv_pair H].
  cbv zeta in H. bind_ok H as w2 template E2.
  destruct (yaml_edit X template _) as [err|config]; [discriminate|].
  bind_ok H as w3 u3 E3. bind_ok H as w4 process E4.
  destruct (negb _); [inv_pair H|].
  bind_ok H as w5 ex E5. rewrite exists_eq in E5. inv_pair E5.
  destruct (negb _); [inv_pair H|].
  bind_ok H as w6 entries E6.
  destruct (List.filter (PyStr.endswith ".ckpt") entries) as [|f l] eqn:Ef; [inv_pair H|].
  bind_ok H as w7 sorted E7. unfold sort_by_mtime, gets in E7. injection E7 as <- <-.
  apply ret_ok_inv in H. destruct H as [-> Hg]. injection Hg as <-.
  pose proof (hd_sorted_listed
                (fun x => Os.mtime_of w' (OsPath.join (OsPath.join exp_dir "logs_s1") x))
                Nat.ltb _ _ _ _ Ef) as Hin.
  destruct (listdir_In _ _ _ _ _ E6 Hin) as (-> & Hex & Hr).
  rewrite (join_entry "logs_s1" _ "1" "s_sgol" eq_refl ltac:(discriminate) Hr).
  split; [|exact Hex].
  apply append_nonempty_l, join_nonempty. discriminate.
Qed.

Lemma convert_checkpoint_cases (X : Externals) (checkpoint_path output_dir speaker_name
    config_path : string) (w w' : World) (r : Res (option string)) :
  _convert_checkpoint_to_weight X checkpoint_path output_dir speaker_name config_path w
  = (w', r) ->
  r = Ok None /\ forall q, is_Some (fs w !! q) -> is_Some (fs w' !! q).
Proof.
  unfold _convert_checkpoint_to_weight. rewrite try_except_eq, bind_eq, read_file_eq.
  destruct (fs w !! checkpoint_path) as [[c t|t]|];
    try (intros H; inv_pair H; split; [reflexivity | auto]).
  rewrite bind_eq, read_file_eq.
  destruct (fs w !! config_path) as [[c' t'|t']|];
    try (intros H; inv_pair H; split; [reflexivity | auto]).
  destruct (torch_convert X c c') as [[epoch partial]|];
    [|intros H; inv_pair H; split; [reflexivity | auto]].
  rewrite bind_eq.
  destruct (Os.write_file _ partial w) as [w1 [u|e]] eqn:Ew.
  - apply write_file_ok in Ew. subst w1. intros H. inv_pair H. cbn [fs].
    split; [reflexivity|]. intros q Hq. apply lookup_insert_is_Some'. now right.
  - intros H. inv_pair H. split; [reflexivity|].
    rewrite write_file_eq in Ew.
    destruct (fs w !! _) as [[?|?]|] in Ew;
      try (destruct (_ || _) in Ew; [discriminate|]);
      try (destruct (fs w !! _) in Ew);
      inversion Ew; subst; auto.
Qed.

Lemma locate_stage2_model_artifact (X : Externals) (exp_dir speaker_name : string)
    (w w' : World) (sovits : string) :
  locate_stage2_model X exp_dir speaker_name w = (w', Ok (Some sovits)) ->
  sovits <> "" /\ is_Some (fs w' !! sovits).
Proof.
  unfold locate_stage2_model. cbv zeta. intros H.
  bind_ok H as w1 ex E1. rewrite exists_eq in E1. inv_pair E1.
  destruct (negb _); [inv_pair H|].
  bind_ok H as w2 entries E2.
  destruct (List.filter (is_weight_file speaker_name) entries) as [|f l] eqn:Ef.
  - bind_ok H as w3 entries' E3.
    destruct (List.filter _ entries') as [|g l'] eqn:Eg; [inv_pair H|].
    bind_ok H as w4 sorted E4. unfold sort_by_mtime, gets in E4. injection E4 as <- <-.
    bind_ok H as w5 weight_path E5.
    pose proof (hd_sorted_listed
                  (fun x => Os.mtime_of w3 (OsPath.join (OsPath.join exp_dir "logs_s2_v2") x))
                  Nat.ltb _ _ _ _ Eg) as Hin.
    destruct (listdir_In _ _ _ _ _ E3 Hin) as (-> & Hex & Hr).
    rewrite (join_entry "logs_s2_v2" _ "2" "v_2s_sgol" eq_refl ltac:(discriminate) Hr)
      in E5, H.
    apply convert_checkpoint_cases in E5. destruct E5 as [Hnone Hkept].
    injection Hnone as ->.
    apply ret_ok_inv in H. destruct H as [-> Hs]. injection Hs as <-.
    split; [|exact (Hkept _ Hex)].
    apply append_nonempty_l, join_nonempty. discriminate.
  - apply ret_ok_inv in H. destruct H as [-> Hs]. injection Hs as <-.
    pose proof (hd_sorted_listed (fun f : string => f) String.ltb _ _ _ _ Ef) as Hin.
    destruct (listdir_In _ _ _ _ _ E2 Hin) as (-> & Hex & Hr).
    rewrite (join_entry "logs_s2_v2" _ "2" "v_2s_sgol" eq_refl ltac:(discriminate) Hr).
    split; [|exact Hex].
    apply append_nonempty_l, join_nonempty. discriminate.
Qed.

Lemma stage2_artifact (X : Externals) (tr : GPTSoVITSTrainer) (exp_dir speaker_name : string)
    (epochs batch_size save_every : Z) (w w' : World) (sovits : string) :
  train_stage2_sovits X tr exp_dir speaker_name epochs batch_size save_every w
  = (w', Ok (Some sovits)) ->
  sovits <> "" /\ is_Some (fs w' !! sovits).
Proof.
  unfold train_stage2_sovits. cbv zeta. intros H.
  bind_ok H as w1 template E1.
  destruct (json_edit X template _) as [err|config]; [discriminate|].
  bind_ok H as w2 ex_wav E2. destruct (negb ex_wav); [discriminate|].
  bind_ok H as w3 ex_hub E3. destruct (negb ex_hub); [discriminate|].
  bind_ok H as w4 ex_dst E4. bind_ok H as w5 ex_src E5.
  bind_ok H as w6 u6 E6. bind_ok H as w7 u7 E7. bind_ok H as w8 u8 E8.
  bind_ok H as w9 process E9.
  destruct (negb (fst (fst process) =? 0)%Z); [inv_pair H|].
  eapply locate_stage2_model_artifact; eassumption.
Qed.

(** ** Stage 2 deletes nothing *)

Section KeepsFile.
Variable p : string.

Abbreviation present := (file_present p).

Lemma present_insert (w : World) (q : string) (n : node) :
  present w -> present (set_fs (insert q n) w).
Proof.
  unfold file_present. cbn [set_fs fs]. intros H. apply lookup_insert_is_Some'. now right.
Qed.

Lemma keeps_file_now : keeps present Os.now (fun _ => True).
Proof. intros w w' r Hp H. rewrite now_eq in H. inversion H; subst. split; auto. Qed.

Lemma keeps_file_get {A} (f : World -> A) : keeps present (gets f) (fun _ => True).
Proof. apply keeps_gets. auto. Qed.

Lemma keeps_file_add (q : string) (n : node) :
  keeps present (modify (set_fs (insert q n))) (fun _ => True).
Proof. apply keeps_modify. intros w. apply present_insert. Qed.

Ltac file_step :=
  first
    [ apply keeps_raise
    | apply keeps_ret; exact I
    | apply keeps_file_add
    | apply keeps_file_get
    | apply keeps_file_now
    | eapply keeps_bind; [apply keeps_file_get | intros ? _]
    | eapply keeps_bind; [apply keeps_file_now | intros ? _]
    | eapply keeps_bind; [apply keeps_file_add | intros ? _]
    | match goal with
      | |- keeps _ (if ?b then _ else _) _ => destruct b
      | |- keeps _ (match ?x with _ => _ end) _ => destruct x
      end ].

Lemma keeps_file_exists (q : string) : keeps present (Os.exists_ q) (fun _ => True).
Proof. apply keeps_file_get. Qed.

Lemma keeps_file_read (q : string) : keeps present (Os.read_file q) (fun _ => True).
Proof. unfold Os.read_file. repeat file_step. Qed.

Lemma keeps_file_listdir (q : string) : keeps present (Os.listdir q) (fun _ => True).
Proof. unfold Os.listdir. repeat file_step. Qed.

Lemma keeps_file_write (q content : string) :
  keeps present (Os.write_file q content) (fun _ => True).
Proof. unfold Os.write_file. repeat file_step. Qed.

Lemma keeps_file_makedirs (q : string) : keeps present (Os.makedirs q) (fun _ => True).
Proof.
  unfold Os.makedirs. apply keeps_for_each. intros a.
  unfold Os.mkdir_step. repeat file_step.
Qed.

Lemma keeps_file_copy (keep_mtime : bool) (src dst : string) :
  keeps present (Os.copy keep_mtime src dst) (fun _ => True).
Proof.
  unfold Os.copy. cbv zeta. repeat file_step.
  eapply keeps_bind; [apply keeps_file_write | intros ? _]. repeat file_step.
Qed.

Lemma keeps_file_convert (X : Externals)
    (checkpoint_path output_dir speaker_name config_path : string) :
  keeps present
    (_convert_checkpoint_to_weight X checkpoint_path output_dir speaker_name config_path)
    (fun _ => True).
Proof.
  unfold _convert_checkpoint_to_weight.
  apply keeps_try; [|intros e; apply keeps_ret; exact I].
  eapply keeps_bind; [apply keeps_file_read | intros c _].
  eapply keeps_bind; [apply keeps_file_read | intros c' _].
  destruct (torch_convert X c c') as [[epoch partial]|]; [|apply keeps_raise].
  eapply keeps_bind; [apply keeps_file_write | intros ? _]. apply keeps_raise.
Qed.

Lemma keeps_file_locate (X : Externals) (exp_dir speaker_name : string) :
  keeps present (locate_stage2_model X exp_dir speaker_name) (fun _ => True).
Proof.
  unfold locate_stage2_model. cbv zeta.
  eapply keeps_bind; [apply keeps_file_exists | intros ex _].
  destruct (negb ex); [apply keeps_ret; exact I|].
  eapply keeps_bind; [apply keeps_file_listdir | intros entries _].
  destruct (List.filter _ entries); [|apply keeps_ret; exact I].
  eapply keeps_bind; [apply keeps_file_listdir | intros entries' _].
  destruct (List.filter _ entries'); [apply keeps_ret; exact I|].
  eapply keeps_bind; [apply keeps_file_get | intros sorted _].
  eapply keeps_bind; [apply keeps_file_convert | intros weight_path _].
  destruct weight_path; apply keeps_ret; exact I.
Qed.

Lemma keeps_file_stage2 (X : Externals) (tr : GPTSoVITSTrainer)
    (exp_dir speaker_name : string) (epochs batch_size save_every : Z) :
  stage2_trainer_keeps_files X tr ->
  keeps present (train_stage2_sovits X tr exp_dir speaker_name epochs batch_size save_every)
    (fun _ => True).
Proof.
  intros Hframe. unfold train_stage2_sovits. cbv zeta.
  eapply keeps_bind; [apply keeps_file_read | intros template _].
  destruct (json_edit X template _) as [err|config]; [apply keeps_raise|].
  eapply keeps_bind; [apply keeps_file_exists | intros ex_wav _].
  destruct (negb ex_wav); [apply keeps_raise|].
  eapply keeps_bind; [apply keeps_file_exists | intros ex_hub _].
  destruct (negb ex_hub); [apply keeps_raise|].
  eapply keeps_bind; [apply keeps_file_exists | intros ex_dst _].
  eapply keeps_bind; [apply keeps_file_exists | intros ex_src _].
  eapply keeps_bind with (V := fun _ => True).
  { destruct (negb ex_dst); [|apply keeps_ret; exact I].
    destruct ex_src; [apply keeps_file_copy | apply keeps_raise]. }
  intros _ _.
  eapply keeps_bind; [apply keeps_file_makedirs | intros _ _].
  eapply keeps_bind; [apply keeps_file_write | intros _ _].
  eapply keeps_bind with (V := fun _ => True).
  { unfold subprocess.
    eapply keeps_bind; [apply keeps_file_get | intros cwd_ok _].
    destruct (negb cwd_ok); [apply keeps_raise|].
    intros w w' r Hp H.
    destruct (run_process X (s2_cmd tr exp_dir) [("PYTHONPATH", pythonpath X tr)]
                (Some (sovits_path tr)) (fs w)) as [files out] eqn:Erun.
    inversion H; subst. split; [|auto]. unfold file_present. cbn [fs].
    pose proof (Hframe exp_dir [("PYTHONPATH", pythonpath X tr)] (Some (sovits_path tr))
                  (fs w) p Hp) as Hk.
    now rewrite Erun in Hk. }
  intros process _.
  destruct (negb _); [apply keeps_ret; exact I | apply keeps_file_locate].
Qed.
End KeepsFile.

(** ** The artifacts of a completed run *)

Lemma completion_artifacts (X : Externals) (tr : GPTSoVITSTrainer)
    (speaker_name : string) (files : list AudioSample) (s1_epochs s2_epochs batch_size : Z)
    (w w' : World) (r : TrainResult) :
  pipeline_completion X tr speaker_name files s1_epochs s2_epochs batch_size w w' r ->
  exists gpt sovits,
    r_gpt_model r = Some gpt /\ r_sovits_model r = Some sovits
    /\ gpt <> "" /\ sovits <> ""
    /\ is_Some (fs w' !! sovits)
    /\ (stage2_trainer_keeps_files X tr -> is_Some (fs w' !! gpt)).
Proof.
  intros Hc. destruct Hc as [w1 exp_dir w2 w3 gpt w4 sovits _ _ H1 H2].
  apply stage1_artifact in H1 as Hgpt. destruct Hgpt as [Hgpt Hex1].
  apply stage2_artifact in H2 as Hsov. destruct Hsov as [Hsov Hex2].
  exists gpt, sovits. cbn [r_gpt_model r_sovits_model tick fs].
  repeat split; try assumption.
  intros Hframe.
  exact (proj1 (keeps_file_stage2 gpt X tr exp_dir speaker_name s2_epochs batch_size 4
                  Hframe w3 w4 _ Hex1 H2)).
Qed.

(** ** Trained speakers hold the artifacts of a completed run *)

Section ModelsRecorded.
Variable X : Externals.
Variable self : AudioGeneratorSoVITS.

Lemma models_recorded_empty : models_recorded X self ∅.
Proof. intros name info H. rewrite lookup_empty in H. discriminate. Qed.

Lemma models_recorded_alter (d : gmap string SpeakerInfo) (name : string)
    (f : SpeakerInfo -> SpeakerInfo) :
  (forall i, trained (f i) = true ->
     trained i = true /\ model_info (f i) = model_info i
     \/ exists tr mi gpt sovits w',
          trainer self = Some tr /\ model_info (f i) = Some mi
          /\ gpt_model mi = Some gpt /\ sovits_model mi = Some sovits
          /\ artifacts_of_run X tr name gpt sovits w') ->
  models_recorded X self d -> models_recorded X self (alter f name d).
Proof.
  intros Hf Hd n info Hl Ht. destruct (decide (name = n)) as [->|Hne].
  - rewrite lookup_alter_eq in Hl. destruct (d !! n) as [i|] eqn:E; [|discriminate].
    inversion Hl; subst. destruct (Hf _ Ht) as [[Hti Hmi]|Hnew]; [|exact Hnew].
    rewrite Hmi. eapply Hd; eassumption.
  - rewrite lookup_alter_ne in Hl by assumption. eapply Hd; eassumption.
Qed.

Lemma models_recorded_insert_new (d : gmap string SpeakerInfo) (name : string) (t : nat) :
  models_recorded X self d ->
  models_recorded X self (<[name := mkSpeakerInfo [] t false None None None None]> d).
Proof.
  intros Hd n info Hl Ht. destruct (decide (name = n)) as [->|Hne].
  - rewrite lookup_insert_eq in Hl. inversion Hl; subst. discriminate.
  - rewrite lookup_insert_ne in Hl by assumption. eapply Hd; eassumption.
Qed.

Lemma models_recorded_delete (d : gmap string SpeakerInfo) (name : string) :
  models_recorded X self d -> models_recorded X self (delete name d).
Proof.
  intros Hd n info Hl Ht. apply lookup_delete_Some in Hl. destruct Hl as [_ Hl].
  eapply Hd; eassumption.
Qed.

Lemma upload_keeps_models (audio_path speaker_name : string) :
  keeps (fun s => models_recorded X self (speakers_data s))
        (process_reference_audio X audio_path speaker_name) (fun _ => True).
Proof.
  unfold process_reference_audio.
  apply keeps_try; [|intros; apply keeps_raise].
  keeps_world.
  destruct (librosa_load X a) as [e|[audio_len sr]]; [apply keeps_raise|].
  destruct (sr =? 0)%Z; [apply keeps_raise|]. cbv zeta.
  keeps_world.
  eapply keeps_bind with (V := fun _ => True).
  { destruct (negb (sr =? 32000)%Z).
    - destruct (resample_32k X a) as [new_len encoded].
      keeps_world. now apply keeps_ret.
    - keeps_world. now apply keeps_ret. }
  intros [audio_shape sr'] _.
  eapply keeps_bind; [apply keeps_gets with (V := fun _ => True); auto|]. intros known _.
  eapply keeps_bind with (V := fun _ => True).
  { destruct known; [now apply keeps_ret|].
    keeps_world. apply keeps_set_speakers. intros d Hd.
    now apply models_recorded_insert_new. }
  intros _ _. keeps_world.
  eapply keeps_bind.
  { apply keeps_set_speakers. intros d Hd. apply models_recorded_alter; [|exact Hd].
    intros i Ht. left. cbn [trained model_info] in *. auto. }
  intros _ _. eapply keeps_bind; [apply keeps_save|]. intros _ _.
  eapply keeps_bind; [apply keeps_gets with (V := fun _ => True); auto|]. intros count _.
  now apply keeps_ret.
Qed.

(** What [_train_with_sovits_complete] returns are the artifacts of a
    completed run. *)
Lemma train_with_sovits_artifacts (P : gmap string SpeakerInfo -> Prop)
    (tr : GPTSoVITSTrainer) (speaker_name : string) (epochs batch_size : Z) :
  keeps (fun s => P (speakers_data s))
        (_train_with_sovits_complete X tr speaker_name epochs batch_size)
        (fun mi => exists gpt sovits w',
                     gpt_model mi = Some gpt /\ sovits_model mi = Some sovits
                     /\ artifacts_of_run X tr speaker_name gpt sovits w').
Proof.
  unfold _train_with_sovits_complete. cbv zeta.
  eapply keeps_bind; [apply keeps_gets with (V := fun _ => True); auto|]. intros files _.
  eapply keeps_bind
    with (V := fun r => r_status r = "completed" ->
                        exists w w', pipeline_completion X tr speaker_name files epochs
                                       (stage2_epochs epochs) batch_size w w' r).
  { apply keeps_in_world. intros w w' r Hrun Hst. exists w, w'.
    eapply train_speaker_complete_completed; eassumption. }
  intros r Hr. destruct (String.eqb (r_status r) "completed") eqn:Est; cbn [negb];
    [|apply keeps_raise].
  apply String.eqb_eq in Est. destruct (Hr Est) as (w & w' & Hc).
  keeps_world. keeps_world. keeps_world. apply keeps_ret. cbn [gpt_model sovits_model].
  destruct (completion_artifacts _ _ _ _ _ _ _ _ _ _ Hc) as (gpt & sovits & Hg & Hs & _).
  exists gpt, sovits, w'. split; [exact Hg|]. split; [exact Hs|].
  unfold artifacts_of_run. eauto 10.
Qed.

Lemma train_speaker_keeps_models (speaker_name : string) (epochs batch_size : Z) :
  keeps (fun s => models_recorded X self (speakers_data s))
        (train_speaker X self speaker_name epochs batch_size) (fun _ => True).
Proof.
  unfold train_speaker. cbv zeta.
  eapply keeps_bind; [apply keeps_gets with (V := fun _ => True); solve [auto] | intros known _].
  destruct known as [info|]; [|apply keeps_raise].
  destruct (_ <? 3); [apply keeps_raise|].
  keeps_step. keeps_step. unfold train_speaker_guarded.
  apply keeps_try; [|intros e; repeat keeps_step].
  eapply keeps_bind
    with (V := fun mi => exists tr gpt sovits w',
                 trainer self = Some tr
                 /\ gpt_model mi = Some gpt /\ sovits_model mi = Some sovits
                 /\ artifacts_of_run X tr speaker_name gpt sovits w').
  { destruct (trainer self) as [tr|]; [|apply keeps_raise].
    eapply keeps_weaken; [apply train_with_sovits_artifacts|].
    intros mi (gpt & sovits & w' & H). exists tr, gpt, sovits, w'. tauto. }
  intros result (tr & gpt & sovits & w' & Htr & Hg & Hs & Hrun). keeps_step.
  eapply keeps_bind.
  { apply keeps_set_speakers. intros d Hd. apply models_recorded_alter; [|exact Hd].
    intros i _. right. exists tr, result, gpt, sovits, w'. cbn [model_info]. auto. }
  intros _ _. repeat keeps_step.
Qed.

Lemma delete_speaker_keeps_models (speaker_name : string) :
  keeps (fun s => models_recorded X self (speakers_data s))
        (delete_speaker X speaker_name) (fun _ => True).
Proof.
  unfold delete_speaker. cbv zeta.
  eapply keeps_bind; [apply keeps_gets with (V := fun _ => True); solve [auto] | intros known _].
  destruct known as [info|]; [|apply keeps_raise].
  keeps_step.
  eapply keeps_bind with (V := fun _ => True); [repeat keeps_step|]. intros _ _.
  keeps_step.
  eapply keeps_bind with (V := fun _ => True); [repeat keeps_step|]. intros _ _.
  eapply keeps_bind with (V := fun _ => True); [repeat keeps_step|]. intros _ _.
  eapply keeps_bind.
  { apply keeps_set_speakers. intros d Hd. now apply models_recorded_delete. }
  intros _ _. repeat keeps_step.
Qed.

Lemma reachable_models_recorded (s : State) :
  reachable X self s -> models_recorded X self (speakers_data s).
Proof.
  induction 1 as [w | s p n s' r _ IH H | s n e b s' r _ IH H | s n s' r _ IH H
                  | s t n l s' r _ IH H | s w _ IH | s w _ IH].
  - apply models_recorded_empty.
  - exact (proj1 (upload_keeps_models p n s s' r IH H)).
  - exact (proj1 (train_speaker_keeps_models n e b s s' r IH H)).
  - exact (proj1 (delete_speaker_keeps_models n s s' r IH H)).
  - exact (proj1 (generate_speech_keeps X self (models_recorded X self) t n l s s' r IH H)).
  - exact IH.
  - exact IH.
Qed.
End ModelsRecorded.

(** C4 (as the code has it).  In every state the service reaches, a
    speaker marked trained holds a model-info that records a GPT-stage path
    and a SoVITS-stage path, both non-empty, and both returned by a
    completed run of the pipeline for that speaker.  In the world that run
    completed in, the SoVITS-stage path exists.  The GPT-stage path existed
    when stage 1 returned; the code does not look at it again, so it exists
    at completion provided the stage-2 trainer deleted no file. *)
Theorem C4_trained_has_artifacts
    (X : Externals) (self : AudioGeneratorSoVITS) (s : State)
    (name : string) (info : SpeakerInfo) :
  reachable X self s ->
  speakers_data s !! name = Some info ->
  trained info = true ->
  exists tr mi gpt sovits w',
    trainer self = Some tr
    /\ model_info info = Some mi
    /\ gpt_model mi = Some gpt /\ sovits_model mi = Some sovits
    /\ gpt <> "" /\ sovits <> ""
    /\ artifacts_of_run X tr name gpt sovits w'
    /\ is_Some (fs w' !! sovits)
    /\ (stage2_trainer_keeps_files X tr -> is_Some (fs w' !! gpt)).
Proof.
  intros Hreach Hl Ht.
  destruct (reachable_models_recorded X self s Hreach name info Hl Ht)
    as (tr & mi & gpt & sovits & w' & Htr & Hmi & Hg & Hs & Hrun).
  exists tr, mi, gpt, sovits, w'. repeat (split; [assumption|]).
  destruct Hrun as (files & e1 & e2 & b & w & r & Hc & Hrg & Hrs).
  destruct (completion_artifacts _ _ _ _ _ _ _ _ _ _ Hc)
    as (gpt' & sovits' & Hg' & Hs' & Hne1 & Hne2 & Hex & Hframe).
  assert (gpt' = gpt) by congruence. assert (sovits' = sovits) by congruence. subst.
  repeat (split; [assumption|]).
  split; [unfold artifacts_of_run; eauto 10|]. split; assumption.
Qed.

Lemma for_each_reachable {A : Type} (X : Externals) (self : AudioGeneratorSoVITS)
    (body : A -> M State unit) (l : list A) :
  (forall x s, reachable X self s -> reachable X self (fst (body x s))) ->
  forall s, reachable X self s -> reachable X self (fst (for_each l body s)).
Proof.
  intros Hb. induction l as [|x l IH]; intros s Hs; [exact Hs|].
  cbn [for_each]. rewrite bind_eq.
  pose proof (Hb x s Hs) as H1.
  destruct (body x s) as [s1 [u|e]]; [apply IH; exact H1 | exact H1].
Qed.

Lemma with_clips_reachable (sc : Demo.Scenario) (self : AudioGeneratorSoVITS) (n : nat) :
  reachable (Demo.externals sc) self (Demo.with_clips sc n).
Proof.
  unfold Demo.with_clips. apply for_each_reachable; [|apply reach_start].
  intros i s Hs. unfold Demo.upload_clip. cbv zeta.
  rewrite bind_eq, in_world_eq.
  destruct (snd _) as [u|e]; [|now apply reach_files].
  rewrite bind_eq.
  destruct (process_reference_audio _ _ _ _) as [s2 [r|e]] eqn:E.
  - eapply reach_upload; [|exact E]. now apply reach_files.
  - eapply reach_upload; [|exact E]. now apply reach_files.
Qed.

Lemma demo_trainer_keeps_files (sc : Demo.Scenario) (tr : GPTSoVITSTrainer) :
  stage2_trainer_keeps_files (Demo.externals sc) tr.
Proof.
  intros exp_dir env cwd files p Hp.
  change (is_Some (fst (Demo.sim_process sc (s2_cmd tr exp_dir) env cwd files) !! p)).
  unfold Demo.sim_process. cbv zeta.
  repeat match goal with
         | |- context [if ?b then _ else _] => destruct b
         end;
    cbn [fst]; repeat (apply lookup_insert_is_Some'; right); exact Hp.
Qed.

Lemma C4_trained_has_artifacts_witness :
  exists info mi w',
    speakers_data Generation.trained_state !! "voice" = Some info
    /\ trained info = true
    /\ model_info info = Some mi
    /\ gpt_model mi = Some "/srv/app/training_experiments/voice/logs_s1/voice-e8.ckpt"
    /\ sovits_model mi = Some "/srv/app/training_experiments/voice/logs_s2_v2/voice_e8.pth"
    /\ is_Some (fs w' !! "/srv/app/training_experiments/voice/logs_s2_v2/voice_e8.pth")
    /\ is_Some (fs w' !! "/srv/app/training_experiments/voice/logs_s1/voice-e8.ckpt").
Proof.
  assert (Hs : exists info,
             speakers_data Generation.trained_state !! "voice" = Some info
             /\ trained info = true
             /\ option_map gpt_model (model_info info)
                = Some (Some "/srv/app/training_experiments/voice/logs_s1/voice-e8.ckpt")
             /\ option_map sovits_model (model_info info)
                = Some (Some "/srv/app/training_experiments/voice/logs_s2_v2/voice_e8.pth"))
    by (eexists; split; [vm_compute; reflexivity | split; [|split]; vm_compute; reflexivity]).
  destruct Hs as (info & Hinfo & Htrained & Hgpt & Hsovits).
  assert (Hreach : reachable (Demo.externals Generation.scenario) (Demo.generator true)
                     Generation.trained_state).
  { unfold Generation.trained_state.
    eapply reach_train; [apply with_clips_reachable | apply surjective_pairing]. }
  destruct (C4_trained_has_artifacts (Demo.externals Generation.scenario)
              (Demo.generator true) Generation.trained_state "voice" info
              Hreach Hinfo Htrained)
    as (tr & mi & gpt & sovits & w' & _ & Hmi & Hg & Hv & _ & _ & _ & Hex & Hframe).
  rewrite Hmi in Hgpt, Hsovits. cbn [option_map] in Hgpt, Hsovits.
  assert (Hg' : gpt = "/srv/app/training_experiments/voice/logs_s1/voice-e8.ckpt")
    by congruence.
  assert (Hv' : sovits = "/srv/app/training_experiments/voice/logs_s2_v2/voice_e8.pth")
    by congruence.
  subst gpt sovits.
  exists info, mi, w'. repeat (split; [assumption|]).
  apply Hframe, demo_trainer_keeps_files.
Defined.

Lemma stage2cleans_state_reachable (self : AudioGeneratorSoVITS) :
  reachable Stage2Cleans.externals self Stage2Cleans.state.
Proof.
  unfold Stage2Cleans.state. apply for_each_reachable; [|apply reach_start].
  intros i s Hs. unfold Stage2Cleans.upload_clip. cbv zeta.
  rewrite bind_eq, in_world_eq.
  destruct (snd _) as [u|e]; [|now apply reach_files].
  rewrite bind_eq.
  destruct (process_reference_audio _ _ _ _) as [s2 [r|e]] eqn:E.
  - eapply reach_upload; [|exact E]. now apply reach_files.
  - eapply reach_upload; [|exact E]. now apply reach_files.
Qed.

(** C4, as stated, fails.  Where the stage-2 trainer removes the checkpoint
    of stage 1, the run still completes and names that checkpoint as its GPT
    model; the speaker is marked trained with a GPT-stage path that did not
    exist when training completed, and does not exist afterwards. *)
Lemma C4_gpt_artifact_gone_at_completion :
  (exists r,
      snd Stage2Cleans.pipeline = Ok r
      /\ r_status r = "completed"
      /\ r_gpt_model r = Some Stage2Cleans.gpt_path)
  /\ fs (fst Stage2Cleans.pipeline) !! Stage2Cleans.gpt_path = None
  /\ reachable Stage2Cleans.externals (Demo.generator true) Stage2Cleans.trained_state
  /\ (exists info mi,
        speakers_data Stage2Cleans.trained_state !! "voice" = Some info
        /\ trained info = true
        /\ model_info info = Some mi
        /\ gpt_model mi = Some Stage2Cleans.gpt_path)
  /\ fs (world Stage2Cleans.trained_state) !! Stage2Cleans.gpt_path = None.
Proof.
  split; [eexists; split; [vm_compute; reflexivity | split; vm_compute; reflexivity]|].
  split; [vm_compute; reflexivity|].
  split.
  { unfold Stage2Cleans.trained_state.
    eapply reach_train; [apply stage2cleans_state_reachable | apply surjective_pairing]. }
  split; [|vm_compute; reflexivity].
  do 2 eexists. split; [vm_compute; reflexivity|].
  split; [reflexivity|]. split; reflexivity.
Qed.
(** * Further properties of the service *)

(** ** Train requests *)

(** Split a run of [bind (in_world m) k]: the table and the tracker are
    those of the start, whatever [m] does to the world. *)
Ltac world_step H s1 a E :=
  lazymatch type of H with
  | bind (in_world ?m) ?k ?s = _ =>
      rewrite (bind_eq (in_world m) k s) in H;
      destruct (in_world m s) as [s1 [a|?]] eqn:E;
      apply in_world_inv in E;
      let Hw := fresh "Hw" in
      let Hd := fresh "Hd" in
      let Ht := fresh "Ht" in
      destruct E as (Hw & Hd & Ht)
  end.

Lemma train_with_sovits_frame (X : Externals) (tr : GPTSoVITSTrainer) (speaker_name : string)
    (epochs batch_size : Z) (s s' : State) (r : Res ModelInfo) :
  _train_with_sovits_complete X tr speaker_name epochs batch_size s = (s', r) ->
  speakers_data s' = speakers_data s /\ training_status s' = training_status s
  /\ forall mi, r = Ok mi ->
       mi_model_path mi = OsPath.join trained_models_dir speaker_name
       /\ method mi = "gpt_sovits_trained" /\ quality mi = "high".
Proof.
  unfold _train_with_sovits_complete. rewrite bind_gets. cbv zeta. intros H.
  world_step H s1 res E1; [|inv_pair H; repeat split; try congruence; discriminate].
  destruct (negb _); [inv_pair H; repeat split; try congruence; discriminate|].
  world_step H s2 u2 E2; [|inv_pair H; repeat split; try congruence; discriminate].
  world_step H s3 t3 E3; [|inv_pair H; repeat split; try congruence; discriminate].
  world_step H s4 u4 E4; [|inv_pair H; repeat split; try congruence; discriminate].
  inv_pair H. repeat split; try congruence.
  all: match goal with Hr : Ok _ = Ok _ |- _ => injection Hr as <- end; reflexivity.
Qed.

Lemma save_speakers_data_frame (X : Externals) (s s' : State) (r : Res unit) :
  _save_speakers_data X s = (s', r) ->
  speakers_data s' = speakers_data s /\ training_status s' = training_status s.
Proof.
  unfold _save_speakers_data. intros H.
  world_step H s1 u1 E1; [|inv_pair H; split; congruence].
  rewrite bind_gets in H. apply in_world_inv in H. destruct H as (_ & Hd' & Ht').
  split; congruence.
Qed.

(** The guarded block of [train_speaker] ends in one of two ways. *)
Lemma train_speaker_guarded_outcome (X : Externals) (self : AudioGeneratorSoVITS)
    (speaker_name : string) (epochs batch_size : Z) (count : nat) (s s' : State)
    (r : Res TrainSummary) :
  train_speaker_guarded X self speaker_name epochs batch_size count s = (s', r) ->
  match r with
  | Ok summary =>
      exists mi t_trained t_end,
        training_status s' = <[speaker_name := Completed 100 t_end mi]> (training_status s)
        /\ speakers_data s'
           = alter (fun i => mkSpeakerInfo (audio_files i) (created_at i) true
                               (model_path i) (Some mi) (Some t_trained) (Some epochs))
                   speaker_name (speakers_data s)
        /\ summary = mkTrainSummary true (OsPath.join trained_models_dir speaker_name)
                       count epochs
                       ("成功训练 " +:+ speaker_name +:+ " 的模型，使用了 "
                        +:+ pretty count +:+ " 个音频样本")
        /\ mi_model_path mi = OsPath.join trained_models_dir speaker_name
        /\ method mi = "gpt_sovits_trained"
  | Raise e =>
      exists msg t_end,
        e = Exception ("训练失败: " +:+ msg)
        /\ training_status s' = <[speaker_name := Failed msg t_end]> (training_status s)
  end.
Proof.
  unfold train_speaker_guarded. rewrite try_except_eq.
  match goal with
  | |- context [bind ?m ?k s] => destruct (bind m k s) as [s1 [summary|e]] eqn:E
  end.
  - intros [= <- <-].
    bind_ok E as s2 mi E2.
    assert (Hmi : speakers_data s2 = speakers_data s /\ training_status s2 = training_status s
                  /\ mi_model_path mi = OsPath.join trained_models_dir speaker_name
                  /\ method mi = "gpt_sovits_trained").
    { destruct (trainer self) as [tr|]; [|discriminate].
      apply train_with_sovits_frame in E2. destruct E2 as (Hd & Ht & Hv).
      destruct (Hv mi eq_refl) as (Hp & Hm & _). auto. }
    destruct Hmi as (Hd2 & Ht2 & Hpath & Hmethod). clear E2.
    world_step E s3 t3 E3; [|discriminate].
    bind_ok E as s4 u4 E4. unfold set_speakers, modify in E4. inv_pair E4.
    bind_ok E as s5 u5 E5. apply save_speakers_data_frame in E5.
    cbn [speakers_data training_status] in E5. destruct E5 as (Hd5 & Ht5).
    world_step E s6 t6 E6; [|discriminate].
    bind_ok E as s7 u7 E7. unfold set_status, modify in E7. inv_pair E7.
    inv_pair E. cbn [speakers_data training_status].
    exists mi, t3, t6. rewrite Hpath.
    repeat split; try congruence.
  - intros H.
    assert (Hs1 : training_status s1 = training_status s).
    { clear H. bind_inv E.
      - assert (Hd2 : training_status s0 = training_status s).
        { destruct (trainer self) as [tr|]; [|discriminate].
          apply train_with_sovits_frame in E0. tauto. }
        clear E0.
        world_step E s3 t3 E3; [|inv_pair E; congruence].
        bind_inv E.
        + unfold set_speakers, modify in E0. inv_pair E0.
          bind_inv E.
          * apply save_speakers_data_frame in E0.
            cbn [speakers_data training_status] in E0. destruct E0 as (Hd5 & Ht5).
            world_step E s6 t6 E6; [|inv_pair E; congruence].
            bind_inv E; [discriminate|].
            unfold set_status, modify in E0. discriminate.
          * apply save_speakers_data_frame in E0.
            cbn [speakers_data training_status] in E0. destruct E0 as (Hd5 & Ht5).
            inv_pair E. congruence.
        + unfold set_speakers, modify in E0. discriminate.
      - inv_pair E.
        destruct (trainer self) as [tr|].
        + apply train_with_sovits_frame in E0. tauto.
        + inv_pair E0. reflexivity. }
    world_step H s2 t2 E2; [|discriminate].
    rewrite bind_eq in H. unfold set_status, modify in H. inv_pair H.
    cbn [training_status]. exists (str_exn e), t2. split; [reflexivity|]. congruence.
Qed.

Lemma train_speaker_outcome (X : Externals) (self : AudioGeneratorSoVITS)
    (speaker_name : string) (epochs batch_size : Z) (s s' : State) (info : SpeakerInfo)
    (r : Res TrainSummary) :
  speakers_data s !! speaker_name = Some info ->
  3 <= length (audio_files info) ->
  train_speaker X self speaker_name epochs batch_size s = (s', r) ->
  match r with
  | Ok summary =>
      exists mi t_trained t_end,
        get_training_status s' speaker_name = Completed 100 t_end mi
        /\ speakers_data s'
           = <[speaker_name := mkSpeakerInfo (audio_files info) (created_at info) true
                                 (model_path info) (Some mi) (Some t_trained) (Some epochs)]>
               (speakers_data s)
        /\ summary = mkTrainSummary true (OsPath.join trained_models_dir speaker_name)
                       (length (audio_files info)) epochs
                       ("成功训练 " +:+ speaker_name +:+ " 的模型，使用了 "
                        +:+ pretty (length (audio_files info)) +:+ " 个音频样本")
        /\ mi_model_path mi = OsPath.join trained_models_dir speaker_name
        /\ method mi = "gpt_sovits_trained"
  | Raise e =>
      exists msg t_end,
        e = Exception ("训练失败: " +:+ msg)
        /\ get_training_status s' speaker_name = Failed msg t_end
  end.
Proof.
  intros Hinfo Hcount.
  assert (Hlt : (length (audio_files info) <? 3) = false) by (apply Nat.ltb_ge; lia).
  unfold train_speaker. rewrite bind_gets, Hinfo. cbv zeta. rewrite Hlt.
  rewrite bind_eq, in_world_eq, now_eq. cbn [fst snd].
  unfold set_status at 1. rewrite bind_modify. cbn [world speakers_data training_status].
  intros H. apply train_speaker_guarded_outcome in H.
  cbn [speakers_data training_status] in H.
  unfold get_training_status. destruct r as [summary|e].
  - destruct H as (mi & t1 & t2 & Ht & Hd & Hs & Hp & Hm).
    exists mi, t1, t2. rewrite Ht, lookup_insert_eq. split; [reflexivity|].
    split; [|auto].
    rewrite Hd. apply map_eq. intros k. destruct (decide (speaker_name = k)) as [<-|Hne].
    + now rewrite lookup_alter_eq, lookup_insert_eq, Hinfo.
    + now rewrite lookup_alter_ne, lookup_insert_ne by assumption.
  - destruct H as (msg & t & He & Ht). exists msg, t.
    rewrite Ht, lookup_insert_eq. auto.
Qed.

(** X1.  [POST /train_speaker] never changes the state.  It answers 404
    for a speaker that is not in the table and 400 for one with fewer than
    three clips, and [train_speaker] refuses exactly the same requests,
    leaving the tracker as it was; every other request is accepted, the
    task is scheduled, and [train_speaker] gives the speaker a tracker
    entry. *)
Theorem X1_train_request_validation
    (X : Externals) (audio_gen : AudioGeneratorSoVITS) (s : State)
    (speaker_name : string) (epochs batch_size : Z) :
  fst (App.train_speaker X audio_gen speaker_name epochs batch_size s) = s
  /\ match speakers_data s !! speaker_name with
     | None =>
         snd (App.train_speaker X audio_gen speaker_name epochs batch_size s)
         = Raise (HTTPException 404 ("未找到说话者 '" +:+ speaker_name +:+ "'"))
         /\ train_speaker X audio_gen speaker_name epochs batch_size s
            = (s, Raise (Exception ("未找到说话者 '" +:+ speaker_name +:+ "'")))
     | Some info =>
         if length (audio_files info) <? 3 then
           snd (App.train_speaker X audio_gen speaker_name epochs batch_size s)
           = Raise (HTTPException 400
                      ("训练需要至少3个音频样本，当前只有 "
                       +:+ pretty (length (audio_files info)) +:+ " 个"))
           /\ train_speaker X audio_gen speaker_name epochs batch_size s
              = (s, Raise (Exception
                             ("训练需要至少3个音频文件，当前只有 "
                              +:+ pretty (length (audio_files info)) +:+ " 个")))
         else
           exists response,
             snd (App.train_speaker X audio_gen speaker_name epochs batch_size s)
             = Ok (response, App.train_task X audio_gen speaker_name epochs batch_size)
             /\ App.tr_status response = "success"
             /\ App.tr_audio_count response = length (audio_files info)
             /\ is_Some (training_status
                           (fst (train_speaker X audio_gen speaker_name epochs batch_size s))
                         !! speaker_name)
     end.
Proof.
  split.
  { unfold App.train_speaker. rewrite bind_gets.
    destruct (speakers_data s !! speaker_name) as [info|]; [|reflexivity].
    cbv zeta. destruct (_ <? 3); reflexivity. }
  destruct (speakers_data s !! speaker_name) as [info|] eqn:Hinfo.
  - destruct (length (audio_files info) <? 3) eqn:Hlt.
    + unfold App.train_speaker, train_speaker. rewrite !bind_gets, Hinfo. cbv zeta.
      rewrite Hlt. split; reflexivity.
    + eexists. split; [|split; [|split]].
      * unfold App.train_speaker. rewrite bind_gets, Hinfo. cbv zeta. rewrite Hlt.
        reflexivity.
      * reflexivity.
      * reflexivity.
      * apply Nat.ltb_ge in Hlt.
        destruct (train_speaker X audio_gen speaker_name epochs batch_size s)
          as [s' r] eqn:E.
        pose proof (train_speaker_outcome _ _ _ _ _ _ _ _ _ Hinfo Hlt E) as Ho.
        cbn [fst]. unfold get_training_status in Ho.
        destruct r as [summary|e].
        -- destruct Ho as (mi & t1 & t2 & Ht & _).
           destruct (training_status s' !! speaker_name); [eauto | discriminate].
        -- destruct Ho as (msg & t & _ & Ht).
           destruct (training_status s' !! speaker_name); [eauto | discriminate].
  - unfold App.train_speaker, train_speaker. rewrite !bind_gets, Hinfo. split; reflexivity.
Qed.

(** X2.  A training run for a speaker with at least three clips leaves the
    tracker in a final state.  When [train_speaker] returns, the entry is
    [completed] with progress 100 and the model-info that is stored with the
    speaker, the speaker is marked trained with the requested epoch count,
    its clips and every other speaker are as before, and the summary counts
    the clips; when it raises, the exception text is the prefix
    [训练失败: ] followed by the error text of the [failed] entry. *)
Theorem X2_train_speaker_outcome
    (X : Externals) (self : AudioGeneratorSoVITS)
    (speaker_name : string) (epochs batch_size : Z) (s s' : State) (info : SpeakerInfo)
    (r : Res TrainSummary) :
  speakers_data s !! speaker_name = Some info ->
  3 <= length (audio_files info) ->
  train_speaker X self speaker_name epochs batch_size s = (s', r) ->
  match r with
  | Ok summary =>
      exists mi t_trained t_end,
        get_training_status s' speaker_name = Completed 100 t_end mi
        /\ speakers_data s'
           = <[speaker_name := mkSpeakerInfo (audio_files info) (created_at info) true
                                 (model_path info) (Some mi) (Some t_trained) (Some epochs)]>
               (speakers_data s)
        /\ summary = mkTrainSummary true (OsPath.join trained_models_dir speaker_name)
                       (length (audio_files info)) epochs
                       ("成功训练 " +:+ speaker_name +:+ " 的模型，使用了 "
                        +:+ pretty (length (audio_files info)) +:+ " 个音频样本")
        /\ mi_model_path mi = OsPath.join trained_models_dir speaker_name
        /\ method mi = "gpt_sovits_trained"
  | Raise e =>
      exists msg t_end,
        e = Exception ("训练失败: " +:+ msg)
        /\ get_training_status s' speaker_name = Failed msg t_end
  end.
Proof. apply train_speaker_outcome. Qed.

Lemma X2_train_speaker_outcome_witness :
  exists mi t_end,
    get_training_status Generation.trained_state "voice" = Completed 100 t_end mi
    /\ mi_model_path mi = OsPath.join trained_models_dir "voice".
Proof.
  assert (Hs : exists info, speakers_data (Demo.with_clips Generation.scenario 3) !! "voice"
                            = Some info /\ 3 <= length (audio_files info))
    by (eexists; split; [vm_compute; reflexivity | vm_compute; lia]).
  destruct Hs as (info & Hinfo & Hcount).
  assert (Hres : exists summary,
             snd (train_speaker (Demo.externals Generation.scenario) (Demo.generator true)
                    "voice" 8 4 (Demo.with_clips Generation.scenario 3)) = Ok summary)
    by (eexists; vm_compute; reflexivity).
  destruct Hres as (summary & Hres).
  destruct (X2_train_speaker_outcome (Demo.externals Generation.scenario)
              (Demo.generator true) "voice" 8 4 (Demo.with_clips Generation.scenario 3)
              _ info (Ok summary) Hinfo Hcount (run_eq _ _ Hres))
    as (mi & t1 & t2 & Hjob & _ & _ & Hpath & _).
  exists mi, t2. split; [exact Hjob | exact Hpath].
Defined.

(** X3.  Without a trainer (its construction failed when the service
    started) a training run for a speaker with at least three clips fails at
    once: the request raises, the tracker entry is [failed] with the text
    [训练器未初始化，无法进行训练], the table is untouched, no file is
    written and no process is launched. *)
Theorem X3_train_without_trainer
    (X : Externals) (self : AudioGeneratorSoVITS)
    (speaker_name : string) (epochs batch_size : Z) (s s' : State)
    (r : Res TrainSummary) (info : SpeakerInfo) :
  trainer self = None ->
  speakers_data s !! speaker_name = Some info ->
  3 <= length (audio_files info) ->
  train_speaker X self speaker_name epochs batch_size s = (s', r) ->
  r = Raise (Exception "训练失败: 训练器未初始化，无法进行训练")
  /\ get_training_status s' speaker_name
     = Failed "训练器未初始化，无法进行训练" (S (clock (world s)))
  /\ speakers_data s' = speakers_data s
  /\ fs (world s') = fs (world s)
  /\ procs (world s') = procs (world s).
Proof.
  intros Htr Hinfo Hcount.
  assert (Hlt : (length (audio_files info) <? 3) = false) by (apply Nat.ltb_ge; lia).
  unfold train_speaker. rewrite bind_gets, Hinfo. cbv zeta. rewrite Hlt.
  rewrite bind_eq, in_world_eq, now_eq. cbn [fst snd].
  unfold set_status at 1. rewrite bind_modify. cbn [world speakers_data training_status].
  unfold train_speaker_guarded. rewrite try_except_eq, bind_eq, Htr.
  unfold raise at 1. cbv beta iota.
  rewrite bind_eq, in_world_eq, now_eq. cbn [fst snd world speakers_data training_status].
  unfold set_status. rewrite bind_modify. cbn [world speakers_data training_status].
  unfold raise. cbn [str_exn fs clock procs console].
  intros [= <- <-]. unfold get_training_status. cbn [training_status speakers_data world fs procs].
  rewrite lookup_insert_eq. repeat split.
Qed.

Lemma X3_train_without_trainer_witness :
  get_training_status
    (fst (train_speaker (Demo.externals Generation.scenario) (mkGenerator None true)
            "voice" 8 4 (Demo.with_clips Generation.scenario 3))) "voice"
  = Failed "训练器未初始化，无法进行训练"
      (S (clock (world (Demo.with_clips Generation.scenario 3)))).
Proof.
  assert (Hs : exists info, speakers_data (Demo.with_clips Generation.scenario 3) !! "voice"
                            = Some info /\ 3 <= length (audio_files info))
    by (eexists; split; [vm_compute; reflexivity | vm_compute; lia]).
  destruct Hs as (info & Hinfo & Hcount).
  exact (proj1 (proj2 (X3_train_without_trainer (Demo.externals Generation.scenario)
                         (mkGenerator None true) "voice" 8 4
                         (Demo.with_clips Generation.scenario 3) _ _ info eq_refl Hinfo
                         Hcount (surjective_pairing _)))).
Defined.

(** ** Generation requests *)

(** X4.  Every failure of [POST /generate_audio] is an HTTP 500 whose
    detail starts with [音频生成失败: ].  In particular a speaker that is
    not in the table and a speaker that is not trained are both answered
    with status 500, the detail carrying the text [generate_speech] raised,
    and such a request changes nothing: no tick of the clock, no file. *)
Theorem X4_generate_audio_failures
    (X : Externals) (audio_gen : AudioGeneratorSoVITS)
    (txt speaker_name language : string) (s : State) :
  match snd (App.generate_audio X audio_gen txt speaker_name language s) with
  | Ok _ => True
  | Raise e => exists detail, e = HTTPException 500 ("音频生成失败: " +:+ detail)
  end
  /\ match speakers_data s !! speaker_name with
     | None =>
         App.generate_audio X audio_gen txt speaker_name language s
         = (s, Raise (HTTPException 500
                        ("音频生成失败: 未找到说话者 '" +:+ speaker_name
                         +:+ "' 的数据，请先上传音频语料")))
     | Some info =>
         trained info = false ->
         App.generate_audio X audio_gen txt speaker_name language s
         = (s, Raise (HTTPException 500
                        ("音频生成失败: 说话者 '" +:+ speaker_name
                         +:+ "' 尚未训练模型。请先训练模型（当前有 "
                         +:+ pretty (length (audio_files info)) +:+ " 个音频样本）")))
     end.
Proof.
  split.
  - unfold App.generate_audio. rewrite try_except_eq.
    match goal with
    | |- context [bind ?m ?k s] => destruct (bind m k s) as [s1 [resp|e]]
    end; cbn [snd]; [exact I|]. unfold raise. cbn [snd]. eauto.
  - unfold App.generate_audio, generate_speech.
    destruct (speakers_data s !! speaker_name) as [info|] eqn:Hinfo.
    + intros Htr. rewrite try_except_eq, bind_eq, bind_gets, Hinfo, Htr. reflexivity.
    + rewrite try_except_eq, bind_eq, bind_gets, Hinfo. reflexivity.
Qed.

(** ** From a generated clip to its download *)

Lemma contains_slash_app (a b : string) :
  PyStr.contains "/" (a +:+ b) = PyStr.contains "/" a || PyStr.contains "/" b.
Proof.
  induction a as [|c a IH].
  - change ("" +:+ b) with b. destruct b; reflexivity.
  - change (String c a +:+ b) with (String c (a +:+ b)).
    cbn [PyStr.contains String.prefix]. rewrite IH.
    destruct (ascii_dec "/" c); [|reflexivity].
    destruct a, b; reflexivity.
Qed.

Lemma split_on_no_sep (s : string) :
  PyStr.contains "/" s = false -> PyStr.split_on "/" s = [s].
Proof.
  induction s as [|c s IH]; [reflexivity|].
  cbn [PyStr.contains String.prefix PyStr.split_on]. intros H.
  apply orb_false_elim in H. destruct H as [Hc Hs].
  destruct (Ascii.eqb c "/") eqn:Ec.
  - apply Ascii.eqb_eq in Ec. subst c. destruct s; discriminate.
  - now rewrite (IH Hs).
Qed.

Lemma basename_in_outputs (f : string) :
  PyStr.contains "/" f = false ->
  OsPath.join "outputs" f = "outputs/" +:+ f
  /\ OsPath.basename (OsPath.join "outputs" f) = f.
Proof.
  intros Hf.
  assert (Hs : PyStr.startswith "/" f = false).
  { destruct f; [reflexivity|]. cbn [PyStr.contains] in Hf.
    now apply orb_false_elim in Hf. }
  assert (Hj : OsPath.join "outputs" f = "outputs/" +:+ f).
  { unfold OsPath.join. rewrite Hs. reflexivity. }
  split; [exact Hj|]. rewrite Hj. unfold OsPath.basename.
  change (PyStr.split_on "/" ("outputs/" +:+ f))
    with ("outputs" :: PyStr.split_on "/" f).
  now rewrite (split_on_no_sep f Hf).
Qed.

(** X5.  When neither the speaker name nor the identifier drawn for the
    clip holds a slash, the URL [POST /generate_audio] answers with names a
    file that [GET /download_audio] finds: the download handler, run in the
    state the generation left, returns the clip's path under [outputs]. *)
Theorem X5_generated_clip_downloads
    (X : Externals) (audio_gen : AudioGeneratorSoVITS)
    (txt speaker_name language : string) (s s' : State) (resp : App.GenerateResponse) :
  PyStr.contains "/" speaker_name = false ->
  (forall seed, PyStr.contains "/" (uuid_hex8 X seed) = false) ->
  App.generate_audio X audio_gen txt speaker_name language s = (s', Ok resp) ->
  exists filename,
    App.ga_audio_url resp = "/download_audio/" +:+ filename
    /\ App.download_audio filename s' = (s', Ok (output_path_for X s speaker_name))
    /\ is_Some (fs (world s') !! output_path_for X s speaker_name).
Proof.
  intros Hname Huuid H.
  pose (f := speaker_name +:+ "_" +:+ uuid_hex8 X (clock (world s)) +:+ ".wav").
  assert (Hf : PyStr.contains "/" f = false).
  { unfold f. rewrite !contains_slash_app, Hname, Huuid. reflexivity. }
  destruct (basename_in_outputs f Hf) as [Hj Hb].
  unfold App.generate_audio in H.
  apply try_except_ok_inv in H; [|intros; discriminate].
  bind_inv H; [|discriminate].
  pose proof (generate_speech_ok _ _ _ _ _ _ _ _ E) as (-> & _).
  rewrite bind_eq, in_world_eq, exists_eq in H. cbn [fst snd] in H.
  destruct (bool_decide _) eqn:Hex; cbn [negb] in H; [|discriminate].
  inv_pair H. apply bool_decide_eq_true in Hex.
  exists f. cbn [App.ga_audio_url world].
  fold f in Hb. change (output_path_for X s speaker_name) with (OsPath.join "outputs" f) in *.
  rewrite Hb. split; [reflexivity|]. split; [|exact Hex].
  unfold App.download_audio. cbv zeta.
  rewrite bind_eq, in_world_eq, exists_eq. cbn [fst snd world].
  rewrite (bool_decide_eq_true_2 _ Hex). cbn [negb]. unfold ret.
  destruct s0; reflexivity.
Qed.

Lemma pretty_N_go_no_slash (x : N) (s : string) :
  PyStr.contains "/" s = false -> PyStr.contains "/" (pretty_N_go x s) = false.
Proof.
  revert s. induction (N.lt_wf_0 x) as [x _ IH]. intros s Hs.
  destruct (N.eq_dec x 0%N) as [->|Hx]; [now rewrite pretty_N_go_0|].
  rewrite pretty_N_go_step by lia. apply IH; [apply N.div_lt; lia|].
  cbn [PyStr.contains String.prefix]. rewrite Hs.
  assert (Hd : pretty_N_char (x mod 10) <> "/"%char).
  { unfold pretty_N_char. repeat case_match; discriminate. }
  destruct (ascii_dec "/" (pretty_N_char (x mod 10))); [congruence | reflexivity].
Qed.

Lemma pretty_nat_no_slash (n : nat) : PyStr.contains "/" (pretty n) = false.
Proof.
  unfold pretty, pretty_nat, pretty, pretty_N.
  destruct (decide (N.of_nat n = 0%N)); [reflexivity|].
  now apply pretty_N_go_no_slash.
Qed.

Lemma X5_generated_clip_downloads_witness :
  exists filename,
    App.ga_audio_url
      (match snd Generation.degraded with
       | Ok resp => resp
       | Raise _ => App.mkGenerateResponse "" "" "" "" ""
       end)
    = "/download_audio/" +:+ filename
    /\ App.download_audio filename (fst Generation.degraded)
       = (fst Generation.degraded,
          Ok (output_path_for (Demo.externals Generation.scenario)
                Generation.trained_state "voice")).
Proof.
  assert (Hres : exists resp, snd Generation.degraded = Ok resp)
    by (eexists; vm_compute; reflexivity).
  destruct Hres as (resp & Hres). rewrite Hres.
  destruct (X5_generated_clip_downloads (Demo.externals Generation.scenario)
              (Demo.generator false) Generation.request_text "voice" "zh-cn"
              Generation.trained_state (fst Generation.degraded) resp)
    as (filename & Hurl & Hdl & _).
  - vm_compute. reflexivity.
  - intros seed.
    change (PyStr.contains "/" ("c0ffee" +:+ pretty seed) = false).
    rewrite contains_slash_app, pretty_nat_no_slash. reflexivity.
  - exact (run_eq _ _ Hres).
  - exists filename. split; [exact Hurl | exact Hdl].
Defined.

(** ** The store file *)

Lemma makedirs_models (w w' : World) (r : Res unit) :
  Os.makedirs "models" w = (w', r) ->
  procs w' = procs w
  /\ (forall p, p <> "models" -> fs w' !! p = fs w !! p)
  /\ (forall p, is_Some (fs w !! p) -> is_Some (fs w' !! p)).
Proof.
  change (Os.makedirs "models") with (Os.mkdir_step "models" "models" ;;; ret tt).
  unfold Os.mkdir_step. rewrite bind_eq, bind_gets.
  destruct (fs w !! "models") as [[c t|t]|] eqn:Hm.
  - cbn [String.eqb Ascii.eqb Bool.eqb]. intros H. inv_pair H. auto.
  - intros H. inv_pair H. auto.
  - rewrite bind_eq, now_eq. unfold modify. cbn [fst snd]. intros H. inv_pair H.
    cbn [set_fs fs procs]. split; [reflexivity|]. split.
    + intros p Hp. now rewrite lookup_insert_ne by congruence.
    + intros p Hp. apply lookup_insert_is_Some'. now right.
Qed.

Lemma save_speakers_data_ok (X : Externals) (s s' : State) (u : unit) :
  _save_speakers_data X s = (s', Ok u) ->
  speakers_data s' = speakers_data s /\ training_status s' = training_status s
  /\ persisted X s'
  /\ procs (world s') = procs (world s)
  /\ (forall p, p <> "models" -> p <> speakers_file ->
        fs (world s') !! p = fs (world s) !! p)
  /\ (forall p, is_Some (fs (world s) !! p) -> is_Some (fs (world s') !! p)).
Proof.
  unfold _save_speakers_data. intros H.
  change (OsPath.dirname speakers_file) with "models" in H.
  world_step H s1 u1 E1; [|discriminate].
  apply makedirs_models in Hw. destruct Hw as (Hp1 & Hf1 & Hk1).
  rewrite bind_gets in H. apply in_world_inv in H. destruct H as (Hw2 & Hd2 & Ht2).
  apply write_file_ok in Hw2.
  split; [congruence|]. split; [congruence|].
  unfold persisted, content_of. rewrite Hw2. cbn [fs procs].
  rewrite lookup_insert_eq, Hd2. split; [reflexivity|]. split; [exact Hp1|]. split.
  - intros p Hm Hs. rewrite lookup_insert_ne by congruence. now apply Hf1.
  - intros p Hp. apply lookup_insert_is_Some'. right. now apply Hk1.
Qed.

(** ** Deleting a speaker *)

Lemma purge_dir_in_state {B : Type} (d : string) (k : M State B) (s s' : State) (b : B) :
  (ex <- in_world (Os.exists_ d) ;;
   (if ex then in_world (Os.rmtree d) else ret tt) ;;; k) s = (s', Ok b) ->
  exists s2,
    purge_dir d (world s) = (world s2, Ok tt)
    /\ speakers_data s2 = speakers_data s /\ training_status s2 = training_status s
    /\ k s2 = (s', Ok b).
Proof.
  intros H. world_step H s1 found E1; [|discriminate].
  rewrite exists_eq in Hw. injection Hw as Hw1 Hex.
  bind_ok H as s2 u2 E2. exists s2.
  unfold purge_dir. rewrite bind_eq, exists_eq, Hex.
  destruct found.
  - apply in_world_inv in E2. destruct E2 as (Hw2 & Hd2 & Ht2).
    rewrite <- Hw1 in Hw2. destruct u2. rewrite Hw2.
    repeat split; congruence.
  - inv_pair E2. unfold ret. rewrite Hw1. repeat split; congruence.
Qed.

Lemma remove_originals_ok (files : list AudioSample) (s s' : State) (u : unit) :
  for_each files
    (fun audio_info =>
       let original_path := original_path audio_info in
       ex <- in_world (Os.exists_ original_path) ;;
       if negb (String.eqb original_path "") && ex
       then in_world (Os.remove original_path) else ret tt) s = (s', Ok u) ->
  speakers_data s' = speakers_data s /\ training_status s' = training_status s
  /\ procs (world s') = procs (world s)
  /\ (forall p, fs (world s) !! p = None -> fs (world s') !! p = None)
  /\ (forall a, In a files -> original_path a <> "" ->
        fs (world s') !! original_path a = None).
Proof.
  revert s. induction files as [|a files IH]; intros s H.
  - inv_pair H. repeat split; auto. intros a [].
  - cbn [for_each] in H. cbv zeta in H. bind_ok H as s1 u1 E1.
    world_step E1 s0 found E0; [|discriminate].
    rewrite exists_eq in Hw. injection Hw as Hw0 Hex.
    assert (Hstep : speakers_data s1 = speakers_data s
                    /\ training_status s1 = training_status s
                    /\ procs (world s1) = procs (world s)
                    /\ (forall p, fs (world s) !! p = None -> fs (world s1) !! p = None)
                    /\ (original_path a <> "" -> fs (world s1) !! original_path a = None)).
    { destruct (negb (String.eqb (original_path a) "")) eqn:Hne; cbn [andb] in E1.
      - destruct found.
        + apply in_world_inv in E1. destruct E1 as (Hw1 & Hd1 & Ht1).
          rewrite remove_eq, <- Hw0 in Hw1.
          destruct (fs (world s) !! original_path a) as [[c t|t]|]; try discriminate.
          injection Hw1 as Hw1. rewrite <- Hw1. cbn [set_fs fs procs].
          split; [congruence|]. split; [congruence|]. split; [reflexivity|]. split.
          * intros p Hp. rewrite lookup_delete_None. now right.
          * intros _. apply lookup_delete_eq.
        + inv_pair E1. rewrite <- Hw0.
          split; [congruence|]. split; [congruence|]. split; [reflexivity|].
          split; [auto|]. intros _.
          apply bool_decide_eq_false in Hex.
          destruct (fs (world s) !! original_path a) eqn:Hl; [|reflexivity].
          exfalso. apply Hex. eauto.
      - inv_pair E1. rewrite <- Hw0.
        split; [congruence|]. split; [congruence|]. split; [reflexivity|].
        split; [auto|]. intros Hnon. apply negb_false_iff, String.eqb_eq in Hne.
        contradiction. }
    destruct Hstep as (Hd1 & Ht1 & Hp1 & Hn1 & Ha1).
    destruct (IH _ H) as (Hd' & Ht' & Hp' & Hn' & Ha').
    split; [congruence|]. split; [congruence|]. split; [congruence|]. split; [auto|].
    intros b [<-|Hb] Hne; [apply Hn', Ha1, Hne | now apply Ha'].
Qed.

(** The two directories of a speaker are never the store file or its
    directory, and neither lies beneath the other. *)
Lemma speaker_dirs_apart (speaker_name : string) :
  let sd := OsPath.join training_data_dir speaker_name in
  let md := OsPath.join trained_models_dir speaker_name in
  under sd "models" = false /\ under sd speakers_file = false
  /\ under md "models" = false /\ under md speakers_file = false
  /\ (sd = md \/ under sd md = false).
Proof.
  unfold OsPath.join.
  destruct (PyStr.startswith "/" speaker_name) eqn:Hs.
  - destruct speaker_name as [|c n]; [discriminate|].
    cbn [PyStr.startswith String.prefix] in Hs.
    destruct (ascii_dec "/" c) as [<-|]; [|discriminate].
    cbv zeta. repeat split; try reflexivity. now left.
  - cbv zeta.
    change (String.eqb training_data_dir "" || PyStr.endswith "/" training_data_dir)
      with false.
    change (String.eqb trained_models_dir "" || PyStr.endswith "/" trained_models_dir)
      with false.
    cbv iota. repeat split; try reflexivity. right. reflexivity.
Qed.

Lemma under_false_ne (d p : string) : under d p = false -> p <> d.
Proof.
  unfold under. intros H Heq. subst p.
  now rewrite String.eqb_refl in H.
Qed.

Lemma delete_speaker_ok
    (X : Externals) (speaker_name : string) (s s' : State) (u : unit) :
  delete_speaker X speaker_name s = (s', Ok u) ->
  exists info,
    speakers_data s !! speaker_name = Some info
    /\ speakers_data s' = delete speaker_name (speakers_data s)
    /\ training_status s' = training_status s
    /\ procs (world s') = procs (world s)
    /\ persisted X s'
    /\ (forall d,
          d = OsPath.join training_data_dir speaker_name
          \/ d = OsPath.join trained_models_dir speaker_name ->
          fs (world s') !! d = None
          /\ (is_Some (fs (world s) !! d) ->
              forall p, under d p = true -> fs (world s') !! p = None))
    /\ (forall a, In a (audio_files info) -> original_path a <> "" ->
          original_path a <> "models" -> original_path a <> speakers_file ->
          fs (world s') !! original_path a = None).
Proof.
  unfold delete_speaker. rewrite bind_gets.
  destruct (speakers_data s !! speaker_name) as [info|] eqn:Hinfo; [|discriminate].
  cbv zeta. intros H. exists info. split; [reflexivity|].
  apply purge_dir_in_state in H. destruct H as (s2 & Hp1 & Hd2 & Ht2 & H).
  apply purge_dir_in_state in H. destruct H as (s3 & Hp2 & Hd3 & Ht3 & H).
  bind_ok H as s4 u4 E4. apply remove_originals_ok in E4.
  destruct E4 as (Hd4 & Ht4 & Hpr4 & Hn4 & Ha4).
  bind_ok H as s5 u5 E5. unfold set_speakers, modify in E5. inv_pair E5.
  apply save_speakers_data_ok in H.
  cbn [world speakers_data training_status] in H.
  destruct H as (Hd6 & Ht6 & Hpers & Hpr6 & Hf6 & _).
  apply purge_dir_step in Hp1. destruct Hp1 as ((Hsame1 & Hn1 & _ & Hpr1 & _) & Hsd1 & Hsub1).
  apply purge_dir_step in Hp2. destruct Hp2 as ((Hsame2 & Hn2 & _ & Hpr2 & _) & Hmd2 & Hsub2).
  destruct (speaker_dirs_apart speaker_name) as (A1 & A2 & A3 & A4 & A5). cbv zeta in *.
  set (sd := OsPath.join training_data_dir speaker_name) in *.
  set (md := OsPath.join trained_models_dir speaker_name) in *.
  assert (Hend4 : forall p, p <> "models" -> p <> speakers_file ->
                    fs (world s4) !! p = None -> fs (world s') !! p = None).
  { intros p Hm Hs Hp. now rewrite Hf6 by assumption. }
  assert (Hend : forall p, p <> "models" -> p <> speakers_file ->
                   fs (world s3) !! p = None -> fs (world s') !! p = None).
  { intros p Hm Hs Hp. apply Hend4; auto. }
  split; [congruence|]. split; [congruence|]. split; [congruence|].
  split; [exact Hpers|]. split.
  - assert (Hunder : forall d p, under d "models" = false -> under d speakers_file = false ->
                       under d p = true -> p <> "models" /\ p <> speakers_file).
    { intros d p B1 B2 Hu. split; intros ->; congruence. }
    intros d [-> | ->].
    + split.
      * apply Hend; [apply not_eq_sym, under_false_ne, A1
                    | apply not_eq_sym, under_false_ne, A2 | now apply Hn2].
      * intros Hex p Hu. destruct (Hunder _ _ A1 A2 Hu).
        apply Hend; [assumption | assumption |]. apply Hn2. now apply Hsub1.
    + split.
      * apply Hend; [apply not_eq_sym, under_false_ne, A3
                    | apply not_eq_sym, under_false_ne, A4 | exact Hmd2].
      * intros Hex p Hu. destruct (Hunder _ _ A3 A4 Hu).
        apply Hend; [assumption | assumption |].
        destruct A5 as [Heq|Hapart].
        -- apply Hn2. apply Hsub1; [now rewrite Heq | now rewrite Heq].
        -- apply Hsub2; [|exact Hu]. rewrite Hsame1; [exact Hex|].
           now rewrite Hapart.
  - intros a Hin Hne Hm Hs. apply Hend4; [assumption | assumption |]. now apply Ha4.
Qed.

(** X6.  When [delete_speaker] returns, the speaker is gone from the
    table and every other speaker is as before; the store file holds the
    new table; the speaker's training-data directory and model directory are
    gone with everything beneath them; every original upload of the speaker
    is gone; no process was launched.  The tracker is left as it was, so a
    job of the deleted speaker can still be read. *)
Theorem X6_delete_speaker_effects
    (X : Externals) (speaker_name : string) (s s' : State) (u : unit) :
  delete_speaker X speaker_name s = (s', Ok u) ->
  exists info,
    speakers_data s !! speaker_name = Some info
    /\ speakers_data s' = delete speaker_name (speakers_data s)
    /\ training_status s' = training_status s
    /\ procs (world s') = procs (world s)
    /\ persisted X s'
    /\ (forall d,
          d = OsPath.join training_data_dir speaker_name
          \/ d = OsPath.join trained_models_dir speaker_name ->
          fs (world s') !! d = None
          /\ (is_Some (fs (world s) !! d) ->
              forall p, under d p = true -> fs (world s') !! p = None))
    /\ (forall a, In a (audio_files info) -> original_path a <> "" ->
          original_path a <> "models" -> original_path a <> speakers_file ->
          fs (world s') !! original_path a = None).
Proof. apply delete_speaker_ok. Qed.


(** X7.  Every failure of [DELETE /delete_speaker] is an HTTP 500 whose
    detail starts with [删除失败: ].  A speaker that is not in the table
    makes [delete_speaker] raise and the handler answer 500, not 404, and
    nothing is changed. *)
Theorem X7_delete_speaker_failures
    (X : Externals) (speaker_name : string) (s : State) :
  match snd (App.delete_speaker X speaker_name s) with
  | Ok response =>
      App.dl_status response = "success"
      /\ speakers_data (fst (App.delete_speaker X speaker_name s)) !! speaker_name = None
  | Raise e => exists detail, e = HTTPException 500 ("删除失败: " +:+ detail)
  end
  /\ (speakers_data s !! speaker_name = None ->
      delete_speaker X speaker_name s
      = (s, Raise (Exception ("未找到说话者 '" +:+ speaker_name +:+ "'")))
      /\ App.delete_speaker X speaker_name s
         = (s, Raise (HTTPException 500
                        ("删除失败: 未找到说话者 '" +:+ speaker_name +:+ "'")))).
Proof.
  split.
  - unfold App.delete_speaker. rewrite try_except_eq, bind_eq.
    destruct (delete_speaker X speaker_name s) as [s1 [u|e]] eqn:E; cbn [fst snd].
    + unfold ret. cbn [fst snd]. split; [reflexivity|].
      apply delete_speaker_ok in E. destruct E as (info & _ & Hd & _).
      rewrite Hd. apply lookup_delete_eq.
    + unfold raise. cbn [snd]. eauto.
  - intros Hnone.
    assert (Hd : delete_speaker X speaker_name s
                 = (s, Raise (Exception ("未找到说话者 '" +:+ speaker_name +:+ "'"))))
      by (unfold delete_speaker; rewrite bind_gets, Hnone; reflexivity).
    split; [exact Hd|].
    unfold App.delete_speaker. rewrite try_except_eq, bind_eq, Hd. reflexivity.
Qed.

Lemma X6_delete_speaker_effects_witness :
  speakers_data (fst (delete_speaker (Demo.externals Generation.scenario) "voice"
                        Generation.trained_state))
  = delete "voice" (speakers_data Generation.trained_state)
  /\ fs (world (fst (delete_speaker (Demo.externals Generation.scenario) "voice"
                       Generation.trained_state)))
       !! OsPath.join trained_models_dir "voice" = None.
Proof.
  assert (Hres : snd (delete_speaker (Demo.externals Generation.scenario) "voice"
                        Generation.trained_state) = Ok tt)
    by (vm_compute; reflexivity).
  destruct (X6_delete_speaker_effects (Demo.externals Generation.scenario) "voice"
              Generation.trained_state _ tt (run_eq _ _ Hres))
    as (info & _ & Hd & _ & _ & _ & Hdirs & _).
  split; [exact Hd|].
  destruct (Hdirs (OsPath.join trained_models_dir "voice") (or_intror eq_refl)) as [Hgone _].
  exact Hgone.
Defined.

(** ** What never launches a process *)

Section KeepsProcs.
Variable l : list (list string).
Abbreviation quiet := (fun w : World => procs w = l).

Lemma quiet_now : keeps quiet Os.now (fun _ => True).
Proof. intros w w' r Hw H. unfold Os.now in H. inversion H; subst. auto. Qed.

Lemma quiet_get {A} (f : World -> A) : keeps quiet (gets f) (fun _ => True).
Proof. apply keeps_gets. auto. Qed.

Lemma quiet_set_fs (f : FS -> FS) : keeps quiet (modify (set_fs f)) (fun _ => True).
Proof. apply keeps_modify. intros w Hw. exact Hw. Qed.

Lemma quiet_print (line : string) : keeps quiet (Os.print line) (fun _ => True).
Proof. apply keeps_modify. intros w Hw. exact Hw. Qed.

Ltac quiet_step :=
  first
    [ apply keeps_raise
    | apply keeps_ret; exact I
    | apply quiet_set_fs
    | apply quiet_get
    | apply quiet_now
    | eapply keeps_bind; [apply quiet_get | intros ? _]
    | eapply keeps_bind; [apply quiet_now | intros ? _]
    | eapply keeps_bind; [apply quiet_set_fs | intros ? _]
    | match goal with
      | |- keeps _ (if ?b then _ else _) _ => destruct b
      | |- keeps _ (match ?x with _ => _ end) _ => destruct x
      end ].

Lemma quiet_exists (q : string) : keeps quiet (Os.exists_ q) (fun _ => True).
Proof. apply quiet_get. Qed.

Lemma quiet_read (q : string) : keeps quiet (Os.read_file q) (fun _ => True).
Proof. unfold Os.read_file. repeat quiet_step. Qed.

Lemma quiet_listdir (q : string) : keeps quiet (Os.listdir q) (fun _ => True).
Proof. unfold Os.listdir. repeat quiet_step. Qed.

Lemma quiet_getsize (q : string) : keeps quiet (Os.getsize q) (fun _ => True).
Proof. unfold Os.getsize. repeat quiet_step. Qed.

Lemma quiet_write (q content : string) :
  keeps quiet (Os.write_file q content) (fun _ => True).
Proof. unfold Os.write_file. repeat quiet_step. Qed.

Lemma quiet_makedirs (q : string) : keeps quiet (Os.makedirs q) (fun _ => True).
Proof.
  unfold Os.makedirs. apply keeps_for_each. intros a.
  unfold Os.mkdir_step. repeat quiet_step.
Qed.

Lemma quiet_copy (keep_mtime : bool) (src dst : string) :
  keeps quiet (Os.copy keep_mtime src dst) (fun _ => True).
Proof.
  unfold Os.copy. cbv zeta. repeat quiet_step.
  all: eapply keeps_bind; [apply quiet_write | intros ? _]; repeat quiet_step.
Qed.

Lemma quiet_rmtree (q : string) : keeps quiet (Os.rmtree q) (fun _ => True).
Proof. unfold Os.rmtree. repeat quiet_step. Qed.

Lemma quiet_remove (q : string) : keeps quiet (Os.remove q) (fun _ => True).
Proof. unfold Os.remove. repeat quiet_step. Qed.
End KeepsProcs.

(** ** Uploads *)

Lemma grows_refl (w : World) : grows w w.
Proof. split; auto. Qed.

Lemma grows_trans (w1 w2 w3 : World) : grows w1 w2 -> grows w2 w3 -> grows w1 w3.
Proof. intros [P1 F1] [P2 F2]. split; [congruence | auto]. Qed.

Lemma grows_run {A} (m : M World A) :
  (forall l, keeps (fun w => procs w = l) m (fun _ => True)) ->
  (forall p, keeps (file_present p) m (fun _ => True)) ->
  forall w w' r, m w = (w', r) -> grows w w'.
Proof.
  intros Hq Hf w w' r H. split.
  - now destruct (Hq (procs w) w w' r eq_refl H).
  - intros p Hp. now destruct (Hf p w w' r Hp H).
Qed.

Lemma grows_read (q : string) (w w' : World) (r : Res string) :
  Os.read_file q w = (w', r) -> grows w w'.
Proof. apply grows_run; intros; [apply quiet_read | apply keeps_file_read]. Qed.

Lemma grows_now (w w' : World) (r : Res nat) : Os.now w = (w', r) -> grows w w'.
Proof. apply grows_run; intros; [apply quiet_now | apply keeps_file_now]. Qed.

Lemma grows_write (q content : string) (w w' : World) (r : Res unit) :
  Os.write_file q content w = (w', r) -> grows w w'.
Proof. apply grows_run; intros; [apply quiet_write | apply keeps_file_write]. Qed.

Lemma grows_makedirs (q : string) (w w' : World) (r : Res unit) :
  Os.makedirs q w = (w', r) -> grows w w'.
Proof. apply grows_run; intros; [apply quiet_makedirs | apply keeps_file_makedirs]. Qed.

Lemma grows_copy (keep_mtime : bool) (src dst : string) (w w' : World) (r : Res unit) :
  Os.copy keep_mtime src dst w = (w', r) -> grows w w'.
Proof. apply grows_run; intros; [apply quiet_copy | apply keeps_file_copy]. Qed.

Lemma write_file_present (q content : string) (w w' : World) (u : unit) :
  Os.write_file q content w = (w', Ok u) -> file_present q w'.
Proof.
  intros H. apply write_file_ok in H. subst w'. unfold file_present. cbn [fs].
  rewrite lookup_insert_eq. eauto.
Qed.

Lemma copy_present (keep_mtime : bool) (src dst : string) (w w' : World) (u : unit) :
  Os.copy keep_mtime src dst w = (w', Ok u) -> file_present dst w'.
Proof.
  intros H. destruct (fs w !! dst) as [n|] eqn:Hdst.
  - apply grows_copy in H. apply H. unfold file_present. rewrite Hdst. eauto.
  - unfold Os.copy in H. rewrite bind_gets, Hdst in H. cbn [is_dir] in H.
    rewrite bind_gets in H.
    destruct (fs w !! src) as [[c t|t]|]; try discriminate.
    destruct (String.eqb src dst); [discriminate|].
    bind_ok H as w1 u1 E1. apply write_file_present in E1.
    destruct keep_mtime.
    + unfold modify in H. inv_pair H. unfold file_present. cbn [set_fs fs].
      rewrite lookup_insert_eq. eauto.
    + inv_pair H. exact E1.
Qed.

(** Every way [process_reference_audio] can end. *)
Lemma upload_outcome (X : Externals) (audio_path speaker_name : string)
    (s s' : State) (r : Res UploadResult) :
  process_reference_audio X audio_path speaker_name s = (s', r) ->
  training_status s' = training_status s
  /\ grows (world s) (world s')
  /\ ((speakers_data s' = speakers_data s
       /\ exists e, r = Raise (Exception ("处理音频失败: " +:+ str_exn e)))
      \/ exists raw audio_len sr t0 t shape,
           content_of (world s) audio_path = Some raw
           /\ librosa_load X raw = inr (audio_len, sr)
           /\ speakers_data s'
              = alter (add_sample
                         (mkAudioSample
                            (OsPath.join (OsPath.join training_data_dir speaker_name)
                               (OsPath.basename audio_path))
                            audio_path (PyFloat.div (inject_Z audio_len) (inject_Z sr))
                            32000 t None))
                  speaker_name
                  (match speakers_data s !! speaker_name with
                   | Some _ => speakers_data s
                   | None => <[speaker_name := new_speaker t0]> (speakers_data s)
                   end)
           /\ file_present (OsPath.join (OsPath.join training_data_dir speaker_name)
                              (OsPath.basename audio_path)) (world s')
           /\ match r with
              | Ok res =>
                  persisted X s'
                  /\ res = mkUploadResult (PyFloat.div (inject_Z audio_len) (inject_Z sr))
                             32000 shape (S (clip_count (speakers_data s) speaker_name)) true
              | Raise e => exists e0, e = Exception ("处理音频失败: " +:+ str_exn e0)
              end).
Proof.
  unfold process_reference_audio. rewrite try_except_eq.
  match goal with
  | |- context [match ?m s with _ => _ end] => destruct (m s) as [s1 r0] eqn:H
  end.
  assert (Hbody :
    training_status s1 = training_status s
    /\ grows (world s) (world s1)
    /\ ((speakers_data s1 = speakers_data s /\ exists e, r0 = Raise e)
        \/ exists raw audio_len sr t0 t shape,
             content_of (world s) audio_path = Some raw
             /\ librosa_load X raw = inr (audio_len, sr)
             /\ speakers_data s1
                = alter (add_sample
                           (mkAudioSample
                              (OsPath.join (OsPath.join training_data_dir speaker_name)
                                 (OsPath.basename audio_path))
                              audio_path (PyFloat.div (inject_Z audio_len) (inject_Z sr))
                              32000 t None))
                    speaker_name
                    (match speakers_data s !! speaker_name with
                     | Some _ => speakers_data s
                     | None => <[speaker_name := new_speaker t0]> (speakers_data s)
                     end)
             /\ file_present (OsPath.join (OsPath.join training_data_dir speaker_name)
                                (OsPath.basename audio_path)) (world s1)
             /\ match r0 with
                | Ok res =>
                    persisted X s1
                    /\ res = mkUploadResult (PyFloat.div (inject_Z audio_len) (inject_Z sr))
                               32000 shape (S (clip_count (speakers_data s) speaker_name))
                               true
                | Raise e => True
                end)).
  { world_step H s0 raw E0.
    2:{ inv_pair H. apply grows_read in Hw. split; [congruence|]. split; [exact Hw|].
        left. split; [congruence | eauto]. }
    assert (Hraw : content_of (world s) audio_path = Some raw).
    { rewrite read_file_eq in Hw. unfold content_of.
      destruct (fs (world s) !! audio_path) as [[c t|t]|]; inv_pair Hw; reflexivity. }
    apply grows_read in Hw. rename Hw into G.
    destruct (librosa_load X raw) as [e|[audio_len sr]] eqn:Hload.
    { inv_pair H. split; [congruence|]. split; [exact G|]. left. split; [congruence | eauto]. }
    destruct (sr =? 0)%Z.
    { inv_pair H. split; [congruence|]. split; [exact G|]. left. split; [congruence | eauto]. }
    cbv zeta in H.
    world_step H s2 u2 E2.
    2:{ inv_pair H. apply grows_makedirs in Hw. split; [congruence|].
        split; [eapply grows_trans; eassumption|]. left. split; [congruence | eauto]. }
    apply grows_makedirs in Hw. assert (G2 := grows_trans _ _ _ G Hw). clear G Hw.
    set (dest := OsPath.join (OsPath.join training_data_dir speaker_name)
                   (OsPath.basename audio_path)) in *.
    rewrite bind_eq in H.
    match type of H with
    | context [match ?m s2 with _ => _ end] => destruct (m s2) as [s3 [p|e]] eqn:E3
    end.
    2:{ assert (Hs3 : speakers_data s3 = speakers_data s2
                      /\ training_status s3 = training_status s2
                      /\ grows (world s2) (world s3)).
        { destruct (negb _).
          - destruct (resample_32k X raw) as [new_len encoded].
            world_step E3 s4 u4 E4; [discriminate|]. inv_pair E3.
            apply grows_write in Hw. auto.
          - world_step E3 s4 u4 E4; [discriminate|]. inv_pair E3.
            apply grows_copy in Hw. auto. }
        destruct Hs3 as (Hd3 & Ht3 & G3). inv_pair H. split; [congruence|].
        split; [eapply grows_trans; eassumption|]. left. split; [congruence | eauto]. }
    assert (Hs3 : speakers_data s3 = speakers_data s2
                  /\ training_status s3 = training_status s2
                  /\ grows (world s2) (world s3)
                  /\ file_present dest (world s3)
                  /\ snd p = 32000%Z).
    { destruct (sr =? 32000)%Z eqn:Esr; cbn [negb] in E3.
      - world_step E3 s4 u4 E4; [|discriminate]. inv_pair E3.
        apply Z.eqb_eq in Esr. destruct u4.
        split; [assumption|]. split; [assumption|].
        split; [now apply grows_copy in Hw|].
        split; [now apply copy_present in Hw | assumption].
      - destruct (resample_32k X raw) as [new_len encoded].
        world_step E3 s4 u4 E4; [|discriminate]. inv_pair E3. destruct u4.
        split; [assumption|]. split; [assumption|].
        split; [now apply grows_write in Hw|].
        split; [now apply write_file_present in Hw | reflexivity]. }
    destruct Hs3 as (Hd3 & Ht3 & G3 & Hdest & Hsr). clear E3.
    destruct p as [audio_shape sr']. cbn [snd] in Hsr. subst sr'.
    assert (G := grows_trans _ _ _ G2 G3). clear G2 G3.
    rewrite bind_gets in H.
    assert (Hs3 : speakers_data s3 = speakers_data s) by congruence.
    assert (Hts3 : training_status s3 = training_status s) by congruence.
    rewrite Hs3 in H.
    rewrite bind_eq in H.
    match type of H with
    | context [match ?m s3 with _ => _ end] => destruct (m s3) as [s5 [u5|e]] eqn:E5
    end.
    2:{ exfalso. destruct (speakers_data s !! speaker_name); [discriminate|].
        world_step E5 s6 t6 E6; [|discriminate]. discriminate. }
    assert (Hs5 : exists t0,
               speakers_data s5 = match speakers_data s !! speaker_name with
                                  | Some _ => speakers_data s
                                  | None => <[speaker_name := new_speaker t0]> (speakers_data s)
                                  end
               /\ training_status s5 = training_status s
               /\ grows (world s3) (world s5)).
    { destruct (speakers_data s !! speaker_name) as [i|].
      - inv_pair E5. exists 0. auto using grows_refl.
      - world_step E5 s6 t6 E6; [|discriminate].
        unfold set_speakers, modify in E5. inv_pair E5.
        cbn [speakers_data training_status world]. exists t6.
        apply grows_now in Hw.
        replace (speakers_data s6) with (speakers_data s) by congruence.
        split; [reflexivity|].
        split; [congruence | exact Hw]. }
    destruct Hs5 as (t0 & Hd5 & Ht5 & G5). clear E5.
    apply (proj2 G5) in Hdest.
    assert (G' := grows_trans _ _ _ G G5). clear G G5.
    world_step H s6 uploaded E6; [|discriminate].
    apply grows_now in Hw. apply (proj2 Hw) in Hdest.
    assert (G := grows_trans _ _ _ G' Hw). clear G' Hw.
    rewrite bind_eq in H. unfold set_speakers at 1, modify at 1 in H. cbv beta iota in H.
    rewrite bind_eq in H.
    match type of H with
    | context [match _save_speakers_data X ?st with _ => _ end] =>
        destruct (_save_speakers_data X st) as [s8 [u8|e]] eqn:E8
    end.
    - apply save_speakers_data_ok in E8.
      cbn [world speakers_data training_status] in E8.
      destruct E8 as (Hd8 & Ht8 & Hpers & Hp8 & _ & Hk8).
      rewrite bind_gets in H. inv_pair H.
      split; [congruence|]. split.
      { eapply grows_trans; [exact G|]. split; assumption. }
      right. exists raw, audio_len, sr, t0, uploaded, audio_shape.
      split; [exact Hraw|]. split; [exact Hload|]. split.
      { rewrite Hd8. rewrite <- Hd5. f_equal. congruence. }
      split.
      { apply Hk8. exact Hdest. }
      split; [exact Hpers|]. f_equal.
      rewrite Hd8. rewrite lookup_alter_eq.
      replace (speakers_data s6) with (speakers_data s5) by congruence.
      rewrite Hd5. unfold clip_count.
      destruct (speakers_data s !! speaker_name) as [i|] eqn:Hk.
      + rewrite Hk. cbn. rewrite length_app. cbn. lia.
      + rewrite lookup_insert_eq. reflexivity.
    - pose proof (save_speakers_data_frame _ _ _ _ E8) as (Hd8 & Ht8).
      cbn [world speakers_data training_status] in Hd8, Ht8.
      assert (G8 : grows (world s6) (world s8)).
      { unfold _save_speakers_data in E8.
        world_step E8 s9 u9 E9.
        - apply grows_makedirs in Hw. rewrite bind_gets in E8.
          apply in_world_inv in E8. destruct E8 as (Hw8 & _).
          apply grows_write in Hw8. cbn [world] in *. eapply grows_trans; eassumption.
        - inv_pair E8. apply grows_makedirs in Hw. exact Hw. }
      inv_pair H. split; [congruence|]. split; [eapply grows_trans; eassumption|].
      right. exists raw, audio_len, sr, t0, uploaded, audio_shape.
      split; [exact Hraw|]. split; [exact Hload|]. split.
      { rewrite Hd8. rewrite <- Hd5. f_equal. congruence. }
      split; [|exact I]. apply G8. exact Hdest. }
  destruct Hbody as (Ht & Hg & Hcases).
  destruct r0 as [res|e]; unfold raise; intros [= <- <-];
    (split; [exact Ht|]; split; [exact Hg|]).
  - destruct Hcases as [(_ & e & He)|Hc]; [discriminate|]. right. exact Hc.
  - destruct Hcases as [(Hd & _)|Hc]; [left; eauto|]. right.
    destruct Hc as (raw & audio_len & sr & t0 & t & shape & H1 & H2 & H3 & H4 & _).
    exists raw, audio_len, sr, t0, t, shape. eauto 10.
Qed.

Lemma upload_unreadable (X : Externals) (audio_path speaker_name : string) (s : State) :
  content_of (world s) audio_path = None ->
  exists e, process_reference_audio X audio_path speaker_name s
            = (s, Raise (Exception ("处理音频失败: " +:+ str_exn e))).
Proof.
  unfold content_of, process_reference_audio. intros Hnone.
  rewrite try_except_eq, bind_eq, in_world_eq, read_file_eq.
  destruct s as [w d t]. cbn [world speakers_data training_status] in *.
  destruct (fs w !! audio_path) as [[c tm|tm]|]; [discriminate | |];
    cbn [fst snd]; unfold raise; eauto.
Qed.

(** X8.  When [process_reference_audio] returns, the file at [audio_path]
    was decoded, the reported duration is its length over its rate, and the
    speaker's entry is the old one (a new, untrained one for an unknown
    speaker) with one sample appended: an upload never resets [trained] or
    the recorded model.  The sample's path is on disk, the store file holds
    the new table, every other speaker and the tracker are as before, no
    path went away (the original is kept) and no process was launched. *)
Theorem X8_upload_effects
    (X : Externals) (audio_path speaker_name : string) (s s' : State) (r : UploadResult) :
  process_reference_audio X audio_path speaker_name s = (s', Ok r) ->
  exists raw audio_len sr a t0,
    content_of (world s) audio_path = Some raw
    /\ librosa_load X raw = inr (audio_len, sr)
    /\ u_duration r = PyFloat.div (inject_Z audio_len) (inject_Z sr)
    /\ u_speaker_audio_count r = S (clip_count (speakers_data s) speaker_name)
    /\ speakers_data s' !! speaker_name
       = Some (add_sample a (default (new_speaker t0) (speakers_data s !! speaker_name)))
    /\ original_path a = audio_path
    /\ duration a = PyFloat.div (inject_Z audio_len) (inject_Z sr)
    /\ file_present (path a) (world s')
    /\ (forall other, other <> speaker_name ->
          speakers_data s' !! other = speakers_data s !! other)
    /\ training_status s' = training_status s
    /\ persisted X s'
    /\ grows (world s) (world s').
Proof.
  intros H. apply upload_outcome in H.
  destruct H as (Ht & Hg & [(_ & e & He) | Hc]); [discriminate|].
  destruct Hc as (raw & audio_len & sr & t0 & t & shape & Hraw & Hload & Hd & Hdest
                  & Hpers & ->).
  eexists raw, audio_len, sr, _, t0.
  split; [exact Hraw|]. split; [exact Hload|]. split; [reflexivity|].
  split; [reflexivity|]. split.
  { rewrite Hd, lookup_alter_eq.
    destruct (speakers_data s !! speaker_name) as [i|] eqn:Hk.
    - rewrite Hk. reflexivity.
    - rewrite lookup_insert_eq. reflexivity. }
  split; [reflexivity|]. split; [reflexivity|]. split; [exact Hdest|]. split.
  { intros other Hne. rewrite Hd, lookup_alter_ne by congruence.
    destruct (speakers_data s !! speaker_name); [reflexivity|].
    now rewrite lookup_insert_ne by congruence. }
  auto.
Qed.

Lemma X8_upload_effects_witness :
  u_speaker_audio_count Upload48k.result = 1
  /\ training_status (fst Upload48k.run) = training_status Upload48k.state.
Proof.
  assert (Hres : snd Upload48k.run = Ok Upload48k.result) by (vm_compute; reflexivity).
  destruct (X8_upload_effects _ _ _ _ _ _ (run_eq _ _ Hres))
    as (raw & audio_len & sr & a & t0 & _ & _ & _ & Hcount & _ & _ & _ & _ & _ & Ht & _).
  split; [|exact Ht]. rewrite Hcount. vm_compute. reflexivity.
Defined.

(** X9.  Every failure of [process_reference_audio] is an [Exception]
    whose text starts with [处理音频失败: ].  The tracker is untouched, no
    path goes away and no process is launched.  The table is as before, or,
    when the failure came after the sample was recorded (the store file could
    not be written), it has the new sample although the call failed.  When
    there is no readable file at [audio_path] nothing at all changes. *)
Theorem X9_upload_failure
    (X : Externals) (audio_path speaker_name : string) (s s' : State) (e : exn) :
  process_reference_audio X audio_path speaker_name s = (s', Raise e) ->
  (exists e0, e = Exception ("处理音频失败: " +:+ str_exn e0))
  /\ training_status s' = training_status s
  /\ grows (world s) (world s')
  /\ (speakers_data s' = speakers_data s
      \/ clip_count (speakers_data s') speaker_name
         = S (clip_count (speakers_data s) speaker_name))
  /\ (content_of (world s) audio_path = None -> s' = s).
Proof.
  intros H. split; [|split; [|split; [|split]]].
  - apply upload_outcome in H.
    destruct H as (_ & _ & [(_ & e0 & He) | Hc]).
    + injection He as ->. eauto.
    + destruct Hc as (? & ? & ? & ? & ? & ? & _ & _ & _ & _ & Hr). exact Hr.
  - now apply upload_outcome in H.
  - now apply upload_outcome in H.
  - apply upload_outcome in H.
    destruct H as (_ & _ & [(Hd & _) | Hc]); [now left|]. right.
    destruct Hc as (raw & audio_len & sr & t0 & t & shape & _ & _ & Hd & _).
    unfold clip_count. rewrite Hd, lookup_alter_eq.
    destruct (speakers_data s !! speaker_name) as [i|] eqn:Hk.
    + rewrite Hk. cbn. rewrite length_app. cbn. lia.
    + rewrite lookup_insert_eq. reflexivity.
  - intros Hnone.
    destruct (upload_unreadable X audio_path speaker_name s Hnone) as (e0 & He0).
    congruence.
Qed.

Lemma X9_upload_failure_witness :
  fst (process_reference_audio (Demo.externals Upload48k.scenario) "uploads/absent.wav"
         "voice" Demo.fresh) = Demo.fresh.
Proof.
  assert (Hres : exists e,
             snd (process_reference_audio (Demo.externals Upload48k.scenario)
                    "uploads/absent.wav" "voice" Demo.fresh) = Raise e)
    by (eexists; vm_compute; reflexivity).
  destruct Hres as (e & Hres).
  destruct (X9_upload_failure _ _ _ _ _ e (run_eq _ _ Hres)) as (_ & _ & _ & _ & Hsame).
  apply Hsame. vm_compute. reflexivity.
Defined.

(** ** The list of speakers *)

Lemma find_summary (l : list (string * SpeakerInfo)) (name : string) :
  NoDup (map fst l) ->
  (forall info, In (name, info) l ->
     List.find (fun e => String.eqb (ss_name e) name)
       (map (fun kv => summary_of (fst kv) (snd kv)) l) = Some (summary_of name info))
  /\ ((forall info, ~ In (name, info) l) ->
      List.find (fun e => String.eqb (ss_name e) name)
        (map (fun kv => summary_of (fst kv) (snd kv)) l) = None).
Proof.
  induction l as [|[k v] l IH]; intros Hnd; cbn [map List.find fst snd summary_of ss_name].
  - split; [intros ? [] | reflexivity].
  - apply NoDup_cons in Hnd. destruct Hnd as [Hk Hnd]. specialize (IH Hnd).
    destruct IH as [IHs IHn]. destruct (String.eqb_spec k name) as [->|Hne].
    + split.
      * intros info [[= ->]|Hin]; [reflexivity|]. exfalso. apply Hk.
        apply list_elem_of_In. exact (in_map fst l (name, info) Hin).
      * intros Hno. exfalso. apply (Hno v). now left.
    + split.
      * intros info [[= -> _]|Hin]; [contradiction | now apply IHs].
      * intros Hno. apply IHn. intros info Hin. apply (Hno info). now right.
Qed.

Lemma find_speaker_lookup (s : State) (name : string) :
  App.find_speaker (list_speakers s) name
  = option_map (summary_of name) (speakers_data s !! name).
Proof.
  unfold App.find_speaker, list_speakers.
  destruct (find_summary (map_to_list (speakers_data s)) name
              (NoDup_fst_map_to_list _)) as [Hs Hn].
  destruct (speakers_data s !! name) as [info|] eqn:Hk; cbn [option_map].
  - apply Hs. apply list_elem_of_In, elem_of_map_to_list. exact Hk.
  - apply Hn. intros info Hin. apply list_elem_of_In, elem_of_map_to_list in Hin. congruence.
Qed.

(** X10.  [list_speakers] gives one entry per speaker of the table: as
    many entries as speakers, no name twice, and every entry carries the
    number of samples and the training state of its speaker.  The lookup by
    name that the upload and train handlers do on this list is a lookup in
    the table. *)
Theorem X10_list_speakers (s : State) :
  App.ls_count (App.list_speakers s) = size (speakers_data s)
  /\ App.ls_speakers (App.list_speakers s) = list_speakers s
  /\ NoDup (map ss_name (list_speakers s))
  /\ (forall e, In e (list_speakers s) <->
        exists info, speakers_data s !! ss_name e = Some info
                     /\ e = summary_of (ss_name e) info)
  /\ (forall name,
        App.find_speaker (list_speakers s) name
        = option_map (summary_of name) (speakers_data s !! name)).
Proof.
  split; [|split; [reflexivity|split; [|split]]].
  - unfold App.list_speakers, list_speakers. cbn [App.ls_count].
    rewrite length_map. apply length_map_to_list.
  - unfold list_speakers. rewrite map_map. cbn [ss_name].
    exact (NoDup_fst_map_to_list (speakers_data s)).
  - intros e. unfold list_speakers. rewrite in_map_iff. split.
    + intros ([k v] & <- & Hin). cbn [fst snd ss_name].
      apply list_elem_of_In, elem_of_map_to_list in Hin. eauto.
    + intros (info & Hk & He). exists (ss_name e, info). split; [now rewrite He at 3|].
      apply list_elem_of_In, elem_of_map_to_list. exact Hk.
  - apply find_speaker_lookup.
Qed.

(** ** Batch uploads *)

Lemma upload_table (X : Externals) (audio_path speaker_name : string)
    (s s' : State) (r : Res UploadResult) :
  process_reference_audio X audio_path speaker_name s = (s', r) ->
  (forall other, other <> speaker_name ->
     speakers_data s' !! other = speakers_data s !! other)
  /\ trained_flag (speakers_data s') speaker_name
     = trained_flag (speakers_data s) speaker_name
  /\ clip_count (speakers_data s) speaker_name <= clip_count (speakers_data s') speaker_name
  /\ clip_count (speakers_data s') speaker_name
     <= S (clip_count (speakers_data s) speaker_name)
  /\ (forall res, r = Ok res ->
        clip_count (speakers_data s') speaker_name
        = S (clip_count (speakers_data s) speaker_name)).
Proof.
  intros H. apply upload_outcome in H.
  destruct H as (_ & _ & [(Hd & e & ->) | Hc]).
  - rewrite Hd. repeat split; auto; discriminate.
  - destruct Hc as (raw & audio_len & sr & t0 & t & shape & _ & _ & Hd & _).
    assert (Hcount : clip_count (speakers_data s') speaker_name
                     = S (clip_count (speakers_data s) speaker_name)).
    { unfold clip_count. rewrite Hd, lookup_alter_eq.
      destruct (speakers_data s !! speaker_name) as [i|] eqn:Hk.
      - rewrite Hk. cbn. rewrite length_app. cbn. lia.
      - rewrite lookup_insert_eq. reflexivity. }
    split.
    { intros other Hne. rewrite Hd, lookup_alter_ne by congruence.
      destruct (speakers_data s !! speaker_name); [reflexivity|].
      now rewrite lookup_insert_ne by congruence. }
    split.
    { unfold trained_flag. rewrite Hd, lookup_alter_eq.
      destruct (speakers_data s !! speaker_name) as [i|] eqn:Hk.
      - rewrite Hk. reflexivity.
      - rewrite lookup_insert_eq. reflexivity. }
    rewrite Hcount. auto.
Qed.

(** One round of the loop of [POST /upload_audio] always ends normally. *)
Lemma upload_one_outcome (X : Externals) (speaker_name : string) (file : App.UploadFile)
    (s : State) :
  exists s' r,
    App.upload_one X speaker_name file s = (s', Ok r)
    /\ training_status s' = training_status s
    /\ grows (world s) (world s')
    /\ (forall other, other <> speaker_name ->
          speakers_data s' !! other = speakers_data s !! other)
    /\ trained_flag (speakers_data s') speaker_name
       = trained_flag (speakers_data s) speaker_name
    /\ clip_count (speakers_data s) speaker_name
       <= clip_count (speakers_data s') speaker_name
    /\ clip_count (speakers_data s') speaker_name
       <= S (clip_count (speakers_data s) speaker_name)
    /\ match r with
       | inl u =>
           App.ui_filename u = App.uf_filename file
           /\ clip_count (speakers_data s') speaker_name
              = S (clip_count (speakers_data s) speaker_name)
       | inr f => App.fi_filename f = App.uf_filename file
       end.
Proof.
  unfold App.upload_one. cbv zeta. rewrite try_except_eq, bind_eq, in_world_eq, now_eq.
  cbn [fst snd].
  set (s0 := mkState _ (speakers_data s) (training_status s)).
  assert (G0 : grows (world s) (world s0)) by (split; [reflexivity | auto]).
  rewrite bind_eq.
  match goal with
  | |- context [in_world (Os.write_file ?p ?c) s0] =>
      destruct (in_world (Os.write_file p c) s0) as [s1 [u1|e1]] eqn:E1
  end.
  - apply in_world_inv in E1. destruct E1 as (Hw1 & Hd1 & Ht1). apply grows_write in Hw1.
    rewrite bind_eq.
    match goal with
    | |- context [process_reference_audio X ?p speaker_name s1] =>
        destruct (process_reference_audio X p speaker_name s1) as [s2 [res|e2]] eqn:E2
    end.
    + pose proof (upload_outcome _ _ _ _ _ _ E2) as (Ht2 & G2 & _).
      apply upload_table in E2. destruct E2 as (Ho & Hf & Hle & Hge & Heq).
      rewrite Hd1 in *. cbn [speakers_data] in *.
      unfold ret. do 2 eexists. split; [reflexivity|].
      split; [rewrite Ht2, Ht1; reflexivity|].
      split; [eauto using grows_trans|]. repeat split; eauto.
    + pose proof (upload_outcome _ _ _ _ _ _ E2) as (Ht2 & G2 & _).
      apply upload_table in E2. destruct E2 as (Ho & Hf & Hle & Hge & Heq).
      rewrite Hd1 in *. cbn [speakers_data] in *.
      unfold ret. do 2 eexists. split; [reflexivity|].
      split; [rewrite Ht2, Ht1; reflexivity|].
      split; [eauto using grows_trans|]. repeat split; eauto.
  - apply in_world_inv in E1. destruct E1 as (Hw1 & Hd1 & Ht1). apply grows_write in Hw1.
    unfold ret. do 2 eexists. split; [reflexivity|]. split; [exact Ht1|].
    split; [eauto using grows_trans|]. rewrite Hd1. cbn [speakers_data].
    repeat split; auto.
Qed.

Lemma upload_loop_outcome (X : Externals) (speaker_name : string)
    (files : list App.UploadFile) (s : State) :
  exists s' uploaded failed,
    App.upload_loop X speaker_name files s = (s', Ok (uploaded, failed))
    /\ length uploaded + length failed = length files
    /\ training_status s' = training_status s
    /\ grows (world s) (world s')
    /\ (forall other, other <> speaker_name ->
          speakers_data s' !! other = speakers_data s !! other)
    /\ trained_flag (speakers_data s') speaker_name
       = trained_flag (speakers_data s) speaker_name
    /\ clip_count (speakers_data s) speaker_name + length uploaded
       <= clip_count (speakers_data s') speaker_name
    /\ clip_count (speakers_data s') speaker_name
       <= clip_count (speakers_data s) speaker_name + length files.
Proof.
  revert s. induction files as [|file rest IH]; intros s; cbn [App.upload_loop].
  - exists s, [], []. unfold ret. cbn [length].
    repeat split; auto using grows_refl; lia.
  - destruct (upload_one_outcome X speaker_name file s)
      as (s1 & r & E1 & Ht1 & G1 & Ho1 & Hf1 & Hle1 & Hge1 & Hr).
    destruct (IH s1) as (s2 & ul & fl & E2 & Hlen & Ht2 & G2 & Ho2 & Hf2 & Hle2 & Hge2).
    rewrite bind_eq, E1, bind_eq, E2. unfold ret. cbn [fst snd].
    destruct r as [u|f].
    + destruct Hr as [_ Hr]. exists s2, (u :: ul), fl. cbn [length].
      split; [reflexivity|]. split; [lia|]. split; [congruence|].
      split; [eauto using grows_trans|]. split.
      { intros other Hne. rewrite Ho2, Ho1 by assumption. reflexivity. }
      split; [congruence|]. split; lia.
    + exists s2, ul, (f :: fl). cbn [length].
      split; [reflexivity|]. split; [lia|]. split; [congruence|].
      split; [eauto using grows_trans|]. split.
      { intros other Hne. rewrite Ho2, Ho1 by assumption. reflexivity. }
      split; [congruence|]. split; lia.
Qed.

(** X11.  [POST /upload_audio] answers an empty batch with HTTP 400 and
    changes nothing.  For any other batch every file is counted once, as
    uploaded or as failed, and the only error is HTTP 500 [所有文件上传失败]
    when no file could be stored: the handler's own [批量上传失败] branch is
    never taken.  In a normal answer at least one file was stored,
    [total_audio_count] is the number of samples the table then holds for the
    speaker (at least the earlier ones plus the stored ones) and [trained]
    is the flag the speaker had before.  Other speakers and the tracker are
    untouched, no path goes away and no process is launched. *)
Theorem X11_upload_audio_outcome
    (X : Externals) (py_repr : list App.FailedItem -> string)
    (files : list App.UploadFile) (speaker_name : string) (s : State) :
  match files with
  | [] =>
      App.upload_audio X py_repr files speaker_name s
      = (s, Raise (HTTPException 400 "请至少上传一个音频文件"))
  | _ :: _ =>
      let s' := fst (App.upload_audio X py_repr files speaker_name s) in
      training_status s' = training_status s
      /\ grows (world s) (world s')
      /\ (forall other, other <> speaker_name ->
            speakers_data s' !! other = speakers_data s !! other)
      /\ match snd (App.upload_audio X py_repr files speaker_name s) with
         | Ok response =>
             App.up_uploaded_count response + App.up_failed_count response = length files
             /\ 1 <= App.up_uploaded_count response
             /\ length (App.up_uploaded_files response) = App.up_uploaded_count response
             /\ length (App.up_failed_files response) = App.up_failed_count response
             /\ App.up_total_audio_count response
                = clip_count (speakers_data s') speaker_name
             /\ clip_count (speakers_data s) speaker_name + App.up_uploaded_count response
                <= App.up_total_audio_count response
             /\ App.up_trained response = trained_flag (speakers_data s) speaker_name
         | Raise e =>
             exists failed,
               length failed = length files
               /\ e = HTTPException 500 ("所有文件上传失败: " +:+ py_repr failed)
         end
  end.
Proof.
  destruct files as [|file rest]; [reflexivity|].
  destruct (upload_loop_outcome X speaker_name (file :: rest) s)
    as (s1 & ul & fl & E & Hlen & Ht & G & Ho & Hf & Hle & Hge).
  unfold App.upload_audio. rewrite try_except_eq, bind_eq, E, bind_gets.
  cbn [fst snd]. rewrite find_speaker_lookup.
  destruct (length ul =? 0) eqn:Hz.
  - apply Nat.eqb_eq in Hz. unfold raise. cbn [fst snd].
    split; [exact Ht|]. split; [exact G|]. split; [exact Ho|].
    exists fl. split; [lia | reflexivity].
  - apply Nat.eqb_neq in Hz. unfold ret. cbn [fst snd].
    split; [exact Ht|]. split; [exact G|]. split; [exact Ho|].
    cbn [App.up_uploaded_count App.up_failed_count App.up_uploaded_files
         App.up_failed_files App.up_total_audio_count App.up_trained].
    split; [exact Hlen|]. split; [lia|]. split; [reflexivity|]. split; [reflexivity|].
    unfold clip_count, trained_flag in *.
    destruct (speakers_data s1 !! speaker_name) as [i|] eqn:Hk;
      cbn [option_map summary_of ss_audio_count ss_trained].
    + split; [reflexivity|]. split; [lia | exact Hf].
    + split; [lia|]. split; [lia | exact Hf].
Qed.

(** ** What a generation writes *)

Lemma write_file_raise (p content : string) (w w' : World) (e : exn) :
  Os.write_file p content w = (w', Raise e) -> w' = w.
Proof.
  rewrite write_file_eq.
  destruct (fs w !! p) as [[c t|t]|];
    try (intros [= <- _]; reflexivity);
    (destruct (String.eqb (OsPath.dirname p) "" || is_dir (fs w !! OsPath.dirname p));
     [discriminate | destruct (fs w !! OsPath.dirname p); intros [= <- _]; reflexivity]).
Qed.

Lemma write_file_outcome (p content : string) (w w' : World) (r : Res unit) :
  Os.write_file p content w = (w', r) ->
  match r with
  | Ok _ => writes_file p w w'
  | Raise _ => w' = w
  end.
Proof.
  destruct r as [u|e]; intros H.
  - apply write_file_ok in H. exists content. exact H.
  - eapply write_file_raise, H.
Qed.

Lemma api_generate_speech_outcome (X : Externals) (payload : list (string * string))
    (aux : list string) (out : string) (w w' : World) (r : Res bool) :
  api_generate_speech X payload aux out w = (w', r) ->
  exists ok, r = Ok ok /\ if ok then writes_file out w w' else w' = w.
Proof.
  unfold api_generate_speech. destruct (api_tts X payload aux) as [audio|].
  - rewrite try_except_eq, bind_eq.
    destruct (Os.write_file out audio w) as [w1 [u|e]] eqn:E;
      apply write_file_outcome in E; unfold ret; intros [= <- <-].
    + exists true. auto.
    + exists false. auto.
  - unfold ret. intros [= <- <-]. exists false. auto.
Qed.

Lemma api_generate_with_trained_model_outcome (X : Externals)
    (gpt_model_path sovits_model_path : string) (payload : list (string * string))
    (ref_audio_path : string) (aux : list string) (out : string) (w w' : World)
    (r : Res bool) :
  api_generate_with_trained_model X gpt_model_path sovits_model_path payload
    ref_audio_path aux out w = (w', r) ->
  exists ok, r = Ok ok /\ if ok then writes_file out w w' else w' = w.
Proof.
  unfold api_generate_with_trained_model, Os.exists_. rewrite !bind_gets.
  repeat match goal with
         | |- context [if negb ?b then _ else _] =>
             destruct b; cbn [negb];
             [|unfold ret; intros [= <- <-]; exists false; auto]
         end.
  apply api_generate_speech_outcome.
Qed.

(** Each of the three routes of [generate_speech] writes the output file
    when it returns and nothing when it raises. *)
Lemma trained_route_outcome (X : Externals) (txt : string) (mi : ModelInfo)
    (info : SpeakerInfo) (out language : string) (w w' : World) (r : Res unit) :
  _generate_with_trained_model X txt mi info out language w = (w', r) ->
  match r with
  | Ok _ => writes_file out w w'
  | Raise _ => w' = w
  end.
Proof.
  unfold _generate_with_trained_model.
  destruct (_ || _); [unfold raise; intros [= <- <-]; reflexivity|].
  destruct (_select_best_reference_audio (audio_files info)) as [best|e];
    [|unfold raise; intros [= <- <-]; reflexivity].
  cbv zeta. rewrite bind_eq.
  match goal with
  | |- context [api_generate_with_trained_model X ?g ?sv ?p ?rf ?a out w] =>
      destruct (api_generate_with_trained_model X g sv p rf a out w) as [w1 r1] eqn:E
  end.
  apply api_generate_with_trained_model_outcome in E. destruct E as ([|] & -> & Hw);
    cbn [negb]; unfold ret, raise; intros [= <- <-]; exact Hw.
Qed.

Lemma api_route_outcome (X : Externals) (txt : string) (info : SpeakerInfo)
    (out language : string) (w w' : World) (r : Res unit) :
  _generate_with_api_reference X txt info out language w = (w', r) ->
  match r with
  | Ok _ => writes_file out w w'
  | Raise _ => w' = w
  end.
Proof.
  unfold _generate_with_api_reference.
  destruct (_select_best_reference_audio (audio_files info)) as [best|e];
    [|unfold raise; intros [= <- <-]; reflexivity].
  cbv zeta. rewrite bind_eq.
  match goal with
  | |- context [api_generate_speech X ?p ?a out w] =>
      destruct (api_generate_speech X p a out w) as [w1 r1] eqn:E
  end.
  apply api_generate_speech_outcome in E. destruct E as ([|] & -> & Hw);
    cbn [negb]; unfold ret, raise; intros [= <- <-]; exact Hw.
Qed.

Lemma placeholder_route_outcome (X : Externals) (txt : string) (info : SpeakerInfo)
    (out language : string) (w w' : World) (r : Res unit) :
  _generate_placeholder X txt info out language w = (w', r) ->
  match r with
  | Ok _ => writes_file out w w'
  | Raise _ => w' = w
  end.
Proof.
  unfold _generate_placeholder. cbv zeta. intros H.
  apply write_file_outcome in H. destruct r; exact H.
Qed.

(** X12.  [generate_speech] touches neither the table nor the tracker and
    launches no process.  When it returns, its result is the path it chose
    under [outputs] and the file system differs from the one before in that
    one file only; when it raises, the file system is exactly as before: a
    failed generation leaves nothing behind. *)
Theorem X12_generation_writes_one_file
    (X : Externals) (self : AudioGeneratorSoVITS) (txt speaker_name language : string)
    (s s' : State) (r : Res string) :
  generate_speech X self txt speaker_name language s = (s', r) ->
  speakers_data s' = speakers_data s
  /\ training_status s' = training_status s
  /\ procs (world s') = procs (world s)
  /\ match r with
     | Ok out =>
         out = output_path_for X s speaker_name
         /\ exists content t, fs (world s') = <[out := File content t]> (fs (world s))
     | Raise _ => fs (world s') = fs (world s)
     end.
Proof.
  unfold generate_speech. cbv zeta. rewrite bind_gets.
  destruct (speakers_data s !! speaker_name) as [info|];
    [|unfold raise; intros [= <- <-]; auto].
  destruct (negb (trained info)); [unfold raise; intros [= <- <-]; auto|].
  rewrite bind_eq, in_world_eq, now_eq. cbn [fst snd].
  change (mkWorld _ _ _ _) with (tick (world s)).
  rewrite try_except_eq, bind_eq.
  match goal with
  | |- context [match ?m ?st with _ => _ end] => destruct (m st) as [s1 r1] eqn:E
  end.
  assert (Hroute : speakers_data s1 = speakers_data s
                   /\ training_status s1 = training_status s
                   /\ match r1 with
                      | Ok _ => writes_file (output_path_for X s speaker_name)
                                  (tick (world s)) (world s1)
                      | Raise _ => world s1 = tick (world s)
                      end).
  { destruct (_ && _); [|destruct (api_available self)];
      apply in_world_inv in E; destruct E as (E & Hd & Ht);
      (split; [exact Hd|]; split; [exact Ht|]); cbn [world] in E.
    - now apply trained_route_outcome in E.
    - now apply api_route_outcome in E.
    - now apply placeholder_route_outcome in E. }
  clear E. destruct Hroute as (Hd & Ht & E).
  destruct r1 as [u|e]; unfold ret, raise; intros [= <- <-].
  - destruct E as (content & ->). cbn [procs fs tick clock].
    repeat split; try assumption. eauto.
  - rewrite E. cbn [procs fs tick]. auto.
Qed.

Lemma X12_generation_writes_one_file_witness :
  procs (world (fst (generate_speech (Demo.externals Generation.scenario)
                       (Demo.generator true) Generation.request_text "voice" "zh-cn"
                       Generation.trained_state)))
  = procs (world Generation.trained_state).
Proof.
  assert (Hres : exists out,
             snd (generate_speech (Demo.externals Generation.scenario)
                    (Demo.generator true) Generation.request_text "voice" "zh-cn"
                    Generation.trained_state) = Ok out)
    by (eexists; vm_compute; reflexivity).
  destruct Hres as (out & Hres).
  destruct (X12_generation_writes_one_file _ _ _ _ _ _ _ _ (run_eq _ _ Hres))
    as (_ & _ & Hprocs & _).
  exact Hprocs.
Defined.

Lemma generation_without_eligible_clip
    (X : Externals) (self : AudioGeneratorSoVITS) (txt speaker_name language : string)
    (s : State) (info : SpeakerInfo) :
  api_available self = true ->
  speakers_data s !! speaker_name = Some info ->
  trained info = true ->
  audio_files info <> [] ->
  (forall a, In a (audio_files info) -> eligible a = false) ->
  exists msg,
    generate_speech X self txt speaker_name language s
    = (mkState (tick (world s)) (speakers_data s) (training_status s),
       Raise (Exception ("语音合成失败: " +:+ msg)))
    /\ (msg = no_eligible_message (audio_files info) \/ msg = "模型路径不完整").
Proof.
  intros Hapi Hinfo Htr Hne Hnone.
  assert (Hsel : _select_best_reference_audio (audio_files info)
                 = Raise (Exception (no_eligible_message (audio_files info)))).
  { unfold _select_best_reference_audio.
    destruct (audio_files info) as [|a l] eqn:Hf; [contradiction|].
    now rewrite (filter_none eligible (a :: l) Hnone). }
  unfold generate_speech. cbv zeta. rewrite bind_gets, Hinfo, Htr. cbn [negb].
  rewrite bind_eq, in_world_eq, now_eq. cbn [fst snd].
  change (mkWorld _ _ _ _) with (tick (world s)).
  rewrite try_except_eq, bind_eq, Hapi.
  destruct (_ && true).
  - rewrite in_world_eq. cbn [world speakers_data training_status].
    unfold _generate_with_trained_model.
    destruct (_ || _).
    + exists "模型路径不完整". split; [reflexivity | now right].
    + rewrite Hsel. exists (no_eligible_message (audio_files info)).
      split; [reflexivity | now left].
  - rewrite in_world_eq. cbn [world speakers_data training_status].
    unfold _generate_with_api_reference. rewrite Hsel.
    exists (no_eligible_message (audio_files info)). split; [reflexivity | now left].
Qed.

(** X13.  With the inference service up, a trained speaker who has
    samples but none lasting between 3 and 10 seconds cannot generate:
    [generate_speech] raises [语音合成失败: ] followed by the text that
    lists the durations (or by [模型路径不完整] when the model info lacks
    a path), and nothing is written.  Training does not look at durations,
    so such a speaker can exist. *)
Theorem X13_generation_needs_eligible_clip
    (X : Externals) (self : AudioGeneratorSoVITS) (txt speaker_name language : string)
    (s : State) (info : SpeakerInfo) :
  api_available self = true ->
  speakers_data s !! speaker_name = Some info ->
  trained info = true ->
  audio_files info <> [] ->
  (forall a, In a (audio_files info) -> eligible a = false) ->
  exists msg,
    snd (generate_speech X self txt speaker_name language s)
    = Raise (Exception ("语音合成失败: " +:+ msg))
    /\ (msg = no_eligible_message (audio_files info) \/ msg = "模型路径不完整")
    /\ fs (world (fst (generate_speech X self txt speaker_name language s)))
       = fs (world s).
Proof.
  intros Hapi Hinfo Htr Hne Hnone.
  destruct (generation_without_eligible_clip X self txt speaker_name language s info
              Hapi Hinfo Htr Hne Hnone) as (msg & Hrun & Hmsg).
  exists msg. rewrite Hrun. cbn [fst snd world tick fs]. auto.
Qed.

Lemma X13_generation_needs_eligible_clip_witness :
  exists msg,
    snd (generate_speech (Demo.externals NoEligibleClip.scenario) (Demo.generator true)
           "你好" "alice" "zh-cn" NoEligibleClip.state)
    = Raise (Exception ("语音合成失败: " +:+ msg))
    /\ (msg = no_eligible_message (audio_files NoEligibleClip.speaker)
        \/ msg = "模型路径不完整")
    /\ fs (world (fst (generate_speech (Demo.externals NoEligibleClip.scenario)
                         (Demo.generator true) "你好" "alice" "zh-cn"
                         NoEligibleClip.state)))
       = fs (world NoEligibleClip.state).
Proof.
  apply (X13_generation_needs_eligible_clip (Demo.externals NoEligibleClip.scenario)
           (Demo.generator true) "你好" "alice" "zh-cn" NoEligibleClip.state
           NoEligibleClip.speaker).
  - reflexivity.
  - apply lookup_singleton_eq.
  - reflexivity.
  - discriminate.
  - intros a [<- | [<- | []]]; reflexivity.
Defined.

(** ** The programs a training run launches *)

Ltac quiet_auto :=
  repeat first
    [ apply keeps_raise
    | apply keeps_ret; exact I
    | apply quiet_set_fs
    | apply quiet_get
    | apply quiet_now
    | apply quiet_print
    | apply quiet_exists
    | apply quiet_read
    | apply quiet_listdir
    | apply quiet_getsize
    | apply quiet_write
    | apply quiet_makedirs
    | apply quiet_copy
    | apply quiet_rmtree
    | apply quiet_remove
    | apply keeps_for_each; intros ?
    | apply keeps_try; [|intros ?]
    | eapply keeps_bind with (V := fun _ => True); [|intros ? _]
    | match goal with
      | |- keeps _ (if ?b then _ else _) _ => destruct b
      | |- keeps _ (match ?x with _ => _ end) _ => destruct x
      end ].

Section QuietTrainer.
Context (X : Externals) (tr : GPTSoVITSTrainer) (l : list (list string)).
Abbreviation quiet := (fun w : World => procs w = l).

Lemma quiet_purge (exp_dir : string) :
  keeps quiet (purge_previous_outputs exp_dir) (fun _ => True).
Proof. unfold purge_previous_outputs. quiet_auto. Qed.

Lemma quiet_listdir_if_exists (d : string) :
  keeps quiet (listdir_if_exists d) (fun _ => True).
Proof. unfold listdir_if_exists. quiet_auto. Qed.

Lemma quiet_read_csv (p : string) : keeps quiet (read_csv X p) (fun _ => True).
Proof. unfold read_csv. quiet_auto. Qed.

Lemma quiet_check_semantic (exp_dir : string) (expected : list string) :
  keeps quiet (check_semantic_output X exp_dir expected) (fun _ => True).
Proof.
  unfold check_semantic_output, listdir_if_exists. cbv zeta.
  eapply keeps_bind with (V := fun _ => True); [apply quiet_exists | intros ex _].
  destruct (negb ex); [apply keeps_ret; exact I|].
  eapply keeps_bind with (V := fun _ => True).
  { apply keeps_try; [|intros ?; apply keeps_ret; exact I].
    eapply keeps_bind with (V := fun _ => True); [apply quiet_read_csv | intros ? _].
    apply keeps_ret; exact I. }
  intros count _. quiet_auto.
Qed.

Lemma quiet_validate (exp_dir : string) :
  keeps quiet (validate_training_data X exp_dir) (fun _ => True).
Proof.
  unfold validate_training_data. cbv zeta.
  eapply keeps_bind with (V := fun _ => True).
  { apply keeps_try; [|intros ?; apply keeps_ret; exact I].
    eapply keeps_bind with (V := fun _ => True); [apply quiet_read_csv | intros ? _].
    apply keeps_ret; exact I. }
  intros loaded _. quiet_auto.
Qed.

Lemma quiet_convert (checkpoint_path output_dir speaker_name config_path : string) :
  keeps quiet
    (_convert_checkpoint_to_weight X checkpoint_path output_dir speaker_name config_path)
    (fun _ => True).
Proof. unfold _convert_checkpoint_to_weight. quiet_auto. Qed.

Lemma quiet_locate (exp_dir speaker_name : string) :
  keeps quiet (locate_stage2_model X exp_dir speaker_name) (fun _ => True).
Proof.
  unfold locate_stage2_model, sort_by_mtime. cbv zeta.
  eapply keeps_bind with (V := fun _ => True); [apply quiet_exists | intros ex _].
  destruct (negb ex); [apply keeps_ret; exact I|].
  eapply keeps_bind with (V := fun _ => True); [apply quiet_listdir | intros entries _].
  destruct (List.filter _ entries); [|apply keeps_ret; exact I].
  eapply keeps_bind with (V := fun _ => True); [apply quiet_listdir | intros entries' _].
  destruct (List.filter _ entries'); [apply keeps_ret; exact I|].
  eapply keeps_bind with (V := fun _ => True); [apply quiet_get | intros sorted _].
  eapply keeps_bind with (V := fun _ => True); [apply quiet_convert | intros weight_path _].
  destruct weight_path; apply keeps_ret; exact I.
Qed.

Lemma quiet_copy_audio_files (speaker_name input_wav_dir : string) (i : nat)
    (files : list AudioSample) :
  keeps quiet (copy_audio_files speaker_name input_wav_dir i files) (fun _ => True).
Proof.
  revert i. induction files as [|a rest IH]; intros i; cbn [copy_audio_files].
  - apply keeps_ret; exact I.
  - cbv zeta.
    eapply keeps_bind with (V := fun _ => True); [apply quiet_exists | intros ex _].
    destruct (negb ex); [apply IH|].
    eapply keeps_bind with (V := fun _ => True); [apply quiet_copy | intros ? _].
    eapply keeps_bind with (V := fun _ => True); [apply IH | intros ? _].
    apply keeps_ret; exact I.
Qed.

Lemma quiet_transcribe (speaker_name exp_dir input_wav_dir text_file : string)
    (copied : list string) :
  keeps quiet
    (transcribe_with_asr X tr speaker_name exp_dir input_wav_dir text_file copied)
    (fun _ => True).
Proof.
  unfold transcribe_with_asr.
  eapply keeps_bind with (V := fun _ => True).
  { apply keeps_try; [|intros ?; apply keeps_ret; exact I]. cbv zeta.
    eapply keeps_bind with (V := fun _ => True); [apply quiet_exists | intros ex _].
    eapply keeps_bind with (V := fun _ => True).
    { intros w w' r Hq H. destruct (execute_asr X _ _ _ (fs w)) as [fs' r0].
      injection H as <- <-. split; [exact Hq | auto]. }
    intros r _. quiet_auto. }
  intros ok _. quiet_auto.
Qed.

Lemma quiet_prepare (speaker_name : string) (files : list AudioSample)
    (audio_text_map : option (gmap string string)) :
  keeps quiet (prepare_training_data X tr speaker_name files audio_text_map)
    (fun d => d = OsPath.join (exp_root tr) speaker_name).
Proof.
  unfold prepare_training_data. cbv zeta.
  eapply keeps_bind with (V := fun _ => True); [apply quiet_makedirs | intros ? _].
  eapply keeps_bind with (V := fun _ => True); [apply quiet_makedirs | intros ? _].
  eapply keeps_bind with (V := fun _ => True);
    [apply quiet_copy_audio_files | intros copied _].
  eapply keeps_bind with (V := fun _ => True); [apply quiet_exists | intros ex _].
  eapply keeps_bind with (V := fun _ => True).
  { destruct ex; [|apply keeps_ret; exact I].
    eapply keeps_bind with (V := fun _ => True); [apply quiet_read | intros ? _].
    apply keeps_ret; exact I. }
  intros reuse _. destruct reuse; [now apply keeps_ret|].
  destruct audio_text_map as [m|].
  - destruct (bool_decide (m = ∅)).
    + eapply keeps_bind with (V := fun _ => True); [apply quiet_transcribe | intros ? _].
      now apply keeps_ret.
    + eapply keeps_bind with (V := fun _ => True); [apply quiet_write | intros ? _].
      now apply keeps_ret.
  - eapply keeps_bind with (V := fun _ => True); [apply quiet_transcribe | intros ? _].
    now apply keeps_ret.
Qed.
End QuietTrainer.

Lemma subprocess_procs (X : Externals) (cmd : list string) (env : list (string * string))
    (cwd : option string) (w w' : World) (r : Res (Z * string * string)) :
  subprocess X cmd env cwd w = (w', r) ->
  match r with
  | Ok _ => procs w' = procs w ++ [cmd]
  | Raise _ => procs w' = procs w
  end.
Proof.
  unfold subprocess. rewrite bind_eq.
  assert (Hcwd : exists ok,
             match cwd with
             | Some d => gets (fun w0 : World => is_dir (fs w0 !! d))
             | None => ret true
             end w = (w, Ok ok)) by (destruct cwd; eexists; reflexivity).
  destruct Hcwd as (ok & ->).
  destruct (negb ok); [unfold raise; intros [= <- <-]; reflexivity|].
  destruct (run_process X cmd env cwd (fs w)) as [fs' out].
  intros [= <- <-]. reflexivity.
Qed.

(** A [bind] whose first action launches nothing. *)
Ltac quiet_bind H lem :=
  let E := fresh "E" in
  let Hq := fresh "Hq" in
  lazymatch type of H with
  | bind ?m ?k ?w = _ =>
      rewrite (bind_eq m k w) in H;
      destruct (m w) as [? [?|?]] eqn:E;
      pose proof (proj1 (lem _ _ _ eq_refl E)) as Hq; clear E
  end.

(** A [bind] whose first action launches one program. *)
Ltac launch_bind H :=
  let E := fresh "E" in
  lazymatch type of H with
  | bind (subprocess ?X ?c ?e ?d) ?k ?w = _ =>
      rewrite (bind_eq (subprocess X c e d) k w) in H;
      destruct (subprocess X c e d w) as [? [?|?]] eqn:E;
      apply subprocess_procs in E
  end.

Ltac prefix_done :=
  split; [lia|]; split; [first [assumption | congruence]|];
  first [discriminate | intros; reflexivity | intros; lia].

Lemma preprocessing_procs (X : Externals) (tr : GPTSoVITSTrainer)
    (exp_dir speaker_name : string) (w w' : World) (r : Res bool) :
  run_data_preprocessing X tr exp_dir speaker_name w = (w', r) ->
  exists n,
    n <= 3
    /\ procs w' = procs w ++ firstn n (pipeline_cmds tr exp_dir)
    /\ (r = Ok true -> n = 3).
Proof.
  unfold run_data_preprocessing. cbv zeta. intros H.
  quiet_bind H (quiet_purge (procs w) exp_dir).
  2:{ inv_pair H. exists 0. rewrite app_nil_r. prefix_done. }
  rewrite bind_eq, exists_eq in H. cbv beta iota in H.
  destruct (negb _).
  { inv_pair H. exists 0. rewrite app_nil_r. prefix_done. }
  launch_bind H.
  2:{ inv_pair H. exists 0. rewrite app_nil_r. prefix_done. }
  destruct (negb _).
  { inv_pair H. exists 1. cbn [firstn pipeline_cmds].
    prefix_done. }
  match type of E with procs ?w1 = _ =>
    quiet_bind H (quiet_listdir_if_exists (procs w1) (OsPath.join exp_dir "2-name2text"))
  end.
  2:{ inv_pair H. exists 1. cbn [firstn pipeline_cmds].
      prefix_done. }
  launch_bind H.
  2:{ inv_pair H. exists 1. cbn [firstn pipeline_cmds].
      prefix_done. }
  assert (Hp2 : procs w3 = procs w ++ firstn 2 (pipeline_cmds tr exp_dir)).
  { rewrite E0, Hq0, E, Hq. cbn [firstn pipeline_cmds]. now rewrite <- app_assoc. }
  clear E0 Hq0 E Hq.
  destruct (negb _).
  { inv_pair H. exists 2. prefix_done. }
  quiet_bind H (quiet_listdir_if_exists (procs w3) (OsPath.join exp_dir "4-cnhubert")).
  2:{ inv_pair H. exists 2. prefix_done. }
  match type of Hq with procs ?w4 = _ =>
    quiet_bind H (quiet_listdir_if_exists (procs w4) (OsPath.join exp_dir "5-wav32k"))
  end.
  2:{ inv_pair H. exists 2. prefix_done. }
  match type of Hq0 with procs ?w5 = _ =>
    quiet_bind H (quiet_read (procs w5) (OsPath.join exp_dir "input_text.txt"))
  end.
  2:{ inv_pair H. exists 2. prefix_done. }
  launch_bind H.
  2:{ inv_pair H. exists 2. prefix_done. }
  match type of E with procs ?w7 = _ =>
    assert (Hp3 : procs w7 = procs w ++ firstn 3 (pipeline_cmds tr exp_dir))
  end.
  { rewrite E, Hq1, Hq0, Hq, Hp2. cbn [firstn pipeline_cmds]. now rewrite <- app_assoc. }
  clear E Hq1 Hq0 Hq Hp2.
  destruct (negb _).
  { inv_pair H. exists 3. prefix_done. }
  match type of Hp3 with procs ?w7 = _ =>
    pose proof (proj1 (quiet_check_semantic X (procs w7) _ _ _ _ _ eq_refl H)) as Hq
  end.
  exists 3. prefix_done.
Qed.

Lemma stage1_procs (X : Externals) (tr : GPTSoVITSTrainer) (exp_dir speaker_name : string)
    (epochs batch_size save_every : Z) (w w' : World) (r : Res (option string)) :
  train_stage1_gpt X tr exp_dir speaker_name epochs batch_size save_every w = (w', r) ->
  exists n,
    n <= 1
    /\ procs w' = procs w ++ firstn n [s1_cmd tr exp_dir]
    /\ (forall p, r = Ok (Some p) -> n = 1).
Proof.
  unfold train_stage1_gpt, sort_by_mtime. cbv zeta. intros H.
  quiet_bind H (quiet_validate X (procs w) exp_dir).
  2:{ inv_pair H. exists 0. rewrite app_nil_r. prefix_done. }
  destruct (negb _).
  { inv_pair H. exists 0. rewrite app_nil_r. prefix_done. }
  match type of Hq with procs ?w1 = _ =>
    quiet_bind H (quiet_read (procs w1)
                    (OsPath.join (sovits_path tr) "GPT_SoVITS/configs/s1longer-v2.yaml"))
  end.
  2:{ inv_pair H. exists 0. rewrite app_nil_r. prefix_done. }
  destruct (yaml_edit X _ _) as [e|config].
  { inv_pair H. exists 0. rewrite app_nil_r. prefix_done. }
  match type of Hq0 with procs ?w2 = _ =>
    quiet_bind H (quiet_write (procs w2) (OsPath.join exp_dir "s1_config.yaml") config)
  end.
  2:{ inv_pair H. exists 0. rewrite app_nil_r. prefix_done. }
  launch_bind H.
  2:{ inv_pair H. exists 0. rewrite app_nil_r. prefix_done. }
  match type of E with procs ?w4 = _ =>
    assert (Hp : procs w4 = procs w ++ firstn 1 [s1_cmd tr exp_dir]) by
      (cbn [firstn]; congruence)
  end.
  clear E Hq Hq0 Hq1.
  destruct (negb _).
  { inv_pair H. exists 1. prefix_done. }
  rewrite bind_eq, exists_eq in H. cbv beta iota in H.
  destruct (negb _).
  { inv_pair H. exists 1. prefix_done. }
  match type of Hp with procs ?w4 = _ =>
    quiet_bind H (quiet_listdir (procs w4) (OsPath.join exp_dir "logs_s1"))
  end.
  2:{ inv_pair H. exists 1. prefix_done. }
  destruct (List.filter _ _).
  { inv_pair H. exists 1. prefix_done. }
  rewrite bind_gets in H. inv_pair H. exists 1. prefix_done.
Qed.

Lemma stage2_procs (X : Externals) (tr : GPTSoVITSTrainer) (exp_dir speaker_name : string)
    (epochs batch_size save_every : Z) (w w' : World) (r : Res (option string)) :
  train_stage2_sovits X tr exp_dir speaker_name epochs batch_size save_every w = (w', r) ->
  exists n,
    n <= 1
    /\ procs w' = procs w ++ firstn n [s2_cmd tr exp_dir]
    /\ (forall p, r = Ok (Some p) -> n = 1).
Proof.
  unfold train_stage2_sovits. cbv zeta. intros H.
  quiet_bind H (quiet_read (procs w)
                  (OsPath.join (sovits_path tr) "GPT_SoVITS/configs/s2.json")).
  2:{ inv_pair H. exists 0. rewrite app_nil_r. prefix_done. }
  destruct (json_edit X _ _) as [e|config].
  { inv_pair H. exists 0. rewrite app_nil_r. prefix_done. }
  rewrite bind_eq, exists_eq in H. cbv beta iota in H.
  destruct (negb _).
  { inv_pair H. exists 0. rewrite app_nil_r. prefix_done. }
  rewrite bind_eq, exists_eq in H. cbv beta iota in H.
  destruct (negb _).
  { inv_pair H. exists 0. rewrite app_nil_r. prefix_done. }
  rewrite bind_eq, exists_eq in H. cbv beta iota in H.
  rewrite bind_eq, exists_eq in H. cbv beta iota in H.
  rewrite bind_eq in H.
  match type of H with
  | context [match ?m ?w1 with _ => _ end] =>
      destruct (m w1) as [w2 r2] eqn:E2;
      assert (Hq2 : procs w2 = procs w1)
  end.
  { destruct (negb _); [destruct (bool_decide _)|].
    - now destruct (quiet_copy (procs w0) _ _ _ _ _ _ eq_refl E2).
    - inv_pair E2. reflexivity.
    - inv_pair E2. reflexivity. }
  clear E2. destruct r2 as [u2|e2].
  2:{ inv_pair H. exists 0. rewrite app_nil_r. prefix_done. }
  quiet_bind H (quiet_makedirs (procs w2) (OsPath.join exp_dir "logs_s2_v2")).
  2:{ inv_pair H. exists 0. rewrite app_nil_r. prefix_done. }
  match type of Hq0 with procs ?w3 = _ =>
    quiet_bind H (quiet_write (procs w3) (OsPath.join exp_dir "s2_config.json") config)
  end.
  2:{ inv_pair H. exists 0. rewrite app_nil_r. prefix_done. }
  launch_bind H.
  2:{ inv_pair H. exists 0. rewrite app_nil_r. prefix_done. }
  match type of E with procs ?w5 = _ =>
    assert (Hp : procs w5 = procs w ++ firstn 1 [s2_cmd tr exp_dir]) by
      (cbn [firstn]; congruence)
  end.
  clear E Hq Hq0 Hq1 Hq2.
  destruct (negb _).
  { inv_pair H. exists 1. prefix_done. }
  match type of Hp with procs ?w5 = _ =>
    pose proof (proj1 (quiet_locate X (procs w5) _ _ _ _ _ eq_refl H)) as Hq
  end.
  exists 1. prefix_done.
Qed.

(** X14.  [train_speaker_complete] never raises, and the programs it
    launches are a prefix of the fixed sequence: the three preprocessing
    scripts, the stage-1 trainer, the stage-2 trainer, each launched at most
    once and none before its predecessors.  A completed run launched all
    five; the stage-2 trainer is launched only when stage 1 gave a
    checkpoint, and nothing is launched when staging the data failed. *)
Theorem X14_pipeline_process_order
    (X : Externals) (tr : GPTSoVITSTrainer) (speaker_name : string)
    (files : list AudioSample) (audio_text_map : option (gmap string string))
    (s1_epochs s2_epochs batch_size : Z) (w : World) :
  exists w' r n,
    train_speaker_complete X tr speaker_name files audio_text_map
      s1_epochs s2_epochs batch_size w = (w', Ok r)
    /\ procs w'
       = procs w ++ firstn n (pipeline_cmds tr (OsPath.join (exp_root tr) speaker_name))
    /\ n <= 5
    /\ (r_status r = "completed" -> n = 5)
    /\ (n = 5 -> is_Some (r_gpt_model r))
    /\ (r_exp_dir r = None -> n = 0).
Proof.
  unfold train_speaker_complete.
  rewrite bind_eq, now_eq. cbv beta iota zeta. change (mkWorld _ _ _ _) with (tick w).
  rewrite try_except_eq, bind_eq.
  destruct (prepare_training_data X tr speaker_name files audio_text_map (tick w))
    as [w1 [exp_dir|e]] eqn:E1;
    destruct (quiet_prepare X tr (procs w) _ _ _ (tick w) _ _ eq_refl E1) as [Hq1 Hdir].
  2:{ exists w1, (set_error (mkTrainResult speaker_name "failed" (clock w) None None None
                               None None) (str_exn e)), 0.
      rewrite app_nil_r. cbn [set_error r_status r_gpt_model r_exp_dir].
      split; [reflexivity|]. split; [exact Hq1|]. split; [lia|].
      split; [discriminate|]. split; [discriminate | reflexivity]. }
  specialize (Hdir exp_dir eq_refl). subst exp_dir.
  set (exp_dir := OsPath.join (exp_root tr) speaker_name).
  rewrite try_except_eq, bind_eq.
  destruct (run_data_preprocessing X tr exp_dir speaker_name w1) as [w2 r2] eqn:E2.
  apply preprocessing_procs in E2. destruct E2 as (n2 & Hn2 & Hp2 & Hok2).
  rewrite Hq1 in Hp2.
  destruct r2 as [[|]|e].
  3:{ do 2 eexists. exists n2. split; [reflexivity|].
      cbn [set_error r_status r_gpt_model r_exp_dir].
      split; [exact Hp2|]. split; [lia|]. split; [discriminate|].
      split; [intros; lia | discriminate]. }
  2:{ do 2 eexists. exists n2. split; [reflexivity|].
      cbn [set_error r_status r_gpt_model r_exp_dir].
      split; [exact Hp2|]. split; [lia|]. split; [discriminate|].
      split; [intros; lia | discriminate]. }
  specialize (Hok2 eq_refl). subst n2. cbn [negb]. cbv iota. rewrite bind_eq.
  destruct (train_stage1_gpt X tr exp_dir speaker_name s1_epochs batch_size 5 w2)
    as [w3 r3] eqn:E3.
  apply stage1_procs in E3. destruct E3 as (n3 & Hn3 & Hp3 & Hok3).
  assert (Hp3' : procs w3 = procs w ++ firstn (3 + n3) (pipeline_cmds tr exp_dir)).
  { rewrite Hp3, Hp2. destruct n3 as [|[|]]; [| |lia]; now rewrite <- app_assoc. }
  clear Hp3 Hp2.
  destruct r3 as [[gpt_model|]|e].
  3:{ do 2 eexists. exists (3 + n3). split; [reflexivity|].
      cbn [set_error r_status r_gpt_model r_exp_dir].
      split; [exact Hp3'|]. split; [lia|]. split; [discriminate|].
      split; [intros; lia | discriminate]. }
  2:{ do 2 eexists. exists (3 + n3). split; [reflexivity|].
      cbn [set_error r_status r_gpt_model r_exp_dir].
      split; [exact Hp3'|]. split; [lia|]. split; [discriminate|].
      split; [intros; lia | discriminate]. }
  specialize (Hok3 gpt_model eq_refl). subst n3.
  rewrite try_except_eq, bind_eq.
  destruct (train_stage2_sovits X tr exp_dir speaker_name s2_epochs batch_size 4 w3)
    as [w4 r4] eqn:E4.
  apply stage2_procs in E4. destruct E4 as (n4 & Hn4 & Hp4 & Hok4).
  assert (Hp4' : procs w4 = procs w ++ firstn (4 + n4) (pipeline_cmds tr exp_dir)).
  { rewrite Hp4, Hp3'. destruct n4 as [|[|]]; [| |lia]; now rewrite <- app_assoc. }
  clear Hp4 Hp3'.
  destruct r4 as [[sovits_model|]|e].
  3:{ do 2 eexists. exists (4 + n4). split; [reflexivity|].
      cbn [set_error r_status r_gpt_model r_exp_dir].
      split; [exact Hp4'|]. split; [lia|]. split; [discriminate|].
      split; [eauto | discriminate]. }
  2:{ do 2 eexists. exists (4 + n4). split; [reflexivity|].
      cbn [set_error r_status r_gpt_model r_exp_dir].
      split; [exact Hp4'|]. split; [lia|]. split; [discriminate|].
      split; [eauto | discriminate]. }
  specialize (Hok4 sovits_model eq_refl). subst n4.
  rewrite bind_eq, now_eq. cbv beta iota.
  do 2 eexists. exists 5. split; [reflexivity|].
  cbn [r_status r_gpt_model r_exp_dir procs].
  split; [exact Hp4'|]. split; [lia|]. split; [reflexivity|].
  split; [eauto | discriminate].
Qed.

(** ** What a training run records *)

Lemma model_info_path_apart (speaker_name : string) :
  OsPath.join (OsPath.join trained_models_dir speaker_name) "model_info.json" <> "models"
  /\ OsPath.join (OsPath.join trained_models_dir speaker_name) "model_info.json"
     <> speakers_file.
Proof.
  assert (Hsuffix : forall x, x +:+ "model_info.json" <> "models"
                              /\ x +:+ "model_info.json" <> speakers_file).
  { intros x. split; intros Heq; apply (f_equal PyStr.srev) in Heq;
      rewrite srev_app in Heq;
      change (PyStr.srev "model_info.json") with "nosj.ofni_ledom" in Heq.
    - change (PyStr.srev "models") with "sledom" in Heq. discriminate Heq.
    - change (PyStr.srev speakers_file) with "nosj.stivos_srekaeps/sledom" in Heq.
      discriminate Heq. }
  unfold OsPath.join at 1 3. change (PyStr.startswith "/" "model_info.json") with false.
  cbv iota.
  destruct (String.eqb _ "" || PyStr.endswith "/" _).
  - apply Hsuffix.
  - rewrite <- append_assoc. apply Hsuffix.
Qed.

Lemma train_with_sovits_ok (X : Externals) (tr : GPTSoVITSTrainer) (speaker_name : string)
    (epochs batch_size : Z) (s s' : State) (mi : ModelInfo) :
  _train_with_sovits_complete X tr speaker_name epochs batch_size s = (s', Ok mi) ->
  exists exp_dir t,
    content_of (world s')
      (OsPath.join (OsPath.join trained_models_dir speaker_name) "model_info.json")
    = Some (json_dumps X
              (model_info_doc speaker_name mi exp_dir
                 (clip_count (speakers_data s) speaker_name) epochs t)).
Proof.
  unfold _train_with_sovits_complete. rewrite bind_gets. cbv zeta.
  fold (stage2_epochs epochs). intros H.
  world_step H s1 res E1; [|discriminate].
  destruct (negb _); [discriminate|].
  world_step H s2 u2 E2; [|discriminate].
  world_step H s3 t3 E3; [|discriminate].
  world_step H s4 u4 E4; [|discriminate].
  inv_pair H. exists (r_exp_dir res), t3.
  apply write_file_ok in Hw2. unfold content_of. rewrite Hw2. cbn [fs].
  rewrite lookup_insert_eq. unfold model_info_doc, clip_count. cbn [gpt_model sovits_model].
  destruct (speakers_data s !! speaker_name); reflexivity.
Qed.

(** X15.  When [train_speaker] returns, the run is on disk: the store
    file holds the table with the speaker marked trained, and
    [model_info.json] in the speaker's model directory holds the two model
    paths that are stored with the speaker, the number of samples the
    speaker had, the requested epochs for stage 1 and
    [max(8, int(epochs * 0.67))] for stage 2. *)
Theorem X15_training_is_recorded
    (X : Externals) (self : AudioGeneratorSoVITS) (speaker_name : string)
    (epochs batch_size : Z) (s s' : State) (summary : TrainSummary) :
  train_speaker X self speaker_name epochs batch_size s = (s', Ok summary) ->
  persisted X s'
  /\ exists info mi exp_dir t,
       speakers_data s' !! speaker_name = Some info
       /\ trained info = true
       /\ model_info info = Some mi
       /\ content_of (world s')
            (OsPath.join (OsPath.join trained_models_dir speaker_name) "model_info.json")
          = Some (json_dumps X
                    (model_info_doc speaker_name mi exp_dir
                       (clip_count (speakers_data s) speaker_name) epochs t)).
Proof.
  unfold train_speaker. rewrite bind_gets.
  destruct (speakers_data s !! speaker_name) as [info0|] eqn:Hinfo; [|discriminate].
  cbv zeta. destruct (_ <? 3); [discriminate|].
  rewrite bind_eq, in_world_eq, now_eq. cbn [fst snd].
  unfold set_status at 1. rewrite bind_modify. cbn [world speakers_data training_status].
  unfold train_speaker_guarded. intros H.
  apply try_except_ok_inv in H.
  2:{ intros e s1 s2 x Hh. bind_inv Hh; [|discriminate].
      bind_inv Hh; discriminate. }
  bind_ok H as s2 mi E2.
  destruct (trainer self) as [tr|]; [|discriminate].
  pose proof (train_with_sovits_frame _ _ _ _ _ _ _ _ E2) as (Hd2 & _ & _).
  apply train_with_sovits_ok in E2. destruct E2 as (exp_dir & t & Hdoc).
  cbn [speakers_data] in Hdoc, Hd2.
  world_step H s3 t3 E3; [|discriminate].
  rewrite now_eq in Hw. injection Hw as Hw3 _.
  bind_ok H as s4 u4 E4. unfold set_speakers, modify in E4. inv_pair E4.
  bind_ok H as s5 u5 E5. apply save_speakers_data_ok in E5.
  cbn [world speakers_data training_status] in E5.
  destruct E5 as (Hd5 & _ & Hpers & _ & Hf5 & _).
  world_step H s6 t6 E6; [|discriminate].
  rewrite now_eq in Hw. injection Hw as Hw6 _.
  bind_ok H as s7 u7 E7. unfold set_status, modify in E7. inv_pair E7.
  inv_pair H. cbn [world speakers_data].
  destruct (model_info_path_apart speaker_name) as [Hne1 Hne2].
  split.
  - unfold persisted, content_of in *. rewrite <- Hw6, Hd0. exact Hpers.
  - eexists _, mi, exp_dir, t.
    rewrite Hd0, Hd5, lookup_alter_eq, Hd, Hd2, Hinfo. cbn [fmap option_fmap option_map].
    split; [reflexivity|]. split; [reflexivity|]. split; [reflexivity|].
    unfold content_of in *. rewrite <- Hw6. cbn [fs].
    rewrite Hf5 by assumption. rewrite <- Hw3. exact Hdoc.
Qed.

Lemma X15_training_is_recorded_witness :
  persisted (Demo.externals Generation.scenario) Generation.trained_state.
Proof.
  assert (Hres : exists summary,
             snd (train_speaker (Demo.externals Generation.scenario) (Demo.generator true)
                    "voice" 8 4 (Demo.with_clips Generation.scenario 3)) = Ok summary)
    by (eexists; vm_compute; reflexivity).
  destruct Hres as (summary & Hres).
  exact (proj1 (X15_training_is_recorded _ _ _ _ _ _ _ _ (run_eq _ _ Hres))).
Defined.

(** ** What stage 2 needs *)

Lemma bool_decide_present (p : string) (w : World) :
  bool_decide (is_Some (fs w !! p)) = true <-> file_present p w.
Proof. unfold file_present. apply bool_decide_eq_true. Qed.

Lemma stage2_early_exit (X : Externals) (tr : GPTSoVITSTrainer)
    (exp_dir speaker_name : string) (epochs batch_size save_every : Z)
    (w w' : World) (r : Res (option string)) :
  train_stage2_sovits X tr exp_dir speaker_name epochs batch_size save_every w = (w', r) ->
  content_of w (OsPath.join (sovits_path tr) "GPT_SoVITS/configs/s2.json") = None
  \/ ~ stage2_inputs exp_dir w ->
  w' = w /\ exists e, r = Raise e.
Proof.
  unfold train_stage2_sovits, content_of, stage2_inputs. cbv zeta. intros H Hmiss.
  rewrite bind_eq, read_file_eq in H.
  destruct (fs w !! OsPath.join (sovits_path tr) "GPT_SoVITS/configs/s2.json")
    as [[template t|t]|]; [|inv_pair H; eauto|inv_pair H; eauto].
  destruct Hmiss as [Hmiss|Hmiss]; [discriminate|]. cbv iota in H.
  destruct (json_edit X template _) as [e|config]; [inv_pair H; eauto|].
  rewrite bind_eq, exists_eq in H. cbv beta iota in H.
  destruct (bool_decide (is_Some (fs w !! OsPath.join exp_dir "5-wav32k"))) eqn:Hwav;
    cbn [negb] in H; [|inv_pair H; eauto].
  rewrite bind_eq, exists_eq in H. cbv beta iota in H.
  destruct (bool_decide (is_Some (fs w !! OsPath.join exp_dir "4-cnhubert"))) eqn:Hhub;
    cbn [negb] in H; [|inv_pair H; eauto].
  rewrite bind_eq, exists_eq in H. cbv beta iota in H.
  rewrite bind_eq, exists_eq in H. cbv beta iota in H.
  apply bool_decide_present in Hwav, Hhub.
  destruct (bool_decide (is_Some (fs w !! OsPath.join exp_dir "2-name2text.txt"))) eqn:Hdst.
  { exfalso. apply Hmiss. apply bool_decide_present in Hdst. auto. }
  destruct (bool_decide (is_Some (fs w !! OsPath.join exp_dir "2-name2text-0.txt")))
    eqn:Hsrc.
  { exfalso. apply Hmiss. apply bool_decide_present in Hsrc. auto. }
  cbn [negb] in H. rewrite bind_raise in H. inv_pair H. eauto.
Qed.

(** X16.  Stage 2 launches its trainer at most once, and only from a
    world in which the configuration template is readable and the outputs
    of preprocessing are there: the [5-wav32k] and [4-cnhubert] directories
    and the text table.  When one of them is missing the stage raises
    before it has written anything: the files are exactly as they were. *)
Theorem X16_stage2_launch_conditions
    (X : Externals) (tr : GPTSoVITSTrainer) (exp_dir speaker_name : string)
    (epochs batch_size save_every : Z) (w w' : World) (r : Res (option string)) :
  train_stage2_sovits X tr exp_dir speaker_name epochs batch_size save_every w = (w', r) ->
  (procs w' = procs w \/ procs w' = procs w ++ [s2_cmd tr exp_dir])
  /\ (procs w' <> procs w ->
      stage2_inputs exp_dir w
      /\ exists template,
           content_of w (OsPath.join (sovits_path tr) "GPT_SoVITS/configs/s2.json")
           = Some template)
  /\ (~ stage2_inputs exp_dir w ->
      fs w' = fs w /\ procs w' = procs w /\ exists e, r = Raise e).
Proof.
  intros H. split; [|split].
  - apply stage2_procs in H. destruct H as ([|[|n]] & Hn & Hp & _); [| |lia].
    + left. now rewrite Hp, app_nil_r.
    + right. exact Hp.
  - intros Hlaunched.
    assert (Hin : stage2_inputs exp_dir w).
    { unfold stage2_inputs, file_present.
      destruct (fs w !! OsPath.join exp_dir "5-wav32k") eqn:Hwav;
        [|exfalso; apply Hlaunched;
          destruct (stage2_early_exit _ _ _ _ _ _ _ _ _ _ H) as [-> _]; [right|reflexivity];
          unfold stage2_inputs, file_present; rewrite Hwav;
          intros ([? ?] & _); discriminate].
      destruct (fs w !! OsPath.join exp_dir "4-cnhubert") eqn:Hhub;
        [|exfalso; apply Hlaunched;
          destruct (stage2_early_exit _ _ _ _ _ _ _ _ _ _ H) as [-> _]; [right|reflexivity];
          unfold stage2_inputs, file_present; rewrite Hhub;
          intros (_ & [? ?] & _); discriminate].
      destruct (fs w !! OsPath.join exp_dir "2-name2text.txt") eqn:Hdst; [eauto 6|].
      destruct (fs w !! OsPath.join exp_dir "2-name2text-0.txt") eqn:Hsrc; [eauto 6|].
      exfalso. apply Hlaunched.
      destruct (stage2_early_exit _ _ _ _ _ _ _ _ _ _ H) as [-> _]; [right|reflexivity].
      unfold stage2_inputs, file_present. rewrite Hdst, Hsrc.
      intros (_ & _ & [[? ?]|[? ?]]); discriminate. }
    split; [exact Hin|].
    destruct (content_of w (OsPath.join (sovits_path tr) "GPT_SoVITS/configs/s2.json"))
      as [template|] eqn:Ht; [eauto|].
    exfalso. apply Hlaunched.
    destruct (stage2_early_exit _ _ _ _ _ _ _ _ _ _ H) as [-> _]; [left; exact Ht|reflexivity].
  - intros Hmiss.
    destruct (stage2_early_exit _ _ _ _ _ _ _ _ _ _ H (or_intror Hmiss)) as [-> He].
    auto.
Qed.

Lemma X16_stage2_launch_conditions_witness :
  fs (fst (train_stage2_sovits (Demo.externals StageFailures.no_wav32k) Demo.the_trainer
             Demo.exp_dir "voice" (stage2_epochs 8) 4 4 StageFailures.after_stage1))
  = fs StageFailures.after_stage1.
Proof.
  assert (Hres : exists e,
             snd (train_stage2_sovits (Demo.externals StageFailures.no_wav32k)
                    Demo.the_trainer Demo.exp_dir "voice" (stage2_epochs 8) 4 4
                    StageFailures.after_stage1) = Raise e)
    by (eexists; vm_compute; reflexivity).
  destruct Hres as (e & Hres).
  destruct (X16_stage2_launch_conditions _ _ _ _ _ _ _ _ _ _ (run_eq _ _ Hres))
    as (_ & _ & Hexit).
  apply Hexit. intros (Hwav & _). revert Hwav. unfold file_present.
  assert (Hnone : fs StageFailures.after_stage1 !! OsPath.join Demo.exp_dir "5-wav32k" = None)
    by (vm_compute; reflexivity).
  rewrite Hnone. intros [? ?]. discriminate.
Defined.

(** ** Which artifact a stage returns *)

Section SortMax.
Context {A K : Type} (key : A -> K) (ltb : K -> K -> bool).
Hypothesis ltb_irrefl : forall a, ltb a a = false.
Hypothesis ltb_asym : forall a b, ltb a b = true -> ltb b a = false.
Hypothesis ltb_negtrans : forall a b c, ltb a b = false -> ltb b c = false -> ltb a c = false.

Abbreviation not_below := (fun a b : A => ltb (key a) (key b) = false).

Lemma insert_desc_descending (x : A) (l : list A) :
  StronglySorted not_below l -> StronglySorted not_below (insert_desc key ltb x l).
Proof.
  induction l as [|y l IH]; intros Hs; cbn [insert_desc].
  - repeat constructor.
  - inversion Hs as [|? ? Hl Hy]; subst.
    destruct (ltb (key x) (key y)) eqn:Hxy.
    + constructor; [now apply IH|].
      apply List.Forall_forall. intros z Hz.
      apply (Permutation_in _ (insert_desc_perm key ltb x l)) in Hz.
      destruct Hz as [<- | Hz]; [now apply ltb_asym|].
      rewrite List.Forall_forall in Hy. now apply Hy.
    + constructor; [exact Hs|]. constructor; [exact Hxy|].
      apply List.Forall_forall. intros z Hz.
      rewrite List.Forall_forall in Hy. eapply ltb_negtrans; [exact Hxy | now apply Hy].
Qed.

Lemma sort_reverse_descending (l : list A) :
  StronglySorted not_below (sort_reverse key ltb l).
Proof.
  induction l as [|x l IH]; cbn [sort_reverse fold_right]; [constructor|].
  now apply insert_desc_descending.
Qed.

(** The head of the sorted list is a greatest element. *)
Lemma sort_reverse_hd_max (d x : A) (l : list A) :
  In x l -> ltb (key (List.hd d (sort_reverse key ltb l))) (key x) = false.
Proof.
  intros Hx. apply (sort_reverse_In key ltb) in Hx.
  pose proof (sort_reverse_descending l) as Hs.
  destruct (sort_reverse key ltb l) as [|h t]; [contradiction|]. cbn [List.hd].
  inversion Hs as [|? ? _ Hh]; subst.
  destruct Hx as [<- | Hx]; [apply ltb_irrefl|].
  rewrite List.Forall_forall in Hh. now apply Hh.
Qed.
End SortMax.

Lemma ascii_compare_refl (a : ascii) : Ascii.compare a a = Eq.
Proof. unfold Ascii.compare. apply N.compare_refl. Qed.

Lemma ascii_compare_trans (a b c : ascii) :
  Ascii.compare a b = Lt -> Ascii.compare b c = Lt -> Ascii.compare a c = Lt.
Proof.
  unfold Ascii.compare. rewrite !N.compare_lt_iff. apply N.lt_trans.
Qed.

Lemma string_compare_refl (a : string) : String.compare a a = Eq.
Proof.
  induction a as [|c a IH]; [reflexivity|]. cbn [String.compare].
  now rewrite ascii_compare_refl.
Qed.

Lemma string_compare_trans (a b c : string) :
  String.compare a b = Lt -> String.compare b c = Lt -> String.compare a c = Lt.
Proof.
  revert b c. induction a as [|x a IH]; intros [|y b] [|z c]; cbn [String.compare];
    try discriminate; try reflexivity.
  destruct (Ascii.compare x y) eqn:Hxy; try discriminate;
    destruct (Ascii.compare y z) eqn:Hyz; try discriminate; intros Hab Hbc.
  - apply Ascii.compare_eq_iff in Hxy, Hyz. subst. rewrite ascii_compare_refl. eauto.
  - apply Ascii.compare_eq_iff in Hxy. subst. now rewrite Hyz.
  - apply Ascii.compare_eq_iff in Hyz. subst. now rewrite Hxy.
  - now rewrite (ascii_compare_trans _ _ _ Hxy Hyz).
Qed.

Lemma string_ltb_irrefl (a : string) : String.ltb a a = false.
Proof. unfold String.ltb. now rewrite string_compare_refl. Qed.

Lemma string_ltb_asym (a b : string) : String.ltb a b = true -> String.ltb b a = false.
Proof.
  unfold String.ltb. rewrite (String.compare_antisym b a).
  destruct (String.compare a b); [discriminate | reflexivity | discriminate].
Qed.

Lemma string_ltb_negtrans (a b c : string) :
  String.ltb a b = false -> String.ltb b c = false -> String.ltb a c = false.
Proof.
  unfold String.ltb. intros Hab Hbc.
  destruct (String.compare a b) eqn:Eab; [| discriminate |].
  - apply String.compare_eq_iff in Eab. now subst.
  - destruct (String.compare b c) eqn:Ebc; [| discriminate |].
    + apply String.compare_eq_iff in Ebc. subst. now rewrite Eab.
    + assert (Hca : String.compare c a = Lt).
      { apply (string_compare_trans c b a).
        - rewrite String.compare_antisym, Ebc. reflexivity.
        - rewrite String.compare_antisym, Eab. reflexivity. }
      rewrite String.compare_antisym, Hca. reflexivity.
Qed.

Lemma nat_ltb_negtrans (a b c : nat) :
  Nat.ltb a b = false -> Nat.ltb b c = false -> Nat.ltb a c = false.
Proof. rewrite !Nat.ltb_ge. lia. Qed.

Lemma nat_ltb_asym (a b : nat) : Nat.ltb a b = true -> Nat.ltb b a = false.
Proof. rewrite Nat.ltb_lt, Nat.ltb_ge. lia. Qed.

Lemma listdir_same (d : string) (w w' : World) (entries : list string) :
  Os.listdir d w = (w', Ok entries) -> w' = w /\ file_present d w.
Proof.
  rewrite listdir_eq. unfold file_present.
  destruct (fs w !! d) as [[c t|t]|]; try discriminate.
  intros [= <- _]. eauto.
Qed.

(** X17.  The checkpoint stage 1 returns is a [.ckpt] entry of [logs_s1]
    whose modification time is the latest among the [.ckpt] entries there,
    in the world the stage ends in. *)
Theorem X17_stage1_returns_newest_checkpoint
    (X : Externals) (tr : GPTSoVITSTrainer) (exp_dir speaker_name : string)
    (epochs batch_size save_every : Z) (w w' : World) (gpt : string) :
  train_stage1_gpt X tr exp_dir speaker_name epochs batch_size save_every w
  = (w', Ok (Some gpt)) ->
  exists entries f,
    Os.listdir (OsPath.join exp_dir "logs_s1") w' = (w', Ok entries)
    /\ gpt = OsPath.join (OsPath.join exp_dir "logs_s1") f
    /\ In f entries
    /\ PyStr.endswith ".ckpt" f = true
    /\ forall g, In g entries -> PyStr.endswith ".ckpt" g = true ->
         Os.mtime_of w' (OsPath.join (OsPath.join exp_dir "logs_s1") g)
         <= Os.mtime_of w' (OsPath.join (OsPath.join exp_dir "logs_s1") f).
Proof.
  unfold train_stage1_gpt. intros H.
  bind_ok H as w1 valid E1. destruct valid; cbn [negb] in H; [|inv_pair H].
  cbv zeta in H. bind_ok H as w2 template E2.
  destruct (yaml_edit X template _) as [err|config]; [discriminate|].
  bind_ok H as w3 u3 E3. bind_ok H as w4 process E4.
  destruct (negb _); [inv_pair H|].
  bind_ok H as w5 ex E5. rewrite exists_eq in E5. inv_pair E5.
  destruct (negb _); [inv_pair H|].
  bind_ok H as w6 entries E6.
  destruct (listdir_same _ _ _ _ E6) as [-> _].
  destruct (List.filter (PyStr.endswith ".ckpt") entries) as [|f0 l] eqn:Ef; [inv_pair H|].
  bind_ok H as w7 sorted E7. unfold sort_by_mtime, gets in E7. injection E7 as <- <-.
  apply ret_ok_inv in H. destruct H as [-> Hg]. injection Hg as <-.
  set (key := fun x => Os.mtime_of w' (OsPath.join (OsPath.join exp_dir "logs_s1") x)).
  assert (Hne : List.filter (PyStr.endswith ".ckpt") entries <> [])
    by (rewrite Ef; discriminate).
  pose proof (sort_reverse_hd_In key Nat.ltb "" _ Hne) as Hin.
  apply List.filter_In in Hin. destruct Hin as [Hin Hck]. rewrite Ef in Hin, Hck.
  exists entries, (List.hd "" (sort_reverse key Nat.ltb (f0 :: l))).
  split; [exact E6|]. split; [reflexivity|]. split; [exact Hin|]. split; [exact Hck|].
  intros g Hg Hgck.
  assert (Hgin : In g (f0 :: l)) by (rewrite <- Ef; apply List.filter_In; auto).
  pose proof (sort_reverse_hd_max key Nat.ltb Nat.ltb_irrefl nat_ltb_asym nat_ltb_negtrans
                "" g (f0 :: l) Hgin) as Hmax.
  apply Nat.ltb_ge in Hmax. exact Hmax.
Qed.

Lemma X17_stage1_returns_newest_checkpoint_witness :
  exists entries gpt,
    Os.listdir (OsPath.join Demo.exp_dir "logs_s1") StageFailures.after_stage1
    = (StageFailures.after_stage1, Ok entries)
    /\ In gpt entries.
Proof.
  assert (Hres : exists gpt,
             snd (train_stage1_gpt (Demo.externals StageFailures.no_wav32k) Demo.the_trainer
                    Demo.exp_dir "voice" 8 4 5
                    (fst (run_data_preprocessing (Demo.externals StageFailures.no_wav32k)
                            Demo.the_trainer Demo.exp_dir "voice"
                            (fst (prepare_training_data
                                    (Demo.externals StageFailures.no_wav32k)
                                    Demo.the_trainer "voice" StageFailures.clips None
                                    (tick (tick (world StageFailures.state))))))))
             = Ok (Some gpt))
    by (eexists; vm_compute; reflexivity).
  destruct Hres as (gpt & Hres).
  destruct (X17_stage1_returns_newest_checkpoint _ _ _ _ _ _ _ _ _ _ (run_eq _ _ Hres))
    as (entries & f & Hlist & _ & Hin & _).
  exists entries, f. split; [exact Hlist | exact Hin].
Defined.

(** X18.  Once the stage-2 trainer has exited with 0, an exported weight
    file of the speaker in [logs_s2_v2] is preferred to any checkpoint: the
    result is the exported file that is greatest in string order (so
    [voice_e8.pth] wins over [voice_e12.pth]), and nothing is converted or
    written.  With neither an exported weight file nor a [G_*.pth]
    checkpoint the result is [None]. *)
Theorem X18_stage2_prefers_exported_weight
    (X : Externals) (exp_dir speaker_name : string) (w : World) (entries : list string) :
  Os.listdir (OsPath.join exp_dir "logs_s2_v2") w = (w, Ok entries) ->
  match List.filter (is_weight_file speaker_name) entries with
  | _ :: _ =>
      exists best,
        snd (locate_stage2_model X exp_dir speaker_name w)
        = Ok (Some (OsPath.join (OsPath.join exp_dir "logs_s2_v2") best))
        /\ fs (fst (locate_stage2_model X exp_dir speaker_name w)) = fs w
        /\ In best entries
        /\ is_weight_file speaker_name best = true
        /\ forall f, In f entries -> is_weight_file speaker_name f = true ->
             String.ltb best f = false
  | [] =>
      List.filter (fun f => PyStr.startswith "G_" f && PyStr.endswith ".pth" f) entries = [] ->
      snd (locate_stage2_model X exp_dir speaker_name w) = Ok None
  end.
Proof.
  intros Hlist. destruct (listdir_same _ _ _ _ Hlist) as [_ Hex].
  apply bool_decide_present in Hex.
  destruct (List.filter (is_weight_file speaker_name) entries) as [|f0 l] eqn:Ef.
  - intros Hg. unfold locate_stage2_model. cbv zeta.
    rewrite bind_eq, exists_eq, Hex. cbn [negb]. rewrite bind_eq, Hlist, Ef.
    rewrite bind_eq, Hlist, Hg. reflexivity.
  - assert (Hne : List.filter (is_weight_file speaker_name) entries <> [])
      by (rewrite Ef; discriminate).
    pose proof (sort_reverse_hd_In (fun f : string => f) String.ltb "" _ Hne) as Hin.
    apply List.filter_In in Hin. destruct Hin as [Hin Hwf]. rewrite Ef in Hin, Hwf.
    assert (Hrun : locate_stage2_model X exp_dir speaker_name w
                   = (w, Ok (Some (OsPath.join (OsPath.join exp_dir "logs_s2_v2")
                                     (List.hd "" (sort_reverse (fun f : string => f)
                                                    String.ltb (f0 :: l))))))).
    { unfold locate_stage2_model. cbv zeta.
      rewrite bind_eq, exists_eq, Hex. cbn [negb]. rewrite bind_eq, Hlist, Ef.
      reflexivity. }
    rewrite Hrun.
    exists (List.hd "" (sort_reverse (fun f : string => f) String.ltb (f0 :: l))).
    split; [reflexivity|]. split; [reflexivity|]. split; [exact Hin|]. split; [exact Hwf|].
    intros f Hf Hfw.
    assert (Hfin : In f (f0 :: l)) by (rewrite <- Ef; apply List.filter_In; auto).
    exact (sort_reverse_hd_max (fun f : string => f) String.ltb string_ltb_irrefl
             string_ltb_asym string_ltb_negtrans "" f (f0 :: l) Hfin).
Qed.

Lemma X18_stage2_prefers_exported_weight_witness :
  snd (locate_stage2_model (Demo.externals TwoWeights.scenario) Demo.exp_dir "voice"
         TwoWeights.disk)
  = Ok (Some (OsPath.join TwoWeights.logs_dir "voice_e8.pth")).
Proof.
  assert (Hlist : exists entries,
             Os.listdir (OsPath.join Demo.exp_dir "logs_s2_v2") TwoWeights.disk
             = (TwoWeights.disk, Ok entries)
             /\ List.filter (is_weight_file "voice") entries
                = ["voice_e12.pth"; "voice_e8.pth"]).
  { eexists. split; [vm_compute; reflexivity | vm_compute; reflexivity]. }
  destruct Hlist as (entries & Hlist & Hw).
  pose proof (X18_stage2_prefers_exported_weight (Demo.externals TwoWeights.scenario)
                Demo.exp_dir "voice" TwoWeights.disk entries Hlist) as H.
  rewrite Hw in H. destruct H as (best & Hrun & _ & Hin & Hwf & Hmax).
  assert (Hbest : In best ["voice_e12.pth"; "voice_e8.pth"])
    by (rewrite <- Hw; apply List.filter_In; auto).
  destruct Hbest as [<- | [<- | []]]; [|exact Hrun].
  specialize (Hmax "voice_e8.pth").
  assert (Hin8 : In "voice_e8.pth" (List.filter (is_weight_file "voice") entries))
    by (rewrite Hw; right; now left).
  apply List.filter_In in Hin8. destruct Hin8 as [Hin8 Hwf8].
  specialize (Hmax Hin8 Hwf8). exfalso. clear -Hmax. vm_compute in Hmax. discriminate Hmax.
Defined.

(** ** The shape of the table in every state the service reaches *)

Section EntryInvariant.
Variable X : Externals.
Variable self : AudioGeneratorSoVITS.

Lemma well_formed_insert_new (d : gmap string SpeakerInfo) (name : string) (t : nat) :
  table_well_formed d ->
  table_well_formed (<[name := mkSpeakerInfo [] t false None None None None]> d).
Proof.
  intros Hd n info Hl. destruct (decide (name = n)) as [->|Hne].
  - rewrite lookup_insert_eq in Hl. injection Hl as <-.
    split; [reflexivity|]. split; [intros a []|]. cbn. auto.
  - rewrite lookup_insert_ne in Hl by assumption. now apply Hd.
Qed.

Lemma well_formed_alter (d : gmap string SpeakerInfo) (name : string)
    (f : SpeakerInfo -> SpeakerInfo) :
  (forall i, entry_well_formed name i -> entry_well_formed name (f i)) ->
  table_well_formed d -> table_well_formed (alter f name d).
Proof.
  intros Hf Hd n info Hl. destruct (decide (name = n)) as [->|Hne].
  - rewrite lookup_alter_eq in Hl. destruct (d !! n) as [i|] eqn:E; [|discriminate].
    injection Hl as <-. apply Hf. now apply Hd.
  - rewrite lookup_alter_ne in Hl by assumption. now apply Hd.
Qed.

Lemma well_formed_delete (d : gmap string SpeakerInfo) (name : string) :
  table_well_formed d -> table_well_formed (delete name d).
Proof.
  intros Hd n info Hl. apply lookup_delete_Some in Hl. destruct Hl as [_ Hl]. now apply Hd.
Qed.

Lemma upload_keeps_well_formed (audio_path speaker_name : string) :
  keeps (fun s => table_well_formed (speakers_data s))
        (process_reference_audio X audio_path speaker_name) (fun _ => True).
Proof.
  unfold process_reference_audio.
  apply keeps_try; [|intros; apply keeps_raise].
  keeps_world.
  destruct (librosa_load X a) as [e|[audio_len sr]]; [apply keeps_raise|].
  destruct (sr =? 0)%Z; [apply keeps_raise|]. cbv zeta.
  keeps_world.
  eapply keeps_bind with (V := fun _ => True).
  { destruct (negb (sr =? 32000)%Z).
    - destruct (resample_32k X a) as [new_len encoded].
      keeps_world. now apply keeps_ret.
    - keeps_world. now apply keeps_ret. }
  intros [audio_shape sr'] _.
  eapply keeps_bind; [apply keeps_gets with (V := fun _ => True); auto|]. intros known _.
  eapply keeps_bind with (V := fun _ => True).
  { destruct known; [now apply keeps_ret|].
    keeps_world. apply keeps_set_speakers. intros d Hd.
    now apply well_formed_insert_new. }
  intros _ _. keeps_world.
  eapply keeps_bind.
  { apply keeps_set_speakers. intros d Hd. apply well_formed_alter; [|exact Hd].
    intros i (Hmp & Hsamples & Hmi). split; [exact Hmp|]. split; [|exact Hmi].
    intros b Hb. cbn [audio_files] in Hb. apply in_app_or in Hb.
    destruct Hb as [Hb | [<- | []]]; [now apply Hsamples|]. split; reflexivity. }
  intros _ _. eapply keeps_bind; [apply keeps_save|]. intros _ _.
  eapply keeps_bind; [apply keeps_gets with (V := fun _ => True); auto|]. intros count _.
  now apply keeps_ret.
Qed.

Lemma train_with_sovits_returns (P : gmap string SpeakerInfo -> Prop)
    (tr : GPTSoVITSTrainer) (speaker_name : string) (epochs batch_size : Z) :
  keeps (fun s => P (speakers_data s))
        (_train_with_sovits_complete X tr speaker_name epochs batch_size)
        (fun mi => method mi = "gpt_sovits_trained"
                   /\ mi_model_path mi = OsPath.join trained_models_dir speaker_name).
Proof.
  intros s s' r Hi H. apply train_with_sovits_frame in H. destruct H as (Hd & _ & Hv).
  split; [now rewrite Hd|]. intros mi ->. destruct (Hv mi eq_refl) as (Hp & Hm & _). auto.
Qed.

Lemma train_speaker_keeps_well_formed (speaker_name : string) (epochs batch_size : Z) :
  keeps (fun s => table_well_formed (speakers_data s))
        (train_speaker X self speaker_name epochs batch_size) (fun _ => True).
Proof.
  unfold train_speaker. cbv zeta.
  eapply keeps_bind; [apply keeps_gets with (V := fun _ => True); solve [auto] | intros known _].
  destruct known as [info|]; [|apply keeps_raise].
  destruct (_ <? 3); [apply keeps_raise|].
  keeps_step. keeps_step. unfold train_speaker_guarded.
  apply keeps_try; [|intros e; repeat keeps_step].
  eapply keeps_bind
    with (V := fun mi => method mi = "gpt_sovits_trained"
                         /\ mi_model_path mi = OsPath.join trained_models_dir speaker_name).
  { destruct (trainer self) as [tr|]; [|apply keeps_raise].
    apply train_with_sovits_returns. }
  intros result (Hm & Hp). keeps_step.
  eapply keeps_bind.
  { apply keeps_set_speakers. intros d Hd. apply well_formed_alter; [|exact Hd].
    intros i (Hmp & Hsamples & _). split; [exact Hmp|]. split; [exact Hsamples|].
    cbn. eauto 6. }
  intros _ _. repeat keeps_step.
Qed.

Lemma delete_speaker_keeps_well_formed (speaker_name : string) :
  keeps (fun s => table_well_formed (speakers_data s))
        (delete_speaker X speaker_name) (fun _ => True).
Proof.
  unfold delete_speaker. cbv zeta.
  eapply keeps_bind; [apply keeps_gets with (V := fun _ => True); solve [auto] | intros known _].
  destruct known as [info|]; [|apply keeps_raise].
  keeps_step.
  eapply keeps_bind with (V := fun _ => True); [repeat keeps_step|]. intros _ _.
  keeps_step.
  eapply keeps_bind with (V := fun _ => True); [repeat keeps_step|]. intros _ _.
  eapply keeps_bind with (V := fun _ => True); [repeat keeps_step|]. intros _ _.
  eapply keeps_bind.
  { apply keeps_set_speakers. intros d Hd. now apply well_formed_delete. }
  intros _ _. repeat keeps_step.
Qed.

Lemma reachable_well_formed (s : State) :
  reachable X self s -> table_well_formed (speakers_data s).
Proof.
  induction 1 as [w | s p n s' r _ IH H | s n e b s' r _ IH H | s n s' r _ IH H
                  | s t n l s' r _ IH H | s w _ IH | s w _ IH].
  - intros name info Hl. cbn [speakers_data] in Hl. rewrite lookup_empty in Hl.
    discriminate.
  - exact (proj1 (upload_keeps_well_formed p n s s' r IH H)).
  - exact (proj1 (train_speaker_keeps_well_formed n e b s s' r IH H)).
  - exact (proj1 (delete_speaker_keeps_well_formed n s s' r IH H)).
  - exact (proj1 (generate_speech_keeps X self table_well_formed t n l s s' r IH H)).
  - exact IH.
  - exact IH.
Qed.
End EntryInvariant.

(** X19.  In every state the service reaches, every entry of the table is
    well formed: its top-level [model_path] is unset (so [list_speakers]
    never reports one); each sample is stored under the speaker's training
    directory with the base name of its original, without a text; and the
    speaker is marked trained exactly when it holds a model-info, a training
    time and an epoch count, the model-info being of method
    [gpt_sovits_trained] with the speaker's model directory as its path. *)
Theorem X19_reachable_table_shape
    (X : Externals) (self : AudioGeneratorSoVITS) (s : State) (name : string)
    (info : SpeakerInfo) :
  reachable X self s ->
  speakers_data s !! name = Some info ->
  entry_well_formed name info
  /\ (trained info = true <-> is_Some (model_info info))
  /\ (trained info = true <-> is_Some (trained_at info))
  /\ exists e,
       App.find_speaker (list_speakers s) name = Some e
       /\ ss_model_path e = None
       /\ ss_audio_count e = length (audio_files info).
Proof.
  intros Hreach Hl. pose proof (reachable_well_formed X self s Hreach name info Hl) as Hwf.
  split; [exact Hwf|]. destruct Hwf as (Hmp & _ & Hmi).
  split; [|split].
  - destruct (model_info info) as [mi|].
    + destruct Hmi as (Ht & _). split; eauto.
    + destruct Hmi as (Ht & _). rewrite Ht. split; [discriminate | intros [? ?]; discriminate].
  - destruct (model_info info) as [mi|].
    + destruct Hmi as (Ht & Hat & _). split; auto.
    + destruct Hmi as (Ht & Hat & _). rewrite Ht, Hat.
      split; [discriminate | intros [? ?]; discriminate].
  - rewrite find_speaker_lookup, Hl. cbn [option_map]. eexists. split; [reflexivity|].
    cbn [summary_of ss_model_path ss_audio_count]. auto.
Qed.

Lemma X19_reachable_table_shape_witness :
  exists info,
    speakers_data Generation.trained_state !! "voice" = Some info
    /\ entry_well_formed "voice" info.
Proof.
  assert (Hs : exists info, speakers_data Generation.trained_state !! "voice" = Some info)
    by (eexists; vm_compute; reflexivity).
  destruct Hs as (info & Hinfo).
  assert (Hreach : reachable (Demo.externals Generation.scenario) (Demo.generator true)
                     Generation.trained_state).
  { unfold Generation.trained_state.
    eapply reach_train; [apply with_clips_reachable | apply surjective_pairing]. }
  exists info. split; [exact Hinfo|].
  exact (proj1 (X19_reachable_table_shape _ _ _ _ _ Hreach Hinfo)).
Defined.

(** X20.  In every state the service reaches, with the inference service
    up, generation for a trained speaker always takes the trained-model
    route: the reference-only route is never used, the model-info holds two
    non-empty model paths so the check for an incomplete model passes, and
    the reference that is selected carries no text, so the prompt text sent
    is empty. *)
Theorem X20_reachable_generation_route
    (X : Externals) (self : AudioGeneratorSoVITS) (s : State)
    (txt speaker_name language : string) (info : SpeakerInfo) :
  reachable X self s ->
  speakers_data s !! speaker_name = Some info ->
  trained info = true ->
  api_available self = true ->
  exists mi,
    model_info info = Some mi
    /\ nonempty (gpt_model mi) = true /\ nonempty (sovits_model mi) = true
    /\ (forall best, _select_best_reference_audio (audio_files info) = Ok best ->
          text best = None)
    /\ snd (generate_speech X self txt speaker_name language s)
       = match snd (_generate_with_trained_model X txt mi info
                      (output_path_for X s speaker_name) (language_mapping language)
                      (tick (world s))) with
         | Ok _ => Ok (output_path_for X s speaker_name)
         | Raise e => Raise (Exception ("语音合成失败: " +:+ str_exn e))
         end
    /\ fs (world (fst (generate_speech X self txt speaker_name language s)))
       = fs (fst (_generate_with_trained_model X txt mi info
                    (output_path_for X s speaker_name) (language_mapping language)
                    (tick (world s)))).
Proof.
  intros Hreach Hl Ht Hapi.
  destruct (reachable_models_recorded X self s Hreach speaker_name info Hl Ht)
    as (tr & mi & gpt & sovits & w' & Htr & Hmi & Hg & Hs & Hrun).
  destruct Hrun as (files & e1 & e2 & b & w & r & Hc & Hrg & Hrs).
  destruct (completion_artifacts _ _ _ _ _ _ _ _ _ _ Hc)
    as (gpt' & sovits' & Hg' & Hs' & Hne1 & Hne2 & _).
  assert (gpt' = gpt) by congruence. assert (sovits' = sovits) by congruence. subst.
  destruct (reachable_well_formed X self s Hreach speaker_name info Hl)
    as (_ & Hsamples & Hshape).
  rewrite Hmi in Hshape. destruct Hshape as (_ & _ & _ & Hmethod & _).
  exists mi. split; [exact Hmi|].
  split; [rewrite Hg; cbn [nonempty]; now apply negb_true_iff, String.eqb_neq|].
  split; [rewrite Hs; cbn [nonempty]; now apply negb_true_iff, String.eqb_neq|].
  split.
  { intros best Hbest. apply select_best_within_window in Hbest. destruct Hbest as (Hin & _).
    now apply Hsamples. }
  unfold generate_speech. cbv zeta. rewrite bind_gets, Hl, Ht. cbn [negb].
  rewrite bind_eq, in_world_eq, now_eq. cbn [fst snd].
  change (mkWorld _ _ _ _) with (tick (world s)).
  rewrite try_except_eq, bind_eq, Hmi, Hmethod, Hapi, String.eqb_refl.
  cbn [andb default]. fold (output_path_for X s speaker_name).
  rewrite in_world_eq. cbn [world speakers_data training_status].
  destruct (_generate_with_trained_model _ _ _ _ _ _ _) as [w1 [u|e]];
    cbn [fst snd world]; split; reflexivity.
Qed.

Lemma X20_reachable_generation_route_witness :
  exists mi,
    option_map model_info (speakers_data Generation.trained_state !! "voice")
    = Some (Some mi)
    /\ nonempty (gpt_model mi) = true.
Proof.
  assert (Hs : exists info, speakers_data Generation.trained_state !! "voice" = Some info
                            /\ trained info = true)
    by (eexists; split; vm_compute; reflexivity).
  destruct Hs as (info & Hinfo & Htrained).
  assert (Hreach : reachable (Demo.externals Generation.scenario) (Demo.generator true)
                     Generation.trained_state).
  { unfold Generation.trained_state.
    eapply reach_train; [apply with_clips_reachable | apply surjective_pairing]. }
  destruct (X20_reachable_generation_route (Demo.externals Generation.scenario)
              (Demo.generator true) Generation.trained_state Generation.request_text
              "voice" "zh-cn" info Hreach Hinfo Htrained eq_refl)
    as (mi & Hmi & Hg & _).
  exists mi. rewrite Hinfo. cbn [option_map]. rewrite Hmi. auto.
Defined.

(** ** Requests in sequence *)

Lemma upload_audio_total (X : Externals) (py_repr : list App.FailedItem -> string)
    (files : list App.UploadFile) (speaker_name : string) (s s' : State)
    (response : App.UploadResponse) :
  App.upload_audio X py_repr files speaker_name s = (s', Ok response) ->
  exists info,
    speakers_data s' !! speaker_name = Some info
    /\ App.up_total_audio_count response = length (audio_files info)
    /\ App.up_trained response = trained info
    /\ 1 <= length (audio_files info).
Proof.
  destruct files as [|file rest]; [discriminate|].
  destruct (upload_loop_outcome X speaker_name (file :: rest) s)
    as (s1 & ul & fl & E & Hlen & Ht & G & Ho & Hf & Hle & Hge).
  unfold App.upload_audio. rewrite try_except_eq, bind_eq, E, bind_gets.
  cbn [fst snd]. rewrite find_speaker_lookup.
  destruct (length ul =? 0) eqn:Hz; [discriminate|].
  apply Nat.eqb_neq in Hz. unfold ret. intros [= <- <-].
  cbn [App.up_total_audio_count App.up_trained].
  unfold clip_count in Hle.
  destruct (speakers_data s1 !! speaker_name) as [info|]; [|lia].
  exists info. cbn [option_map summary_of ss_audio_count ss_trained].
  repeat split. lia.
Qed.

(** X21.  After a batch upload that was answered normally, a train
    request for the same speaker is never answered 404: it is accepted when
    the [total_audio_count] of the upload response is at least three, with
    that count in its answer, and refused with 400 naming that count
    otherwise. *)
Theorem X21_upload_then_train
    (X : Externals) (py_repr : list App.FailedItem -> string)
    (audio_gen : AudioGeneratorSoVITS) (files : list App.UploadFile)
    (speaker_name : string) (epochs batch_size : Z) (s s' : State)
    (response : App.UploadResponse) :
  App.upload_audio X py_repr files speaker_name s = (s', Ok response) ->
  let total := App.up_total_audio_count response in
  if total <? 3 then
    App.train_speaker X audio_gen speaker_name epochs batch_size s'
    = (s', Raise (HTTPException 400 ("训练需要至少3个音频样本，当前只有 "
                                     +:+ pretty total +:+ " 个")))
  else
    exists answer,
      App.train_speaker X audio_gen speaker_name epochs batch_size s'
      = (s', Ok (answer, App.train_task X audio_gen speaker_name epochs batch_size))
      /\ App.tr_status answer = "success"
      /\ App.tr_audio_count answer = total.
Proof.
  intros H total. apply upload_audio_total in H.
  destruct H as (info & Hinfo & Htotal & _). subst total.
  unfold App.train_speaker. rewrite bind_gets, Hinfo. cbv zeta. rewrite Htotal.
  destruct (length (audio_files info) <? 3); [reflexivity|].
  eexists. split; [reflexivity|]. split; reflexivity.
Qed.

Lemma X21_upload_then_train_witness :
  exists answer,
    App.train_speaker (Demo.externals BatchUpload.scenario) (Demo.generator true)
      "voice" 8 4 (fst BatchUpload.run)
    = (fst BatchUpload.run,
       Ok (answer, App.train_task (Demo.externals BatchUpload.scenario)
                     (Demo.generator true) "voice" 8 4))
    /\ App.tr_audio_count answer = 3.
Proof.
  assert (Hres : exists response,
             snd BatchUpload.run = Ok response
             /\ App.up_total_audio_count response = 3)
    by (eexists; split; vm_compute; reflexivity).
  destruct Hres as (response & Hres & Htotal).
  pose proof (X21_upload_then_train (Demo.externals BatchUpload.scenario) BatchUpload.repr
                (Demo.generator true) BatchUpload.files "voice" 8 4 Demo.fresh
                (fst BatchUpload.run) response (run_eq _ _ Hres)) as H.
  cbv zeta in H. rewrite Htotal in H. cbn [Nat.ltb Nat.leb] in H.
  destruct H as (answer & Hrun & _ & Hcount). exists answer. split; assumption.
Defined.

(** X22.  Once [train_speaker] has returned for a speaker, a generation
    request for that speaker is no longer refused as unknown or untrained:
    it returns the path it chose, or fails with [语音合成失败: ] and the
    text of what went wrong while synthesising. *)
Theorem X22_train_then_generate
    (X : Externals) (self : AudioGeneratorSoVITS) (speaker_name : string)
    (epochs batch_size : Z) (s s' : State) (summary : TrainSummary)
    (txt language : string) :
  train_speaker X self speaker_name epochs batch_size s = (s', Ok summary) ->
  exists s2,
    generate_speech X self txt speaker_name language s'
    = (s2, Ok (output_path_for X s' speaker_name))
    \/ exists e,
         generate_speech X self txt speaker_name language s'
         = (s2, Raise (Exception ("语音合成失败: " +:+ str_exn e))).
Proof.
  intros H.
  assert (Hs : exists info, speakers_data s !! speaker_name = Some info
                            /\ 3 <= length (audio_files info)).
  { unfold train_speaker in H. rewrite bind_gets in H.
    destruct (speakers_data s !! speaker_name) as [info|]; [|discriminate].
    cbv zeta in H. destruct (Nat.ltb_spec (length (audio_files info)) 3); [discriminate|].
    eauto. }
  destruct Hs as (info & Hinfo & Hcount).
  pose proof (train_speaker_outcome _ _ _ _ _ _ _ _ _ Hinfo Hcount H)
    as (mi & t1 & t2 & _ & Hd & _).
  unfold generate_speech. cbv zeta. rewrite bind_gets, Hd, lookup_insert_eq.
  cbn [trained negb]. rewrite bind_eq, in_world_eq, now_eq. cbn [fst snd].
  rewrite try_except_eq, bind_eq.
  match goal with
  | |- context [match ?m ?st with _ => _ end] => destruct (m st) as [s2 [u|e]]
  end.
  - exists s2. left. reflexivity.
  - exists s2. right. exists e. reflexivity.
Qed.

Lemma X22_train_then_generate_witness :
  exists s2,
    generate_speech (Demo.externals Generation.scenario) (Demo.generator true)
      Generation.request_text "voice" "zh-cn" Generation.trained_state
    = (s2, Ok (output_path_for (Demo.externals Generation.scenario)
                 Generation.trained_state "voice"))
    \/ exists e,
         generate_speech (Demo.externals Generation.scenario) (Demo.generator true)
           Generation.request_text "voice" "zh-cn" Generation.trained_state
         = (s2, Raise (Exception ("语音合成失败: " +:+ str_exn e))).
Proof.
  assert (Hres : exists summary,
             snd (train_speaker (Demo.externals Generation.scenario) (Demo.generator true)
                    "voice" 8 4 (Demo.with_clips Generation.scenario 3)) = Ok summary)
    by (eexists; vm_compute; reflexivity).
  destruct Hres as (summary & Hres).
  exact (X22_train_then_generate (Demo.externals Generation.scenario) (Demo.generator true)
           "voice" 8 4 (Demo.with_clips Generation.scenario 3) Generation.trained_state
           summary Generation.request_text "zh-cn" (run_eq _ _ Hres)).
Defined.

(** X23.  Once [delete_speaker] has returned, the speaker is unknown to
    every later request: a train request is answered 404, a generation
    request 500 with the unknown-speaker text, the list has no entry of that
    name, and neither request changes anything.  The tracker still answers
    with the job the speaker had.  A later upload under the same name starts
    a fresh, untrained entry with one sample. *)
Theorem X23_after_delete
    (X : Externals) (self : AudioGeneratorSoVITS) (speaker_name : string)
    (s s' : State) (u : unit) :
  delete_speaker X speaker_name s = (s', Ok u) ->
  App.find_speaker (list_speakers s') speaker_name = None
  /\ get_training_status s' speaker_name = get_training_status s speaker_name
  /\ (forall epochs batch_size,
        App.train_speaker X self speaker_name epochs batch_size s'
        = (s', Raise (HTTPException 404 ("未找到说话者 '" +:+ speaker_name +:+ "'"))))
  /\ (forall txt language,
        App.generate_audio X self txt speaker_name language s'
        = (s', Raise (HTTPException 500
                        ("音频生成失败: 未找到说话者 '" +:+ speaker_name
                         +:+ "' 的数据，请先上传音频语料"))))
  /\ (forall audio_path s2 r,
        process_reference_audio X audio_path speaker_name s' = (s2, Ok r) ->
        u_speaker_audio_count r = 1
        /\ exists info,
             speakers_data s2 !! speaker_name = Some info
             /\ trained info = false /\ model_info info = None
             /\ length (audio_files info) = 1).
Proof.
  intros H. apply delete_speaker_ok in H.
  destruct H as (info & _ & Hd & Ht & _).
  assert (Hnone : speakers_data s' !! speaker_name = None)
    by (rewrite Hd; apply lookup_delete_eq).
  split; [now rewrite find_speaker_lookup, Hnone|].
  split; [unfold get_training_status; now rewrite Ht|].
  split; [intros; unfold App.train_speaker; now rewrite bind_gets, Hnone|].
  split.
  { intros. unfold App.generate_audio, generate_speech.
    now rewrite try_except_eq, bind_eq, bind_gets, Hnone. }
  intros audio_path s2 r Hup. apply upload_outcome in Hup.
  destruct Hup as (_ & _ & [(_ & e & He) | Hc]); [discriminate|].
  destruct Hc as (raw & audio_len & sr & t0 & t & shape & _ & _ & Hd2 & _ & _ & ->).
  cbn [u_speaker_audio_count]. unfold clip_count. rewrite Hnone in *.
  split; [reflexivity|].
  eexists. rewrite Hd2, lookup_alter_eq, lookup_insert_eq. cbn [fmap option_fmap option_map].
  split; [reflexivity|]. cbn. auto.
Qed.

Lemma X23_after_delete_witness :
  App.find_speaker
    (list_speakers (fst (delete_speaker (Demo.externals Generation.scenario) "voice"
                           Generation.trained_state))) "voice" = None.
Proof.
  assert (Hres : snd (delete_speaker (Demo.externals Generation.scenario) "voice"
                        Generation.trained_state) = Ok tt)
    by (vm_compute; reflexivity).
  exact (proj1 (X23_after_delete (Demo.externals Generation.scenario) (Demo.generator true)
                  "voice" Generation.trained_state _ tt (run_eq _ _ Hres))).
Defined.

(** ** The checkpoint fallback of stage 2 *)

Lemma convert_checkpoint_outcome (X : Externals)
    (checkpoint_path output_dir speaker_name config_path : string) (w : World) :
  exists w',
    _convert_checkpoint_to_weight X checkpoint_path output_dir speaker_name config_path w
    = (w', Ok None)
    /\ procs w' = procs w
    /\ (fs w' = fs w
        \/ exists checkpoint config epoch partial,
             content_of w checkpoint_path = Some checkpoint
             /\ content_of w config_path = Some config
             /\ torch_convert X checkpoint config = Some (epoch, partial)
             /\ fs w'
                = <[OsPath.join output_dir (speaker_name +:+ "_e" +:+ epoch +:+ ".pth")
                    := File partial (clock w)]> (fs w)).
Proof.
  unfold _convert_checkpoint_to_weight, content_of.
  rewrite try_except_eq, bind_eq, read_file_eq.
  destruct (fs w !! checkpoint_path) as [[c t|t]|];
    try (exists w; split; [reflexivity | split; [reflexivity | left; reflexivity]]).
  rewrite bind_eq, read_file_eq.
  destruct (fs w !! config_path) as [[c' t'|t']|];
    try (exists w; split; [reflexivity | split; [reflexivity | left; reflexivity]]).
  destruct (torch_convert X c c') as [[epoch partial]|] eqn:Ht;
    [|exists w; split; [reflexivity | split; [reflexivity | left; reflexivity]]].
  rewrite bind_eq.
  destruct (Os.write_file _ partial w) as [w1 [u|e]] eqn:Ew.
  - apply write_file_ok in Ew. subst w1. eexists. split; [reflexivity|].
    split; [reflexivity|]. right. exists c, c', epoch, partial. cbn [fs]. auto.
  - apply write_file_raise in Ew. subst w1. exists w.
    split; [reflexivity | split; [reflexivity | left; reflexivity]].
Qed.

(** X24.  [_convert_checkpoint_to_weight] never raises and never returns a
    weight file: [torch.save] cannot pickle the function-local [HParams].
    So when [logs_s2_v2] holds no exported weight file of the speaker but
    some [G_*.pth] checkpoint, what stage 2 returns is the checkpoint with
    the latest modification time itself.  No program is launched and no file
    is removed; the one file that can appear is the file [torch.save] had
    opened, [<speaker>_e<epoch>.pth] in [logs_s2_v2], left behind with
    whatever had been written to it. *)
Theorem X24_stage2_checkpoint_fallback
    (X : Externals) (exp_dir speaker_name : string) (w : World) (entries : list string) :
  Os.listdir (OsPath.join exp_dir "logs_s2_v2") w = (w, Ok entries) ->
  List.filter (is_weight_file speaker_name) entries = [] ->
  List.filter (fun f => PyStr.startswith "G_" f && PyStr.endswith ".pth" f) entries <> [] ->
  let logs_dir := OsPath.join exp_dir "logs_s2_v2" in
  exists newest w',
    locate_stage2_model X exp_dir speaker_name w
    = (w', Ok (Some (OsPath.join logs_dir newest)))
    /\ In newest entries
    /\ PyStr.startswith "G_" newest && PyStr.endswith ".pth" newest = true
    /\ (forall f, In f entries ->
          PyStr.startswith "G_" f && PyStr.endswith ".pth" f = true ->
          Os.mtime_of w (OsPath.join logs_dir f) <= Os.mtime_of w (OsPath.join logs_dir newest))
    /\ procs w' = procs w
    /\ (fs w' = fs w
        \/ exists checkpoint config epoch partial,
             content_of w (OsPath.join logs_dir newest) = Some checkpoint
             /\ content_of w (OsPath.join exp_dir "s2_config.json") = Some config
             /\ torch_convert X checkpoint config = Some (epoch, partial)
             /\ fs w'
                = <[OsPath.join logs_dir (speaker_name +:+ "_e" +:+ epoch +:+ ".pth")
                    := File partial (clock w)]> (fs w)).
Proof.
  intros Hlist Hw Hg logs_dir. destruct (listdir_same _ _ _ _ Hlist) as [_ Hex].
  apply bool_decide_present in Hex.
  set (key := fun x => Os.mtime_of w (OsPath.join logs_dir x)).
  set (is_g := fun f => PyStr.startswith "G_" f && PyStr.endswith ".pth" f) in *.
  pose proof (sort_reverse_hd_In key Nat.ltb "" _ Hg) as Hin.
  apply List.filter_In in Hin. destruct Hin as [Hin Hgf].
  set (newest := List.hd "" (sort_reverse key Nat.ltb (List.filter is_g entries))) in *.
  destruct (convert_checkpoint_outcome X (OsPath.join logs_dir newest) logs_dir speaker_name
              (OsPath.join exp_dir "s2_config.json") w) as (w' & Hconv & Hprocs & Hfs).
  exists newest, w'.
  split.
  { unfold locate_stage2_model, sort_by_mtime. cbv zeta.
    rewrite bind_eq, exists_eq, Hex. cbn [negb]. rewrite bind_eq, Hlist, Hw.
    rewrite bind_eq, Hlist. fold is_g.
    destruct (List.filter is_g entries) as [|g0 l] eqn:Eg; [contradiction|].
    rewrite bind_gets. fold logs_dir. fold key. fold newest.
    rewrite bind_eq, Hconv. reflexivity. }
  split; [exact Hin|]. split; [exact Hgf|]. split.
  - intros f Hf Hfg.
    assert (Hfin : In f (List.filter is_g entries)) by (apply List.filter_In; auto).
    pose proof (sort_reverse_hd_max key Nat.ltb Nat.ltb_irrefl nat_ltb_asym nat_ltb_negtrans
                  "" f _ Hfin) as Hmax.
    apply Nat.ltb_ge in Hmax. exact Hmax.
  - split; [exact Hprocs | exact Hfs].
Qed.

Lemma X24_stage2_checkpoint_fallback_witness :
  (exists newest w',
      locate_stage2_model (Demo.externals OnlyCheckpoints.scenario) Demo.exp_dir "voice"
        OnlyCheckpoints.disk
      = (w', Ok (Some (OsPath.join (OsPath.join Demo.exp_dir "logs_s2_v2") newest)))
      /\ procs w' = procs OnlyCheckpoints.disk)
  /\ snd (locate_stage2_model (Demo.externals OnlyCheckpoints.scenario) Demo.exp_dir "voice"
            OnlyCheckpoints.disk)
     = Ok (Some "/srv/app/training_experiments/voice/logs_s2_v2/G_200.pth")
  /\ content_of (fst (locate_stage2_model (Demo.externals OnlyCheckpoints.scenario)
                        Demo.exp_dir "voice" OnlyCheckpoints.disk))
       "/srv/app/training_experiments/voice/logs_s2_v2/voice_e8.pth"
     = Some "PK-unfinished".
Proof.
  assert (Hlist : exists entries,
             Os.listdir (OsPath.join Demo.exp_dir "logs_s2_v2") OnlyCheckpoints.disk
             = (OnlyCheckpoints.disk, Ok entries)
             /\ List.filter (is_weight_file "voice") entries = []
             /\ List.filter (fun f => PyStr.startswith "G_" f && PyStr.endswith ".pth" f)
                  entries <> []).
  { eexists. split; [vm_compute; reflexivity|]. split; [vm_compute; reflexivity|].
    vm_compute. discriminate. }
  destruct Hlist as (entries & Hlist & Hw & Hg).
  destruct (X24_stage2_checkpoint_fallback (Demo.externals OnlyCheckpoints.scenario)
              Demo.exp_dir "voice" OnlyCheckpoints.disk entries Hlist Hw Hg)
    as (newest & w' & Hrun & _ & _ & _ & Hprocs & _).
  split; [exists newest, w'; split; [exact Hrun | exact Hprocs]|].
  split; vm_compute; reflexivity.
Defined.

(** ** Staging the data *)

Lemma transcribe_present (X : Externals) (tr : GPTSoVITSTrainer)
    (speaker_name exp_dir input_wav_dir text_file : string) (copied : list string)
    (w w' : World) (u : unit) :
  transcribe_with_asr X tr speaker_name exp_dir input_wav_dir text_file copied w
  = (w', Ok u) ->
  file_present text_file w'.
Proof.
  unfold transcribe_with_asr. intros H. bind_ok H as w1 ok E1.
  destruct ok; cbn [negb] in H.
  - inv_pair H. rewrite try_except_eq in E1.
    match type of E1 with
    | context [match ?m w with _ => _ end] => destruct (m w) as [w2 [b|e]] eqn:E2
    end; [|discriminate].
    injection E1 as -> ->. cbv zeta in E2.
    rewrite bind_eq, exists_eq in E2. cbv beta iota in E2.
    rewrite bind_eq in E2.
    destruct (execute_asr X _ _ _ (fs w)) as [fs' [e|asr_output]];
      cbv beta iota in E2; [discriminate|].
    rewrite bind_eq, exists_eq in E2. cbv beta iota in E2.
    destruct (bool_decide _); [|discriminate].
    bind_ok E2 as w3 u3 E3. inv_pair E2. now apply copy_present in E3.
  - now apply write_file_present in H.
Qed.

(** X25.  Staging launches no program.  When it returns, the directory it
    names is [training_experiments/<speaker>] under the base directory, and
    the transcript [input_text.txt] exists there: it was reused, written
    from the texts given, produced by the recogniser, or written with the
    placeholder text. *)
Theorem X25_staging_outcome
    (X : Externals) (tr : GPTSoVITSTrainer) (speaker_name : string)
    (files : list AudioSample) (audio_text_map : option (gmap string string))
    (w w' : World) (r : Res string) :
  prepare_training_data X tr speaker_name files audio_text_map w = (w', r) ->
  procs w' = procs w
  /\ forall exp_dir, r = Ok exp_dir ->
       exp_dir = OsPath.join (exp_root tr) speaker_name
       /\ file_present (OsPath.join exp_dir "input_text.txt") w'.
Proof.
  intros H.
  destruct (quiet_prepare X tr (procs w) _ _ _ _ _ _ eq_refl H) as [Hq Hdir].
  split; [exact Hq|]. intros exp_dir ->. specialize (Hdir exp_dir eq_refl).
  split; [exact Hdir|]. subst exp_dir.
  unfold prepare_training_data in H. cbv zeta in H.
  bind_ok H as w1 u1 E1. bind_ok H as w2 u2 E2. bind_ok H as w3 copied E3.
  rewrite bind_eq, exists_eq in H. cbv beta iota in H.
  bind_ok H as w4 reuse E4.
  assert (Hw4 : w4 = w3
                /\ (reuse = true ->
                    file_present (OsPath.join (OsPath.join (exp_root tr) speaker_name)
                                    "input_text.txt") w3)).
  { destruct (bool_decide _) eqn:Hex.
    - apply bool_decide_present in Hex. bind_ok E4 as w5 c E5.
      rewrite read_file_eq in E5.
      destruct (fs w3 !! _) as [[c0 t0|t0]|]; try discriminate.
      injection E5 as <- <-. inv_pair E4. auto.
    - inv_pair E4. split; [reflexivity | discriminate]. }
  destruct Hw4 as [-> Hreuse]. clear E4.
  destruct reuse.
  - inv_pair H. now apply Hreuse.
  - destruct audio_text_map as [m|].
    + destruct (bool_decide (m = ∅)).
      * bind_ok H as w5 u5 E5. inv_pair H. now apply transcribe_present in E5.
      * bind_ok H as w5 u5 E5. inv_pair H. now apply write_file_present in E5.
    + bind_ok H as w5 u5 E5. inv_pair H. now apply transcribe_present in E5.
Qed.

Lemma X25_staging_outcome_witness :
  procs (fst (prepare_training_data (Demo.externals StageFailures.no_wav32k)
                Demo.the_trainer "voice" StageFailures.clips None
                (tick (tick (world StageFailures.state)))))
  = procs (tick (tick (world StageFailures.state))).
Proof.
  exact (proj1 (X25_staging_outcome (Demo.externals StageFailures.no_wav32k)
                  Demo.the_trainer "voice" StageFailures.clips None
                  (tick (tick (world StageFailures.state))) _ _ (surjective_pairing _))).
Defined.

(** ** What preprocessing leaves for stage 1 *)

Section ReadOnly.
Variable F : FS.
Abbreviation same_files := (fun w : World => fs w = F).

Lemma ro_get {A} (f : World -> A) : keeps same_files (gets f) (fun _ => True).
Proof. apply keeps_gets. auto. Qed.

Lemma ro_print (line : string) : keeps same_files (Os.print line) (fun _ => True).
Proof. apply keeps_modify. intros w Hw. exact Hw. Qed.

Lemma ro_read (q : string) : keeps same_files (Os.read_file q) (fun _ => True).
Proof.
  unfold Os.read_file. eapply keeps_bind; [apply ro_get | intros n _].
  destruct n as [[c t|t]|]; first [apply keeps_raise | now apply keeps_ret].
Qed.

Lemma ro_getsize (q : string) : keeps same_files (Os.getsize q) (fun _ => True).
Proof.
  unfold Os.getsize. eapply keeps_bind; [apply ro_get | intros n _].
  destruct n as [[c t|t]|]; first [apply keeps_raise | now apply keeps_ret].
Qed.

Lemma ro_listdir (q : string) : keeps same_files (Os.listdir q) (fun _ => True).
Proof.
  unfold Os.listdir. eapply keeps_bind; [apply ro_get | intros n _].
  destruct n as [[c t|t]|]; first [apply keeps_raise | apply ro_get].
Qed.

Lemma ro_read_csv (X : Externals) (q : string) :
  keeps same_files (read_csv X q) (fun _ => True).
Proof.
  unfold read_csv. eapply keeps_bind; [apply ro_read | intros c _].
  destruct (pd_read_csv X c); first [apply keeps_raise | now apply keeps_ret].
Qed.
End ReadOnly.

Ltac ro_auto :=
  repeat first
    [ apply keeps_raise
    | apply keeps_ret; exact I
    | apply ro_get
    | apply ro_print
    | apply ro_read
    | apply ro_getsize
    | apply ro_listdir
    | apply ro_read_csv
    | apply keeps_try; [|intros ?]
    | eapply keeps_bind with (V := fun _ => True); [|intros ? _]
    | match goal with
      | |- keeps _ (if ?b then _ else _) _ => destruct b
      | |- keeps _ (match ?x with _ => _ end) _ => destruct x
      end ].

(** The closing check of preprocessing reads and prints only. *)
Lemma check_semantic_read_only (X : Externals) (exp_dir : string)
    (expected : list string) (F : FS) :
  keeps (fun w => fs w = F) (check_semantic_output X exp_dir expected) (fun _ => True).
Proof.
  unfold check_semantic_output, listdir_if_exists, Os.exists_. cbv zeta. ro_auto.
Qed.

Lemma check_semantic_true (X : Externals) (exp_dir : string) (expected : list string)
    (w w' : World) :
  check_semantic_output X exp_dir expected w = (w', Ok true) ->
  fs w' = fs w
  /\ file_present (OsPath.join exp_dir "6-name2semantic-0.tsv") w
  /\ content_of w (OsPath.join exp_dir "6-name2semantic-0.tsv") <> Some "".
Proof.
  intros H.
  split; [exact (proj1 (check_semantic_read_only X exp_dir expected (fs w) w w' _
                          eq_refl H))|].
  unfold check_semantic_output in H. cbv zeta in H.
  rewrite bind_eq, exists_eq in H. cbv beta iota in H.
  destruct (bool_decide _) eqn:Hex; cbn [negb] in H; [|discriminate].
  apply bool_decide_present in Hex. split; [exact Hex|].
  bind_ok H as w1 count E1.
  assert (F1 : fs w1 = fs w).
  { match type of E1 with
    | ?m w = _ => assert (K : keeps (fun w0 => fs w0 = fs w) m (fun _ => True)) by ro_auto
    end.
    exact (proj1 (K w w1 _ eq_refl E1)). }
  clear E1. bind_ok H as w2 u2 E2. rewrite print_eq in E2. injection E2 as <- _.
  bind_ok H as w3 u3 E3.
  assert (F3 : fs w3 = fs w).
  { match type of E3 with
    | ?m _ = _ => assert (K : keeps (fun w0 => fs w0 = fs w) m (fun _ => True)) by ro_auto
    end.
    pose proof (fun HI => proj1 (K _ w3 _ HI E3)) as K3. apply K3. exact F1. }
  clear E3. bind_ok H as w4 size E4. rewrite getsize_eq in E4.
  unfold content_of. rewrite <- F3.
  destruct (fs w3 !! OsPath.join exp_dir "6-name2semantic-0.tsv") as [[c t|t]|];
    try discriminate.
  injection E4 as <- <-.
  destruct c as [|a c]; [|discriminate]. cbn [String.length Nat.eqb] in H.
  bind_ok H as w5 ex_t E5. bind_ok H as w6 u6 E6. bind_ok H as w7 l7 E7.
  bind_ok H as w8 l8 E8. discriminate.
Qed.

(** X26.  When preprocessing reports success, the semantic table
    [6-name2semantic-0.tsv] exists and is not an empty file, which is what
    stage 1 reads next.  When the transcript [input_text.txt] is missing,
    preprocessing launches nothing and does not report success. *)
Theorem X26_preprocessing_outcome
    (X : Externals) (tr : GPTSoVITSTrainer) (exp_dir speaker_name : string)
    (w w' : World) (r : Res bool) :
  run_data_preprocessing X tr exp_dir speaker_name w = (w', r) ->
  (r = Ok true ->
   file_present (OsPath.join exp_dir "6-name2semantic-0.tsv") w'
   /\ content_of w' (OsPath.join exp_dir "6-name2semantic-0.tsv") <> Some "")
  /\ (~ file_present (OsPath.join exp_dir "input_text.txt") w ->
      procs w' = procs w /\ r <> Ok true).
Proof.
  intros H. split.
  - intros ->. unfold run_data_preprocessing in H. cbv zeta in H.
    bind_ok H as w1 u1 E1.
    rewrite bind_eq, exists_eq in H. cbv beta iota in H.
    destruct (negb _); [inv_pair H|].
    bind_ok H as w2 res2 E2. destruct (negb _); [inv_pair H|].
    bind_ok H as w3 l3 E3. bind_ok H as w4 res4 E4. destruct (negb _); [inv_pair H|].
    bind_ok H as w5 l5 E5. bind_ok H as w6 l6 E6. bind_ok H as w7 content E7.
    bind_ok H as w8 res8 E8. destruct (negb _); [inv_pair H|].
    apply check_semantic_true in H. destruct H as (Hfs & Hpres & Hne).
    unfold file_present, content_of in *. rewrite Hfs. auto.
  - intros Hmiss. unfold run_data_preprocessing in H. cbv zeta in H.
    rewrite bind_eq in H.
    destruct (purge_previous_outputs exp_dir w) as [w1 [u1|e1]] eqn:E1.
    + pose proof (proj1 (quiet_purge (procs w) exp_dir w w1 _ eq_refl E1)) as Hq.
      assert (Hnone : fs w1 !! OsPath.join exp_dir "input_text.txt" = None).
      { rewrite purge_previous_outputs_eq in E1.
        bind_ok E1 as wa ua Ea. bind_ok E1 as wb ub Eb. destruct ua, ub, u1.
        apply purge_dir_loop in Ea. apply purge_dir_loop in Eb.
        apply purge_file_loop in E1.
        destruct Ea as ((_ & Na & _) & _). destruct Eb as ((_ & Nb & _) & _).
        destruct E1 as ((_ & Nc & _) & _).
        apply Nc, Nb, Na. unfold file_present in Hmiss.
        destruct (fs w !! OsPath.join exp_dir "input_text.txt"); [|reflexivity].
        exfalso. apply Hmiss. eauto. }
      rewrite bind_eq, exists_eq in H. cbv beta iota in H.
      rewrite bool_decide_eq_false_2 in H by (rewrite Hnone; intros [? ?]; discriminate).
      cbn [negb] in H. inv_pair H. split; [exact Hq | discriminate].
    + pose proof (proj1 (quiet_purge (procs w) exp_dir w w1 _ eq_refl E1)) as Hq.
      inv_pair H. split; [exact Hq | discriminate].
Qed.

Lemma X26_preprocessing_outcome_witness :
  procs (fst (run_data_preprocessing (Demo.externals Generation.scenario) Demo.the_trainer
                Demo.exp_dir "voice" (world Demo.fresh)))
  = procs (world Demo.fresh).
Proof.
  destruct (X26_preprocessing_outcome (Demo.externals Generation.scenario) Demo.the_trainer
              Demo.exp_dir "voice" (world Demo.fresh) _ _ (surjective_pairing _))
    as (_ & Hmissing).
  apply Hmissing. unfold file_present.
  assert (Hnone : fs (world Demo.fresh) !! OsPath.join Demo.exp_dir "input_text.txt" = None)
    by (vm_compute; reflexivity).
  rewrite Hnone. intros [? ?]. discriminate.
Defined.

(** ** The background task *)

(** X27.  The task [POST /train_speaker] schedules never raises, whatever
    happens during training.  Run from the state in which the request was
    accepted, it leaves the speaker's job in a final state:
    [GET /training_status] then answers [completed] with progress 100, the
    speaker being marked trained, or [failed] with the error text; it never
    answers [training] or [not_started]. *)
Theorem X27_accepted_task_ends
    (X : Externals) (audio_gen : AudioGeneratorSoVITS) (speaker_name : string)
    (epochs batch_size : Z) (s : State) (answer : App.TrainResponse)
    (task : M State unit) :
  App.train_speaker X audio_gen speaker_name epochs batch_size s = (s, Ok (answer, task)) ->
  exists s',
    task s = (s', Ok tt)
    /\ ((exists t mi,
           App.st_training_status (App.get_training_status s' speaker_name)
           = Completed 100 t mi
           /\ trained_flag (speakers_data s') speaker_name = true)
        \/ exists msg t,
             App.st_training_status (App.get_training_status s' speaker_name)
             = Failed msg t).
Proof.
  unfold App.train_speaker. rewrite bind_gets.
  destruct (speakers_data s !! speaker_name) as [info|] eqn:Hinfo; [|discriminate].
  cbv zeta. destruct (Nat.ltb_spec (length (audio_files info)) 3) as [|Hcount];
    [discriminate|].
  unfold ret. intros [= _ <-].
  unfold App.train_task. rewrite try_except_eq, bind_eq.
  destruct (train_speaker X audio_gen speaker_name epochs batch_size s) as [s' r] eqn:E.
  pose proof (train_speaker_outcome _ _ _ _ _ _ _ _ _ Hinfo Hcount E) as Hout.
  exists s'. cbn [App.get_training_status App.st_training_status].
  destruct r as [summary|e].
  - split; [reflexivity|]. left.
    destruct Hout as (mi & t1 & t2 & Hjob & Hd & _).
    exists t2, mi. split; [exact Hjob|].
    unfold trained_flag. rewrite Hd, lookup_insert_eq. reflexivity.
  - split; [reflexivity|]. right.
    destruct Hout as (msg & t & _ & Hjob). eauto.
Qed.

Lemma X27_accepted_task_ends_witness :
  exists answer s',
    fst (App.train_speaker (Demo.externals Generation.scenario) (Demo.generator true)
           "voice" 8 4 (Demo.with_clips Generation.scenario 3))
    = Demo.with_clips Generation.scenario 3
    /\ snd (App.train_speaker (Demo.externals Generation.scenario) (Demo.generator true)
              "voice" 8 4 (Demo.with_clips Generation.scenario 3))
       = Ok (answer, App.train_task (Demo.externals Generation.scenario)
                       (Demo.generator true) "voice" 8 4)
    /\ App.train_task (Demo.externals Generation.scenario) (Demo.generator true) "voice" 8 4
         (Demo.with_clips Generation.scenario 3) = (s', Ok tt)
    /\ ((exists t mi,
           App.st_training_status (App.get_training_status s' "voice") = Completed 100 t mi
           /\ trained_flag (speakers_data s') "voice" = true)
        \/ exists msg t,
             App.st_training_status (App.get_training_status s' "voice") = Failed msg t).
Proof.
  assert (Hacc : exists answer,
             snd (App.train_speaker (Demo.externals Generation.scenario)
                    (Demo.generator true) "voice" 8 4
                    (Demo.with_clips Generation.scenario 3))
             = Ok (answer, App.train_task (Demo.externals Generation.scenario)
                             (Demo.generator true) "voice" 8 4)).
  { assert (Hs : exists info,
               speakers_data (Demo.with_clips Generation.scenario 3) !! "voice" = Some info
               /\ (length (audio_files info) <? 3) = false)
      by (eexists; split; vm_compute; reflexivity).
    destruct Hs as (info & Hinfo & Hlen).
    unfold App.train_speaker. rewrite bind_gets, Hinfo. cbv zeta. rewrite Hlen.
    eexists. reflexivity. }
  destruct Hacc as (answer & Hacc).
  assert (Hst : fst (App.train_speaker (Demo.externals Generation.scenario)
                       (Demo.generator true) "voice" 8 4
                       (Demo.with_clips Generation.scenario 3))
                = Demo.with_clips Generation.scenario 3).
  { unfold App.train_speaker. rewrite bind_gets.
    destruct (speakers_data _ !! "voice"); [|reflexivity].
    cbv zeta. destruct (_ <? 3); reflexivity. }
  pose proof (run_eq _ _ Hacc) as Hrun. rewrite Hst in Hrun.
  destruct (X27_accepted_task_ends _ _ _ _ _ _ _ _ Hrun) as (s' & Htask & Hend).
  exists answer, s'.
  split; [exact Hst|]. split; [exact Hacc|]. split; [exact Htask|]. exact Hend.
Defined.
